(** * Invoice generator: exchange-rate lookup, business days and VAT totals

    A shallow embedding of the reactive core of the invoice form
    (components/InvoiceForm.tsx) and of the calculator of the preview
    (components/InvoicePDFPreview.tsx), with the properties of the
    specification proved about them.

    - [Numbers]: the binary64 numbers of JavaScript, read from decimal
      numerals and cut to integers.
    - [Calculator]: [calculateInvoice] and its helpers.
    - [JS]: the built-ins that the form calls ([split], [Number],
      [Date.UTC], [setUTCDate], [toISOString], [trim], [includes], ...).
    - [Calendar]: the civil calendar of [JS] inverts itself.
    - [Dates]: [parseISODate], [toDateString], [getPreviousBusinessDay],
      [shiftDateString].
    - [Invoice], [Form]: the invoice, the handlers of the form, the loop of
      [fetchRate], the two effects, and the form as a transition system
      whose events are the actions of the user and the settling promises
      of the lookups.
    - [Builtins], [Items], [Companies]: [parseInt], [toString] and
      [Math.max] on integers; the handlers of the list of items and of
      the saved companies of the form.
    - [Preview], [Panel]: when the preview converts to PLN, and the
      status lines of the rate panel of the form.
    - The modules after these hold the properties.

    Modelling conventions
    - The numbers that the program computes with (quantities, prices,
      rates, amounts, totals, the results of [Number]) are the binary64
      numbers of the kernel ([float]) with their IEEE 754 operations:
      rounding, the two zeros, the infinities and NaN are in the model.
      The mid rate of a response is only stored and tested against null;
      it is kept as a rational ([Q]).
    - The integers of item ids are [Z]; properties of them are stated up
      to [Number.MAX_SAFE_INTEGER], where [Z] and the numbers agree.
    - JavaScript strings are [string]; a character stands for one code
      unit.  The messages of the form are written as they are in the
      source and are only compared as a whole.
    - A [Date] built by [Date.UTC(y, m, d)] is the number of days since
      1970-01-01 ([Z]); the time of day is always midnight, so nothing is
      lost.  Time values outside +-100,000,000 days are the invalid date.
    - An exception is a value: a function that can throw returns a
      [Completion].
    - React: the state updates of one event, the render that follows and
      the effect pass of that render form one step, in which no promise
      settles; an updater runs when its setter is called. *)

From Stdlib Require Import ZArith QArith Qreduction Bool List Lia.
From Stdlib Require Import Ascii String.
From Stdlib Require Floats.
From Equations Require Import Equations.
From Equations.Prop Require Import Logic.
Import ListNotations.

Local Open Scope Q_scope.

(* ===================================================================== *)
(** ** Numbers                                                            *)
(* ===================================================================== *)

Module Numbers.
Import PrimFloat SpecFloat FloatOps.
Local Open Scope Z_scope.

(** The binary64 number nearest to [m * 10 ^ e] for [m >= 0], with the
    sign [neg]; ties go to the even mantissa, and a magnitude past the
    largest number gives an infinity.  This is the rounding that turns the
    mathematical value of a numeral into a number. *)
Definition roundDecimal (neg : bool) (m e : Z) : float :=
  match m with
  | Zpos p =>
      SF2Prim
        (if 0 <=? e
         then binary_normalize prec emax (cond_Zopp neg (Zpos p * 10 ^ e)) 0 false
         else SFdiv prec emax (S754_finite neg p 0)
                (S754_finite false (Z.to_pos (10 ^ (- e))) 0))
  | _ => if neg then neg_zero else zero
  end.

(** The number of an integer that is not negative. *)
Definition ofInteger (n : Z) : float := roundDecimal false n 0.

(** The integer part of a finite number, cut towards zero
    (ToIntegerOrInfinity); [None] for NaN and the infinities. *)
Definition truncate (x : float) : option Z :=
  match Prim2SF x with
  | S754_zero _ => Some 0
  | S754_finite s m e =>
      Some (cond_Zopp s (if 0 <=? e then Zpos m * 2 ^ e else Zpos m / 2 ^ (- e)))
  | _ => None
  end.

(** The integer that a number is, if it is one. *)
Definition integerOf (x : float) : option Z :=
  match Prim2SF x with
  | S754_zero _ => Some 0
  | S754_finite s m e =>
      if 0 <=? e then Some (cond_Zopp s (Zpos m * 2 ^ e))
      else if Zpos m mod 2 ^ (- e) =? 0 then Some (cond_Zopp s (Zpos m / 2 ^ (- e)))
      else None
  | _ => None
  end.

(** Two numbers are the same value, the sign of zero apart
    (SameValueZero: NaN is the same as NaN, and 0 the same as -0). *)
Definition sameNumber (x y : float) : Prop :=
  x = y \/ (is_zero x = true /\ is_zero y = true).

End Numbers.

(* ===================================================================== *)
(** ** The calculator (InvoicePDFPreview.tsx)                             *)
(* ===================================================================== *)

Module Calculator.
Import PrimFloat Numbers.
Local Open Scope float_scope.

(** [InvoiceItem] of types/invoice.ts. *)
Record InvoiceItem := mkItem {
  id : string;
  name : string;
  quantity : float;
  unit : string;
  netPrice : float;
  vatRate : float
}.

(** One entry of [vatBreakdown]: [{ net, vat, gross }]. *)
Record Bucket := mkBucket { net : float; vat : float; gross : float }.

Definition isPercentageRate (rate : float) : bool := 0 <=? rate.

Definition calculateVatAmount (rate netAmount : float) : float :=
  if isPercentageRate rate then (netAmount * rate) / 100 else 0.

(** The three constants computed for one item in the body of [forEach]
    (and again for the tables of the preview). *)
Definition netAmount (item : InvoiceItem) : float :=
  quantity item * netPrice item.
Definition vatAmount (item : InvoiceItem) : float :=
  calculateVatAmount (vatRate item) (netAmount item).
Definition grossAmount (item : InvoiceItem) : float :=
  netAmount item + vatAmount item.

(** [vatBreakdown] is a JavaScript object keyed by the rate: the key of a
    number is its string.  A key is an array index when it is the string
    of an integer in [0, 2^32 - 2]; both zeros have the string 0. *)
Definition arrayIndex (k : float) : option Z :=
  match integerOf k with
  | Some n => if ((0 <=? n) && (n <=? 4294967294))%Z then Some n else None
  | None => None
  end.

(** Two numbers have the same string: they are the same array index, or
    neither is one and they are the same number. *)
Definition sameKey (k k' : float) : bool :=
  match arrayIndex k, arrayIndex k' with
  | Some n, Some n' => (n =? n')%Z
  | None, None => Leibniz.eqb k k'
  | _, _ => false
  end.

(** [parseFloat(String(k))]: the number itself, and 0 for -0. *)
Definition keyNumber (k : float) : float := if is_zero k then 0 else k.

(** The object as the list of its entries in the object's own property
    order: the array indices ascending, then the other keys in creation
    order.  An entry holds the number of its key. *)
Definition Breakdown := list (float * Bucket).

Fixpoint lookup (k : float) (o : Breakdown) : option Bucket :=
  match o with
  | [] => None
  | (k', b) :: o' => if sameKey k k' then Some b else lookup k o'
  end.

(** The key [k] comes before the key [k'] created earlier. *)
Definition goesBefore (k k' : float) : bool :=
  match arrayIndex k, arrayIndex k' with
  | Some n, Some n' => (n <=? n')%Z
  | Some _, None => true
  | None, _ => false
  end.

(** Creation of the property [k]: an array index goes before the first
    larger index and before every other key, another key goes last. *)
Fixpoint create (k : float) (b : Bucket) (o : Breakdown) : Breakdown :=
  match o with
  | [] => [(k, b)]
  | (k', b') :: o' =>
      if goesBefore k k' then (k, b) :: o else (k', b') :: create k b o'
  end.

(** [o[k].net += n; o[k].vat += v; o[k].gross += g] on an existing key. *)
Fixpoint accumulate (k : float) (n v g : float) (o : Breakdown) : Breakdown :=
  match o with
  | [] => []
  | (k', b) :: o' =>
      if sameKey k k'
      then (k', mkBucket (net b + n) (vat b + v) (gross b + g)) :: o'
      else (k', b) :: accumulate k n v g o'
  end.

(** The body of [data.items.forEach]. *)
Definition addItem (o : Breakdown) (item : InvoiceItem) : Breakdown :=
  let o1 :=
    match lookup (vatRate item) o with
    | None => create (keyNumber (vatRate item)) (mkBucket 0 0 0) o
    | Some _ => o
    end in
  accumulate (vatRate item) (netAmount item) (vatAmount item)
    (grossAmount item) o1.

Definition values (o : Breakdown) : list Bucket := map snd o.

(** [xs.reduce((sum, v) => sum + f(v), 0)] *)
Definition reduceSum {A} (f : A -> float) (xs : list A) : float :=
  fold_left (fun sum v => sum + f v) xs 0.

(** [vatBreakdown] of the result is the list of the entries, each with
    the number of its key as [rate]. *)
Record InvoiceCalculations := mkCalc {
  netTotal : float;
  vatTotal : float;
  grossTotal : float;
  vatBreakdown : list (float * Bucket)
}.

Definition calculateInvoice (items : list InvoiceItem) : InvoiceCalculations :=
  let breakdown := fold_left addItem items [] in
  let netTotal := reduceSum net (values breakdown) in
  let vatTotal := reduceSum vat (values breakdown) in
  let grossTotal := netTotal + vatTotal in
  mkCalc netTotal vatTotal grossTotal breakdown.

End Calculator.

(* ===================================================================== *)
(** ** The JavaScript built-ins the form relies on                        *)
(* ===================================================================== *)

Module JS.

Local Open Scope string_scope.
Local Open Scope Z_scope.

(** A thrown exception: [error.name] and [error.message]. *)
Record Error := mkError { errName : string; errMessage : string }.

(** A computation that returns or throws. *)
Inductive Completion (A : Type) : Type :=
| Return (a : A)
| Throw (e : Error).
Arguments Return {A} a.
Arguments Throw {A} e.

Definition bind {A B} (c : Completion A) (k : A -> Completion B) : Completion B :=
  match c with
  | Return a => k a
  | Throw e => Throw e
  end.

(** [s.split(sep)] for a separator of one character; the result is never
    empty. *)
Fixpoint split (sep : ascii) (s : string) : list string :=
  match s with
  | EmptyString => [EmptyString]
  | String c s' =>
      if Ascii.eqb c sep then EmptyString :: split sep s'
      else match split sep s' with
           | [] => [String c EmptyString]
           | p :: ps => String c p :: ps
           end
  end.

Definition digitValue (c : ascii) : option Z :=
  let n := Z.of_nat (nat_of_ascii c) in
  if (48 <=? n) && (n <=? 57) then Some (n - 48) else None.

(** The value of a non-empty string of decimal digits read after [acc]. *)
Fixpoint decimalFrom (acc : Z) (s : string) : option Z :=
  match s with
  | EmptyString => Some acc
  | String c s' =>
      match digitValue c with
      | Some d => decimalFrom (acc * 10 + d) s'
      | None => None
      end
  end.

Definition decimal (s : string) : option Z :=
  match s with
  | EmptyString => None
  | _ => decimalFrom 0 s
  end.

(** The white space of [trim] and of [Number] among the code units below
    256. *)
Definition isWhiteSpace (c : ascii) : bool :=
  let n := nat_of_ascii c in
  ((9 <=? n) && (n <=? 13) || (n =? 32) || (n =? 160))%nat.

Fixpoint trimStart (s : string) : string :=
  match s with
  | EmptyString => EmptyString
  | String c s' => if isWhiteSpace c then trimStart s' else s
  end.

Fixpoint trimEnd (s : string) : string :=
  match s with
  | EmptyString => EmptyString
  | String c s' =>
      match trimEnd s' with
      | EmptyString => if isWhiteSpace c then EmptyString else String c EmptyString
      | r => String c r
      end
  end.

Definition trim (s : string) : string := trimEnd (trimStart s).

(** *** [Number(s)] *)

Definition radixDigit (radix : Z) (c : ascii) : option Z :=
  let n := Z.of_nat (nat_of_ascii c) in
  let d :=
    if (48 <=? n) && (n <=? 57) then n - 48
    else if (65 <=? n) && (n <=? 70) then n - 55
    else if (97 <=? n) && (n <=? 102) then n - 87
    else radix in
  if d <? radix then Some d else None.

(** The value of a string of digits of the radix read after [acc]; [None]
    when another character occurs. *)
Fixpoint radixFrom (radix acc : Z) (s : string) : option Z :=
  match s with
  | EmptyString => Some acc
  | String c s' =>
      match radixDigit radix c with
      | Some d => radixFrom radix (acc * radix + d) s'
      | None => None
      end
  end.

(** The radix of the prefixes 0x, 0o and 0b, in either case. *)
Definition radixOf (c : ascii) : option Z :=
  if Ascii.eqb c "x" || Ascii.eqb c "X" then Some 16
  else if Ascii.eqb c "o" || Ascii.eqb c "O" then Some 8
  else if Ascii.eqb c "b" || Ascii.eqb c "B" then Some 2
  else None.

(** The decimal digits at the head of [s]: their value read after [acc],
    their number counted from [n], and the rest of the string. *)
Fixpoint readDigits (acc : Z) (n : nat) (s : string) : Z * nat * string :=
  match s with
  | EmptyString => (acc, n, s)
  | String c s' =>
      match digitValue c with
      | Some d => readDigits (acc * 10 + d) (S n) s'
      | None => (acc, n, s)
      end
  end.

(** An optional sign. *)
Definition readSign (s : string) : bool * string :=
  match s with
  | String c r =>
      if Ascii.eqb c "-" then (true, r)
      else if Ascii.eqb c "+" then (false, r)
      else (false, s)
  | EmptyString => (false, s)
  end.

(** StrUnsignedDecimalLiteral apart from Infinity: digits with an
    optional fraction, or a fraction alone, and an optional exponent.  The
    result [(m, e)] stands for [m * 10 ^ e]; [None] when the string is no
    such numeral. *)
Definition unsignedDecimal (s : string) : option (Z * Z) :=
  let '(whole, wholeDigits, afterWhole) := readDigits 0 0 s in
  let '(mantissa, fractionDigits, afterFraction) :=
    match afterWhole with
    | String c r =>
        if Ascii.eqb c "." then readDigits whole 0 r
        else (whole, O, afterWhole)
    | EmptyString => (whole, O, afterWhole)
    end in
  if (wholeDigits + fractionDigits =? 0)%nat then None
  else
    match afterFraction with
    | EmptyString => Some (mantissa, - Z.of_nat fractionDigits)
    | String c r =>
        if Ascii.eqb c "e" || Ascii.eqb c "E" then
          let '(negative, digits) := readSign r in
          match readDigits 0 0 digits with
          | (_, O, _) => None
          | (exponent, _, EmptyString) =>
              Some (mantissa,
                    (if negative then - exponent else exponent)
                    - Z.of_nat fractionDigits)
          | _ => None
          end
        else None
    end.

(** StrDecimalLiteral: an optional sign before Infinity or an unsigned
    decimal numeral. *)
Definition decimalLiteral (s : string) : PrimFloat.float :=
  let '(negative, unsigned) := readSign s in
  if String.eqb unsigned "Infinity"
  then if negative then PrimFloat.neg_infinity else PrimFloat.infinity
  else
    match unsignedDecimal unsigned with
    | Some (m, e) => Numbers.roundDecimal negative m e
    | None => PrimFloat.nan
    end.

(** [Number(s)], StringToNumber: white space is trimmed; the empty string
    is 0; a numeral with a radix prefix is an integer without a sign; any
    other string is a decimal numeral or NaN.  The value of the numeral
    is rounded to the nearest number. *)
Definition Number (s : string) : PrimFloat.float :=
  match trim s with
  | EmptyString => PrimFloat.zero
  | String c (String x r) as t =>
      match (if Ascii.eqb c "0" then radixOf x else None) with
      | Some radix =>
          match r with
          | EmptyString => PrimFloat.nan
          | _ =>
              match radixFrom radix 0 r with
              | Some n => Numbers.ofInteger n
              | None => PrimFloat.nan
              end
          end
      | None => decimalLiteral t
      end
  | t => decimalLiteral t
  end.

(** *** Dates *)

(** A [Date] holding midnight UTC of a day: the day number counted from
    1970-01-01, or the invalid date (time value NaN). *)
Inductive Date := Invalid | AtDay (t : Z).

(** TimeClip: 8.64e15 ms are 100,000,000 days. *)
Definition maxDay : Z := 100000000.

Definition timeClip (t : Z) : Date :=
  if Z.abs t <=? maxDay then AtDay t else Invalid.

(** Day number of the proleptic Gregorian date [y-m-d] (m in 1..12),
    counting years from March so that the leap day comes last. *)
Definition daysFromCivil (y m d : Z) : Z :=
  let y' := if m <=? 2 then y - 1 else y in
  let era := y' / 400 in
  let yoe := y' - era * 400 in
  let mp := if m <=? 2 then m + 9 else m - 3 in
  let doy := (153 * mp + 2) / 5 + d - 1 in
  let doe := yoe * 365 + yoe / 4 - yoe / 100 + doy in
  era * 146097 + doe - 719468.

(** Year of the era, month (1..12), day of the month and the carry into
    the year for January and February, of the [doe]-th day of a 400-year
    era that starts on 1 March. *)
Definition civilOfEraDay (doe : Z) : Z * Z * Z :=
  let yoe := (doe - doe / 1460 + doe / 36524 - doe / 146096) / 365 in
  let doy := doe - (365 * yoe + yoe / 4 - yoe / 100) in
  let mp := (5 * doy + 2) / 153 in
  let d := doy - (153 * mp + 2) / 5 + 1 in
  let m := if mp <? 10 then mp + 3 else mp - 9 in
  (if m <=? 2 then yoe + 1 else yoe, m, d).

(** YearFromTime, MonthFromTime + 1 and DateFromTime of a day number. *)
Definition civilFromDays (t : Z) : Z * Z * Z :=
  let z := t + 719468 in
  let era := z / 146097 in
  let doe := z - era * 146097 in
  let '(y, m, d) := civilOfEraDay doe in
  (y + era * 400, m, d).

Definition getUTCFullYear (t : Z) : Z := fst (fst (civilFromDays t)).
Definition getUTCMonth (t : Z) : Z := snd (fst (civilFromDays t)) - 1.
Definition getUTCDate (t : Z) : Z := snd (civilFromDays t).

(** WeekDay: 0 is Sunday, 6 is Saturday; 1970-01-01 was a Thursday. *)
Definition getUTCDay (t : Z) : Z := (t + 4) mod 7.

(** MakeDay(year, month, date) with a zero-based, unbounded month. *)
Definition makeDay (year month date : Z) : Z :=
  let ym := year + month / 12 in
  let mn := month mod 12 in
  daysFromCivil ym (mn + 1) 1 + date - 1.

(** [new Date(Date.UTC(year, month, date))] on integers: a year in 0..99
    means 1900 + year. *)
Definition DateUTC (year month date : Z) : Date :=
  let yr := if (0 <=? year) && (year <=? 99) then 1900 + year else year in
  timeClip (makeDay yr month date).

(** [new Date(Date.UTC(year, month, date))] on numbers: NaN or an infinity
    in any place gives the invalid date; otherwise each number is cut to
    its integer part. *)
Definition DateUTC_numbers (year month date : PrimFloat.float) : Date :=
  match Numbers.truncate year, Numbers.truncate month, Numbers.truncate date with
  | Some y, Some m, Some d => DateUTC y m d
  | _, _, _ => Invalid
  end.

(** [date.setUTCDate(date.getUTCDate() + offset)] *)
Definition addUTCDate (date : Date) (offset : Z) : Date :=
  match date with
  | Invalid => Invalid
  | AtDay t =>
      timeClip (makeDay (getUTCFullYear t) (getUTCMonth t) (getUTCDate t + offset))
  end.

Definition digitChar (d : Z) : ascii := ascii_of_nat (Z.to_nat (48 + d)).

(** The last [width] decimal digits of [n], most significant first. *)
Fixpoint padDigits (width : nat) (n : Z) : string :=
  match width with
  | O => EmptyString
  | S w => padDigits w (n / 10) ++ String (digitChar (n mod 10)) EmptyString
  end.

(** The year of the ISO format: four digits, or a sign and six digits
    outside 0..9999. *)
Definition isoYear (y : Z) : string :=
  if (0 <=? y) && (y <=? 9999) then padDigits 4 y
  else if y <? 0 then "-" ++ padDigits 6 (- y)
  else "+" ++ padDigits 6 y.

(** The date part of the ISO format of the day [t]. *)
Definition isoDatePart (t : Z) : string :=
  isoYear (getUTCFullYear t) ++ "-" ++ padDigits 2 (getUTCMonth t + 1)
  ++ "-" ++ padDigits 2 (getUTCDate t).

(** [date.toISOString()]; throws a RangeError on the invalid date. *)
Definition toISOString (date : Date) : Completion string :=
  match date with
  | Invalid => Throw (mkError "RangeError" "Invalid time value")
  | AtDay t => Return (isoDatePart t ++ "T00:00:00.000Z")
  end.

(** [text || fallback] on strings. *)
Definition orElse (text fallback : string) : string :=
  match text with
  | EmptyString => fallback
  | _ => text
  end.

Definition toUpperChar (c : ascii) : ascii :=
  let n := nat_of_ascii c in
  if ((97 <=? n) && (n <=? 122))%nat then ascii_of_nat (n - 32) else c.

(** [toUpperCase] on the ASCII letters. *)
Fixpoint toUpperCase (s : string) : string :=
  match s with
  | EmptyString => EmptyString
  | String c s' => String (toUpperChar c) (toUpperCase s')
  end.

(** [s.includes(t)]: [t] occurs in [s] as a substring. *)
Fixpoint includes (s t : string) : bool :=
  String.prefix t s ||
  match s with
  | EmptyString => false
  | String _ s' => includes s' t
  end.

(** [a > b] on strings: code unit order. *)
Definition gtb (a b : string) : bool := String.ltb b a.

End JS.

(* ===================================================================== *)
(** ** Calendar facts                                                     *)
(* ===================================================================== *)

(** The civil-date functions invert each other.  Within one 400-year era
    this is checked day by day; the eras are translates of one another.
    The facts come before the date helpers because the weekend loop of
    [getPreviousBusinessDay] terminates by them. *)

Module Calendar.
Import JS.
Local Open Scope Z_scope.

(** [p] holds on the [n] integers from [z] on. *)
Fixpoint allFrom (n : nat) (z : Z) (p : Z -> bool) : bool :=
  match n with
  | O => true
  | S n' => if p z then allFrom n' (z + 1) p else false
  end.

Definition marchYear (y m : Z) : Z := if m <=? 2 then y - 1 else y.

Definition eraDayOk (doe : Z) : bool :=
  let '(y, m, d) := civilOfEraDay doe in
  (1 <=? m) && (m <=? 12) && (1 <=? d) && (d <=? 31)
  && (0 <=? marchYear y m) && (marchYear y m <=? 399)
  && Bool.eqb (100 <=? y) (36465 <=? doe)
  && (daysFromCivil y m 1 + d - 1 =? doe - 719468).

Lemma allFrom_spec (n : nat) :
  forall z p, allFrom n z p = true ->
  forall x, z <= x < z + Z.of_nat n -> p x = true.
Proof.
  induction n as [|n IH]; intros z p H x Hx.
  - simpl in Hx. lia.
  - simpl in H. destruct (p z) eqn:Hp; [|discriminate].
    destruct (Z.eq_dec x z) as [->|Hne]; [exact Hp|].
    apply (IH (z + 1) p H). lia.
Qed.

Lemma eraDays_ok : allFrom (Z.to_nat 146097) 0 eraDayOk = true.
Proof. vm_compute. reflexivity. Qed.

Lemma eraDayOk_all (doe : Z) : 0 <= doe < 146097 -> eraDayOk doe = true.
Proof.
  intros H. apply (allFrom_spec _ _ _ eraDays_ok). lia.
Qed.

Lemma daysFromCivil_era (y m d k : Z) :
  daysFromCivil (y + 400 * k) m d = daysFromCivil y m d + 146097 * k.
Proof.
  unfold daysFromCivil.
  replace (if m <=? 2 then y + 400 * k - 1 else y + 400 * k)
    with ((if m <=? 2 then y - 1 else y) + k * 400)
    by (destruct (m <=? 2); lia).
  set (y' := if m <=? 2 then y - 1 else y).
  rewrite Z.div_add by lia.
  replace (y' + k * 400 - (y' / 400 + k) * 400) with (y' - y' / 400 * 400) by lia.
  lia.
Qed.

(** The era and the day of the era of a day number. *)
Lemma era_split (t : Z) :
  let z := t + 719468 in
  0 <= z - z / 146097 * 146097 < 146097.
Proof.
  intros z. pose proof (Z.mod_pos_bound z 146097 ltac:(lia)) as H.
  rewrite Z.mod_eq in H by lia. lia.
Qed.

(** [MakeDay] of the civil date of [t], moved by [offset] days of the
    month, is the day [t + offset]. *)
Lemma makeDay_civil (t offset : Z) :
  makeDay (getUTCFullYear t) (getUTCMonth t) (getUTCDate t + offset) = t + offset.
Proof.
  unfold getUTCFullYear, getUTCMonth, getUTCDate, civilFromDays.
  pose proof (era_split t) as Hr. cbv zeta in Hr.
  set (z := t + 719468) in *. set (era := z / 146097) in *.
  set (doe := z - era * 146097) in *.
  pose proof (eraDayOk_all doe Hr) as Hok. unfold eraDayOk in Hok.
  destruct (civilOfEraDay doe) as [[y m] d]. simpl.
  repeat (apply andb_prop in Hok; destruct Hok as [Hok ?]).
  repeat match goal with
         | H : (_ <=? _) = true |- _ => apply Z.leb_le in H
         | H : (_ =? _) = true |- _ => apply Z.eqb_eq in H
         end.
  unfold makeDay.
  rewrite Z.div_small by lia. rewrite Z.mod_small by lia.
  replace (y + era * 400 + 0) with (y + 400 * era) by lia.
  replace (m - 1 + 1) with m by lia.
  rewrite daysFromCivil_era. subst doe z. lia.
Qed.

Lemma civil_ranges (t : Z) :
  1 <= getUTCMonth t + 1 <= 12 /\ 1 <= getUTCDate t <= 31.
Proof.
  unfold getUTCMonth, getUTCDate, civilFromDays.
  pose proof (era_split t) as Hr. cbv zeta in Hr.
  set (z := t + 719468) in *. set (era := z / 146097) in *.
  set (doe := z - era * 146097) in *.
  pose proof (eraDayOk_all doe Hr) as Hok. unfold eraDayOk in Hok.
  destruct (civilOfEraDay doe) as [[y m] d]. simpl.
  repeat (apply andb_prop in Hok; destruct Hok as [Hok ?]).
  repeat match goal with
         | H : (_ <=? _) = true |- _ => apply Z.leb_le in H
         | H : (_ =? _) = true |- _ => apply Z.eqb_eq in H
         end.
  lia.
Qed.

(** The years from 100 on are the days from 0100-01-01 on. *)
Definition firstDayOfYear100 : Z := -683003.

Lemma year_from_100 (t : Z) :
  100 <= getUTCFullYear t <-> firstDayOfYear100 <= t.
Proof.
  unfold getUTCFullYear, civilFromDays, firstDayOfYear100.
  pose proof (era_split t) as Hr. cbv zeta in Hr.
  set (z := t + 719468) in *. set (era := z / 146097) in *.
  set (doe := z - era * 146097) in *.
  pose proof (eraDayOk_all doe Hr) as Hok. unfold eraDayOk in Hok.
  destruct (civilOfEraDay doe) as [[y m] d]. cbn [fst snd].
  repeat (apply andb_prop in Hok; destruct Hok as [Hok ?]).
  repeat match goal with
         | H : (_ <=? _) = true |- _ => apply Z.leb_le in H
         | H : (_ =? _) = true |- _ => apply Z.eqb_eq in H
         | H : Bool.eqb _ _ = true |- _ => apply Bool.eqb_prop in H
         end.
  assert (Hy : 0 <= y <= 400) by (unfold marchYear in *; destruct (m <=? 2); lia).
  destruct (Z_lt_le_dec era 0) as [Hn|Hp]; [subst doe z; lia|].
  destruct (Z.eq_dec era 0) as [Hzero|Hpos]; [|subst doe z; lia].
  destruct (100 <=? y) eqn:E1; destruct (36465 <=? doe) eqn:E2; try discriminate;
    rewrite ?Z.leb_le, ?Z.leb_gt in *; subst doe z; lia.
Qed.

(** No year of a valid date has more than six digits. *)
Lemma year_upper (t : Z) : t <= maxDay -> getUTCFullYear t <= 276000.
Proof.
  unfold getUTCFullYear, civilFromDays, maxDay. intros Ht.
  pose proof (era_split t) as Hr. cbv zeta in Hr.
  set (z := t + 719468) in *. set (era := z / 146097) in *.
  set (doe := z - era * 146097) in *.
  pose proof (eraDayOk_all doe Hr) as Hok. unfold eraDayOk in Hok.
  destruct (civilOfEraDay doe) as [[y m] d]. cbn [fst snd].
  repeat (apply andb_prop in Hok; destruct Hok as [Hok ?]).
  repeat match goal with
         | H : (_ <=? _) = true |- _ => apply Z.leb_le in H
         | H : (_ =? _) = true |- _ => apply Z.eqb_eq in H
         end.
  assert (Hy : 0 <= y <= 400) by (unfold marchYear in *; destruct (m <=? 2); lia).
  subst doe z. lia.
Qed.

End Calendar.
(* ===================================================================== *)
(** ** Date helpers of the form (InvoiceForm.tsx)                         *)
(* ===================================================================== *)

Module Dates.
Import JS.
Local Open Scope string_scope.
Local Open Scope Z_scope.

Definition MAX_RATE_LOOKBACK_DAYS : nat := 10.

Definition parseISODate (dateString : string) : option Date :=
  match dateString with
  | EmptyString => None
  | _ =>
      match map Number (split "-" dateString) with
      | [year; month; day] =>
          if PrimFloat.is_nan year || PrimFloat.is_nan month || PrimFloat.is_nan day
          then None
          else Some (DateUTC_numbers year (PrimFloat.sub month PrimFloat.one) day)
      | _ => None
      end
  end.

Definition toDateString (date : Date) : Completion string :=
  bind (toISOString date) (fun iso => Return (hd EmptyString (split "T" iso))).

Definition isWeekend (date : Date) : bool :=
  match date with
  | Invalid => false
  | AtDay t => (getUTCDay t =? 0) || (getUTCDay t =? 6)
  end.


(** The loop ends at a weekday: Sunday has two steps to go, Saturday one. *)
Definition weekendRank (date : Date) : nat :=
  match date with
  | Invalid => 0%nat
  | AtDay t =>
      match getUTCDay t with
      | 0 => 2%nat
      | 6 => 1%nat
      | _ => 0%nat
      end
  end.

Lemma addUTCDate_AtDay (t offset : Z) :
  addUTCDate (AtDay t) offset = timeClip (t + offset).
Proof.
  unfold addUTCDate. now rewrite Calendar.makeDay_civil.
Qed.

Lemma weekendRank_decreases (date : Date) :
  isWeekend date = true ->
  (weekendRank (addUTCDate date (-1)) < weekendRank date)%nat.
Proof.
  destruct date as [|t]; [discriminate|].
  rewrite addUTCDate_AtDay. unfold isWeekend, timeClip.
  intros H.
  assert (Hs : getUTCDay (t + -1) = (getUTCDay t + 6) mod 7).
  { unfold getUTCDay. rewrite Zplus_mod_idemp_l.
    replace (t + 4 + 6) with (t + -1 + 4 + 1 * 7) by lia.
    now rewrite Z.mod_add by lia. }
  destruct (Z.abs (t + -1) <=? maxDay); unfold weekendRank;
    apply orb_true_iff in H; destruct H as [H|H]; apply Z.eqb_eq in H;
    rewrite ?Hs, H; cbn; lia.
Qed.

(** [while (date.getUTCDay() === 0 || date.getUTCDay() === 6)
       date.setUTCDate(date.getUTCDate() - 1);] *)
Equations skipWeekend (date : Date) : Date by wf (weekendRank date) lt :=
  skipWeekend date with inspect (isWeekend date) := {
    | exist _ true H => skipWeekend (addUTCDate date (-1))
    | exist _ false _ => date }.
Next Obligation. now apply weekendRank_decreases. Qed.

(** [new Date(Date.UTC(d.getUTCFullYear(), d.getUTCMonth(), d.getUTCDate()))];
    the getters of the invalid date are NaN. *)
Definition copyUTC (source : Date) : Date :=
  match source with
  | Invalid => Invalid
  | AtDay t => DateUTC (getUTCFullYear t) (getUTCMonth t) (getUTCDate t)
  end.

(** [today] is the day number of the current instant, [new Date()]. *)
Definition getPreviousBusinessDay (today : Z) (referenceDate : string)
  : Completion string :=
  let base := parseISODate referenceDate in
  let source :=
    match base with
    | Some b => b
    | None => copyUTC (AtDay today)
    end in
  let date := copyUTC source in
  let date := addUTCDate date (-1) in
  let date := skipWeekend date in
  toDateString date.

(** [const [year, month, day] = dateString.split('-').map(Number);
    new Date(Date.UTC(year, month - 1, day))]: a missing part is
    [undefined], which is NaN as a number and makes the date invalid. *)
Definition dateOfParts (dateString : string) : Date :=
  let parts := map Number (split "-" dateString) in
  let year := nth 0 parts PrimFloat.nan in
  let month := nth 1 parts PrimFloat.nan in
  let day := nth 2 parts PrimFloat.nan in
  DateUTC_numbers year (PrimFloat.sub month PrimFloat.one) day.

Definition shiftDateString (dateString : string) (offset : Z)
  : Completion string :=
  let date := dateOfParts dateString in
  let date := addUTCDate date offset in
  toDateString date.

End Dates.


(* ===================================================================== *)
(** ** Invoice data (types/invoice.ts, App.tsx)                           *)
(* ===================================================================== *)

Module Invoice.
Import PrimFloat JS Dates.
Local Open Scope string_scope.

Record CompanyInfo := mkCompany {
  companyName : string;
  address : string;
  postalCode : string;
  city : string;
  nip : string;
  bankAccount : option string
}.

(** [exchangeRate] of the invoice, as the form reads and writes it (the
    snapshot of types/invoice.ts predates the field): [value] is [null]
    or a number. *)
Record ExchangeRate := mkRate {
  targetDate : string;
  effectiveDate : string;
  value : option Q
}.

Record InvoiceData := mkInvoice {
  invoiceNumber : string;
  issueDate : string;
  saleDate : string;
  paymentDeadline : string;
  paymentMethod : string;
  currency : string;
  seller : CompanyInfo;
  buyer : CompanyInfo;
  items : list Calculator.InvoiceItem;
  notes : string;
  logo : option string;
  exchangeRate : ExchangeRate
}.

Definition emptyRate : ExchangeRate := mkRate "" "" None.

(** [{ ...prev, exchangeRate: r }] *)
Definition withExchangeRate (prev : InvoiceData) (r : ExchangeRate) : InvoiceData :=
  mkInvoice (invoiceNumber prev) (issueDate prev) (saleDate prev)
    (paymentDeadline prev) (paymentMethod prev) (currency prev) (seller prev)
    (buyer prev) (items prev) (notes prev) (logo prev) r.

(** [{ ...prev, currency: c, exchangeRate: r }] *)
Definition withCurrency (prev : InvoiceData) (c : string) (r : ExchangeRate)
  : InvoiceData :=
  mkInvoice (invoiceNumber prev) (issueDate prev) (saleDate prev)
    (paymentDeadline prev) (paymentMethod prev) c (seller prev)
    (buyer prev) (items prev) (notes prev) (logo prev) r.

(** [{ ...prev, issueDate: d }] *)
Definition withIssueDate (prev : InvoiceData) (d : string) : InvoiceData :=
  mkInvoice (invoiceNumber prev) d (saleDate prev)
    (paymentDeadline prev) (paymentMethod prev) (currency prev) (seller prev)
    (buyer prev) (items prev) (notes prev) (logo prev) (exchangeRate prev).

(** [{ ...prev, notes: n }] *)
Definition withNotes (prev : InvoiceData) (n : string) : InvoiceData :=
  mkInvoice (invoiceNumber prev) (issueDate prev) (saleDate prev)
    (paymentDeadline prev) (paymentMethod prev) (currency prev) (seller prev)
    (buyer prev) (items prev) n (logo prev) (exchangeRate prev).

Definition emptyCompany (account : option string) : CompanyInfo :=
  mkCompany "" "" "" "" "" account.

(** Modelled from the spec: the [exchangeRate] field of the initial state.
    The initial invoice of [App] with the dates of the day [today]; the
    snapshot of App.tsx predates the exchange rate, which starts as the
    empty triple that the spec prescribes for a PLN invoice. *)
Definition initialInvoice (today : Z) : Completion InvoiceData :=
  bind (toDateString (timeClip today)) (fun day =>
  bind (toDateString (timeClip (today + 14))) (fun deadline =>
  Return (mkInvoice "" day day deadline "Przelew" "PLN"
            (emptyCompany (Some "")) (emptyCompany None)
            [Calculator.mkItem "1" "" 1%float "szt." 0%float 23%float] "" None
            emptyRate))).

End Invoice.

(* ===================================================================== *)
(** ** The form: handlers (InvoiceForm.tsx)                               *)
(* ===================================================================== *)

Module Form.
Import JS Dates Invoice.
Local Open Scope string_scope.

(** [rateStatus]: [{ loading, error }]. *)
Record RateStatus := mkStatus { loading : bool; error : option string }.

(** [(currency || '').trim().toUpperCase()] *)
Definition normalize (currency : string) : string := toUpperCase (trim currency).

Definition isForeign (normalizedCurrency : string) : bool :=
  negb (normalizedCurrency =? "") && negb (normalizedCurrency =? "PLN").

Definition isForeignCurrency (data : InvoiceData) : bool :=
  isForeign (normalize (currency data)).

(** [!s] on a string. *)
Definition isEmpty (s : string) : bool :=
  match s with
  | EmptyString => true
  | _ => false
  end.

(** The updater of [handleCurrencyChange]. *)
Definition handleCurrencyChange (today : Z) (value : string) (prev : InvoiceData)
  : Completion InvoiceData :=
  let normalizedValue := normalize value in
  bind (getPreviousBusinessDay today (issueDate prev)) (fun defaultTargetDate =>
  if normalizedValue =? "PLN" then
    Return (withCurrency prev normalizedValue (mkRate "" "" None))
  else
    Return (withCurrency prev normalizedValue
              (mkRate (orElse (targetDate (exchangeRate prev)) defaultTargetDate)
                 "" None))).

(** The updater of [handleRateDateChange]; [maxRateDate] is the constant of
    the render whose handler runs. *)
Definition handleRateDateChange (maxRateDate value : string) (prev : InvoiceData)
  : InvoiceData :=
  let sanitized :=
    if isEmpty value then ""
    else if gtb value maxRateDate then maxRateDate else value in
  withExchangeRate prev (mkRate sanitized "" None).

(** The updater shared by [handleUsePreviousBusinessDay] and the branch of
    [handleRefreshRate] without a target date. *)
Definition usePreviousDay (previousDay : string) (prev : InvoiceData) : InvoiceData :=
  withExchangeRate prev (mkRate previousDay "" None).

(** The updater of [handleIssueDateChange] with the flag it raises. *)
Definition handleIssueDateChange (today : Z) (value : string) (prev : InvoiceData)
  : Completion (InvoiceData * bool) :=
  let nextState := withIssueDate prev value in
  let prevCurrency := normalize (currency prev) in
  if isForeign prevCurrency then
    bind (getPreviousBusinessDay today value) (fun newDefault =>
    bind (getPreviousBusinessDay today (issueDate prev)) (fun previousDefault =>
    let targetWasDefault :=
      isEmpty (targetDate (exchangeRate prev))
      || (targetDate (exchangeRate prev) =? previousDefault) in
    if targetWasDefault then
      if negb (targetDate (exchangeRate prev) =? newDefault) then
        Return (withExchangeRate nextState (mkRate newDefault "" None), true)
      else Return (nextState, false)
    else Return (nextState, false)))
  else Return (nextState, false).

(** The updater of [appendNote]. *)
Definition appendNote (note : string) (prev : InvoiceData) : InvoiceData :=
  let current := notes prev in
  if includes current note then prev
  else
    let separator :=
      if (0 <? String.length (trim current))%nat
      then String (ascii_of_nat 10) EmptyString else "" in
    withNotes prev (current ++ separator ++ note).


(** *** The rate lookup: the closure [fetchRate] of the fetch effect *)

(** One entry of [data.rates]: the source's own date and the mid rate, if
    it is a number. *)
Record RateEntry := mkEntry { rateEffectiveDate : string; mid : option Q }.

(** How the promise of [fetch] settles: rejected, or a response with a
    status.  A rejection named AbortError comes from the abort signal. *)
Inductive FetchResult :=
| FetchRejected (e : Error)
| FetchResponse (status : Z).

(** How the promise of [response.json()] settles; [JsonValue r] carries
    [data?.rates?.[0]]. *)
Inductive JsonResult :=
| JsonRejected (e : Error)
| JsonValue (rate : option RateEntry).

(** The variables of one run of the effect: the captured currency and
    target date, and the loop variables. *)
Record Lookup := mkLookup {
  lookupCurrency : string;
  lookupTarget : string;
  lookupDate : string;
  attempts : nat
}.

(** What one run of [fetchRate] does to the state when it ends. *)
Inductive Outcome :=
| Resolved (effective : string) (rate : Q)
| HardFailure (statusMessage toastMessage : string)
| Exhausted (message : string)
| Discarded.

Definition exhaustedMessage : string :=
  "Brak kursu NBP dla wybranej daty w ostatnich dniach roboczych.".

(** The [catch] block. *)
Definition onCatch (isCancelled : bool) (e : Error) : Outcome :=
  if isCancelled then Discarded
  else if errName e =? "AbortError" then Discarded
  else HardFailure
         (orElse (errMessage e) "Błąd podczas pobierania kursu NBP.")
         (orElse (errMessage e) "Nie udało się pobrać kursu NBP.").

(** The head of the loop and what follows the loop. *)
Inductive LoopHead :=
| Request (lk : Lookup)
| LoopDone (out : Outcome).

Definition loopHead (isCancelled : bool) (lk : Lookup) : LoopHead :=
  if negb isCancelled && (attempts lk <? MAX_RATE_LOOKBACK_DAYS)%nat
  then Request lk
  else if negb isCancelled then LoopDone (Exhausted exhaustedMessage)
  else LoopDone Discarded.

(** The loop body from the settled [fetch] to [response.json()]. *)
Inductive AfterFetch :=
| Again (lk : Lookup)
| ReadJson
| FetchDone (out : Outcome).

Definition isOk (status : Z) : bool := ((200 <=? status) && (status <=? 299))%Z.

Definition afterFetch (isCancelled : bool) (lk : Lookup) (r : FetchResult)
  : AfterFetch :=
  match r with
  | FetchRejected e => FetchDone (onCatch isCancelled e)
  | FetchResponse status =>
      if (status =? 404)%Z then
        match shiftDateString (lookupDate lk) (-1) with
        | Return d =>
            Again (mkLookup (lookupCurrency lk) (lookupTarget lk) d
                     (attempts lk + 1))
        | Throw e => FetchDone (onCatch isCancelled e)
        end
      else if negb (isOk status) then
        FetchDone (onCatch isCancelled
                     (mkError "Error" "Nie udało się pobrać kursu NBP."))
      else ReadJson
  end.

(** The loop body after [response.json()]. *)
Definition afterJson (isCancelled : bool) (j : JsonResult) : Outcome :=
  match j with
  | JsonRejected e => onCatch isCancelled e
  | JsonValue (Some (mkEntry effective (Some m))) =>
      if isCancelled then Discarded else Resolved effective m
  | JsonValue _ =>
      onCatch isCancelled
        (mkError "Error" "Brak danych kursu NBP dla wybranej daty.")
  end.

(** *** One lookup against a rate source *)

(** What the source answers to a request for a currency and a date. *)
Inductive Body :=
| Malformed (message : string)
| Json (rate : option RateEntry).

Inductive Response :=
| NetworkError (message : string)
| Http (status : Z) (body : Body).

Definition fetchResultOf (r : Response) : FetchResult :=
  match r with
  | NetworkError m => FetchRejected (mkError "TypeError" m)
  | Http status _ => FetchResponse status
  end.

Definition jsonResultOf (r : Response) : JsonResult :=
  match r with
  | Http _ (Json rate) => JsonValue rate
  | Http _ (Malformed m) => JsonRejected (mkError "SyntaxError" m)
  | NetworkError m => JsonRejected (mkError "TypeError" m)
  end.

Definition RateSource := string -> string -> Response.

(** The dates requested, in order, and the outcome. *)
Definition Run : Type := list string * Outcome.

Lemma loopHead_Request (lk lk1 : Lookup) :
  loopHead false lk = Request lk1 ->
  lk1 = lk /\ (attempts lk < MAX_RATE_LOOKBACK_DAYS)%nat.
Proof.
  unfold loopHead. cbn [negb andb].
  destruct (attempts lk <? MAX_RATE_LOOKBACK_DAYS)%nat eqn:H; intros E.
  - injection E as <-. split; [reflexivity|]. apply Nat.ltb_lt. exact H.
  - discriminate.
Qed.

Lemma afterFetch_Again (c : bool) (lk lk2 : Lookup) (r : FetchResult) :
  afterFetch c lk r = Again lk2 -> attempts lk2 = (attempts lk + 1)%nat.
Proof.
  unfold afterFetch. destruct r as [e|status]; [discriminate|].
  destruct (status =? 404)%Z.
  - destruct (shiftDateString (lookupDate lk) (-1)); intros E; inversion E.
    reflexivity.
  - destruct (negb (isOk status)); discriminate.
Qed.

Lemma attempts_left_decrease (lk lk1 lk2 : Lookup) (r : FetchResult) :
  loopHead false lk = Request lk1 ->
  afterFetch false lk1 r = Again lk2 ->
  (MAX_RATE_LOOKBACK_DAYS - attempts lk2 < MAX_RATE_LOOKBACK_DAYS - attempts lk)%nat.
Proof.
  intros H1 H2. apply loopHead_Request in H1. destruct H1 as [-> Hlt].
  apply afterFetch_Again in H2. lia.
Qed.

(** [fetchRate] of a lookup that is never cancelled, run to its end
    against [source]. *)
Equations fetchLoop (source : RateSource) (lk : Lookup) (requested : list string)
  : Run by wf (MAX_RATE_LOOKBACK_DAYS - attempts lk)%nat lt :=
  fetchLoop source lk requested with inspect (loopHead false lk) := {
    | exist _ (LoopDone out) _ => (requested, out)
    | exist _ (Request lk1) H1
        with inspect (afterFetch false lk1
                        (fetchResultOf (source (lookupCurrency lk1) (lookupDate lk1)))) := {
        | exist _ (Again lk2) H2 =>
            fetchLoop source lk2 (requested ++ [lookupDate lk1])%list
        | exist _ ReadJson _ =>
            ((requested ++ [lookupDate lk1])%list,
             afterJson false
               (jsonResultOf (source (lookupCurrency lk1) (lookupDate lk1))))
        | exist _ (FetchDone out) _ => ((requested ++ [lookupDate lk1])%list, out) } }.
Next Obligation. exact (attempts_left_decrease _ _ _ _ H1 H2). Qed.

Definition fetchRate (source : RateSource) (normalizedCurrency targetDate : string)
  : Run :=
  fetchLoop source (mkLookup normalizedCurrency targetDate targetDate 0) [].


(** *** The component: state, effects and events *)

Inductive Phase := AwaitingFetch | AwaitingJson | Ended.

(** A started run of [fetchRate]: its variables, the flag [isCancelled]
    that the cleanup of its effect run sets (together with the abort
    signal), and the promise it waits for. *)
Record Running := mkRunning {
  vars : Lookup;
  isCancelled : bool;
  phase : Phase
}.

(** The state of the mounted form.  [maxRateDate] is the constant of the
    last render.  [depsReset] and [depsFetch] are the dependency arrays of
    the last runs of the two effects, [cleanupFetch] the lookup that the
    cleanup of the last run of the fetch effect cancels.  [lookups] holds
    every run of [fetchRate] in start order, a lookup's position being its
    identity.  [requests] and [toasts] log the requests sent (lookup,
    currency, date) and the toasts shown. *)
Record FormState := mkForm {
  invoiceData : InvoiceData;
  rateStatus : RateStatus;
  rateFetchTrigger : nat;
  maxRateDate : string;
  depsReset : option (bool * string * string);
  depsFetch : option (bool * string * nat);
  cleanupFetch : option nat;
  lookups : list Running;
  requests : list (nat * string * string);
  toasts : list string
}.

Definition setData (d : InvoiceData) (s : FormState) : FormState :=
  mkForm d (rateStatus s) (rateFetchTrigger s) (maxRateDate s) (depsReset s)
    (depsFetch s) (cleanupFetch s) (lookups s) (requests s) (toasts s).

Definition setStatus (r : RateStatus) (s : FormState) : FormState :=
  mkForm (invoiceData s) r (rateFetchTrigger s) (maxRateDate s) (depsReset s)
    (depsFetch s) (cleanupFetch s) (lookups s) (requests s) (toasts s).

(** [setRateStatus(current => ({ ...current, error: null }))] *)
Definition clearError (s : FormState) : FormState :=
  setStatus (mkStatus (loading (rateStatus s)) None) s.

(** [setRateFetchTrigger(prev => prev + 1)] *)
Definition bumpTrigger (s : FormState) : FormState :=
  mkForm (invoiceData s) (rateStatus s) (rateFetchTrigger s + 1) (maxRateDate s)
    (depsReset s) (depsFetch s) (cleanupFetch s) (lookups s) (requests s)
    (toasts s).

Definition setMaxRateDate (m : string) (s : FormState) : FormState :=
  mkForm (invoiceData s) (rateStatus s) (rateFetchTrigger s) m (depsReset s)
    (depsFetch s) (cleanupFetch s) (lookups s) (requests s) (toasts s).

Definition setDeps (dr : bool * string * string) (df : bool * string * nat)
  (s : FormState) : FormState :=
  mkForm (invoiceData s) (rateStatus s) (rateFetchTrigger s) (maxRateDate s)
    (Some dr) (Some df) (cleanupFetch s) (lookups s) (requests s) (toasts s).

Definition setCleanup (c : option nat) (s : FormState) : FormState :=
  mkForm (invoiceData s) (rateStatus s) (rateFetchTrigger s) (maxRateDate s)
    (depsReset s) (depsFetch s) c (lookups s) (requests s) (toasts s).

Definition setLookups (l : list Running) (s : FormState) : FormState :=
  mkForm (invoiceData s) (rateStatus s) (rateFetchTrigger s) (maxRateDate s)
    (depsReset s) (depsFetch s) (cleanupFetch s) l (requests s) (toasts s).

(** [toast.error(message)] *)
Definition toastError (message : string) (s : FormState) : FormState :=
  mkForm (invoiceData s) (rateStatus s) (rateFetchTrigger s) (maxRateDate s)
    (depsReset s) (depsFetch s) (cleanupFetch s) (lookups s) (requests s)
    (toasts s ++ [message])%list.

(** [fetch(url)] of lookup [id] for the currency and the date of the URL. *)
Definition sendRequest (id : nat) (lk : Lookup) (s : FormState) : FormState :=
  mkForm (invoiceData s) (rateStatus s) (rateFetchTrigger s) (maxRateDate s)
    (depsReset s) (depsFetch s) (cleanupFetch s) (lookups s)
    (requests s ++ [(id, lookupCurrency lk, lookupDate lk)])%list (toasts s).

(** Replace the [id]-th element. *)
Fixpoint replaceNth {A} (id : nat) (a : A) (l : list A) : list A :=
  match l, id with
  | [], _ => []
  | _ :: l', O => a :: l'
  | x :: l', S id' => x :: replaceNth id' a l'
  end.

(** The state updates with which a run of [fetchRate] for [target] ends. *)
Definition applyOutcome (target : string) (out : Outcome) (s : FormState)
  : FormState :=
  match out with
  | Resolved effective rate =>
      setStatus (mkStatus false None)
        (setData (withExchangeRate (invoiceData s)
                    (mkRate target effective (Some rate))) s)
  | HardFailure statusMessage toastMessage =>
      toastError toastMessage
        (setData (withExchangeRate (invoiceData s) (mkRate target "" None))
           (setStatus (mkStatus false (Some statusMessage)) s))
  | Exhausted message =>
      toastError message
        (setData (withExchangeRate (invoiceData s) (mkRate target "" None))
           (setStatus (mkStatus false (Some message)) s))
  | Discarded => s
  end.

(** The dependency arrays of the reset effect and of the fetch effect. *)
Definition depsOfReset (s : FormState) : bool * string * string :=
  (isForeignCurrency (invoiceData s),
   targetDate (exchangeRate (invoiceData s)),
   issueDate (invoiceData s)).

Definition depsOfFetch (s : FormState) : bool * string * nat :=
  (isForeignCurrency (invoiceData s),
   targetDate (exchangeRate (invoiceData s)),
   rateFetchTrigger s).

Definition sameReset (a b : bool * string * string) : bool :=
  let '(f, t, i) := a in
  let '(f', t', i') := b in
  Bool.eqb f f' && (t =? t') && (i =? i').

Definition sameFetch (a b : bool * string * nat) : bool :=
  let '(f, t, n) := a in
  let '(f', t', n') := b in
  Bool.eqb f f' && (t =? t') && (n =? n')%nat.

Definition resetChanged (s : FormState) : bool :=
  match depsReset s with
  | Some d => negb (sameReset d (depsOfReset s))
  | None => true
  end.

Definition fetchChanged (s : FormState) : bool :=
  match depsFetch s with
  | Some d => negb (sameFetch d (depsOfFetch s))
  | None => true
  end.

(** The cleanup of the fetch effect: [isCancelled = true; controller.abort()]. *)
Definition runCleanup (s : FormState) : FormState :=
  match cleanupFetch s with
  | Some id =>
      match nth_error (lookups s) id with
      | Some r =>
          setLookups (replaceNth id (mkRunning (vars r) true (phase r)) (lookups s)) s
      | None => s
      end
  | None => s
  end.

Definition hasValue (v : option Q) : bool :=
  match v with
  | Some _ => true
  | None => false
  end.

(** The body of the reset effect; [rendered] is the invoice of the render
    whose effects run, the updaters act on the current state. *)
Definition resetEffect (today : Z) (rendered : InvoiceData) (s : FormState)
  : Completion FormState :=
  if negb (isForeignCurrency rendered) then
    let s1 :=
      if negb (isEmpty (targetDate (exchangeRate rendered)))
         || negb (isEmpty (effectiveDate (exchangeRate rendered)))
         || hasValue (value (exchangeRate rendered))
      then setData (withExchangeRate (invoiceData s) (mkRate "" "" None)) s
      else s in
    Return (setStatus (mkStatus false None) s1)
  else if isEmpty (targetDate (exchangeRate rendered)) then
    bind (getPreviousBusinessDay today (issueDate rendered)) (fun defaultDate =>
    Return (setData
              (withExchangeRate (invoiceData s)
                 (mkRate defaultDate
                    (effectiveDate (exchangeRate (invoiceData s)))
                    (value (exchangeRate (invoiceData s))))) s))
  else Return s.

(** The body of the fetch effect: [fetchRate()] runs up to its first
    [await]. *)
Definition fetchEffect (rendered : InvoiceData) (s : FormState) : FormState :=
  if negb (isForeignCurrency rendered) then setCleanup None s
  else if isEmpty (targetDate (exchangeRate rendered)) then setCleanup None s
  else
    let id := List.length (lookups s) in
    let target := targetDate (exchangeRate rendered) in
    let lk := mkLookup (normalize (currency rendered)) target target 0 in
    let s1 := setCleanup (Some id) (setStatus (mkStatus true None) s) in
    match loopHead false lk with
    | Request lk1 =>
        sendRequest id lk1
          (setLookups (lookups s1 ++ [mkRunning lk1 false AwaitingFetch])%list s1)
    | LoopDone out =>
        applyOutcome target out
          (setLookups (lookups s1 ++ [mkRunning lk false Ended])%list s1)
    end.

(** A render followed by its effect pass: the cleanup of the fetch effect
    if its dependencies changed, then the bodies of the effects whose
    dependencies changed, in the order of the component. *)
Definition commit (today : Z) (s : FormState) : Completion FormState :=
  bind (getPreviousBusinessDay today (issueDate (invoiceData s))) (fun maxRate =>
  let s0 := setMaxRateDate maxRate s in
  let rendered := invoiceData s0 in
  let dr := depsOfReset s0 in
  let df := depsOfFetch s0 in
  let runReset := resetChanged s0 in
  let runFetch := fetchChanged s0 in
  let s1 := if runFetch then runCleanup s0 else s0 in
  bind (if runReset then resetEffect today rendered s1 else Return s1) (fun s2 =>
  let s3 := if runFetch then fetchEffect rendered s2 else s2 in
  Return (setDeps dr df s3))).

Definition stable (s : FormState) : bool :=
  negb (resetChanged s) && negb (fetchChanged s).

(** Renders follow one another until a render finds the dependencies of
    both effects unchanged.  [None]: more than [fuel] renders. *)
Fixpoint settle (fuel : nat) (today : Z) (s : FormState)
  : option (Completion FormState) :=
  match fuel with
  | O => None
  | S fuel' =>
      match commit today s with
      | Throw e => Some (Throw e)
      | Return s' => if stable s' then Some (Return s') else settle fuel' today s'
      end
  end.

(** What can happen to the mounted form: the user's actions, and the
    promises of the lookups settling. *)
Inductive Event :=
| CurrencyChange (value : string)
| RateDateChange (value : string)
| UsePreviousBusinessDay
| RefreshRate
| IssueDateChange (value : string)
| AppendNote (note : string)
| EditNotes (text : string)
| FetchSettled (id : nat) (r : FetchResult)
| JsonSettled (id : nat) (j : JsonResult).

(** A promise of a lookup is rejected with AbortError only after its
    signal was aborted. *)
Definition abortAllowed (c : bool) (e : Error) : bool :=
  negb (errName e =? "AbortError") || c.

Definition fetchAllowed (c : bool) (r : FetchResult) : bool :=
  match r with
  | FetchRejected e => abortAllowed c e
  | FetchResponse _ => true
  end.

Definition jsonAllowed (c : bool) (j : JsonResult) : bool :=
  match j with
  | JsonRejected e => abortAllowed c e
  | JsonValue _ => true
  end.

(** A run that ends discarded calls no state setter. *)
Definition setsState (out : Outcome) : bool :=
  match out with
  | Discarded => false
  | _ => true
  end.

Definition endLookup (id : nat) (r : Running) (out : Outcome) (s : FormState)
  : FormState * bool :=
  (applyOutcome (lookupTarget (vars r)) out
     (setLookups (replaceNth id (mkRunning (vars r) (isCancelled r) Ended) (lookups s)) s),
   setsState out).

(** [fetchRate] of lookup [id] resumes after [await fetch(...)]; the flag
    tells whether a state setter was called. *)
Definition resumeFetch (id : nat) (r : Running) (res : FetchResult) (s : FormState)
  : FormState * bool :=
  match afterFetch (isCancelled r) (vars r) res with
  | Again lk =>
      match loopHead (isCancelled r) lk with
      | Request lk1 =>
          (sendRequest id lk1
             (setLookups
                (replaceNth id (mkRunning lk1 (isCancelled r) AwaitingFetch) (lookups s)) s),
           false)
      | LoopDone out => endLookup id (mkRunning lk (isCancelled r) Ended) out s
      end
  | ReadJson =>
      (setLookups
         (replaceNth id (mkRunning (vars r) (isCancelled r) AwaitingJson) (lookups s)) s,
       false)
  | FetchDone out => endLookup id r out s
  end.

(** [fetchRate] of lookup [id] resumes after [await response.json()]. *)
Definition resumeJson (id : nat) (r : Running) (j : JsonResult) (s : FormState)
  : FormState * bool :=
  endLookup id r (afterJson (isCancelled r) j) s.

(** The handler of an event, before the render it causes, and whether it
    called a state setter.  In [handleIssueDateChange] the flag
    [shouldRefetch] is read after the updater has run.  [None]: the event
    cannot happen in [s] (its control is not rendered or is disabled, or
    no promise of that kind is pending). *)
Definition dispatch (today : Z) (ev : Event) (s : FormState)
  : option (Completion (FormState * bool)) :=
  let data := invoiceData s in
  match ev with
  | CurrencyChange v =>
      Some (bind (handleCurrencyChange today v data) (fun d =>
            Return (setStatus (mkStatus false None) (setData d s), true)))
  | RateDateChange v =>
      if isForeignCurrency data then
        Some (Return (clearError (setData (handleRateDateChange (maxRateDate s) v data) s),
                      true))
      else None
  | UsePreviousBusinessDay =>
      if isForeignCurrency data && negb (loading (rateStatus s)) then
        Some (bind (getPreviousBusinessDay today (issueDate data)) (fun previousDay =>
              Return (bumpTrigger (clearError (setData (usePreviousDay previousDay data) s)),
                      true)))
      else None
  | RefreshRate =>
      if isForeignCurrency data && negb (loading (rateStatus s)) then
        if isEmpty (targetDate (exchangeRate data)) then
          Some (bind (getPreviousBusinessDay today (issueDate data)) (fun previousDay =>
                Return (bumpTrigger
                          (setData (usePreviousDay previousDay data) (clearError s)),
                        true)))
        else Some (Return (bumpTrigger (clearError s), true))
      else None
  | IssueDateChange v =>
      Some (bind (handleIssueDateChange today v data) (fun '(d, shouldRefetch) =>
            if shouldRefetch : bool
            then Return (bumpTrigger (clearError (setData d s)), true)
            else Return (setData d s, true)))
  | AppendNote n => Some (Return (setData (appendNote n data) s, true))
  | EditNotes t => Some (Return (setData (withNotes data t) s, true))
  | FetchSettled id res =>
      match nth_error (lookups s) id with
      | Some r =>
          match phase r with
          | AwaitingFetch =>
              if fetchAllowed (isCancelled r) res
              then Some (Return (resumeFetch id r res s))
              else None
          | _ => None
          end
      | None => None
      end
  | JsonSettled id j =>
      match nth_error (lookups s) id with
      | Some r =>
          match phase r with
          | AwaitingJson =>
              if jsonAllowed (isCancelled r) j
              then Some (Return (resumeJson id r j s))
              else None
          | _ => None
          end
      | None => None
      end
  end.

(** One step of the form: an event, its handler and, if the handler set
    state, the renders that follow. *)
Definition step (fuel : nat) (today : Z) (ev : Event) (s : FormState)
  : option (Completion FormState) :=
  match dispatch today ev s with
  | Some (Return (s', true)) => settle fuel today s'
  | Some (Return (s', false)) => Some (Return s')
  | Some (Throw e) => Some (Throw e)
  | None => None
  end.

Definition unmounted (data : InvoiceData) : FormState :=
  mkForm data (mkStatus false None) 0 "" None None None [] [] [].

(** The form mounted on the day [today] with the initial invoice of [App]. *)
Definition mount (fuel : nat) (today : Z) : option (Completion FormState) :=
  match initialInvoice today with
  | Return data => settle fuel today (unmounted data)
  | Throw e => Some (Throw e)
  end.

(** The states of the form reached from the mount by events that satisfy
    [admits]; the day may differ from event to event. *)
Inductive reachableBy (admits : Event -> Prop) : FormState -> Prop :=
| reach_mount (fuel : nat) (today : Z) (s : FormState) :
    mount fuel today = Some (Return s) -> reachableBy admits s
| reach_step (fuel : nat) (today : Z) (ev : Event) (s s' : FormState) :
    reachableBy admits s -> admits ev ->
    step fuel today ev s = Some (Return s') -> reachableBy admits s'.

Definition reachable : FormState -> Prop := reachableBy (fun _ => True).

(** The form after the events [evs], all on the day [today], from [s]. *)
Fixpoint run (fuel : nat) (today : Z) (evs : list Event) (s : FormState)
  : option (Completion FormState) :=
  match evs with
  | [] => Some (Return s)
  | ev :: evs' =>
      match step fuel today ev s with
      | Some (Return s') => run fuel today evs' s'
      | other => other
      end
  end.

(** The form mounted on the day [today] and then taken through [evs]. *)
Definition session (fuel : nat) (today : Z) (evs : list Event)
  : option (Completion FormState) :=
  match mount fuel today with
  | Some (Return s) => run fuel today evs s
  | other => other
  end.

(** The state in which a session ends; the unmounted form with an empty
    invoice stands for a session that threw or did not come to rest. *)
Definition stateAfter (today : Z) (evs : list Event) : FormState :=
  match session 3 today evs with
  | Some (Return s) => s
  | _ =>
      unmounted (mkInvoice "" "" "" "" "" "" (emptyCompany None) (emptyCompany None)
                   [] "" None emptyRate)
  end.

(** The requests that lookup [id] has sent. *)
Definition requestsOf (id : nat) (s : FormState) : list (nat * string * string) :=
  filter (fun q => (fst (fst q) =? id)%nat) (requests s).

(** A lookup that still waits for a promise and was not cancelled. *)
Definition pending (r : Running) : bool :=
  negb (isCancelled r) &&
  match phase r with
  | Ended => false
  | _ => true
  end.

End Form.

(* ===================================================================== *)
(** ** More built-ins: [parseInt], [toString] and [Math.max] on integers  *)
(* ===================================================================== *)

Module Builtins.
Import JS.
Local Open Scope string_scope.
Local Open Scope Z_scope.

Definition hexDigitValue (c : ascii) : option Z :=
  let n := Z.of_nat (nat_of_ascii c) in
  if (48 <=? n) && (n <=? 57) then Some (n - 48)
  else if (65 <=? n) && (n <=? 70) then Some (n - 55)
  else if (97 <=? n) && (n <=? 102) then Some (n - 87)
  else None.

(** The value of the longest prefix of [s] made of digits of the radix,
    read after the digits that gave [acc]; [None] when there is no digit
    at all. *)
Fixpoint digitsPrefix (digit : ascii -> option Z) (radix : Z) (acc : option Z)
  (s : string) : option Z :=
  match s with
  | EmptyString => acc
  | String c s' =>
      match digit c with
      | Some d =>
          digitsPrefix digit radix
            (Some match acc with
                  | Some a => a * radix + d
                  | None => d
                  end) s'
      | None => acc
      end
  end.

(** [parseInt(s)] without a radix: leading white space is skipped, a sign
    is read, a prefix 0x or 0X selects radix 16, and the digits up to the
    first other character are the value.  [None] is NaN. *)
Definition parseInt (s : string) : option Z :=
  let s1 := trimStart s in
  let '(negative, s2) :=
    match s1 with
    | String c r =>
        if Ascii.eqb c "-" then (true, r)
        else if Ascii.eqb c "+" then (false, r)
        else (false, s1)
    | EmptyString => (false, s1)
    end in
  let '(hex, s3) :=
    match s2 with
    | String c (String x r) =>
        if Ascii.eqb c "0" && (Ascii.eqb x "x" || Ascii.eqb x "X")
        then (true, r) else (false, s2)
    | _ => (false, s2)
    end in
  let magnitude :=
    if hex : bool then digitsPrefix hexDigitValue 16 None s3
    else digitsPrefix digitValue 10 None s3 in
  option_map (fun n => if negative : bool then - n else n) magnitude.

(** [Number.MAX_SAFE_INTEGER]: up to it the integers are numbers of
    JavaScript, and [parseInt], [+ 1] and [toString] below work on them
    without rounding. *)
Definition MAX_SAFE_INTEGER : Z := 2 ^ 53 - 1.

(** [x || 0] on a number that may be NaN. *)
Definition orZero (x : option Z) : Z :=
  match x with
  | Some n => n
  | None => 0
  end.

(** [Math.max(...xs, last)] *)
Definition mathMax (xs : list Z) (last : Z) : Z := fold_right Z.max last xs.

(** The decimal digits of [n >= 0], for [n < 2 ^ fuel]. *)
Fixpoint digitsOf (fuel : nat) (n : Z) : string :=
  match fuel with
  | O => EmptyString
  | S fuel' =>
      if n <? 10 then String (digitChar n) EmptyString
      else digitsOf fuel' (n / 10) ++ String (digitChar (n mod 10)) EmptyString
  end.

(** [n.toString()] of an integer. *)
Definition toStringInt (n : Z) : string :=
  if n <? 0 then "-" ++ digitsOf (S (Z.to_nat (Z.log2 (- n)))) (- n)
  else digitsOf (S (Z.to_nat (Z.log2 n))) n.

End Builtins.

(* ===================================================================== *)
(** ** The form: the list of items (InvoiceForm.tsx)                      *)
(* ===================================================================== *)

Module Items.
Import PrimFloat JS Builtins Invoice.
Local Open Scope string_scope.

(** [{ ...prev, items: l }] *)
Definition withItems (prev : InvoiceData) (l : list Calculator.InvoiceItem)
  : InvoiceData :=
  mkInvoice (invoiceNumber prev) (issueDate prev) (saleDate prev)
    (paymentDeadline prev) (paymentMethod prev) (currency prev) (seller prev)
    (buyer prev) l (notes prev) (logo prev) (exchangeRate prev).

(** [(Math.max(...items.map(i => parseInt(i.id) || 0), 0) + 1).toString()] *)
Definition newId (l : list Calculator.InvoiceItem) : string :=
  toStringInt
    (mathMax (map (fun i => orZero (parseInt (Calculator.id i))) l) 0 + 1)%Z.

(** [addItem]: the id is computed from the invoice of the render whose
    handler runs, the updater appends to the current state. *)
Definition addItem (rendered prev : InvoiceData) : InvoiceData :=
  withItems prev
    (items prev
     ++ [Calculator.mkItem (newId (items rendered)) "" 1%float "szt." 0%float
           23%float])%list.

Definition removeItem (id : string) (rendered prev : InvoiceData) : InvoiceData :=
  if (1 <? List.length (items rendered))%nat then
    withItems prev
      (filter (fun item => negb (Calculator.id item =? id)) (items prev))
  else prev.

(** The field and the value of a call of [updateItem]: the five calls of
    the form pass the name, the quantity, the unit, the net price and the
    VAT rate, the three numbers as [parseFloat] read them. *)
Inductive FieldValue :=
| FieldName (v : string)
| FieldQuantity (v : float)
| FieldUnit (v : string)
| FieldNetPrice (v : float)
| FieldVatRate (v : float).

(** [{ ...item, [field]: value }] *)
Definition withField (item : Calculator.InvoiceItem) (f : FieldValue)
  : Calculator.InvoiceItem :=
  let '(Calculator.mkItem id name quantity unit netPrice vatRate) := item in
  match f with
  | FieldName v => Calculator.mkItem id v quantity unit netPrice vatRate
  | FieldQuantity v => Calculator.mkItem id name v unit netPrice vatRate
  | FieldUnit v => Calculator.mkItem id name quantity v netPrice vatRate
  | FieldNetPrice v => Calculator.mkItem id name quantity unit v vatRate
  | FieldVatRate v => Calculator.mkItem id name quantity unit netPrice v
  end.

Definition updateItem (id : string) (f : FieldValue) (prev : InvoiceData)
  : InvoiceData :=
  withItems prev
    (map (fun item => if Calculator.id item =? id then withField item f else item)
       (items prev)).

(** The three actions on the list of items; the handler of an action runs
    in the render of the state it acts on. *)
Inductive ItemAction :=
| AddItem
| RemoveItem (id : string)
| UpdateItem (id : string) (f : FieldValue).

Definition act (data : InvoiceData) (a : ItemAction) : InvoiceData :=
  match a with
  | AddItem => addItem data data
  | RemoveItem id => removeItem id data data
  | UpdateItem id f => updateItem id f data
  end.

End Items.

(* ===================================================================== *)
(** ** The form: saved companies (InvoiceForm.tsx)                        *)
(* ===================================================================== *)

Module Companies.
Import JS Invoice.
Local Open Scope string_scope.

Record SavedCompany := mkSaved { savedName : string; savedData : CompanyInfo }.

Inductive CompanyType := Seller | Buyer.

Inductive Toast :=
| ToastError (message : string)
| ToastSuccess (message : string).

(** The two lists of the component state, the two items of [localStorage]
    that mirror them, and the toasts shown.  An item of the storage is
    the JSON text of a list of saved companies; it is kept as the list
    that the text denotes ([JSON.parse] of [JSON.stringify] of such a list
    is the list), [None] being the missing key. *)
Record Book := mkBook {
  savedSellers : list SavedCompany;
  savedBuyers : list SavedCompany;
  storedSellers : option (list SavedCompany);
  storedBuyers : option (list SavedCompany);
  shown : list Toast
}.

Definition savedOf (type : CompanyType) (b : Book) : list SavedCompany :=
  match type with
  | Seller => savedSellers b
  | Buyer => savedBuyers b
  end.

Definition storedOf (type : CompanyType) (b : Book) : option (list SavedCompany) :=
  match type with
  | Seller => storedSellers b
  | Buyer => storedBuyers b
  end.

Definition toast (t : Toast) (b : Book) : Book :=
  mkBook (savedSellers b) (savedBuyers b) (storedSellers b) (storedBuyers b)
    (shown b ++ [t])%list.

(** [localStorage.setItem(storageKey, JSON.stringify(l))] followed by the
    state setter of the type. *)
Definition store (type : CompanyType) (l : list SavedCompany) (b : Book) : Book :=
  match type with
  | Seller => mkBook l (savedBuyers b) (Some l) (storedBuyers b) (shown b)
  | Buyer => mkBook (savedSellers b) l (storedSellers b) (Some l) (shown b)
  end.

(** [l.findIndex(p)]; [None] is -1. *)
Fixpoint findIndex {A} (p : A -> bool) (l : list A) : option nat :=
  match l with
  | [] => None
  | x :: l' => if p x then Some O else option_map S (findIndex p l')
  end.

Definition saveToCache (data : CompanyInfo) (type : CompanyType) (b : Book) : Book :=
  if Form.isEmpty (companyName data) then
    toast (ToastError "Podaj nazwę firmy, aby zapisać dane") b
  else
    let saved := mkSaved (companyName data) data in
    let currentSaved := savedOf type b in
    match findIndex (fun c => savedName c =? companyName data) currentSaved with
    | Some existingIndex =>
        store type (Form.replaceNth existingIndex saved currentSaved)
          (toast (ToastSuccess ("Dane zaktualizowane: " ++ companyName data)) b)
    | None =>
        store type (currentSaved ++ [saved])%list
          (toast (ToastSuccess ("Dane zapisane: " ++ companyName data)) b)
    end.

(** [{ ...prev, seller: c }] and [{ ...prev, buyer: c }] *)
Definition withCompany (type : CompanyType) (prev : InvoiceData) (c : CompanyInfo)
  : InvoiceData :=
  match type with
  | Seller =>
      mkInvoice (invoiceNumber prev) (issueDate prev) (saleDate prev)
        (paymentDeadline prev) (paymentMethod prev) (currency prev) c
        (buyer prev) (items prev) (notes prev) (logo prev) (exchangeRate prev)
  | Buyer =>
      mkInvoice (invoiceNumber prev) (issueDate prev) (saleDate prev)
        (paymentDeadline prev) (paymentMethod prev) (currency prev) (seller prev)
        c (items prev) (notes prev) (logo prev) (exchangeRate prev)
  end.

Definition companyOf (type : CompanyType) (data : InvoiceData) : CompanyInfo :=
  match type with
  | Seller => seller data
  | Buyer => buyer data
  end.

Definition loadFromCache (companyName : string) (type : CompanyType) (b : Book)
  (prev : InvoiceData) : InvoiceData * Book :=
  match find (fun c => savedName c =? companyName) (savedOf type b) with
  | Some company =>
      (withCompany type prev (savedData company),
       toast (ToastSuccess ("Wczytano: " ++ companyName)) b)
  | None => (prev, b)
  end.

(** The effect of the mount: the lists are read from the storage. *)
Definition loadSaved (b : Book) : Book :=
  let b1 :=
    match storedSellers b with
    | Some l => mkBook l (savedBuyers b) (storedSellers b) (storedBuyers b) (shown b)
    | None => b
    end in
  match storedBuyers b1 with
  | Some l => mkBook (savedSellers b1) l (storedSellers b1) (storedBuyers b1) (shown b1)
  | None => b1
  end.

(** The component mounted anew over the storage that [b] leaves. *)
Definition remount (b : Book) : Book :=
  loadSaved (mkBook [] [] (storedSellers b) (storedBuyers b) []).

End Companies.

(* ===================================================================== *)
(** ** The preview: whether it converts to PLN (InvoicePDFPreview.tsx)    *)
(* ===================================================================== *)

Module Preview.
Import JS Invoice.
Local Open Scope string_scope.

Definition conversionRate (data : InvoiceData) : option Q :=
  if negb (currency data =? "PLN") && Form.hasValue (value (exchangeRate data))
  then value (exchangeRate data) else None.

Definition shouldShowPlnBreakdown (data : InvoiceData) : bool :=
  negb (currency data =? "PLN") && Form.hasValue (conversionRate data).

End Preview.

(* ===================================================================== *)
(** ** The form: the status lines of the rate panel (InvoiceForm.tsx)     *)
(* ===================================================================== *)

Module Panel.
Import JS Invoice Form.
Local Open Scope string_scope.

(** The lines below the rate date and its two buttons.  A line stands for
    its element with the values that it shows; the wording and the
    formatting of the numbers ([toFixed]) are not modelled. *)
Inductive StatusLine :=
| Fetching
| RateLine (effectiveDate : string) (value : Q)
| Prompt
| ErrorLine (message : string)
| OtherDayNote (effectiveDate : string).

(** [x &&] on [rateStatus.error]. *)
Definition hasError (r : RateStatus) : bool :=
  match error r with
  | Some m => negb (isEmpty m)
  | None => false
  end.

(** The four lines on the state of the lookup, in the order of the
    markup. *)
Definition statusLines (s : FormState) : list StatusLine :=
  let rate := exchangeRate (invoiceData s) in
  let status := rateStatus s in
  ((if loading status then [Fetching] else [])
   ++ match value rate with
      | Some v =>
          if negb (loading status) && negb (isEmpty (effectiveDate rate))
          then [RateLine (effectiveDate rate) v] else []
      | None => []
      end
   ++ (if negb (loading status) && negb (hasValue (value rate))
          && negb (hasError status)
       then [Prompt] else [])
   ++ match error status with
      | Some m => if isEmpty m then [] else [ErrorLine m]
      | None => []
      end)%list.

(** The note that the rate is of another day than the one chosen. *)
Definition otherDayNote (s : FormState) : list StatusLine :=
  let rate := exchangeRate (invoiceData s) in
  if negb (loading (rateStatus s)) && negb (isEmpty (targetDate rate))
     && negb (isEmpty (effectiveDate rate))
     && negb (targetDate rate =? effectiveDate rate)
  then [OtherDayNote (effectiveDate rate)] else [].

(** The rate panel; it is rendered for a foreign currency only. *)
Definition ratePanel (s : FormState) : option (list StatusLine) :=
  if isForeignCurrency (invoiceData s)
  then Some (statusLines s ++ otherDayNote s)%list
  else None.

End Panel.

(* ===================================================================== *)
(** * Properties                                                          *)
(* ===================================================================== *)

(* ===================================================================== *)
(** ** Numbers: zeros, sums and integers                                  *)
(* ===================================================================== *)

Module NumberFacts.
Import PrimFloat SpecFloat FloatOps FloatAxioms Numbers.
Local Open Scope float_scope.

Lemma Prim2SF_zero : Prim2SF zero = S754_zero false.
Proof. reflexivity. Qed.

(** A number is a zero exactly if it compares equal to 0. *)
Lemma is_zero_Prim2SF (x : float) :
  is_zero x = true <-> exists s, Prim2SF x = S754_zero s.
Proof.
  unfold is_zero. rewrite eqb_spec, Prim2SF_zero. unfold SFeqb, SFcompare.
  destruct (Prim2SF x) as [s|s| |s m e].
  - split; [intros _; now exists s|reflexivity].
  - split; [destruct s; discriminate|intros [s' H]; discriminate].
  - split; [discriminate|intros [s' H]; discriminate].
  - split; [destruct s; discriminate|intros [s' H]; discriminate].
Qed.

Lemma sameNumber_refl (x : float) : sameNumber x x.
Proof. now left. Qed.

Lemma sameNumber_sym (x y : float) : sameNumber x y -> sameNumber y x.
Proof. intros [->|[H1 H2]]; [now left|right; now split]. Qed.

Lemma sameNumber_trans (x y z : float) :
  sameNumber x y -> sameNumber y z -> sameNumber x z.
Proof.
  intros [->|[H1 H2]] [->|[H3 H4]]; try (now left); try (right; now split).
Qed.

(** The two cases of [sameNumber] on the side of the specification. *)
Lemma sameNumber_Prim2SF (x y : float) :
  Prim2SF x = Prim2SF y
  \/ (exists s s', Prim2SF x = S754_zero s /\ Prim2SF y = S754_zero s') ->
  sameNumber x y.
Proof.
  intros [H|(s & s' & Hx & Hy)].
  - left. now apply Prim2SF_inj.
  - right. split; apply is_zero_Prim2SF; eauto.
Qed.

Lemma sameNumber_cases (x y : float) :
  sameNumber x y ->
  Prim2SF x = Prim2SF y
  \/ (exists s s', Prim2SF x = S754_zero s /\ Prim2SF y = S754_zero s').
Proof.
  intros [->|[Hx Hy]]; [now left|right].
  apply is_zero_Prim2SF in Hx, Hy. destruct Hx as [s Hx], Hy as [s' Hy]. eauto.
Qed.

(** Adding 0 changes at most the sign of a zero. *)
Lemma add_zero_r (x : float) : sameNumber (x + zero) x.
Proof.
  apply sameNumber_Prim2SF. rewrite add_spec, Prim2SF_zero.
  unfold SF64add, SFadd.
  destruct (Prim2SF x) as [[]|[]| |s m e]; eauto.
Qed.

Lemma add_zero_l (x : float) : sameNumber (zero + x) x.
Proof.
  apply sameNumber_Prim2SF. rewrite add_spec, Prim2SF_zero.
  unfold SF64add, SFadd.
  destruct (Prim2SF x) as [[]|[]| |s m e]; eauto.
Qed.

(** The sum of the same numbers is the same number. *)
Lemma add_sameNumber (x x' y y' : float) :
  sameNumber x x' -> sameNumber y y' -> sameNumber (x + y) (x' + y').
Proof.
  intros Hx Hy. apply sameNumber_cases in Hx, Hy. apply sameNumber_Prim2SF.
  rewrite !add_spec. unfold SF64add, SFadd.
  destruct Hx as [Hx|(s1 & s1' & Hx & Hx')], Hy as [Hy|(s2 & s2' & Hy & Hy')].
  - rewrite Hx, Hy. now left.
  - rewrite Hx, Hy, Hy'.
    destruct (Prim2SF x') as [[]|[]| |s m e], s2, s2'; eauto.
  - rewrite Hx, Hx', Hy.
    destruct (Prim2SF y') as [[]|[]| |s m e], s1, s1'; eauto.
  - rewrite Hx, Hx', Hy, Hy'. destruct s1, s1', s2, s2'; eauto.
Qed.


Local Open Scope Z_scope.

(** *** Integers

    An integer below 2^53 has a number of its own: reading it gives a
    mantissa of 53 digits, shifted by the digits that the integer
    lacks. *)

Lemma digits2_log2 (p : positive) : Zpos (digits2_pos p) = Z.log2 (Zpos p) + 1.
Proof.
  induction p as [p IH|p IH|]; cbn [digits2_pos].
  - rewrite Pos2Z.inj_succ, IH.
    change (Zpos p~1) with (2 * Zpos p + 1). rewrite Z.log2_succ_double by lia. lia.
  - rewrite Pos2Z.inj_succ, IH.
    change (Zpos p~0) with (2 * Zpos p). rewrite Z.log2_double by lia. lia.
  - reflexivity.
Qed.

Lemma iter_xO (k p : positive) : Zpos (Pos.iter xO p k) = Zpos p * 2 ^ Zpos k.
Proof.
  revert p. induction k as [|k IH] using Pos.peano_ind; intros p.
  - cbn [Pos.iter]. lia.
  - rewrite Pos.iter_succ. change (Zpos (Pos.iter xO p k)~0) with (2 * Zpos (Pos.iter xO p k)).
    rewrite IH, Pos2Z.inj_succ, Z.pow_succ_r by lia. lia.
Qed.

Lemma binary_round_integer (p : positive) :
  Zpos p < 2 ^ 53 ->
  exists m e,
    binary_round prec emax false p 0 = S754_finite false m e
    /\ SpecFloat.valid_binary prec emax (S754_finite false m e) = true
    /\ e <= 0 /\ Zpos m = Zpos p * 2 ^ (- e).
Proof.
  intros Hp.
  pose proof (digits2_log2 p) as Hd.
  assert (Hl : 0 <= Z.log2 (Zpos p) < 53).
  { split; [apply Z.log2_nonneg|]. apply Z.log2_lt_pow2; lia. }
  set (d := Zpos (digits2_pos p)) in *.
  assert (Hf : fexp prec emax (d + 0) = d - 53).
  { unfold fexp, SpecFloat.emin, prec, emax. lia. }
  unfold binary_round. fold d. rewrite Hf.
  unfold shl_align.
  destruct (d - 53 - 0) as [|k|k] eqn:Ek; try lia.
  - (* 53 digits already *)
    exists p, 0.
    assert (Hc : fexp prec emax (Zdigits2 (Zpos p) + 0) - 0 = 0).
    { cbn [Zdigits2]. fold d. unfold fexp, SpecFloat.emin, prec, emax. lia. }
    unfold binary_round_aux, shr_fexp. rewrite Hc. cbn [shr shr_record_of_loc shr_m
      loc_of_shr_record round_nearest_even]. rewrite Hc. cbn [shr shr_m].
    split; [reflexivity|]. split; [|split; [lia|cbn; lia]].
    cbn [SpecFloat.valid_binary]. unfold bounded, canonical_mantissa. fold d.
    rewrite Hf. apply andb_true_intro. split; [apply Z.eqb_eq; lia|reflexivity].
  - (* shifted left by k digits *)
    exists (Pos.iter xO p k), (d - 53).
    assert (Hk : Zpos k = 53 - d) by lia.
    assert (Hm : Zpos (Pos.iter xO p k) = Zpos p * 2 ^ Zpos k) by apply iter_xO.
    assert (Hd' : Zpos (digits2_pos (Pos.iter xO p k)) = 53).
    { rewrite digits2_log2, Hm, Z.log2_mul_pow2 by lia. lia. }
    assert (Hc : fexp prec emax (Zdigits2 (Zpos (Pos.iter xO p k)) + (d - 53))
                 - (d - 53) = 0).
    { cbn [Zdigits2]. rewrite Hd'. unfold fexp, SpecFloat.emin, prec, emax. lia. }
    unfold binary_round_aux, shr_fexp. rewrite Hc. cbn [shr shr_record_of_loc shr_m
      loc_of_shr_record round_nearest_even]. rewrite Hc. cbn [shr shr_m].
    replace (d - 53 <=? emax - prec) with true
      by (symmetry; apply Z.leb_le; unfold emax, prec; lia).
    split; [reflexivity|]. split; [|split; [lia|]].
    + cbn [SpecFloat.valid_binary]. unfold bounded, canonical_mantissa. rewrite Hd'.
      apply andb_true_intro. split.
      * apply Z.eqb_eq. unfold fexp, SpecFloat.emin, prec, emax. lia.
      * apply Z.leb_le. unfold emax, prec. lia.
    + rewrite Hm. f_equal. f_equal. lia.
Qed.

(** An integer from 0 to 2^53 is read as itself. *)
Lemma truncate_ofInteger (n : Z) :
  0 <= n < 2 ^ 53 -> truncate (ofInteger n) = Some n /\ is_nan (ofInteger n) = false.
Proof.
  intros Hn. destruct n as [|p|p]; [split; reflexivity| |lia].
  destruct (binary_round_integer p) as (m & e & Hr & Hv & He & Hm); [lia|].
  assert (Hs : Prim2SF (ofInteger (Zpos p)) = S754_finite false m e).
  { unfold ofInteger, roundDecimal. cbn [Z.leb Z.compare Z.pow Z.pow_pos Pos.iter].
    rewrite Z.mul_1_r. cbn [cond_Zopp binary_normalize]. rewrite Hr.
    now apply Prim2SF_SF2Prim. }
  split.
  - unfold truncate. rewrite Hs. cbn [cond_Zopp]. f_equal.
    destruct (0 <=? e) eqn:E.
    + apply Z.leb_le in E. assert (e = 0) by lia. subst e. cbn in Hm. lia.
    + rewrite Hm. apply Z.div_mul. apply Z.pow_nonzero; lia.
  - unfold is_nan. rewrite eqb_spec, Hs. unfold SFeqb, SFcompare.
    rewrite Z.compare_refl, Pos.compare_cont_refl. reflexivity.
Qed.

(** *** Sums that are not the negative zero *)

Lemma fexp_binary64 (e : Z) : fexp prec emax e = Z.max (e - 53) (-1074).
Proof. reflexivity. Qed.

Lemma shr_1_digits (r : shr_record) (q : positive) :
  shr_m r = Zpos q -> 1 < Zpos (digits2_pos q) ->
  exists q', shr_m (shr_1 r) = Zpos q'
             /\ Zpos (digits2_pos q') = Zpos (digits2_pos q) - 1.
Proof.
  destruct r as [m b s]. cbn [shr_m]. intros -> Hq.
  destruct q as [q|q|]; cbn [shr_1 shr_m digits2_pos] in *.
  - exists q. split; [reflexivity|lia].
  - exists q. split; [reflexivity|lia].
  - lia.
Qed.

Lemma iter_shr_1_digits (p : positive) :
  forall (r : shr_record) (q : positive),
    shr_m r = Zpos q -> Zpos p < Zpos (digits2_pos q) ->
    exists q', shr_m (iter_pos shr_1 p r) = Zpos q'
               /\ Zpos (digits2_pos q') = Zpos (digits2_pos q) - Zpos p.
Proof.
  induction p as [p IH|p IH|]; intros r q Hr Hq; cbn [iter_pos].
  - destruct (shr_1_digits r q Hr ltac:(lia)) as (q1 & H1 & D1).
    destruct (IH _ q1 H1 ltac:(lia)) as (q2 & H2 & D2).
    destruct (IH _ q2 H2 ltac:(lia)) as (q3 & H3 & D3).
    exists q3. split; [exact H3|lia].
  - destruct (IH r q Hr ltac:(lia)) as (q1 & H1 & D1).
    destruct (IH _ q1 H1 ltac:(lia)) as (q2 & H2 & D2).
    exists q2. split; [exact H2|lia].
  - destruct (shr_1_digits r q Hr Hq) as (q' & H' & D'). exists q'. split; [exact H'|lia].
Qed.

(** Shifting a mantissa as far as the format asks leaves a mantissa,
    when the exponent is one of the format. *)
Lemma shr_fexp_positive (q : positive) (e : Z) (l : location) :
  -1074 <= e ->
  exists q' e', shr_fexp prec emax (Zpos q) e l = (q', e')
                /\ (exists m, shr_m q' = Zpos m) /\ -1074 <= e'.
Proof.
  intros He. unfold shr_fexp. rewrite fexp_binary64. cbn [Zdigits2].
  set (r := shr_record_of_loc (Zpos q) l).
  assert (Hr : shr_m r = Zpos q) by (unfold r; destruct l as [|[]]; reflexivity).
  destruct (Z.max (Zpos (digits2_pos q) + e - 53) (-1074) - e) as [|n|n] eqn:En;
    cbn [shr].
  - eexists _, _. split; [reflexivity|]. split; [now exists q|lia].
  - destruct (iter_shr_1_digits n r q Hr ltac:(lia)) as (m & Hm & _).
    eexists _, _. split; [reflexivity|]. split; [now exists m|lia].
  - eexists _, _. split; [reflexivity|]. split; [now exists q|lia].
Qed.

Lemma round_nearest_even_positive (m : positive) (l : location) :
  exists m', round_nearest_even (Zpos m) l = Zpos m'.
Proof.
  destruct l as [|[]]; cbn [round_nearest_even]; try (now eexists).
  destruct (Z.even (Zpos m)); now eexists.
Qed.

Lemma binary_round_aux_not_zero (sx : bool) (q : positive) (e : Z) (l : location)
  (s : bool) :
  -1074 <= e -> binary_round_aux prec emax sx (Zpos q) e l <> S754_zero s.
Proof.
  intros He. unfold binary_round_aux.
  destruct (shr_fexp_positive q e l He) as (r1 & e1 & -> & [m1 Hm1] & He1).
  rewrite Hm1.
  destruct (round_nearest_even_positive m1 (loc_of_shr_record r1)) as [m2 ->].
  destruct (shr_fexp_positive m2 e1 loc_Exact He1) as (r2 & e2 & -> & [m3 Hm3] & He2).
  rewrite Hm3. destruct (e2 <=? emax - prec); discriminate.
Qed.

Lemma binary_round_not_zero (sx : bool) (q : positive) (e : Z) (s : bool) :
  -1074 <= e -> binary_round prec emax sx q e <> S754_zero s.
Proof.
  intros He. unfold binary_round, shl_align. rewrite fexp_binary64.
  destruct (Z.max (Zpos (digits2_pos q) + e - 53) (-1074) - e) as [|n|n] eqn:En;
    apply binary_round_aux_not_zero; lia.
Qed.

Lemma valid_exponent (s : bool) (m : positive) (e : Z) :
  SpecFloat.valid_binary prec emax (S754_finite s m e) = true -> -1074 <= e.
Proof.
  cbn [SpecFloat.valid_binary]. unfold bounded, canonical_mantissa.
  rewrite fexp_binary64. intros H. apply andb_prop in H. destruct H as [H _].
  apply Z.eqb_eq in H. lia.
Qed.

Lemma SFadd_not_neg_zero (x y : spec_float) :
  SpecFloat.valid_binary prec emax x = true ->
  SpecFloat.valid_binary prec emax y = true ->
  x <> S754_zero true -> SFadd prec emax x y <> S754_zero true.
Proof.
  intros Hx Hy Hn. unfold SFadd.
  destruct x as [[]|[]| |sx mx ex], y as [[]|[]| |sy my ey];
    try discriminate; try congruence.
  apply valid_exponent in Hx, Hy. cbv zeta.
  destruct (cond_Zopp sx (Zpos (fst (shl_align mx ex (Z.min ex ey))))
            + cond_Zopp sy (Zpos (fst (shl_align my ey (Z.min ex ey)))));
    cbn [binary_normalize]; [discriminate| |]; apply binary_round_not_zero; lia.
Qed.

Local Open Scope float_scope.

(** A sum is the negative zero only if its first term is. *)
Lemma add_not_neg_zero (x y : float) : x <> neg_zero -> x + y <> neg_zero.
Proof.
  intros Hx H. apply (f_equal Prim2SF) in H. rewrite add_spec in H.
  revert H. apply SFadd_not_neg_zero; try apply Prim2SF_valid.
  intros E. apply Hx. now apply Prim2SF_inj.
Qed.

(** Adding 0 to a number other than the negative zero gives the number. *)
Lemma add_zero_exact (x : float) : x <> neg_zero -> x + 0 = x /\ 0 + x = x.
Proof.
  intros Hx.
  assert (Hs : Prim2SF x <> S754_zero true).
  { intros E. apply Hx. now apply Prim2SF_inj. }
  split; apply Prim2SF_inj; rewrite add_spec; change (Prim2SF 0) with (S754_zero false);
    unfold SF64add, SFadd; destruct (Prim2SF x) as [[]|[]| |s m e]; congruence.
Qed.

Lemma zero_not_neg_zero : zero <> neg_zero.
Proof. intros H. apply (f_equal Prim2SF) in H. discriminate H. Qed.

End NumberFacts.

(* ===================================================================== *)
(** ** Totals of the calculator                                           *)
(* ===================================================================== *)

Module CalculatorFacts.
Import PrimFloat SpecFloat FloatOps FloatAxioms Numbers Calculator NumberFacts.
Local Open Scope float_scope.

(** *** Keys *)

Lemma sameKey_refl (k : float) : sameKey k k = true.
Proof.
  unfold sameKey. destruct (arrayIndex k); [apply Z.eqb_refl|].
  now apply Leibniz.eqb_spec.
Qed.

Lemma sameKey_sym (a b : float) : sameKey a b = sameKey b a.
Proof.
  unfold sameKey. destruct (arrayIndex a), (arrayIndex b); try reflexivity.
  - apply Z.eqb_sym.
  - destruct (Leibniz.eqb a b) eqn:E1, (Leibniz.eqb b a) eqn:E2; try reflexivity.
    + apply Leibniz.eqb_spec in E1. subst b.
      assert (Leibniz.eqb a a = true) by now apply Leibniz.eqb_spec. congruence.
    + apply Leibniz.eqb_spec in E2. subst b.
      assert (Leibniz.eqb a a = true) by now apply Leibniz.eqb_spec. congruence.
Qed.

Lemma sameKey_trans (a b c : float) :
  sameKey a b = true -> sameKey b c = sameKey a c.
Proof.
  unfold sameKey.
  destruct (arrayIndex a) as [n|], (arrayIndex b) as [m|]; try discriminate.
  - intros H. apply Z.eqb_eq in H. now subst m.
  - intros H. apply Leibniz.eqb_spec in H. now subst b.
Qed.

(** The same key is the same array index, or none. *)
Lemma sameKey_arrayIndex (a b : float) :
  sameKey a b = true -> arrayIndex a = arrayIndex b.
Proof.
  unfold sameKey.
  destruct (arrayIndex a) as [n|], (arrayIndex b) as [m|]; try discriminate.
  - intros H. apply Z.eqb_eq in H. now subst m.
  - reflexivity.
Qed.

Lemma arrayIndex_zero (k : float) : is_zero k = true -> arrayIndex k = Some 0%Z.
Proof.
  intros H. apply is_zero_Prim2SF in H. destruct H as [s H].
  unfold arrayIndex, integerOf. now rewrite H.
Qed.

(** A number has the key of the number that its string denotes. *)
Lemma sameKey_keyNumber (k : float) : sameKey (keyNumber k) k = true.
Proof.
  unfold keyNumber. destruct (is_zero k) eqn:E; [|apply sameKey_refl].
  unfold sameKey. now rewrite (arrayIndex_zero k E).
Qed.

(** *** Lookup after the two updates of [forEach] *)

Definition keys (o : Breakdown) : list float := map fst o.

Lemma lookup_sameKey (a b : float) (o : Breakdown) :
  sameKey a b = true -> lookup a o = lookup b o.
Proof.
  intros H. induction o as [|[k' b'] o IH]; cbn [lookup]; [reflexivity|].
  rewrite <- (sameKey_trans a b k' H). now rewrite IH.
Qed.

Lemma lookup_create_same (r k : float) (b : Bucket) (o : Breakdown) :
  sameKey r k = true -> lookup k o = None -> lookup r (create k b o) = Some b.
Proof.
  intros Hr. induction o as [|[k' b'] o IH]; cbn [create lookup]; intros Hk.
  - now rewrite Hr.
  - destruct (sameKey k k') eqn:Hkk; [discriminate|].
    destruct (goesBefore k k'); cbn [lookup].
    + now rewrite Hr.
    + rewrite <- (sameKey_trans r k k' Hr), Hkk. exact (IH Hk).
Qed.

Lemma lookup_create_other (r k : float) (b : Bucket) (o : Breakdown) :
  sameKey r k = false -> lookup r (create k b o) = lookup r o.
Proof.
  intros Hr. induction o as [|[k' b'] o IH]; cbn [create lookup].
  - now rewrite Hr.
  - destruct (goesBefore k k'); cbn [lookup].
    + now rewrite Hr.
    + now rewrite IH.
Qed.

(** The fields of the bucket of [k] after [accumulate]. *)
Definition grown (n v g : float) (b : Bucket) : Bucket :=
  mkBucket (net b + n) (vat b + v) (gross b + g).

Lemma lookup_accumulate_same (r k n v g : float) (o : Breakdown) :
  sameKey r k = true ->
  lookup r (accumulate k n v g o) = option_map (grown n v g) (lookup r o).
Proof.
  intros Hr. induction o as [|[k' b'] o IH]; cbn [accumulate lookup option_map].
  - reflexivity.
  - rewrite (sameKey_trans r k k' Hr).
    destruct (sameKey r k') eqn:E; cbn [lookup option_map]; rewrite E;
      [reflexivity|exact IH].
Qed.

Lemma lookup_accumulate_other (r k n v g : float) (o : Breakdown) :
  sameKey r k = false -> lookup r (accumulate k n v g o) = lookup r o.
Proof.
  intros Hr. induction o as [|[k' b'] o IH]; cbn [accumulate lookup].
  - reflexivity.
  - destruct (sameKey k k') eqn:E; cbn [lookup].
    + assert (Hrk : sameKey r k' = false).
      { rewrite (sameKey_sym r k'), (sameKey_trans k k' r E), (sameKey_sym k r).
        exact Hr. }
      now rewrite Hrk.
    + now rewrite IH.
Qed.

Lemma keys_accumulate (k n v g : float) (o : Breakdown) :
  keys (accumulate k n v g o) = keys o.
Proof.
  unfold keys. induction o as [|[k' b'] o IH]; cbn [accumulate map fst].
  - reflexivity.
  - destruct (sameKey k k'); cbn [map fst]; [reflexivity|now rewrite IH].
Qed.

(** [forEach] is a left fold: the last item is added last. *)
Lemma fold_addItem_snoc (items : list InvoiceItem) (item : InvoiceItem) :
  fold_left addItem (items ++ [item]) [] = addItem (fold_left addItem items []) item.
Proof. now rewrite fold_left_app. Qed.

(** What [forEach] does to the row that [r] reads. *)
Lemma lookup_addItem (r : float) (o : Breakdown) (item : InvoiceItem) :
  lookup r (addItem o item)
  = if sameKey r (vatRate item)
    then Some (grown (netAmount item) (vatAmount item) (grossAmount item)
                 match lookup r o with
                 | Some b => b
                 | None => mkBucket 0 0 0
                 end)
    else lookup r o.
Proof.
  unfold addItem.
  assert (Hkey : forall x, sameKey x (keyNumber (vatRate item))
                           = sameKey x (vatRate item)).
  { intros x.
    rewrite (sameKey_sym x (keyNumber _)),
      <- (sameKey_trans _ _ x (sameKey_keyNumber (vatRate item))).
    apply sameKey_sym. }
  destruct (sameKey r (vatRate item)) eqn:Hr.
  - pose proof (lookup_sameKey r (vatRate item) o Hr) as Hl.
    rewrite lookup_accumulate_same by exact Hr.
    destruct (lookup (vatRate item) o) eqn:Hk; rewrite Hl; [reflexivity|].
    rewrite (lookup_create_same r (keyNumber (vatRate item))); [reflexivity| |].
    + now rewrite Hkey.
    + now rewrite (lookup_sameKey _ (vatRate item) o (sameKey_keyNumber _)).
  - rewrite lookup_accumulate_other by exact Hr.
    destruct (lookup (vatRate item) o); [reflexivity|].
    apply lookup_create_other. now rewrite Hkey.
Qed.

(** *** The row of a rate *)

(** The items of the rate [r], in the order of the invoice. *)
Definition itemsAt (r : float) (items : list InvoiceItem) : list InvoiceItem :=
  filter (fun item => sameKey (vatRate item) r) items.

(** The sum of [f] over the items, added up from 0 in their order, each
    addition rounded. *)
Definition sumInOrder (f : InvoiceItem -> float) (items : list InvoiceItem) : float :=
  fold_left (fun sum item => sum + f item) items 0.

(** The row of the items [l] of one rate. *)
Definition bucketOf (l : list InvoiceItem) : Bucket :=
  mkBucket (sumInOrder netAmount l) (sumInOrder vatAmount l)
    (sumInOrder grossAmount l).

Lemma sumInOrder_snoc (f : InvoiceItem -> float) (l : list InvoiceItem)
  (item : InvoiceItem) :
  sumInOrder f (l ++ [item]) = sumInOrder f l + f item.
Proof. unfold sumInOrder. now rewrite fold_left_app. Qed.

(** A sum taken from 0 is never the negative zero. *)
Lemma sumInOrder_not_neg_zero (f : InvoiceItem -> float) (l : list InvoiceItem) :
  sumInOrder f l <> neg_zero.
Proof.
  induction l as [|item l IH] using rev_ind.
  - exact zero_not_neg_zero.
  - rewrite sumInOrder_snoc. now apply add_not_neg_zero.
Qed.

Lemma bucketOf_snoc (l : list InvoiceItem) (item : InvoiceItem) :
  bucketOf (l ++ [item])
  = grown (netAmount item) (vatAmount item) (grossAmount item) (bucketOf l).
Proof. unfold bucketOf, grown. cbn [net vat gross]. now rewrite !sumInOrder_snoc. Qed.

Lemma itemsAt_snoc (r : float) (items : list InvoiceItem) (item : InvoiceItem) :
  itemsAt r (items ++ [item])
  = (itemsAt r items ++ (if sameKey (vatRate item) r then [item] else []))%list.
Proof.
  unfold itemsAt. rewrite filter_app. cbn [filter]. reflexivity.
Qed.

(** The row that [r] reads is the row of the items of that rate. *)
Lemma rows_sum_items (items : list InvoiceItem) (r : float) :
  lookup r (fold_left addItem items [])
  = match itemsAt r items with
    | [] => None
    | l => Some (bucketOf l)
    end.
Proof.
  induction items as [|item items IH] using rev_ind.
  - reflexivity.
  - rewrite fold_addItem_snoc, lookup_addItem, itemsAt_snoc, IH.
    rewrite (sameKey_sym r (vatRate item)).
    destruct (sameKey (vatRate item) r) eqn:Hr.
    + destruct (itemsAt r items) as [|i l].
      * exact (f_equal Some (eq_sym (bucketOf_snoc [] item))).
      * exact (f_equal Some (eq_sym (bucketOf_snoc (i :: l) item))).
    + now rewrite app_nil_r.
Qed.

(** *** One row per rate, in the order of the object's keys *)

(** No two rows have the same key. *)
Fixpoint distinctKeys (o : Breakdown) : Prop :=
  match o with
  | [] => True
  | (k, _) :: o' => lookup k o' = None /\ distinctKeys o'
  end.

(** Every row before a row of an array index is a row of a smaller array
    index. *)
Fixpoint indicesFirst (o : Breakdown) : Prop :=
  match o with
  | [] => True
  | (k, _) :: o' =>
      (forall k' n', In k' (keys o') -> arrayIndex k' = Some n' ->
                     exists n, arrayIndex k = Some n /\ (n < n')%Z)
      /\ indicesFirst o'
  end.

Lemma lookup_None_keys (r : float) (o : Breakdown) :
  lookup r o = None <-> forall k, In k (keys o) -> sameKey r k = false.
Proof.
  unfold keys. induction o as [|[k' b'] o IH]; cbn [lookup map fst In].
  - split; [intros _ k []|reflexivity].
  - destruct (sameKey r k') eqn:E.
    + split; [discriminate|]. intros H. exfalso.
      specialize (H k' (or_introl eq_refl)). congruence.
    + rewrite IH. split.
      * intros H k [<-|Hin]; [exact E|now apply H].
      * intros H k Hin. apply H. now right.
Qed.

Lemma keys_create (k : float) (b : Bucket) (o : Breakdown) :
  forall x, In x (keys (create k b o)) <-> x = k \/ In x (keys o).
Proof.
  unfold keys. induction o as [|[k' b'] o IH]; intros x; cbn [create map fst In].
  - intuition.
  - destruct (goesBefore k k'); cbn [map fst In].
    + intuition.
    + rewrite IH. intuition.
Qed.

Lemma distinctKeys_create (k : float) (b : Bucket) (o : Breakdown) :
  lookup k o = None -> distinctKeys o -> distinctKeys (create k b o).
Proof.
  induction o as [|[k' b'] o IH]; cbn [create lookup distinctKeys].
  - intros _ _. split; [reflexivity|exact I].
  - destruct (sameKey k k') eqn:E; [discriminate|]. intros Hk [Hk' Hd].
    destruct (goesBefore k k'); cbn [distinctKeys lookup].
    + rewrite E. repeat split; assumption.
    + split; [|exact (IH Hk Hd)].
      rewrite lookup_create_other; [exact Hk'|].
      now rewrite sameKey_sym.
Qed.

Lemma distinctKeys_accumulate (k n v g : float) (o : Breakdown) :
  distinctKeys o -> distinctKeys (accumulate k n v g o).
Proof.
  induction o as [|[k' b'] o IH]; cbn [accumulate distinctKeys]; [exact (fun H => H)|].
  intros [Hk Hd].
  destruct (sameKey k k') eqn:E; cbn [distinctKeys].
  - split; assumption.
  - split; [|exact (IH Hd)].
    destruct (sameKey k' k) eqn:E'; [rewrite sameKey_sym in E'; congruence|].
    now rewrite lookup_accumulate_other.
Qed.

Lemma indicesFirst_create (k : float) (b : Bucket) (o : Breakdown) :
  lookup k o = None -> indicesFirst o -> indicesFirst (create k b o).
Proof.
  induction o as [|[k' b'] o IH]; cbn [create lookup indicesFirst].
  - intros _ _. split; [intros k' n' []|exact I].
  - destruct (sameKey k k') eqn:E; [discriminate|]. intros Hk [Hfirst Hrest].
    destruct (goesBefore k k') eqn:Ht; cbn [indicesFirst].
    + (* the new key goes first *)
      split; [|split; assumption].
      intros x nx Hx Hxi.
      change (keys ((k', b') :: o)) with (k' :: keys o) in Hx.
      unfold goesBefore in Ht. unfold sameKey in E.
      destruct (arrayIndex k) as [n|]; [|discriminate].
      exists n. split; [reflexivity|].
      assert (Hhead : forall m, arrayIndex k' = Some m -> (n < m)%Z).
      { intros m Hm. rewrite Hm in Ht, E.
        apply Z.leb_le in Ht. apply Z.eqb_neq in E. lia. }
      destruct Hx as [<-|Hx]; [now apply Hhead|].
      destruct (Hfirst x nx Hx Hxi) as (m & Hm & Hlt).
      specialize (Hhead m Hm). lia.
    + (* the new key goes further back *)
      split; [|exact (IH Hk Hrest)].
      intros x nx Hx Hxi. apply keys_create in Hx.
      destruct Hx as [->|Hx]; [|exact (Hfirst x nx Hx Hxi)].
      unfold goesBefore in Ht. rewrite Hxi in Ht.
      destruct (arrayIndex k') as [m|]; [|discriminate].
      exists m. split; [reflexivity|]. apply Z.leb_gt in Ht. exact Ht.
Qed.

Lemma indicesFirst_keys (o o' : Breakdown) :
  keys o = keys o' -> indicesFirst o -> indicesFirst o'.
Proof.
  revert o'. induction o as [|[k b] o IH]; intros [|[k' b'] o'] Hk;
    try discriminate; cbn [indicesFirst]; [exact (fun H => H)|].
  unfold keys in Hk. cbn [map fst] in Hk. injection Hk as <- Hk.
  intros [Hfirst Hrest]. split; [|exact (IH o' Hk Hrest)].
  unfold keys in *. now rewrite <- Hk.
Qed.

(** The rows come from the items: a row has the number of the key of an
    item. *)
Definition fromItems (items : list InvoiceItem) (o : Breakdown) : Prop :=
  (forall k, In k (keys o) ->
             exists item, In item items /\ keyNumber (vatRate item) = k)
  /\ (List.length o <= List.length items)%nat.

Lemma length_accumulate (k n v g : float) (o : Breakdown) :
  List.length (accumulate k n v g o) = List.length o.
Proof.
  rewrite <- (length_map fst (accumulate k n v g o)), <- (length_map fst o).
  fold (keys (accumulate k n v g o)) (keys o). now rewrite keys_accumulate.
Qed.

Lemma length_create (k : float) (b : Bucket) (o : Breakdown) :
  List.length (create k b o) = S (List.length o).
Proof.
  induction o as [|[k' b'] o IH]; cbn [create]; [reflexivity|].
  destruct (goesBefore k k'); cbn [List.length]; [reflexivity|now rewrite IH].
Qed.

Lemma rows_of_items (items : list InvoiceItem) :
  distinctKeys (fold_left addItem items [])
  /\ indicesFirst (fold_left addItem items [])
  /\ fromItems items (fold_left addItem items []).
Proof.
  induction items as [|item items (Hd & Ho & Hf & Hl)] using rev_ind.
  - cbn [fold_left distinctKeys indicesFirst]. unfold fromItems.
    cbn [keys map List.length In].
    split; [exact I|split; [exact I|split; [intros k []|lia]]].
  - rewrite fold_addItem_snoc.
    set (o := fold_left addItem items []) in *. unfold addItem.
    destruct (lookup (vatRate item) o) eqn:Hk.
    + split; [now apply distinctKeys_accumulate|].
      split; [apply (indicesFirst_keys o); [now rewrite keys_accumulate|exact Ho]|].
      split.
      * rewrite keys_accumulate. intros k Hin.
        destruct (Hf k Hin) as (i & Hi & Hr). exists i.
        split; [apply in_or_app; now left|exact Hr].
      * rewrite length_accumulate, length_app. cbn. lia.
    + assert (Hk' : lookup (keyNumber (vatRate item)) o = None)
        by now rewrite (lookup_sameKey _ _ o (sameKey_keyNumber (vatRate item))).
      split; [apply distinctKeys_accumulate; now apply distinctKeys_create|].
      split.
      * apply (indicesFirst_keys
                 (create (keyNumber (vatRate item)) (mkBucket 0 0 0) o));
          [now rewrite keys_accumulate|now apply indicesFirst_create].
      * split.
        -- rewrite keys_accumulate. intros k Hin. apply keys_create in Hin.
           destruct Hin as [->|Hin].
           ++ exists item. split; [apply in_or_app; right; now left|reflexivity].
           ++ destruct (Hf k Hin) as (i & Hi & Hr). exists i.
              split; [apply in_or_app; now left|exact Hr].
        -- rewrite length_accumulate, length_create, length_app. cbn. lia.
Qed.

Lemma nth_error_keys (o : Breakdown) (i : nat) (k : float) (b : Bucket) :
  nth_error o i = Some (k, b) -> nth_error (keys o) i = Some k.
Proof.
  intros H. unfold keys. now rewrite nth_error_map, H.
Qed.

Lemma distinctKeys_positions (o : Breakdown) :
  distinctKeys o ->
  forall i j ki bi kj bj,
    (i < j)%nat -> nth_error o i = Some (ki, bi) -> nth_error o j = Some (kj, bj) ->
    sameKey ki kj = false.
Proof.
  induction o as [|[k b] o IH]; cbn [distinctKeys].
  - intros _ i j ki bi kj bj _ Hi. destruct i; discriminate.
  - intros [Hk Hd] i j ki bi kj bj Hij Hi Hj.
    destruct j as [|j]; [lia|]. cbn [nth_error] in Hj.
    destruct i as [|i].
    + cbn [nth_error] in Hi. injection Hi as -> ->.
      apply (proj1 (lookup_None_keys ki o) Hk).
      apply nth_error_In with j. exact (nth_error_keys o j kj bj Hj).
    + cbn [nth_error] in Hi. apply (IH Hd i j ki bi kj bj); [lia|assumption|assumption].
Qed.

Lemma indicesFirst_positions (o : Breakdown) :
  indicesFirst o ->
  forall i j ki bi kj bj nj,
    (i < j)%nat -> nth_error o i = Some (ki, bi) -> nth_error o j = Some (kj, bj) ->
    arrayIndex kj = Some nj ->
    exists ni, arrayIndex ki = Some ni /\ (ni < nj)%Z.
Proof.
  induction o as [|[k b] o IH]; cbn [indicesFirst].
  - intros _ i j ki bi kj bj nj _ Hi. destruct i; discriminate.
  - intros [Hk Hd] i j ki bi kj bj nj Hij Hi Hj.
    destruct j as [|j]; [lia|]. cbn [nth_error] in Hj.
    destruct i as [|i].
    + cbn [nth_error] in Hi. injection Hi as -> ->.
      apply Hk. apply nth_error_In with j. exact (nth_error_keys o j kj bj Hj).
    + cbn [nth_error] in Hi.
      apply (IH Hd i j ki bi kj bj nj); [lia|assumption|assumption].
Qed.

(** With distinct keys a row is the row that its key reads. *)
Lemma lookup_row (o : Breakdown) (k : float) (b : Bucket) :
  distinctKeys o -> In (k, b) o -> lookup k o = Some b.
Proof.
  induction o as [|[k' b'] o IH]; cbn [distinctKeys lookup In]; [intros _ []|].
  intros [Hk Hd] [Hin|Hin].
  - injection Hin as -> ->. now rewrite sameKey_refl.
  - destruct (sameKey k k') eqn:E; [|exact (IH Hd Hin)].
    exfalso. rewrite <- (lookup_sameKey k k' o E), (IH Hd Hin) in Hk. discriminate.
Qed.

(** Every row is the row of the items of its rate. *)
Lemma rows_are_buckets (items : list InvoiceItem) :
  Forall (fun row => snd row = bucketOf (itemsAt (fst row) items))
    (fold_left addItem items []).
Proof.
  destruct (rows_of_items items) as (Hd & _).
  apply Forall_forall. intros [k b] Hin. cbn [fst snd].
  pose proof (lookup_row _ k b Hd Hin) as H.
  rewrite rows_sum_items in H.
  destruct (itemsAt k items); [discriminate|now injection H as <-].
Qed.


(** *** One rate *)


(** *** The totals *)








End CalculatorFacts.

(* ===================================================================== *)
(** ** Notes                                                              *)
(* ===================================================================== *)

Module NoteFacts.
Import JS Invoice Form.
Local Open Scope string_scope.

Lemma prefix_refl (s : string) : String.prefix s s = true.
Proof.
  induction s as [|c s IH]; [reflexivity|].
  cbn [String.prefix]. destruct (ascii_dec c c); [exact IH|congruence].
Qed.

(** A string ends with its own suffix. *)
Lemma includes_suffix (a b : string) : includes (a ++ b) b = true.
Proof.
  induction a as [|c a IH].
  - cbn [append]. destruct b as [|c b]; cbn [includes].
    + reflexivity.
    + rewrite prefix_refl. reflexivity.
  - cbn [append includes]. rewrite IH. apply orb_true_r.
Qed.

Lemma append_assoc (a b c : string) : (a ++ b) ++ c = a ++ (b ++ c).
Proof.
  induction a as [|x a IH]; cbn [append]; [reflexivity|now rewrite IH].
Qed.

(** C10.  [appendNote] leaves an invoice that already contains the note
    as it is, and applying it twice gives what applying it once gives. *)
Theorem appendNote_idempotent (note : string) (prev : InvoiceData) :
  (includes (notes prev) note = true -> appendNote note prev = prev)
  /\ appendNote note (appendNote note prev) = appendNote note prev
  /\ notes (appendNote note (appendNote note prev)) = notes (appendNote note prev).
Proof.
  assert (Hin : includes (notes prev) note = true -> appendNote note prev = prev).
  { intros H. unfold appendNote. now rewrite H. }
  assert (Htwice : appendNote note (appendNote note prev) = appendNote note prev).
  { destruct (includes (notes prev) note) eqn:E.
    - now rewrite !(Hin eq_refl).
    - assert (Hnew : includes (notes (appendNote note prev)) note = true).
      { unfold appendNote. rewrite E. cbn [notes withNotes].
        rewrite <- append_assoc. apply includes_suffix. }
      unfold appendNote at 1. now rewrite Hnew. }
  split; [exact Hin|split; [exact Htwice|now rewrite Htwice]].
Qed.

(** The preset about the VAT exemption, appended to notes that hold it. *)
Lemma appendNote_idempotent_witness :
  let note := "Zwolnienie z VAT na podstawie art. 113 ust. 1 ustawy o VAT." in
  let prev :=
    mkInvoice "FV/1" "2024-03-11" "2024-03-11" "2024-03-25" "Przelew" "PLN"
      (emptyCompany (Some "")) (emptyCompany None) []
      ("Uwaga. " ++ note) None emptyRate in
  includes (notes prev) note = true /\ appendNote note prev = prev.
Proof.
  intros note prev.
  assert (H : includes (notes prev) note = true) by (vm_compute; reflexivity).
  split; [exact H|].
  exact (proj1 (appendNote_idempotent note prev) H).
Defined.

End NoteFacts.

(* ===================================================================== *)
(** ** Business days                                                      *)
(* ===================================================================== *)

Module DateFacts.
Import JS Dates.
Local Open Scope string_scope.
Local Open Scope Z_scope.

Lemma timeClip_valid (t : Z) : Z.abs t <= maxDay -> timeClip t = AtDay t.
Proof.
  intros H. unfold timeClip. apply Z.leb_le in H. now rewrite H.
Qed.

Lemma timeClip_AtDay (x t : Z) : timeClip x = AtDay t -> x = t /\ Z.abs t <= maxDay.
Proof.
  unfold timeClip. destruct (Z.abs x <=? maxDay) eqn:E; [|discriminate].
  intros H. injection H as <-. split; [reflexivity|now apply Z.leb_le].
Qed.

Lemma DateUTC_AtDay (y m d t : Z) : DateUTC y m d = AtDay t -> Z.abs t <= maxDay.
Proof.
  unfold DateUTC. intros H. now apply timeClip_AtDay in H.
Qed.

(** Rebuilding a date from its own year, month and day gives it back if
    the year is not one of the two-digit years. *)
Lemma copyUTC_AtDay (t : Z) :
  100 <= getUTCFullYear t -> Z.abs t <= maxDay -> copyUTC (AtDay t) = AtDay t.
Proof.
  intros Hy Ht. unfold copyUTC, DateUTC.
  replace ((0 <=? getUTCFullYear t) && (getUTCFullYear t <=? 99)) with false.
  - replace (getUTCDate t) with (getUTCDate t + 0) by lia.
    rewrite Calendar.makeDay_civil, Z.add_0_r. now apply timeClip_valid.
  - symmetry. apply andb_false_iff. right. apply Z.leb_gt. lia.
Qed.

Lemma skipWeekend_weekday (date : Date) :
  isWeekend date = false -> skipWeekend date = date.
Proof.
  intros H. funelim (skipWeekend date); congruence.
Qed.

Lemma skipWeekend_weekend (date : Date) :
  isWeekend date = true -> skipWeekend date = skipWeekend (addUTCDate date (-1)).
Proof.
  intros H. funelim (skipWeekend date); congruence.
Qed.

Lemma getUTCDay_range (t : Z) : 0 <= getUTCDay t <= 6.
Proof.
  unfold getUTCDay. pose proof (Z.mod_pos_bound (t + 4) 7). lia.
Qed.

Lemma getUTCDay_pred (t : Z) : getUTCDay (t - 1) = (getUTCDay t + 6) mod 7.
Proof.
  unfold getUTCDay. rewrite Zplus_mod_idemp_l.
  replace (t + 4 + 6) with (t - 1 + 4 + 1 * 7) by lia.
  now rewrite Z.mod_add by lia.
Qed.

(** The day on which the loop of [getPreviousBusinessDay] stops. *)
Definition businessDayBefore (t : Z) : Z :=
  match getUTCDay t with
  | 0 => t - 2
  | 1 => t - 3
  | _ => t - 1
  end.

Lemma skipWeekend_pred (t : Z) :
  - maxDay + 3 <= t <= maxDay ->
  skipWeekend (addUTCDate (AtDay t) (-1)) = AtDay (businessDayBefore t).
Proof.
  intros Ht. unfold maxDay in Ht.
  assert (Hstep : forall x, - maxDay + 1 <= x <= maxDay ->
                            addUTCDate (AtDay x) (-1) = AtDay (x - 1)).
  { intros x Hx. rewrite addUTCDate_AtDay. unfold maxDay in Hx.
    replace (x + -1) with (x - 1) by lia. apply timeClip_valid. unfold maxDay. lia. }
  assert (Hwk : forall x, isWeekend (AtDay x)
                          = (getUTCDay x =? 0) || (getUTCDay x =? 6)) by reflexivity.
  pose proof (getUTCDay_range t) as Hr.
  pose proof (getUTCDay_pred t) as H1.
  pose proof (getUTCDay_pred (t - 1)) as H2.
  pose proof (getUTCDay_pred (t - 1 - 1)) as H3.
  unfold businessDayBefore.
  rewrite Hstep by (unfold maxDay; lia).
  assert (Hcase : getUTCDay t = 0 \/ getUTCDay t = 1 \/ getUTCDay t = 2
                  \/ getUTCDay t = 3 \/ getUTCDay t = 4 \/ getUTCDay t = 5
                  \/ getUTCDay t = 6) by lia.
  destruct Hcase as [E|[E|[E|[E|[E|[E|E]]]]]]; rewrite E in *;
    cbn in H1.
  - (* Sunday: Saturday, then Friday *)
    rewrite skipWeekend_weekend by (rewrite Hwk, H1; reflexivity).
    rewrite Hstep by (unfold maxDay; lia).
    rewrite H1 in H2. cbn in H2.
    rewrite skipWeekend_weekday by (rewrite Hwk, H2; reflexivity).
    f_equal. lia.
  - (* Monday: Sunday, Saturday, then Friday *)
    rewrite skipWeekend_weekend by (rewrite Hwk, H1; reflexivity).
    rewrite Hstep by (unfold maxDay; lia).
    rewrite H1 in H2. cbn in H2.
    rewrite skipWeekend_weekend by (rewrite Hwk, H2; reflexivity).
    rewrite Hstep by (unfold maxDay; lia).
    rewrite H2 in H3. cbn in H3.
    rewrite skipWeekend_weekday by (rewrite Hwk, H3; reflexivity).
    f_equal. lia.
  - rewrite skipWeekend_weekday by (rewrite Hwk, H1; reflexivity). reflexivity.
  - rewrite skipWeekend_weekday by (rewrite Hwk, H1; reflexivity). reflexivity.
  - rewrite skipWeekend_weekday by (rewrite Hwk, H1; reflexivity). reflexivity.
  - rewrite skipWeekend_weekday by (rewrite Hwk, H1; reflexivity). reflexivity.
  - rewrite skipWeekend_weekday by (rewrite Hwk, H1; reflexivity). reflexivity.
Qed.

End DateFacts.

(* ===================================================================== *)
(** ** Date strings                                                       *)
(* ===================================================================== *)

Module StringFacts.
Import JS Dates.
Local Open Scope string_scope.
Local Open Scope Z_scope.

(** [c] does not occur in [s]. *)
Fixpoint lacks (c : ascii) (s : string) : bool :=
  match s with
  | EmptyString => true
  | String x s' => negb (Ascii.eqb x c) && lacks c s'
  end.

Fixpoint allDigits (s : string) : bool :=
  match s with
  | EmptyString => true
  | String x s' =>
      match digitValue x with
      | Some _ => allDigits s'
      | None => false
      end
  end.

Lemma lacks_append (c : ascii) (a b : string) :
  lacks c (a ++ b) = lacks c a && lacks c b.
Proof.
  induction a as [|x a IH]; cbn [append lacks]; [reflexivity|].
  now rewrite IH, andb_assoc.
Qed.

Lemma split_lacks (sep : ascii) (s : string) :
  lacks sep s = true -> split sep s = [s].
Proof.
  induction s as [|x s IH]; cbn [lacks split]; [reflexivity|].
  intros H. apply andb_prop in H. destruct H as [Hx Hs].
  apply negb_true_iff in Hx. rewrite Hx, (IH Hs). reflexivity.
Qed.

Lemma split_append (sep : ascii) (a b : string) :
  lacks sep a = true -> split sep (a ++ String sep b) = a :: split sep b.
Proof.
  induction a as [|x a IH]; cbn [lacks append split].
  - intros _. now rewrite Ascii.eqb_refl.
  - intros H. apply andb_prop in H. destruct H as [Hx Ha].
    apply negb_true_iff in Hx. rewrite Hx, (IH Ha). reflexivity.
Qed.

Lemma allDigits_append (a b : string) :
  allDigits (a ++ b) = allDigits a && allDigits b.
Proof.
  induction a as [|x a IH]; cbn [append allDigits]; [reflexivity|].
  destruct (digitValue x); [exact IH|reflexivity].
Qed.

Lemma digitValue_digitChar (d : Z) :
  0 <= d <= 9 -> digitValue (digitChar d) = Some d.
Proof.
  intros H.
  assert (Hc : d = 0 \/ d = 1 \/ d = 2 \/ d = 3 \/ d = 4 \/ d = 5 \/ d = 6
               \/ d = 7 \/ d = 8 \/ d = 9) by lia.
  repeat (destruct Hc as [->|Hc]; [reflexivity|]). now subst.
Qed.

Lemma allDigits_padDigits (w : nat) (n : Z) : allDigits (padDigits w n) = true.
Proof.
  revert n. induction w as [|w IH]; intros n; cbn [padDigits]; [reflexivity|].
  rewrite allDigits_append, IH. cbn [allDigits andb].
  rewrite digitValue_digitChar; [reflexivity|].
  pose proof (Z.mod_pos_bound n 10). lia.
Qed.

(** A character that is not a digit does not occur among digits. *)
Lemma lacks_digits (c : ascii) (s : string) :
  digitValue c = None -> allDigits s = true -> lacks c s = true.
Proof.
  intros Hc. induction s as [|x s IH]; cbn [allDigits lacks]; [reflexivity|].
  destruct (digitValue x) eqn:Hx; [|discriminate].
  intros H. rewrite (IH H), andb_true_r. apply negb_true_iff.
  destruct (Ascii.eqb_spec x c) as [->|]; [congruence|reflexivity].
Qed.

Lemma decimalFrom_append (a b : string) (acc : Z) :
  decimalFrom acc (a ++ b)
  = match decimalFrom acc a with
    | Some x => decimalFrom x b
    | None => None
    end.
Proof.
  revert acc. induction a as [|x a IH]; intros acc; cbn [append decimalFrom];
    [reflexivity|].
  destruct (digitValue x); [apply IH|reflexivity].
Qed.

Lemma decimalFrom_padDigits (w : nat) (n acc : Z) :
  0 <= n < 10 ^ Z.of_nat w ->
  decimalFrom acc (padDigits w n) = Some (acc * 10 ^ Z.of_nat w + n).
Proof.
  revert n. induction w as [|w IH]; intros n Hn.
  - cbn [padDigits decimalFrom]. cbn in Hn. f_equal. lia.
  - cbn [padDigits]. rewrite decimalFrom_append.
    rewrite Nat2Z.inj_succ, Z.pow_succ_r in * by lia.
    rewrite IH by (split; [apply Z.div_pos; lia|apply Z.div_lt_upper_bound; lia]).
    cbn [decimalFrom]. pose proof (Z.mod_pos_bound n 10 ltac:(lia)) as Hm.
    rewrite digitValue_digitChar by lia. f_equal.
    pose proof (Z.div_mod n 10 ltac:(lia)). lia.
Qed.

Lemma padDigits_nonempty (w : nat) (n : Z) : padDigits (S w) n <> "".
Proof.
  cbn [padDigits]. destruct (padDigits w (n / 10)); discriminate.
Qed.

(** *** [Number] on the numerals of a date *)

(** A digit is no white space, sign, point, exponent or radix letter. *)
Lemma digit_in_numeral (c : ascii) (d : Z) :
  digitValue c = Some d ->
  isWhiteSpace c = false
  /\ Ascii.eqb c "-" = false /\ Ascii.eqb c "+" = false
  /\ radixOf c = None /\ Ascii.eqb c "I" = false.
Proof.
  destruct c as [[] [] [] [] [] [] [] []]; intros H; try discriminate H;
    repeat split; reflexivity.
Qed.

Lemma trimEnd_digits (s : string) : allDigits s = true -> trimEnd s = s.
Proof.
  induction s as [|c s IH]; cbn [allDigits trimEnd]; [reflexivity|].
  destruct (digitValue c) as [d|] eqn:Hc; [|discriminate].
  intros H. rewrite (IH H).
  destruct (digit_in_numeral c d Hc) as (Hw & _). rewrite Hw.
  now destruct s.
Qed.

Lemma readDigits_digits (s : string) (acc n : Z) (count : nat) :
  allDigits s = true -> decimalFrom acc s = Some n ->
  readDigits acc count s = (n, (count + String.length s)%nat, "").
Proof.
  revert acc count.
  induction s as [|c s IH]; intros acc count; cbn [allDigits decimalFrom readDigits
    String.length].
  - intros _ H. injection H as <-. now rewrite Nat.add_0_r.
  - destruct (digitValue c); [|discriminate]. intros Hs Hn.
    rewrite (IH _ (S count) Hs Hn). f_equal. f_equal. lia.
Qed.

(** A numeral of digits only, with or without a plus sign, after the sign
    has been read. *)
Lemma unsignedDecimal_digits (s : string) (n : Z) :
  s <> "" -> allDigits s = true -> decimalFrom 0 s = Some n ->
  unsignedDecimal s = Some (n, 0).
Proof.
  intros Hne Hs Hn. unfold unsignedDecimal.
  rewrite (readDigits_digits s 0 n 0 Hs Hn). cbn [Nat.add].
  destruct s as [|c s]; [congruence|]. reflexivity.
Qed.

Lemma decimalLiteral_digits (s : string) (n : Z) :
  s <> "" -> allDigits s = true -> decimalFrom 0 s = Some n ->
  decimalLiteral s = Numbers.ofInteger n
  /\ decimalLiteral (String "+" s) = Numbers.ofInteger n.
Proof.
  intros Hne Hs Hn.
  pose proof (unsignedDecimal_digits s n Hne Hs Hn) as Hu.
  destruct s as [|c s]; [congruence|].
  cbn [allDigits] in Hs. destruct (digitValue c) as [d|] eqn:Hc; [|discriminate].
  destruct (digit_in_numeral c d Hc) as (_ & Hm & Hp & _ & Hi).
  assert (Hinf : String.eqb (String c s) "Infinity" = false).
  { cbn [String.eqb]. now rewrite Hi. }
  split.
  - unfold decimalLiteral, readSign. rewrite Hm, Hp, Hinf, Hu. reflexivity.
  - unfold decimalLiteral, readSign. cbn [Ascii.eqb Bool.eqb].
    rewrite Hinf, Hu. reflexivity.
Qed.

(** On a non-empty string of digits, with or without a plus sign before
    it, [Number] is the number of the decimal value. *)
Lemma Number_digits (s : string) (n : Z) :
  s <> "" -> allDigits s = true -> decimalFrom 0 s = Some n ->
  Number s = Numbers.ofInteger n
  /\ Number (String "+" s) = Numbers.ofInteger n.
Proof.
  intros Hne Hs Hn.
  destruct (decimalLiteral_digits s n Hne Hs Hn) as [Hd Hplus].
  pose proof (trimEnd_digits s Hs) as Ht.
  destruct s as [|c s]; [congruence|].
  pose proof Hs as Hs'. cbn [allDigits] in Hs'.
  destruct (digitValue c) as [d|] eqn:Hc; [|discriminate].
  destruct (digit_in_numeral c d Hc) as (Hw & _).
  assert (Htrim : trim (String c s) = String c s).
  { unfold trim. cbn [trimStart]. rewrite Hw. exact Ht. }
  assert (Hplus' : trim (String "+" (String c s)) = String "+" (String c s)).
  { unfold trim. change (trimStart (String "+" (String c s)))
      with (String "+" (String c s)).
    change (trimEnd (String "+" (String c s)))
      with (match trimEnd (String c s) with
            | EmptyString => String "+" EmptyString
            | r => String "+" r
            end).
    now rewrite Ht. }
  split.
  - unfold Number. rewrite Htrim.
    destruct s as [|x s]; [exact Hd|].
    cbn [allDigits] in Hs'. destruct (digitValue x) as [dx|] eqn:Hx; [|discriminate].
    destruct (digit_in_numeral x dx Hx) as (_ & _ & _ & Hr & _).
    rewrite Hr. destruct (Ascii.eqb c "0"); exact Hd.
  - unfold Number. rewrite Hplus'.
    change (Ascii.eqb "+" "0") with false. cbv iota. exact Hplus.
Qed.

Lemma Number_padDigits (w : nat) (n : Z) :
  0 <= n < 10 ^ Z.of_nat (S w) ->
  Number (padDigits (S w) n) = Numbers.ofInteger n.
Proof.
  intros Hn.
  apply (Number_digits (padDigits (S w) n) n);
    [apply padDigits_nonempty|apply allDigits_padDigits|].
  rewrite decimalFrom_padDigits by exact Hn. f_equal.
Qed.

Lemma Number_isoYear (y : Z) :
  0 <= y < 1000000 -> Number (isoYear y) = Numbers.ofInteger y.
Proof.
  intros Hy. unfold isoYear.
  destruct ((0 <=? y) && (y <=? 9999)) eqn:E.
  - apply andb_prop in E. destruct E as [_ E]. apply Z.leb_le in E.
    apply Number_padDigits. change (10 ^ Z.of_nat 4) with 10000. lia.
  - replace (y <? 0) with false by (symmetry; apply Z.ltb_ge; lia).
    cbn [append].
    apply (Number_digits (padDigits 6 y) y);
      [apply padDigits_nonempty|apply allDigits_padDigits|].
    rewrite decimalFrom_padDigits by (change (10 ^ Z.of_nat 6) with 1000000; lia).
    f_equal.
Qed.

(** The month before the month [m] of a date string, as [Date.UTC]
    takes it. *)
Lemma month_before (m : Z) :
  1 <= m <= 12 ->
  Numbers.truncate (PrimFloat.sub (Numbers.ofInteger m) PrimFloat.one) = Some (m - 1).
Proof.
  intros H.
  assert (Hc : m = 1 \/ m = 2 \/ m = 3 \/ m = 4 \/ m = 5 \/ m = 6 \/ m = 7
               \/ m = 8 \/ m = 9 \/ m = 10 \/ m = 11 \/ m = 12) by lia.
  repeat (destruct Hc as [->|Hc]; [vm_compute; reflexivity|]).
  subst. vm_compute. reflexivity.
Qed.

Lemma lacks_isoYear (c : ascii) (y : Z) :
  0 <= y -> digitValue c = None -> c <> "+"%char -> lacks c (isoYear y) = true.
Proof.
  intros Hy Hc Hp. unfold isoYear.
  destruct ((0 <=? y) && (y <=? 9999)).
  - apply lacks_digits; [exact Hc|apply allDigits_padDigits].
  - replace (y <? 0) with false by (symmetry; apply Z.ltb_ge; lia).
    cbn [append lacks]. rewrite lacks_digits by (exact Hc || apply allDigits_padDigits).
    rewrite andb_true_r. apply negb_true_iff.
    destruct (Ascii.eqb_spec "+"%char c); [congruence|reflexivity].
Qed.


(** Negative years aside, the date part is year, month and day joined by
    hyphens, and has no other hyphen and no [T]. *)
Lemma split_isoDatePart (t : Z) :
  0 <= getUTCFullYear t ->
  split "-" (isoDatePart t)
  = [isoYear (getUTCFullYear t); padDigits 2 (getUTCMonth t + 1);
     padDigits 2 (getUTCDate t)].
Proof.
  intros Hy. unfold isoDatePart. cbn [append].
  rewrite split_append by (apply lacks_isoYear; [exact Hy|reflexivity|discriminate]).
  rewrite split_append by (apply lacks_digits; [reflexivity|apply allDigits_padDigits]).
  rewrite split_lacks by (apply lacks_digits; [reflexivity|apply allDigits_padDigits]).
  reflexivity.
Qed.

Lemma lacks_T_isoDatePart (t : Z) : lacks "T" (isoDatePart t) = true.
Proof.
  unfold isoDatePart. cbn [append]. rewrite lacks_append. cbn [lacks].
  rewrite lacks_append. cbn [lacks].
  rewrite (lacks_digits "T" (padDigits 2 (getUTCMonth t + 1)))
    by (reflexivity || apply allDigits_padDigits).
  rewrite (lacks_digits "T" (padDigits 2 (getUTCDate t)))
    by (reflexivity || apply allDigits_padDigits).
  cbn [Ascii.eqb Bool.eqb negb andb]. rewrite andb_true_r.
  unfold isoYear. destruct ((0 <=? getUTCFullYear t) && (getUTCFullYear t <=? 9999)).
  - apply lacks_digits; [reflexivity|apply allDigits_padDigits].
  - destruct (getUTCFullYear t <? 0); cbn [append lacks];
      rewrite lacks_digits by (reflexivity || apply allDigits_padDigits); reflexivity.
Qed.

Lemma toDateString_AtDay (t : Z) : toDateString (AtDay t) = Return (isoDatePart t).
Proof.
  unfold toDateString, toISOString, bind.
  change (isoDatePart t ++ "T00:00:00.000Z")
    with (isoDatePart t ++ String "T" "00:00:00.000Z").
  now rewrite split_append by apply lacks_T_isoDatePart.
Qed.

Lemma isoDatePart_nonempty (t : Z) : isoDatePart t <> "".
Proof.
  unfold isoDatePart. destruct (isoYear (getUTCFullYear t)); discriminate.
Qed.

(** The parts of the date part of a day of the year 100 or later are the
    numbers of its year, month and day. *)
Lemma Number_parts_iso (t : Z) :
  100 <= getUTCFullYear t -> t <= maxDay ->
  map Number (split "-" (isoDatePart t))
  = [Numbers.ofInteger (getUTCFullYear t); Numbers.ofInteger (getUTCMonth t + 1);
     Numbers.ofInteger (getUTCDate t)].
Proof.
  intros Hy Ht. rewrite split_isoDatePart by lia. cbn [map].
  pose proof (Calendar.year_upper t Ht) as Hu.
  pose proof (Calendar.civil_ranges t) as [Hm Hd].
  rewrite Number_isoYear by lia.
  rewrite (Number_padDigits 1 (getUTCMonth t + 1))
    by (change (10 ^ Z.of_nat 2) with 100; lia).
  rewrite (Number_padDigits 1 (getUTCDate t))
    by (change (10 ^ Z.of_nat 2) with 100; lia).
  reflexivity.
Qed.

Lemma DateUTC_civil (t : Z) :
  100 <= getUTCFullYear t -> Z.abs t <= maxDay ->
  DateUTC (getUTCFullYear t) (getUTCMonth t) (getUTCDate t) = AtDay t.
Proof.
  intros Hy Ht. unfold DateUTC.
  replace ((0 <=? getUTCFullYear t) && (getUTCFullYear t <=? 99)) with false.
  - replace (getUTCDate t) with (getUTCDate t + 0) by lia.
    rewrite Calendar.makeDay_civil, Z.add_0_r. now apply DateFacts.timeClip_valid.
  - symmetry. apply andb_false_iff. right. apply Z.leb_gt. lia.
Qed.

(** [Date.UTC] on the numbers of the year, the month less one and the
    day of a date string. *)
Lemma DateUTC_numbers_parts (y m d : Z) :
  0 <= y < 1000000 -> 1 <= m <= 12 -> 0 <= d < 100 ->
  DateUTC_numbers (Numbers.ofInteger y)
    (PrimFloat.sub (Numbers.ofInteger m) PrimFloat.one) (Numbers.ofInteger d)
  = DateUTC y (m - 1) d.
Proof.
  intros Hy Hm Hd. unfold DateUTC_numbers.
  rewrite (proj1 (NumberFacts.truncate_ofInteger y ltac:(lia))).
  rewrite (month_before m Hm).
  rewrite (proj1 (NumberFacts.truncate_ofInteger d ltac:(lia))).
  reflexivity.
Qed.

Lemma DateUTC_numbers_AtDay (year month date : PrimFloat.float) (t : Z) :
  DateUTC_numbers year month date = AtDay t -> Z.abs t <= maxDay.
Proof.
  unfold DateUTC_numbers.
  destruct (Numbers.truncate year); [|discriminate].
  destruct (Numbers.truncate month); [|discriminate].
  destruct (Numbers.truncate date); [|discriminate].
  apply DateFacts.DateUTC_AtDay.
Qed.

(** A date string that [parseISODate] reads as a day is within the range
    of [Date]. *)
Lemma parseISODate_AtDay (dateString : string) (t : Z) :
  parseISODate dateString = Some (AtDay t) -> Z.abs t <= maxDay.
Proof.
  unfold parseISODate. destruct dateString; [discriminate|].
  destruct (map Number (split "-" (String a dateString)))
    as [|y [|m [|d [|]]]]; try discriminate.
  destruct (_ || _)%bool; [discriminate|].
  intros H. injection H as H. now apply DateUTC_numbers_AtDay in H.
Qed.

(** Both parsers read the date part of a day of the year 100 or later
    back as that day. *)
Lemma dateOfParts_iso (t : Z) :
  100 <= getUTCFullYear t -> Z.abs t <= maxDay ->
  dateOfParts (isoDatePart t) = AtDay t.
Proof.
  intros Hy Ht. unfold dateOfParts.
  rewrite Number_parts_iso by (unfold maxDay in *; lia).
  cbn [nth].
  pose proof (Calendar.year_upper t ltac:(lia)) as Hu.
  pose proof (Calendar.civil_ranges t) as [Hm Hd].
  rewrite DateUTC_numbers_parts by lia.
  rewrite Z.add_simpl_r. now apply DateUTC_civil.
Qed.

Lemma parseISODate_iso (t : Z) :
  100 <= getUTCFullYear t -> Z.abs t <= maxDay ->
  parseISODate (isoDatePart t) = Some (AtDay t).
Proof.
  intros Hy Ht. unfold parseISODate.
  pose proof (isoDatePart_nonempty t) as Hne.
  destruct (isoDatePart t) eqn:E; [congruence|]. rewrite <- E.
  rewrite Number_parts_iso by (unfold maxDay in *; lia).
  pose proof (Calendar.year_upper t ltac:(lia)) as Hu.
  pose proof (Calendar.civil_ranges t) as [Hm Hd].
  rewrite (proj2 (NumberFacts.truncate_ofInteger (getUTCFullYear t) ltac:(lia))).
  rewrite (proj2 (NumberFacts.truncate_ofInteger (getUTCMonth t + 1) ltac:(lia))).
  rewrite (proj2 (NumberFacts.truncate_ofInteger (getUTCDate t) ltac:(lia))).
  cbn [orb]. f_equal.
  rewrite DateUTC_numbers_parts by lia.
  rewrite Z.add_simpl_r. now apply DateUTC_civil.
Qed.

(** Shifting a date string that denotes the day [t]. *)
Lemma shiftDateString_day (s : string) (t offset : Z) :
  dateOfParts s = AtDay t -> Z.abs (t + offset) <= maxDay ->
  shiftDateString s offset = Return (isoDatePart (t + offset)).
Proof.
  intros Hs Ht. unfold shiftDateString. rewrite Hs, addUTCDate_AtDay.
  rewrite DateFacts.timeClip_valid by exact Ht. apply toDateString_AtDay.
Qed.

End StringFacts.

Module BusinessDay.
Import JS Dates DateFacts StringFacts.
Local Open Scope string_scope.
Local Open Scope Z_scope.

Lemma getPreviousBusinessDay_of_day (today : Z) (referenceDate : string) (t : Z) :
  parseISODate referenceDate = Some (AtDay t) ->
  100 <= getUTCFullYear t ->
  getPreviousBusinessDay today referenceDate
  = Return (isoDatePart (businessDayBefore t)).
Proof.
  intros Hp Hy. unfold getPreviousBusinessDay. rewrite Hp.
  pose proof (parseISODate_AtDay _ _ Hp) as Ht.
  rewrite copyUTC_AtDay by assumption.
  apply Calendar.year_from_100 in Hy. unfold Calendar.firstDayOfYear100 in Hy.
  unfold maxDay in Ht.
  rewrite skipWeekend_pred by (unfold maxDay; lia).
  apply toDateString_AtDay.
Qed.

(** C9.  For a reference date that the form reads as the day [t] of the
    year 100 or later, [getPreviousBusinessDay] returns the date of a
    weekday before [t]: the Friday before a Saturday, a Sunday or a
    Monday, and the day before any other day. *)
Theorem getPreviousBusinessDay_weekday (today : Z) (referenceDate : string) (t : Z) :
  parseISODate referenceDate = Some (AtDay t) ->
  100 <= getUTCFullYear t ->
  exists t',
    getPreviousBusinessDay today referenceDate = Return (isoDatePart t')
    /\ t' < t
    /\ 1 <= getUTCDay t' <= 5
    /\ (getUTCDay t = 6 -> t' = t - 1 /\ getUTCDay t' = 5)
    /\ (getUTCDay t = 0 -> t' = t - 2 /\ getUTCDay t' = 5)
    /\ (getUTCDay t = 1 -> t' = t - 3 /\ getUTCDay t' = 5)
    /\ (2 <= getUTCDay t <= 5 -> t' = t - 1).
Proof.
  intros Hp Hy. exists (businessDayBefore t).
  split; [now apply getPreviousBusinessDay_of_day|].
  pose proof (getUTCDay_range t) as Hr.
  pose proof (getUTCDay_pred t) as H1.
  pose proof (getUTCDay_pred (t - 1)) as H2.
  pose proof (getUTCDay_pred (t - 1 - 1)) as H3.
  replace (t - 1 - 1) with (t - 2) in * by lia.
  replace (t - 2 - 1) with (t - 3) in * by lia.
  unfold businessDayBefore.
  assert (Hcase : getUTCDay t = 0 \/ getUTCDay t = 1 \/ getUTCDay t = 2
                  \/ getUTCDay t = 3 \/ getUTCDay t = 4 \/ getUTCDay t = 5
                  \/ getUTCDay t = 6) by lia.
  destruct Hcase as [E|[E|[E|[E|[E|[E|E]]]]]]; rewrite E in *;
    cbn in H1; rewrite H1 in H2; cbn in H2; rewrite H2 in H3; cbn in H3;
    repeat split; intros; try lia.
Qed.

(** Saturday 9 March 2024 (day 19791). *)
Lemma getPreviousBusinessDay_weekday_witness :
  parseISODate "2024-03-09" = Some (AtDay 19791)
  /\ 100 <= getUTCFullYear 19791
  /\ exists t',
      getPreviousBusinessDay 0 "2024-03-09" = Return (isoDatePart t')
      /\ t' < 19791.
Proof.
  assert (Hp : parseISODate "2024-03-09" = Some (AtDay 19791))
    by (vm_compute; reflexivity).
  assert (Hy : 100 <= getUTCFullYear 19791) by (vm_compute; discriminate).
  split; [exact Hp|split; [exact Hy|]].
  destruct (getPreviousBusinessDay_weekday 0 "2024-03-09" 19791 Hp Hy)
    as (t' & Hr & Hlt & _).
  exists t'. split; assumption.
Defined.

End BusinessDay.

(* ===================================================================== *)
(** ** One rate lookup                                                    *)
(* ===================================================================== *)

Module LookupFacts.
Import JS Dates Invoice Form DateFacts StringFacts.
Local Open Scope string_scope.

(** The loop of [fetchRate], one iteration unfolded. *)
Lemma fetchLoop_unfold (source : RateSource) (lk : Lookup) (requested : list string) :
  fetchLoop source lk requested
  = match loopHead false lk with
    | LoopDone out => (requested, out)
    | Request lk1 =>
        let r := source (lookupCurrency lk1) (lookupDate lk1) in
        match afterFetch false lk1 (fetchResultOf r) with
        | Again lk2 => fetchLoop source lk2 (requested ++ [lookupDate lk1])%list
        | ReadJson =>
            ((requested ++ [lookupDate lk1])%list, afterJson false (jsonResultOf r))
        | FetchDone out => ((requested ++ [lookupDate lk1])%list, out)
        end
    end.
Proof.
  funelim (fetchLoop source lk requested); cbv zeta;
    repeat match goal with
           | E : ?x = _ |- context [match ?x with _ => _ end] => rewrite E
           end; reflexivity.
Qed.

(** The source has no data for the date: HTTP 404. *)
Definition notFound (r : Response) : bool :=
  match r with
  | Http status _ => (status =? 404)%Z
  | NetworkError _ => false
  end.

(** The body holds a first rate with a numeric mid. *)
Definition hasMid (b : Body) : bool :=
  match b with
  | Json (Some (mkEntry _ (Some _))) => true
  | _ => false
  end.

(** The request fails otherwise: the network fails, the status is neither
    404 nor a success, or the body has no numeric mid rate. *)
Definition hardFailure (r : Response) : bool :=
  match r with
  | NetworkError _ => true
  | Http status body =>
      negb (status =? 404)%Z && (negb (isOk status) || negb (hasMid body))
  end.

(** The dates of [n] consecutive days, going back from the day [t]. *)
Fixpoint daysBack (t : Z) (n : nat) : list string :=
  match n with
  | O => []
  | S n' => isoDatePart t :: daysBack (t - 1) n'
  end.

(** The first [n] dates asked for by a lookup that starts at the string
    [first] for the day [t], and the date it asks for next. *)
Definition walked (first : string) (t : Z) (n : nat) : list string :=
  match n with
  | O => []
  | S n' => first :: daysBack (t - 1) n'
  end.

Definition dateAfter (first : string) (t : Z) (n : nat) : string :=
  match n with
  | O => first
  | S _ => isoDatePart (t - Z.of_nat n)
  end.

Lemma daysBack_snoc (t : Z) (n : nat) :
  (daysBack t n ++ [isoDatePart (t - Z.of_nat n)])%list = daysBack t (S n).
Proof.
  revert t. induction n as [|n IH]; intros t.
  - cbn. now rewrite Z.sub_0_r.
  - cbn [daysBack app]. f_equal.
    replace (t - Z.of_nat (S n))%Z with (t - 1 - Z.of_nat n)%Z by lia.
    apply IH.
Qed.

Lemma walked_snoc (first : string) (t : Z) (n : nat) :
  (walked first t n ++ [dateAfter first t n])%list = first :: daysBack (t - 1) n.
Proof.
  destruct n as [|n]; [reflexivity|].
  cbn [walked dateAfter app]. f_equal.
  replace (t - Z.of_nat (S n))%Z with (t - 1 - Z.of_nat n)%Z by lia.
  apply daysBack_snoc.
Qed.

Lemma loopHead_live (lk : Lookup) :
  (attempts lk < MAX_RATE_LOOKBACK_DAYS)%nat -> loopHead false lk = Request lk.
Proof.
  intros H. unfold loopHead. apply Nat.ltb_lt in H. now rewrite H.
Qed.

Lemma loopHead_spent (lk : Lookup) :
  attempts lk = MAX_RATE_LOOKBACK_DAYS ->
  loopHead false lk = LoopDone (Exhausted exhaustedMessage).
Proof.
  intros H. unfold loopHead. now rewrite H.
Qed.

(** While the source has no data the lookup walks back day by day. *)
Lemma fetchLoop_walk (source : RateSource) (n : nat) :
  forall (lk : Lookup) (t : Z) (requested : list string),
    (attempts lk + n <= MAX_RATE_LOOKBACK_DAYS)%nat ->
    ((0 < n)%nat ->
     dateOfParts (lookupDate lk) = AtDay t
     /\ (Calendar.firstDayOfYear100 <= t - Z.of_nat n + 1)%Z) ->
    (forall d, In d (walked (lookupDate lk) t n) ->
               notFound (source (lookupCurrency lk) d) = true) ->
    fetchLoop source lk requested
    = fetchLoop source
        (mkLookup (lookupCurrency lk) (lookupTarget lk)
           (dateAfter (lookupDate lk) t n) (attempts lk + n))
        (requested ++ walked (lookupDate lk) t n).
Proof.
  induction n as [|n IH]; intros lk t requested Hn Ht Hs.
  - cbn [walked dateAfter]. rewrite app_nil_r, Nat.add_0_r. now destruct lk.
  - destruct (Ht ltac:(lia)) as [Hp Hlo].
    assert (Hup : (Z.abs t <= maxDay)%Z).
    { unfold dateOfParts in Hp.
      exact (StringFacts.DateUTC_numbers_AtDay _ _ _ _ Hp). }
    unfold Calendar.firstDayOfYear100, maxDay in *.
    rewrite fetchLoop_unfold, loopHead_live by lia. cbv zeta.
    pose proof (Hs (lookupDate lk) ltac:(now left)) as H404.
    unfold notFound in H404.
    destruct (source (lookupCurrency lk) (lookupDate lk)) as [|status body] eqn:Er;
      [discriminate|].
    cbn [fetchResultOf afterFetch]. rewrite H404.
    rewrite (shiftDateString_day _ t (-1) Hp) by (unfold maxDay; lia).
    replace (t + -1)%Z with (t - 1)%Z by lia.
    rewrite (IH _ (t - 1)%Z); cbn [lookupCurrency lookupTarget lookupDate attempts].
    + f_equal.
      * f_equal; [|lia]. destruct n as [|n]; [reflexivity|].
        cbn [dateAfter]. f_equal. lia.
      * rewrite <- app_assoc. f_equal. destruct n as [|n]; reflexivity.
    + lia.
    + intros Hpos. split; [|lia].
      apply dateOfParts_iso; [|unfold maxDay; lia].
      apply Calendar.year_from_100. unfold Calendar.firstDayOfYear100. lia.
    + intros d Hd. apply Hs. cbn [walked]. right.
      destruct n as [|n]; [destruct Hd|]. exact Hd.
Qed.


Lemma dateOfParts_valid (s : string) (t : Z) :
  dateOfParts s = AtDay t -> (Z.abs t <= maxDay)%Z.
Proof.
  unfold dateOfParts. apply StringFacts.DateUTC_numbers_AtDay.
Qed.

Lemma isOk_not_404 (status : Z) : isOk status = true -> (status =? 404)%Z = false.
Proof.
  unfold isOk. intros H. apply andb_prop in H. destruct H as [_ H].
  apply Z.leb_le in H. apply Z.eqb_neq. lia.
Qed.

(** C1.  When the source has no data for the first [k < 10] dates asked
    for and then returns a rate, the lookup sends exactly [k + 1]
    requests, for the target date and the [k] calendar days before it in
    turn, and stores the effective date and the mid rate of the
    response. *)
Theorem fetchRate_resolves (source : RateSource) (currency target : string)
  (t : Z) (k : nat) (status : Z) (effective : string) (m : Q) :
  (k < MAX_RATE_LOOKBACK_DAYS)%nat ->
  dateOfParts target = AtDay t ->
  (100 <= getUTCFullYear (t - Z.of_nat k))%Z ->
  (forall i, (i < k)%nat ->
             notFound (source currency (nth i (target :: daysBack (t - 1) k) "")) = true) ->
  source currency (nth k (target :: daysBack (t - 1) k) "")
  = Http status (Json (Some (mkEntry effective (Some m)))) ->
  isOk status = true ->
  fetchRate source currency target
  = (target :: daysBack (t - 1) k, Resolved effective m)
  /\ List.length (target :: daysBack (t - 1) k) = S k
  /\ forall s,
      exchangeRate (invoiceData (applyOutcome target (Resolved effective m) s))
      = mkRate target effective (Some m).
Proof.
  intros Hk Hp Hy H404 Hok Hstatus.
  apply Calendar.year_from_100 in Hy.
  assert (Hlen : forall x n, List.length (daysBack x n) = n).
  { intros x n. revert x. induction n as [|n IH]; intros x; cbn; [reflexivity|].
    now rewrite IH. }
  split; [|split; [cbn [List.length]; now rewrite Hlen|reflexivity]].
  unfold fetchRate.
  rewrite (fetchLoop_walk source k _ t);
    cbn [lookupCurrency lookupTarget lookupDate attempts app].
  - rewrite fetchLoop_unfold, loopHead_live by exact Hk. cbv zeta.
    cbn [lookupCurrency lookupDate].
    assert (Hlast : nth k (target :: daysBack (t - 1) k) "" = dateAfter target t k).
    { rewrite <- walked_snoc.
      assert (Hw : List.length (walked target t k) = k).
      { destruct k as [|k]; [reflexivity|]. cbn [walked List.length]. now rewrite Hlen. }
      rewrite app_nth2 by lia. rewrite Hw, Nat.sub_diag. reflexivity. }
    rewrite Hlast in Hok. rewrite Hok.
    cbn [fetchResultOf afterFetch jsonResultOf afterJson].
    rewrite (isOk_not_404 status Hstatus), Hstatus. cbn [negb].
    now rewrite walked_snoc.
  - lia.
  - intros _. split; [exact Hp|lia].
  - intros d Hd. apply In_nth with (d := "") in Hd. destruct Hd as (i & Hi & <-).
    assert (Hw : List.length (walked target t k) = k).
    { destruct k as [|k]; [reflexivity|]. cbn [walked List.length]. now rewrite Hlen. }
    rewrite Hw in Hi. specialize (H404 i Hi).
    rewrite <- walked_snoc in H404. rewrite app_nth1 in H404 by lia. exact H404.
Qed.

(** Sunday 10 March 2024: no data for Sunday and Saturday, a rate for
    Friday. *)
Definition weekendSource : RateSource :=
  fun _ date =>
    if date =? "2024-03-08"
    then Http 200 (Json (Some (mkEntry "2024-03-08" (Some (43 # 10)))))
    else Http 404 (Malformed "404 NotFound").

Lemma fetchRate_resolves_witness :
  fetchRate weekendSource "EUR" "2024-03-10"
  = (["2024-03-10"; "2024-03-09"; "2024-03-08"], Resolved "2024-03-08" (43 # 10)).
Proof.
  refine (proj1 (fetchRate_resolves weekendSource "EUR" "2024-03-10" 19792 2 200
                   "2024-03-08" (43 # 10) _ _ _ _ _ _)).
  - unfold MAX_RATE_LOOKBACK_DAYS. lia.
  - vm_compute. reflexivity.
  - vm_compute. discriminate.
  - intros i Hi. destruct i as [|[|i]]; [reflexivity|reflexivity|lia].
  - reflexivity.
  - reflexivity.
Defined.


(** C2.  When the source has no data for any date asked for, the lookup
    sends exactly 10 requests, for the target date and the 9 calendar
    days before it, and ends exhausted, which is not a hard failure: the
    message of its own is shown, and the effective date and the value are
    left empty. *)
Theorem fetchRate_exhausts (source : RateSource) (currency target : string) (t : Z) :
  dateOfParts target = AtDay t ->
  (100 <= getUTCFullYear (t - 9))%Z ->
  (forall d, In d (target :: daysBack (t - 1) 9) ->
             notFound (source currency d) = true) ->
  fetchRate source currency target
  = (target :: daysBack (t - 1) 9, Exhausted exhaustedMessage)
  /\ List.length (target :: daysBack (t - 1) 9) = 10%nat
  /\ (forall statusMessage toastMessage,
        Exhausted exhaustedMessage <> HardFailure statusMessage toastMessage)
  /\ exhaustedMessage <> ""
  /\ exhaustedMessage <> "Nie udało się pobrać kursu NBP."
  /\ exhaustedMessage <> "Brak danych kursu NBP dla wybranej daty."
  /\ exhaustedMessage <> "Błąd podczas pobierania kursu NBP."
  /\ forall s,
      exchangeRate (invoiceData (applyOutcome target (Exhausted exhaustedMessage) s))
      = mkRate target "" None
      /\ rateStatus (applyOutcome target (Exhausted exhaustedMessage) s)
         = mkStatus false (Some exhaustedMessage)
      /\ toasts (applyOutcome target (Exhausted exhaustedMessage) s)
         = (toasts s ++ [exhaustedMessage])%list.
Proof.
  intros Hp Hy H404.
  apply Calendar.year_from_100 in Hy.
  repeat split; try discriminate.
  unfold fetchRate.
  rewrite (fetchLoop_walk source 10 _ t);
    cbn [lookupCurrency lookupTarget lookupDate attempts app].
  - rewrite fetchLoop_unfold, loopHead_spent by reflexivity. reflexivity.
  - reflexivity.
  - intros _. split; [exact Hp|]. cbn. lia.
  - exact H404.
Qed.

(** A source without data, asked from Friday 1 March 2024 back. *)
Lemma fetchRate_exhausts_witness :
  fetchRate (fun _ _ => Http 404 (Malformed "404 NotFound")) "EUR" "2024-03-01"
  = (["2024-03-01"; "2024-02-29"; "2024-02-28"; "2024-02-27"; "2024-02-26";
      "2024-02-25"; "2024-02-24"; "2024-02-23"; "2024-02-22"; "2024-02-21"],
     Exhausted exhaustedMessage).
Proof.
  refine (proj1 (fetchRate_exhausts (fun _ _ => Http 404 (Malformed "404 NotFound"))
                   "EUR" "2024-03-01" 19783 _ _ _)).
  - vm_compute. reflexivity.
  - vm_compute. discriminate.
  - intros d _. reflexivity.
Defined.

Lemma orElse_nonempty (text fallback : string) :
  fallback <> "" -> orElse text fallback <> "".
Proof.
  intros H. destruct text; [exact H|discriminate].
Qed.

Lemma notFound_not_hard (r : Response) :
  notFound r = true -> hardFailure r = false.
Proof.
  destruct r as [|status body]; [discriminate|]. cbn. now intros ->.
Qed.

(** What the [catch] block does with an error that is no abort, in a
    lookup that was not cancelled. *)
Definition caught (out : Outcome) : Prop :=
  exists statusMessage toastMessage,
    out = HardFailure statusMessage toastMessage
    /\ statusMessage <> "" /\ toastMessage <> "".

Lemma onCatch_caught (e : Error) :
  errName e <> "AbortError" -> caught (onCatch false e).
Proof.
  intros Hn. unfold onCatch. apply String.eqb_neq in Hn. rewrite Hn.
  eexists _, _. split; [reflexivity|].
  split; apply orElse_nonempty; discriminate.
Qed.

Lemma fetchLoop_hard (source : RateSource) (d : string) (n : nat) :
  forall (lk : Lookup) (requested asked : list string) (out : Outcome),
    (MAX_RATE_LOOKBACK_DAYS - attempts lk <= n)%nat ->
    (forall d', In d' requested ->
                notFound (source (lookupCurrency lk) d') = true) ->
    fetchLoop source lk requested = (asked, out) ->
    In d asked ->
    hardFailure (source (lookupCurrency lk) d) = true ->
    (exists before,
        asked = (before ++ [d])%list
        /\ forall d', In d' before ->
                      notFound (source (lookupCurrency lk) d') = true)
    /\ caught out.
Proof.
  induction n as [|n IH]; intros lk requested asked out Hn Hreq Hrun Hin Hhard;
    rewrite fetchLoop_unfold in Hrun; unfold loopHead in Hrun; cbn [negb andb] in Hrun.
  - replace (attempts lk <? MAX_RATE_LOOKBACK_DAYS)%nat with false in Hrun
      by (symmetry; apply Nat.ltb_ge; lia).
    injection Hrun as <- <-. apply Hreq, notFound_not_hard in Hin. congruence.
  - destruct (attempts lk <? MAX_RATE_LOOKBACK_DAYS)%nat eqn:Hlt.
    2:{ injection Hrun as <- <-. apply Hreq, notFound_not_hard in Hin. congruence. }
    cbv zeta in Hrun.
    assert (Hsplit : forall o, In d (requested ++ [lookupDate lk])%list ->
              hardFailure (source (lookupCurrency lk) (lookupDate lk)) = true ->
              caught o ->
              (exists before,
                  (requested ++ [lookupDate lk])%list = (before ++ [d])%list
                  /\ forall d', In d' before ->
                                notFound (source (lookupCurrency lk) d') = true)
              /\ caught o).
    { intros o Hd _ Ho. split; [|exact Ho]. exists requested.
      apply in_app_or in Hd. destruct Hd as [Hd|[<-|[]]]; [|split; [reflexivity|exact Hreq]].
      apply Hreq, notFound_not_hard in Hd. congruence. }
    assert (Hhere : In d (requested ++ [lookupDate lk])%list ->
              hardFailure (source (lookupCurrency lk) (lookupDate lk)) = true).
    { intros Hd. apply in_app_or in Hd. destruct Hd as [Hd|[<-|[]]]; [|exact Hhard].
      apply Hreq, notFound_not_hard in Hd. congruence. }
    destruct (source (lookupCurrency lk) (lookupDate lk)) as [msg|status body] eqn:Er;
      cbn [fetchResultOf afterFetch jsonResultOf] in Hrun.
    + injection Hrun as <- <-. apply Hsplit; [exact Hin|reflexivity|].
      exact (onCatch_caught (mkError "TypeError" msg) ltac:(discriminate)).
    + destruct (status =? 404)%Z eqn:E404.
      * destruct (shiftDateString (lookupDate lk) (-1)) as [d1|e] eqn:Es.
        -- refine (IH _ _ _ _ _ _ Hrun Hin Hhard).
           ++ cbn [attempts]. apply Nat.ltb_lt in Hlt.
              unfold MAX_RATE_LOOKBACK_DAYS in *. lia.
           ++ cbn [lookupCurrency]. intros d' Hd'. apply in_app_or in Hd'.
              destruct Hd' as [Hd'|[<-|[]]]; [now apply Hreq|].
              rewrite Er. exact E404.
        -- injection Hrun as <- <-. specialize (Hhere Hin).
           cbn [hardFailure] in Hhere. rewrite E404 in Hhere. discriminate.
      * destruct (negb (isOk status)) eqn:Eok.
        -- injection Hrun as <- <-. apply Hsplit; [exact Hin|now apply Hhere|].
           exact (onCatch_caught (mkError "Error" "Nie udało się pobrać kursu NBP.")
                    ltac:(discriminate)).
        -- injection Hrun as <- <-. specialize (Hhere Hin).
           apply Hsplit; [exact Hin|exact Hhere|].
           cbn [hardFailure] in Hhere. rewrite E404, Eok in Hhere. cbn in Hhere.
           destruct body as [msg|[[eff [mid|]]|]]; cbn [hasMid] in Hhere;
             try discriminate.
           ++ exact (onCatch_caught (mkError "SyntaxError" msg) ltac:(discriminate)).
           ++ exact (onCatch_caught
                       (mkError "Error" "Brak danych kursu NBP dla wybranej daty.")
                       ltac:(discriminate)).
           ++ exact (onCatch_caught
                       (mkError "Error" "Brak danych kursu NBP dla wybranej daty.")
                       ltac:(discriminate)).
Qed.

(** C3.  When a request of a lookup fails otherwise than with "no data",
    it is the last request of the lookup, the error message is shown in
    the form and in a toast, and the effective date and the value are
    emptied. *)
Theorem fetchRate_aborts (source : RateSource) (currency target d : string)
  (asked : list string) (out : Outcome) :
  fetchRate source currency target = (asked, out) ->
  In d asked ->
  hardFailure (source currency d) = true ->
  (exists before,
      asked = (before ++ [d])%list
      /\ forall d', In d' before -> notFound (source currency d') = true)
  /\ exists statusMessage toastMessage,
      out = HardFailure statusMessage toastMessage
      /\ statusMessage <> "" /\ toastMessage <> ""
      /\ forall s,
          exchangeRate (invoiceData (applyOutcome target out s))
          = mkRate target "" None
          /\ rateStatus (applyOutcome target out s)
             = mkStatus false (Some statusMessage)
          /\ toasts (applyOutcome target out s) = (toasts s ++ [toastMessage])%list.
Proof.
  intros Hrun Hin Hhard. unfold fetchRate in Hrun.
  destruct (fetchLoop_hard source d MAX_RATE_LOOKBACK_DAYS _ [] asked out
              ltac:(cbn [attempts]; lia) ltac:(intros d' []) Hrun Hin Hhard)
    as [Hbefore (sm & tm & -> & Hsm & Htm)].
  split; [exact Hbefore|].
  exists sm, tm. repeat split; assumption.
Qed.

(** No data on Sunday and Saturday, a server error on Friday. *)
Definition failingSource : RateSource :=
  fun _ date =>
    if date =? "2024-03-08" then Http 500 (Malformed "")
    else Http 404 (Malformed "404 NotFound").

Lemma fetchRate_aborts_witness :
  exists before,
    ["2024-03-10"; "2024-03-09"; "2024-03-08"] = (before ++ ["2024-03-08"])%list
    /\ forall d', In d' before -> notFound (failingSource "EUR" d') = true.
Proof.
  refine (proj1 (fetchRate_aborts failingSource "EUR" "2024-03-10" "2024-03-08"
                   ["2024-03-10"; "2024-03-09"; "2024-03-08"]
                   (HardFailure "Nie udało się pobrać kursu NBP."
                      "Nie udało się pobrać kursu NBP.") _ _ _)).
  - vm_compute. reflexivity.
  - cbn. auto.
  - reflexivity.
Defined.

End LookupFacts.

(* ===================================================================== *)
(** ** The form as a transition system                                    *)
(* ===================================================================== *)

Module FormFacts.
Import JS Dates Invoice Form DateFacts StringFacts.
Local Open Scope string_scope.

(** *** Lists of lookups *)

Lemma replaceNth_length {A} (i : nat) (a : A) (l : list A) :
  List.length (replaceNth i a l) = List.length l.
Proof.
  revert i. induction l as [|x l IH]; intros [|i]; cbn; auto.
Qed.

Lemma nth_error_replaceNth_same {A} (i : nat) (a : A) (l : list A) :
  (i < List.length l)%nat -> nth_error (replaceNth i a l) i = Some a.
Proof.
  revert i. induction l as [|x l IH]; intros [|i] H; cbn in *; try lia; auto.
  apply IH. lia.
Qed.

Lemma nth_error_replaceNth_other {A} (i j : nat) (a : A) (l : list A) :
  i <> j -> nth_error (replaceNth i a l) j = nth_error l j.
Proof.
  revert i j. induction l as [|x l IH]; intros [|i] [|j] H; cbn; auto; try congruence.
Qed.

Lemma nth_error_replaceNth {A} (i j : nat) (a r : A) (l : list A) :
  nth_error (replaceNth i a l) j = Some r ->
  (j = i /\ r = a /\ (i < List.length l)%nat) \/ (j <> i /\ nth_error l j = Some r).
Proof.
  intros H. destruct (Nat.eq_dec j i) as [->|Hn].
  - left. assert (Hl : (i < List.length (replaceNth i a l))%nat)
      by (apply nth_error_Some; congruence).
    rewrite replaceNth_length in Hl.
    rewrite nth_error_replaceNth_same in H by exact Hl. split; [reflexivity|].
    split; [congruence|exact Hl].
  - right. split; [exact Hn|]. now rewrite nth_error_replaceNth_other in H by congruence.
Qed.

(** *** Dependency arrays *)

Lemma sameReset_eq (a b : bool * string * string) : sameReset a b = true <-> a = b.
Proof.
  destruct a as [[f t] i], b as [[f' t'] i']. unfold sameReset. split.
  - intros H. apply andb_prop in H. destruct H as [H Hi].
    apply andb_prop in H. destruct H as [Hf Ht].
    apply Bool.eqb_prop in Hf. apply String.eqb_eq in Ht, Hi. now subst.
  - intros H. injection H as -> -> ->.
    now rewrite Bool.eqb_reflx, !String.eqb_refl.
Qed.

Lemma sameFetch_eq (a b : bool * string * nat) : sameFetch a b = true <-> a = b.
Proof.
  destruct a as [[f t] n], b as [[f' t'] n']. unfold sameFetch. split.
  - intros H. apply andb_prop in H. destruct H as [H Hn].
    apply andb_prop in H. destruct H as [Hf Ht].
    apply Bool.eqb_prop in Hf. apply String.eqb_eq in Ht. apply Nat.eqb_eq in Hn.
    now subst.
  - intros H. injection H as -> -> ->.
    now rewrite Bool.eqb_reflx, String.eqb_refl, Nat.eqb_refl.
Qed.

Lemma resetChanged_false (s : FormState) :
  resetChanged s = false <-> depsReset s = Some (depsOfReset s).
Proof.
  unfold resetChanged. destruct (depsReset s) as [d|]; split; try discriminate.
  - intros H. apply negb_false_iff, sameReset_eq in H. now subst.
  - intros H. injection H as ->. apply negb_false_iff, sameReset_eq. reflexivity.
Qed.

Lemma fetchChanged_false (s : FormState) :
  fetchChanged s = false <-> depsFetch s = Some (depsOfFetch s).
Proof.
  unfold fetchChanged. destruct (depsFetch s) as [d|]; split; try discriminate.
  - intros H. apply negb_false_iff, sameFetch_eq in H. now subst.
  - intros H. injection H as ->. apply negb_false_iff, sameFetch_eq. reflexivity.
Qed.

Lemma stable_iff (s : FormState) :
  stable s = true
  <-> depsReset s = Some (depsOfReset s) /\ depsFetch s = Some (depsOfFetch s).
Proof.
  unfold stable. rewrite andb_true_iff, !negb_true_iff.
  now rewrite resetChanged_false, fetchChanged_false.
Qed.


(** *** What the effects leave alone *)

Ltac form_fields :=
  cbn [invoiceData rateStatus rateFetchTrigger maxRateDate depsReset depsFetch
       cleanupFetch lookups requests toasts setData setStatus clearError
       bumpTrigger setMaxRateDate setDeps setCleanup setLookups toastError
       sendRequest] in *.

Lemma resetEffect_frame (today : Z) (rendered : InvoiceData) (s s' : FormState) :
  resetEffect today rendered s = Return s' ->
  lookups s' = lookups s /\ cleanupFetch s' = cleanupFetch s
  /\ depsFetch s' = depsFetch s /\ requests s' = requests s
  /\ toasts s' = toasts s /\ rateFetchTrigger s' = rateFetchTrigger s
  /\ currency (invoiceData s') = currency (invoiceData s)
  /\ issueDate (invoiceData s') = issueDate (invoiceData s).
Proof.
  unfold resetEffect.
  destruct (negb (isForeignCurrency rendered)).
  - intros H. injection H as <-.
    destruct (negb (isEmpty (targetDate (exchangeRate rendered)))
              || negb (isEmpty (effectiveDate (exchangeRate rendered)))
              || hasValue (value (exchangeRate rendered))); form_fields; auto 10.
  - destruct (isEmpty (targetDate (exchangeRate rendered))).
    + destruct (getPreviousBusinessDay today (issueDate rendered)); [|discriminate].
      cbn [bind]. intros H. injection H as <-. form_fields. auto 10.
    + intros H. injection H as <-. auto 10.
Qed.

Lemma fetchEffect_frame (rendered : InvoiceData) (s : FormState) :
  invoiceData (fetchEffect rendered s) = invoiceData s
  /\ rateFetchTrigger (fetchEffect rendered s) = rateFetchTrigger s
  /\ depsFetch (fetchEffect rendered s) = depsFetch s
  /\ toasts (fetchEffect rendered s) = toasts s.
Proof.
  unfold fetchEffect.
  destruct (negb (isForeignCurrency rendered)); [form_fields; auto|].
  destruct (isEmpty (targetDate (exchangeRate rendered))); [form_fields; auto|].
  cbn [loopHead negb andb attempts Nat.ltb Nat.leb MAX_RATE_LOOKBACK_DAYS].
  form_fields. auto.
Qed.

(** The fetch effect starts a lookup exactly for a foreign currency with
    a target date. *)
Definition startsLookup (rendered : InvoiceData) : bool :=
  isForeignCurrency rendered && negb (isEmpty (targetDate (exchangeRate rendered))).

Definition firstLookup (rendered : InvoiceData) : Lookup :=
  mkLookup (normalize (currency rendered)) (targetDate (exchangeRate rendered))
    (targetDate (exchangeRate rendered)) 0.

Lemma fetchEffect_lookups (rendered : InvoiceData) (s : FormState) :
  if startsLookup rendered
  then lookups (fetchEffect rendered s)
       = (lookups s ++ [mkRunning (firstLookup rendered) false AwaitingFetch])%list
       /\ cleanupFetch (fetchEffect rendered s) = Some (List.length (lookups s))
       /\ requests (fetchEffect rendered s)
          = (requests s ++ [(List.length (lookups s), normalize (currency rendered),
                             targetDate (exchangeRate rendered))])%list
       /\ rateStatus (fetchEffect rendered s) = mkStatus true None
  else lookups (fetchEffect rendered s) = lookups s
       /\ cleanupFetch (fetchEffect rendered s) = None
       /\ requests (fetchEffect rendered s) = requests s
       /\ rateStatus (fetchEffect rendered s) = rateStatus s.
Proof.
  unfold startsLookup, fetchEffect.
  destruct (isForeignCurrency rendered); cbn [negb andb]; [|form_fields; auto].
  destruct (isEmpty (targetDate (exchangeRate rendered))); cbn [negb];
    [form_fields; auto|].
  cbn [loopHead negb andb attempts Nat.ltb Nat.leb MAX_RATE_LOOKBACK_DAYS].
  form_fields. auto.
Qed.


(** *** One render *)

Lemma runCleanup_setMaxRateDate (m : string) (s : FormState) :
  runCleanup (setMaxRateDate m s) = setMaxRateDate m (runCleanup s).
Proof.
  unfold runCleanup. form_fields.
  destruct (cleanupFetch s); [|reflexivity].
  destruct (nth_error (lookups s) n); reflexivity.
Qed.

Lemma commit_inversion (today : Z) (s s' : FormState) :
  commit today s = Return s' ->
  exists m s2,
    getPreviousBusinessDay today (issueDate (invoiceData s)) = Return m
    /\ (if resetChanged s
        then resetEffect today (invoiceData s)
               (setMaxRateDate m (if fetchChanged s then runCleanup s else s))
        else Return (setMaxRateDate m (if fetchChanged s then runCleanup s else s)))
       = Return s2
    /\ s' = setDeps (depsOfReset s) (depsOfFetch s)
              (if fetchChanged s then fetchEffect (invoiceData s) s2 else s2).
Proof.
  unfold commit.
  destruct (getPreviousBusinessDay today (issueDate (invoiceData s))) as [m|e];
    [|discriminate].
  cbn [bind].
  change (resetChanged (setMaxRateDate m s)) with (resetChanged s).
  change (fetchChanged (setMaxRateDate m s)) with (fetchChanged s).
  change (invoiceData (setMaxRateDate m s)) with (invoiceData s).
  change (depsOfReset (setMaxRateDate m s)) with (depsOfReset s).
  change (depsOfFetch (setMaxRateDate m s)) with (depsOfFetch s).
  replace (if fetchChanged s then runCleanup (setMaxRateDate m s)
           else setMaxRateDate m s)
    with (setMaxRateDate m (if fetchChanged s then runCleanup s else s))
    by (destruct (fetchChanged s); [now rewrite runCleanup_setMaxRateDate|reflexivity]).
  set (s1 := setMaxRateDate m (if fetchChanged s then runCleanup s else s)).
  destruct (if resetChanged s then resetEffect today (invoiceData s) s1 else Return s1)
    as [s2|e] eqn:E2; [|discriminate].
  cbn [bind]. intros H. injection H as <-.
  exists m, s2. auto.
Qed.

Lemma runCleanup_frame (s : FormState) :
  invoiceData (runCleanup s) = invoiceData s
  /\ rateStatus (runCleanup s) = rateStatus s
  /\ rateFetchTrigger (runCleanup s) = rateFetchTrigger s
  /\ cleanupFetch (runCleanup s) = cleanupFetch s
  /\ depsFetch (runCleanup s) = depsFetch s
  /\ requests (runCleanup s) = requests s
  /\ toasts (runCleanup s) = toasts s
  /\ List.length (lookups (runCleanup s)) = List.length (lookups s).
Proof.
  unfold runCleanup. destruct (cleanupFetch s) as [id|] eqn:Ec; [|auto 10].
  destruct (nth_error (lookups s) id) as [r|]; [|auto 10].
  form_fields. rewrite replaceNth_length. auto 10.
Qed.

(** The lookups that were not cancelled are the one that the cleanup of
    the fetch effect will cancel, which is the latest, and it exists only
    while the fetch effect last ran for a foreign currency. *)
Definition LookupInv (s : FormState) : Prop :=
  (forall i r, nth_error (lookups s) i = Some r -> isCancelled r = false ->
               cleanupFetch s = Some i)
  /\ (forall i, cleanupFetch s = Some i -> S i = List.length (lookups s))
  /\ (forall i, cleanupFetch s = Some i ->
                exists t n, depsFetch s = Some (true, t, n)).

Lemma runCleanup_cancels (s : FormState) :
  LookupInv s ->
  forall j r, nth_error (lookups (runCleanup s)) j = Some r -> isCancelled r = true.
Proof.
  intros (Hone & _ & _) j r. unfold runCleanup.
  destruct (cleanupFetch s) as [id|] eqn:Ec.
  - destruct (nth_error (lookups s) id) as [r0|] eqn:E0; form_fields.
    + intros H. apply nth_error_replaceNth in H.
      destruct H as [(-> & -> & _)|(Hn & H)]; [reflexivity|].
      destruct (isCancelled r) eqn:Er; [reflexivity|].
      specialize (Hone j r H Er). congruence.
    + intros H. destruct (isCancelled r) eqn:Er; [reflexivity|].
      specialize (Hone j r H Er). congruence.
  - intros H. destruct (isCancelled r) eqn:Er; [reflexivity|].
    specialize (Hone j r H Er). congruence.
Qed.

Lemma commit_LookupInv (today : Z) (s s' : FormState) :
  LookupInv s -> commit today s = Return s' -> LookupInv s'.
Proof.
  intros Hinv Hc. apply commit_inversion in Hc.
  destruct Hc as (m & s2 & _ & H2 & ->).
  destruct (fetchChanged s) eqn:Ef.
  - (* the fetch effect runs after its cleanup *)
    assert (Hl2 : lookups s2 = lookups (runCleanup s)).
    { destruct (resetChanged s).
      - apply resetEffect_frame in H2. destruct H2 as (-> & _). reflexivity.
      - injection H2 as <-. reflexivity. }
    pose proof (runCleanup_cancels s Hinv) as Hall. rewrite <- Hl2 in Hall.
    pose proof (fetchEffect_lookups (invoiceData s) s2) as Hfx.
    unfold LookupInv. form_fields. unfold depsOfFetch.
    destruct (startsLookup (invoiceData s)) eqn:Es.
    + destruct Hfx as (Hl & Hcl & _). rewrite Hl, Hcl. repeat split.
      * intros i r Hi Hr. f_equal.
        destruct (Nat.lt_ge_cases i (List.length (lookups s2))) as [Hlt|Hge].
        -- rewrite nth_error_app1 in Hi by exact Hlt.
           apply Hall in Hi. congruence.
        -- assert (Hb : (i < List.length (lookups s2 ++ [mkRunning (firstLookup (invoiceData s)) false AwaitingFetch]))%nat)
             by (apply nth_error_Some; congruence).
           rewrite length_app in Hb. cbn in Hb. lia.
      * intros i Hi. injection Hi as <-. rewrite length_app. cbn. lia.
      * intros i _. unfold startsLookup in Es. apply andb_prop in Es.
        destruct Es as [-> _]. eauto.
    + destruct Hfx as (Hl & Hcl & _). rewrite Hl, Hcl. repeat split.
      * intros i r Hi Hr. apply Hall in Hi. congruence.
      * discriminate.
      * discriminate.
  - (* the fetch effect does not run *)
    apply fetchChanged_false in Ef.
    assert (Hs2 : lookups s2 = lookups s /\ cleanupFetch s2 = cleanupFetch s).
    { destruct (resetChanged s).
      - apply resetEffect_frame in H2. destruct H2 as (-> & -> & _). auto.
      - injection H2 as <-. auto. }
    destruct Hs2 as [Hl Hcl]. destruct Hinv as (Hone & Hlast & Hfor).
    unfold LookupInv. form_fields. rewrite Hl, Hcl, <- Ef. auto.
Qed.


(** *** Renders until the effects are at rest *)

Lemma settle_last (P : FormState -> Prop) (today : Z) :
  (forall s1 s2, P s1 -> commit today s1 = Return s2 -> P s2) ->
  forall fuel s s',
    P s -> settle fuel today s = Some (Return s') ->
    exists s1, P s1 /\ commit today s1 = Return s' /\ stable s' = true.
Proof.
  intros Hstep. induction fuel as [|fuel IH]; intros s s' Hs Hrun; [discriminate|].
  cbn [settle] in Hrun.
  destruct (commit today s) as [s1|e] eqn:Ec; [|discriminate].
  destruct (stable s1) eqn:Est.
  - injection Hrun as <-. exists s. auto.
  - apply (IH s1 s'); [exact (Hstep s s1 Hs Ec)|exact Hrun].
Qed.

Lemma settle_preserves (P : FormState -> Prop) (today : Z) :
  (forall s1 s2, P s1 -> commit today s1 = Return s2 -> P s2) ->
  forall fuel s s',
    P s -> settle fuel today s = Some (Return s') -> P s' /\ stable s' = true.
Proof.
  intros Hstep fuel s s' Hs Hrun.
  destruct (settle_last P today Hstep fuel s s' Hs Hrun) as (s1 & H1 & Hc & Hst).
  split; [exact (Hstep s1 s' H1 Hc)|exact Hst].
Qed.

(** *** Handlers *)

(** The events of the user. *)
Definition userEvent (ev : Event) : bool :=
  match ev with
  | FetchSettled _ _ | JsonSettled _ _ => false
  | _ => true
  end.

(** A handler of the user touches the invoice, the status and the trigger
    only. *)
Lemma dispatch_user_frame (today : Z) (ev : Event) (s s0 : FormState) (b : bool) :
  userEvent ev = true ->
  dispatch today ev s = Some (Return (s0, b)) ->
  b = true
  /\ lookups s0 = lookups s /\ cleanupFetch s0 = cleanupFetch s
  /\ depsFetch s0 = depsFetch s /\ depsReset s0 = depsReset s
  /\ requests s0 = requests s /\ toasts s0 = toasts s.
Proof.
  intros Hu Hd. destruct ev as [v|v| | |v|n|t|id res|id j]; try discriminate Hu;
    cbn [dispatch] in Hd.
  - destruct (handleCurrencyChange today v (invoiceData s)); cbn [bind] in Hd;
      [|discriminate].
    injection Hd as <- <-. form_fields. auto 10.
  - destruct (isForeignCurrency (invoiceData s)); [|discriminate].
    injection Hd as <- <-. form_fields. auto 10.
  - destruct (isForeignCurrency (invoiceData s) && negb (loading (rateStatus s)));
      [|discriminate].
    destruct (getPreviousBusinessDay today (issueDate (invoiceData s)));
      cbn [bind] in Hd; [|discriminate].
    injection Hd as <- <-. form_fields. auto 10.
  - destruct (isForeignCurrency (invoiceData s) && negb (loading (rateStatus s)));
      [|discriminate].
    destruct (isEmpty (targetDate (exchangeRate (invoiceData s)))).
    + destruct (getPreviousBusinessDay today (issueDate (invoiceData s)));
        cbn [bind] in Hd; [|discriminate].
      injection Hd as <- <-. form_fields. auto 10.
    + injection Hd as <- <-. form_fields. auto 10.
  - destruct (handleIssueDateChange today v (invoiceData s)) as [[d [|]]|];
      cbn [bind] in Hd; [| |discriminate]; injection Hd as <- <-; form_fields; auto 10.
  - injection Hd as <- <-. form_fields. auto 10.
  - injection Hd as <- <-. form_fields. auto 10.
Qed.

(** *** Lookups that resume *)

Lemma afterFetch_cancelled (lk : Lookup) (res : FetchResult) :
  match afterFetch true lk res with
  | FetchDone out => out = Discarded
  | _ => True
  end.
Proof.
  unfold afterFetch. destruct res as [e|status]; [reflexivity|].
  destruct (status =? 404)%Z.
  - destruct (shiftDateString (lookupDate lk) (-1)); [exact I|reflexivity].
  - destruct (negb (isOk status)); [reflexivity|exact I].
Qed.

Lemma afterJson_cancelled (j : JsonResult) : afterJson true j = Discarded.
Proof.
  destruct j as [e|[[eff [m|]]|]]; reflexivity.
Qed.

Lemma applyOutcome_frame (target : string) (out : Outcome) (s : FormState) :
  lookups (applyOutcome target out s) = lookups s
  /\ cleanupFetch (applyOutcome target out s) = cleanupFetch s
  /\ depsFetch (applyOutcome target out s) = depsFetch s
  /\ depsReset (applyOutcome target out s) = depsReset s
  /\ requests (applyOutcome target out s) = requests s
  /\ rateFetchTrigger (applyOutcome target out s) = rateFetchTrigger s
  /\ currency (invoiceData (applyOutcome target out s)) = currency (invoiceData s)
  /\ issueDate (invoiceData (applyOutcome target out s)) = issueDate (invoiceData s)
  /\ targetDate (exchangeRate (invoiceData (applyOutcome target out s)))
     = (if setsState out then target else targetDate (exchangeRate (invoiceData s))).
Proof.
  destruct out; cbn [applyOutcome setsState]; form_fields; auto 10.
Qed.

(** What a resumed lookup changes: its own entry, which keeps its flag
    and its currency and target, the requests it sends, and the state
    that its outcome sets. *)
Definition resumed (id : nat) (r : Running) (s s0 : FormState) (b : bool) : Prop :=
  exists r' out,
    lookups s0 = replaceNth id r' (lookups s)
    /\ isCancelled r' = isCancelled r
    /\ lookupTarget (vars r') = lookupTarget (vars r)
    /\ cleanupFetch s0 = cleanupFetch s /\ depsFetch s0 = depsFetch s
    /\ depsReset s0 = depsReset s
    /\ rateFetchTrigger s0 = rateFetchTrigger s
    /\ (b = false -> invoiceData s0 = invoiceData s /\ rateStatus s0 = rateStatus s
                     /\ toasts s0 = toasts s)
    /\ (b = true -> isCancelled r = false
                    /\ s0 = applyOutcome (lookupTarget (vars r)) out
                              (setLookups (replaceNth id r' (lookups s)) s)
                    /\ setsState out = true)
    /\ (isCancelled r = true -> b = false /\ requests s0 = requests s)
    /\ exists extra, requests s0 = (requests s ++ extra)%list
                     /\ forall q, In q extra -> fst (fst q) = id.

Lemma endLookup_resumed (id : nat) (r r1 : Running) (out : Outcome) (s s0 : FormState)
  (b : bool) :
  isCancelled r1 = isCancelled r ->
  lookupTarget (vars r1) = lookupTarget (vars r) ->
  (isCancelled r = true -> out = Discarded) ->
  endLookup id r1 out s = (s0, b) -> resumed id r s s0 b.
Proof.
  intros Hc Ht Hout H. unfold endLookup in H. injection H as <- <-.
  exists (mkRunning (vars r1) (isCancelled r1) Ended), out.
  pose proof (applyOutcome_frame (lookupTarget (vars r1)) out
                (setLookups (replaceNth id (mkRunning (vars r1) (isCancelled r1) Ended)
                               (lookups s)) s)) as Hf.
  form_fields. destruct Hf as (Hl & Hcl & Hdf & Hdr & Hrq & Htr & _).
  split; [exact Hl|]. split; [exact Hc|]. split; [exact Ht|].
  split; [exact Hcl|]. split; [exact Hdf|]. split; [exact Hdr|].
  split; [exact Htr|].
  split.
  { intros Hb. destruct out; try discriminate Hb. cbn [applyOutcome]. auto. }
  split.
  { intros Hb. split; [|split; [now rewrite Ht|exact Hb]].
    destruct (isCancelled r) eqn:E; [|reflexivity].
    rewrite (Hout eq_refl) in Hb. discriminate. }
  split.
  { intros E. rewrite (Hout E). cbn [applyOutcome setsState]. auto. }
  exists []. rewrite app_nil_r. split; [exact Hrq|intros q []].
Qed.

Lemma resumeFetch_resumed (id : nat) (r : Running) (res : FetchResult)
  (s s0 : FormState) (b : bool) :
  resumeFetch id r res s = (s0, b) -> resumed id r s s0 b.
Proof.
  unfold resumeFetch. pose proof (afterFetch_cancelled (vars r) res) as Hc.
  destruct (isCancelled r) eqn:Er.
  - (* cancelled: no request, no state *)
    destruct (afterFetch true (vars r) res) as [lk| |out] eqn:Ea.
    + cbn [loopHead negb andb]. intros H.
      apply (endLookup_resumed id r (mkRunning lk true Ended) Discarded);
        [now rewrite Er| |reflexivity|exact H].
      cbn [vars]. unfold afterFetch in Ea. destruct res as [e|status]; [discriminate|].
      destruct (status =? 404)%Z.
      * destruct (shiftDateString (lookupDate (vars r)) (-1)); [|discriminate].
        now injection Ea as <-.
      * destruct (negb (isOk status)); discriminate.
    + intros H. injection H as <- <-.
      exists (mkRunning (vars r) true AwaitingJson), Discarded. form_fields.
      do 7 (split; [first [reflexivity|assumption|cbn [isCancelled vars]; congruence]|]).
      split; [auto|]. split; [discriminate|]. split; [auto|].
      exists []. rewrite app_nil_r. split; [reflexivity|intros q []].
    + subst out. intros H.
      exact (endLookup_resumed id r r Discarded s s0 b eq_refl eq_refl
               (fun _ => eq_refl) H).
  - destruct (afterFetch false (vars r) res) as [lk| |out] eqn:Ea.
    + assert (Ht : lookupTarget lk = lookupTarget (vars r)).
      { unfold afterFetch in Ea. destruct res as [e|status]; [discriminate|].
        destruct (status =? 404)%Z.
        * destruct (shiftDateString (lookupDate (vars r)) (-1)); [|discriminate].
          now injection Ea as <-.
        * destruct (negb (isOk status)); discriminate. }
      destruct (loopHead false lk) as [lk1|out] eqn:El.
      * apply loopHead_Request in El. destruct El as [-> _].
        intros H. injection H as <- <-.
        exists (mkRunning lk false AwaitingFetch), Discarded. form_fields.
        do 7 (split; [first [reflexivity|assumption|cbn [isCancelled vars]; congruence]|]).
        split; [auto|]. split; [discriminate|]. split; [congruence|].
        exists [(id, lookupCurrency lk, lookupDate lk)].
        split; [reflexivity|]. intros q [<-|[]]. reflexivity.
      * intros H.
        apply (endLookup_resumed id r (mkRunning lk false Ended) out);
          [now rewrite Er|exact Ht|congruence|exact H].
    + intros H. injection H as <- <-.
      exists (mkRunning (vars r) false AwaitingJson), Discarded. form_fields.
      do 7 (split; [first [reflexivity|assumption|cbn [isCancelled vars]; congruence]|]).
      split; [auto|]. split; [discriminate|]. split; [congruence|].
      exists []. rewrite app_nil_r. split; [reflexivity|intros q []].
    + intros H.
      refine (endLookup_resumed id r r out s s0 b eq_refl eq_refl _ H). congruence.
Qed.

Lemma resumeJson_resumed (id : nat) (r : Running) (j : JsonResult)
  (s s0 : FormState) (b : bool) :
  resumeJson id r j s = (s0, b) -> resumed id r s s0 b.
Proof.
  unfold resumeJson. intros H.
  refine (endLookup_resumed id r r (afterJson (isCancelled r) j) s s0 b
            eq_refl eq_refl _ H).
  intros E. rewrite E. apply afterJson_cancelled.
Qed.

(** The events of the lookups. *)
Lemma dispatch_resumed (today : Z) (ev : Event) (s s0 : FormState) (b : bool) :
  userEvent ev = false ->
  dispatch today ev s = Some (Return (s0, b)) ->
  exists id r,
    nth_error (lookups s) id = Some r /\ resumed id r s s0 b
    /\ ((exists res, ev = FetchSettled id res) \/ (exists j, ev = JsonSettled id j)).
Proof.
  intros Hu Hd. destruct ev as [v|v| | |v|n|t|id res|id j]; try discriminate Hu;
    cbn [dispatch] in Hd.
  - destruct (nth_error (lookups s) id) as [r|] eqn:En; [|discriminate].
    destruct (phase r); try discriminate.
    destruct (fetchAllowed (isCancelled r) res); [|discriminate].
    assert (Hr : resumeFetch id r res s = (s0, b)) by congruence.
    exists id, r. split; [exact En|].
    split; [exact (resumeFetch_resumed id r res s s0 b Hr)|eauto].
  - destruct (nth_error (lookups s) id) as [r|] eqn:En; [|discriminate].
    destruct (phase r); try discriminate.
    destruct (jsonAllowed (isCancelled r) j); [|discriminate].
    assert (Hr : resumeJson id r j s = (s0, b)) by congruence.
    exists id, r. split; [exact En|].
    split; [exact (resumeJson_resumed id r j s s0 b Hr)|eauto].
Qed.

(** *** Invariants of the settled form *)

Lemma toDateString_Return (date : Date) (m : string) :
  toDateString date = Return m -> exists t, date = AtDay t /\ m = isoDatePart t.
Proof.
  destruct date as [|t]; [discriminate|].
  rewrite toDateString_AtDay. intros H. injection H as <-. eauto.
Qed.

(** A previous business day is never the empty string. *)
Lemma getPreviousBusinessDay_nonempty (today : Z) (referenceDate m : string) :
  getPreviousBusinessDay today referenceDate = Return m -> m <> "".
Proof.
  unfold getPreviousBusinessDay. intros H.
  apply toDateString_Return in H. destruct H as (t & _ & ->).
  apply isoDatePart_nonempty.
Qed.

Lemma isEmpty_true (x : string) : isEmpty x = true <-> x = "".
Proof.
  destruct x; cbn; split; congruence.
Qed.

Lemma isEmpty_false (x : string) : isEmpty x = false <-> x <> "".
Proof.
  destruct x; cbn; split; congruence.
Qed.

(** Without a foreign currency the invoice holds the empty rate. *)
Definition Domestic (s : FormState) : Prop :=
  isForeignCurrency (invoiceData s) = false ->
  exchangeRate (invoiceData s) = emptyRate.

(** Before a render: the reset effect is due, or the invoice is in order
    already. *)
Definition DueOrDomestic (s : FormState) : Prop :=
  resetChanged s = true \/ Domestic s.

Lemma commit_Domestic (today : Z) (s s' : FormState) :
  DueOrDomestic s -> commit today s = Return s' -> Domestic s'.
Proof.
  intros Hpre Hc. apply commit_inversion in Hc.
  destruct Hc as (m & s2 & _ & H2 & ->).
  assert (Hd : invoiceData
                 (setDeps (depsOfReset s) (depsOfFetch s)
                    (if fetchChanged s then fetchEffect (invoiceData s) s2 else s2))
               = invoiceData s2).
  { destruct (fetchChanged s); [|reflexivity].
    form_fields. apply fetchEffect_frame. }
  unfold Domestic. rewrite Hd. clear Hd.
  remember (setMaxRateDate m (if fetchChanged s then runCleanup s else s)) as s1
    eqn:Es1.
  assert (H1 : invoiceData s1 = invoiceData s).
  { subst s1. destruct (fetchChanged s); [|reflexivity].
    form_fields. apply runCleanup_frame. }
  clear Es1.
  destruct (resetChanged s) eqn:Er.
  - unfold resetEffect in H2.
    destruct (isForeignCurrency (invoiceData s)) eqn:Ef; cbn [negb] in H2.
    + assert (Hcur : currency (invoiceData s2) = currency (invoiceData s)).
      { destruct (isEmpty (targetDate (exchangeRate (invoiceData s)))).
        - destruct (getPreviousBusinessDay today (issueDate (invoiceData s)));
            [|discriminate].
          cbn [bind] in H2. injection H2 as <-. form_fields.
          cbn [currency withExchangeRate]. now rewrite H1.
        - injection H2 as <-. now rewrite H1. }
      unfold isForeignCurrency in *. rewrite Hcur. congruence.
    + intros _. injection H2 as <-.
      destruct (isEmpty (targetDate (exchangeRate (invoiceData s)))) eqn:Et;
        destruct (isEmpty (effectiveDate (exchangeRate (invoiceData s)))) eqn:Ee;
        destruct (value (exchangeRate (invoiceData s))) eqn:Ev;
        cbn [negb orb hasValue]; form_fields; try reflexivity.
      rewrite H1. apply isEmpty_true in Et, Ee.
      destruct (exchangeRate (invoiceData s)) as [t e v]. cbn in *. now subst.
  - destruct Hpre as [Hpre|Hpre]; [congruence|].
    injection H2 as <-. rewrite H1. exact Hpre.
Qed.

(** The form at rest. *)
Definition Settled (s : FormState) : Prop :=
  stable s = true /\ LookupInv s /\ Domestic s.

Lemma settle_Settled (fuel : nat) (today : Z) (s s' : FormState) :
  LookupInv s -> DueOrDomestic s ->
  settle fuel today s = Some (Return s') -> Settled s'.
Proof.
  intros Hl Hd Hrun.
  destruct (settle_last (fun x => LookupInv x /\ DueOrDomestic x) today) with
    (fuel := fuel) (s := s) (s' := s') as (s1 & [Hl1 Hd1] & Hc & Hst); auto.
  - intros x y [Hx Hy] Hxy. split; [exact (commit_LookupInv today x y Hx Hxy)|].
    right. exact (commit_Domestic today x y Hy Hxy).
  - split; [exact Hst|]. split; [exact (commit_LookupInv today s1 s' Hl1 Hc)|].
    exact (commit_Domestic today s1 s' Hd1 Hc).
Qed.

Lemma resumed_LookupInv (id : nat) (r : Running) (s s0 : FormState) (b : bool) :
  nth_error (lookups s) id = Some r -> resumed id r s s0 b ->
  LookupInv s -> LookupInv s0.
Proof.
  intros Hn (r' & out & Hl & Hc & _ & Hcl & Hdf & _) (Hone & Hlast & Hfor).
  unfold LookupInv. rewrite Hl, Hcl, Hdf, replaceNth_length.
  split; [|auto]. intros i x Hi Hx.
  apply nth_error_replaceNth in Hi. destruct Hi as [(-> & -> & _)|(_ & Hi)].
  - apply (Hone id r Hn). congruence.
  - exact (Hone i x Hi Hx).
Qed.

(** A lookup that was not cancelled belongs to a foreign invoice. *)
Lemma live_foreign (s : FormState) (i : nat) (r : Running) :
  Settled s -> nth_error (lookups s) i = Some r -> isCancelled r = false ->
  isForeignCurrency (invoiceData s) = true.
Proof.
  intros (Hst & (Hone & _ & Hfor) & _) Hi Hr.
  destruct (Hfor i (Hone i r Hi Hr)) as (t & n & Hd).
  apply stable_iff in Hst. destruct Hst as [_ Hf]. rewrite Hf in Hd.
  unfold depsOfFetch in Hd. congruence.
Qed.

Lemma resetChanged_true (s : FormState) (d : bool * string * string) :
  depsReset s = Some d -> d <> depsOfReset s -> resetChanged s = true.
Proof.
  intros Hd Hn. destruct (resetChanged s) eqn:E; [reflexivity|].
  apply resetChanged_false in E. congruence.
Qed.

(** After a handler of the user the reset effect is due or the invoice is
    in order. *)
Lemma dispatch_user_Domestic (today : Z) (ev : Event) (s s0 : FormState) (b : bool) :
  userEvent ev = true -> Settled s ->
  dispatch today ev s = Some (Return (s0, b)) -> DueOrDomestic s0.
Proof.
  intros Hu (Hst & _ & Hdom) Hd.
  apply stable_iff in Hst. destruct Hst as [Hdr _].
  destruct ev as [v|v| | |v|n|t|id res|id j]; try discriminate Hu;
    cbn [dispatch] in Hd.
  - (* currency *)
    unfold handleCurrencyChange in Hd.
    destruct (getPreviousBusinessDay today (issueDate (invoiceData s)))
      as [def|] eqn:Eg; cbn [bind] in Hd; [|discriminate].
    apply getPreviousBusinessDay_nonempty in Eg.
    destruct (normalize v =? "PLN") eqn:Ep.
    + apply String.eqb_eq in Ep. rewrite Ep in Hd. injection Hd as <- <-.
      right. intros _. reflexivity.
    + injection Hd as <- <-.
      destruct (isForeignCurrency
                  (withCurrency (invoiceData s) (normalize v)
                     (mkRate (orElse (targetDate (exchangeRate (invoiceData s))) def)
                        "" None))) eqn:Ef.
      * right. unfold Domestic. form_fields. congruence.
      * left. apply (resetChanged_true _ (depsOfReset s)); [exact Hdr|].
        unfold depsOfReset. form_fields. rewrite Ef.
        cbn [withCurrency exchangeRate targetDate issueDate].
        destruct (isForeignCurrency (invoiceData s)) eqn:Ef0; [congruence|].
        rewrite (Hdom Ef0). cbn [emptyRate targetDate orElse]. congruence.
  - destruct (isForeignCurrency (invoiceData s)) eqn:Ef; [|discriminate].
    injection Hd as <- <-. right. unfold Domestic, isForeignCurrency in *.
    form_fields. cbn [handleRateDateChange withExchangeRate currency]. congruence.
  - destruct (isForeignCurrency (invoiceData s)) eqn:Ef; [|discriminate].
    destruct (negb (loading (rateStatus s))); [|discriminate]. cbn [andb] in Hd.
    destruct (getPreviousBusinessDay today (issueDate (invoiceData s)));
      cbn [bind] in Hd; [|discriminate].
    injection Hd as <- <-. right. unfold Domestic, isForeignCurrency in *.
    form_fields. cbn [usePreviousDay withExchangeRate currency]. congruence.
  - destruct (isForeignCurrency (invoiceData s)) eqn:Ef; [|discriminate].
    destruct (negb (loading (rateStatus s))); [|discriminate]. cbn [andb] in Hd.
    destruct (isEmpty (targetDate (exchangeRate (invoiceData s)))).
    + destruct (getPreviousBusinessDay today (issueDate (invoiceData s)));
        cbn [bind] in Hd; [|discriminate].
      injection Hd as <- <-. right. unfold Domestic, isForeignCurrency in *.
      form_fields. cbn [usePreviousDay withExchangeRate currency]. congruence.
    + injection Hd as <- <-. right. unfold Domestic. form_fields. congruence.
  - (* issue date *)
    unfold handleIssueDateChange in Hd.
    fold (isForeignCurrency (invoiceData s)) in Hd.
    destruct (isForeignCurrency (invoiceData s)) eqn:Ef.
    + right.
      destruct (getPreviousBusinessDay today v) as [nd|]; cbn [bind] in Hd;
        [|discriminate].
      destruct (getPreviousBusinessDay today (issueDate (invoiceData s))) as [pd|];
        cbn [bind] in Hd; [|discriminate].
      destruct (isEmpty (targetDate (exchangeRate (invoiceData s)))
                || (targetDate (exchangeRate (invoiceData s)) =? pd));
        [destruct (negb (targetDate (exchangeRate (invoiceData s)) =? nd))|];
        cbn [bind] in Hd; injection Hd as <- <-;
        unfold Domestic, isForeignCurrency in *; form_fields;
        cbn [withExchangeRate withIssueDate currency]; congruence.
    + cbn [bind] in Hd. injection Hd as <- <-. right.
      unfold Domestic, isForeignCurrency in *. form_fields.
      cbn [withIssueDate currency exchangeRate]. exact Hdom.
  - injection Hd as <- <-. right. unfold Domestic, isForeignCurrency in *.
    form_fields. unfold appendNote.
    destruct (includes (notes (invoiceData s)) n); [exact Hdom|].
    cbn [withNotes currency exchangeRate]. exact Hdom.
  - injection Hd as <- <-. right. unfold Domestic, isForeignCurrency in *.
    form_fields. cbn [withNotes currency exchangeRate]. exact Hdom.
Qed.

Lemma dispatch_user_LookupInv (today : Z) (ev : Event) (s s0 : FormState) (b : bool) :
  userEvent ev = true -> LookupInv s ->
  dispatch today ev s = Some (Return (s0, b)) -> LookupInv s0.
Proof.
  intros Hu Hinv Hd.
  destruct (dispatch_user_frame today ev s s0 b Hu Hd)
    as (_ & Hl & Hc & Hdf & _).
  unfold LookupInv in *. now rewrite Hl, Hc, Hdf.
Qed.

Lemma unmounted_ready (data : InvoiceData) :
  LookupInv (unmounted data) /\ DueOrDomestic (unmounted data).
Proof.
  split; [|left; reflexivity].
  unfold LookupInv, unmounted. form_fields. repeat split.
  - intros [|i] r H; discriminate.
  - discriminate.
  - discriminate.
Qed.

(** Every step leads from a settled form to a settled form. *)
Lemma step_Settled (fuel : nat) (today : Z) (ev : Event) (s s' : FormState) :
  Settled s -> step fuel today ev s = Some (Return s') -> Settled s'.
Proof.
  intros Hs Hstep. unfold step in Hstep.
  destruct (dispatch today ev s) as [[[s0 b]|e]|] eqn:Ed; try discriminate.
  destruct (userEvent ev) eqn:Eu.
  - pose proof (dispatch_user_frame today ev s s0 b Eu Ed) as (-> & _).
    apply (settle_Settled fuel today s0 s'); [| |exact Hstep].
    + destruct Hs as (_ & Hl & _). exact (dispatch_user_LookupInv today ev s s0 _ Eu Hl Ed).
    + exact (dispatch_user_Domestic today ev s s0 _ Eu Hs Ed).
  - destruct (dispatch_resumed today ev s s0 b Eu Ed) as (id & r & Hn & Hr & _).
    pose proof Hs as (Hst & Hl & Hdom).
    pose proof (resumed_LookupInv id r s s0 b Hn Hr Hl) as Hl0.
    destruct Hr as (r' & out & _ & _ & _ & _ & Hdf & Hdr & Htr & Hno & Hyes & _).
    destruct b.
    + destruct (Hyes eq_refl) as (Hlive & -> & _).
      refine (settle_Settled fuel today _ s' Hl0 _ Hstep).
      right. unfold Domestic, isForeignCurrency.
      pose proof (applyOutcome_frame (lookupTarget (vars r)) out
                    (setLookups (replaceNth id r' (lookups s)) s))
        as (_ & _ & _ & _ & _ & _ & Hcur & _).
      rewrite Hcur. form_fields.
      pose proof (live_foreign s id r Hs Hn Hlive) as Hf.
      unfold isForeignCurrency in Hf. congruence.
    + injection Hstep as <-. destruct (Hno eq_refl) as (Hd0 & _).
      split; [|split; [exact Hl0|]].
      * apply stable_iff. apply stable_iff in Hst. destruct Hst as [H1 H2].
        unfold depsOfReset, depsOfFetch in *. now rewrite Hdr, Hdf, Hd0, Htr.
      * unfold Domestic. now rewrite Hd0.
Qed.

Lemma reachable_Settled (admits : Event -> Prop) (s : FormState) :
  reachableBy admits s -> Settled s.
Proof.
  induction 1 as [fuel today s Hm|fuel today ev s s' _ IH _ Hstep].
  - unfold mount in Hm. destruct (initialInvoice today) as [data|]; [|discriminate].
    destruct (unmounted_ready data) as [Hl Hd].
    exact (settle_Settled fuel today _ s Hl Hd Hm).
  - exact (step_Settled fuel today ev s s' IH Hstep).
Qed.

(** *** Renders that change nothing in the invoice *)

Lemma commit_frame (today : Z) (s s' : FormState) :
  commit today s = Return s' ->
  rateFetchTrigger s' = rateFetchTrigger s
  /\ currency (invoiceData s') = currency (invoiceData s)
  /\ issueDate (invoiceData s') = issueDate (invoiceData s)
  /\ toasts s' = toasts s.
Proof.
  intros Hc. apply commit_inversion in Hc.
  destruct Hc as (m & s2 & _ & H2 & ->).
  assert (H1 : rateFetchTrigger s2 = rateFetchTrigger s
               /\ currency (invoiceData s2) = currency (invoiceData s)
               /\ issueDate (invoiceData s2) = issueDate (invoiceData s)
               /\ toasts s2 = toasts s).
  { pose proof (runCleanup_frame s) as (Hd & _ & Ht & _ & _ & _ & Hto & _).
    destruct (resetChanged s).
    - apply resetEffect_frame in H2.
      destruct H2 as (_ & _ & _ & _ & Hto2 & Ht2 & Hc2 & Hi2).
      rewrite Hto2, Ht2, Hc2, Hi2. form_fields.
      destruct (fetchChanged s); [rewrite Hd, Ht, Hto|]; auto.
    - injection H2 as <-. form_fields.
      destruct (fetchChanged s); [rewrite Hd, Ht, Hto|]; auto. }
  destruct H1 as (Ht & Hc & Hi & Hto). form_fields.
  destruct (fetchChanged s); [|auto].
  pose proof (fetchEffect_frame (invoiceData s) s2) as (Hd & Htr & _ & Hts).
  rewrite Hd, Htr, Hts. auto.
Qed.

(** A render that leaves the invoice as it is leaves the effects at rest. *)
Lemma commit_stable (today : Z) (s s' : FormState) :
  commit today s = Return s' -> invoiceData s' = invoiceData s -> stable s' = true.
Proof.
  intros Hc Hd. pose proof (commit_frame today s s' Hc) as (Ht & _).
  apply commit_inversion in Hc. destruct Hc as (m & s2 & _ & _ & E).
  apply stable_iff. unfold depsOfReset, depsOfFetch. rewrite Hd, Ht.
  rewrite E. form_fields. auto.
Qed.

Lemma settle_one (fuel : nat) (today : Z) (s s' : FormState) :
  commit today s = Return s' -> invoiceData s' = invoiceData s ->
  settle (S fuel) today s = Some (Return s').
Proof.
  intros Hc Hd. cbn [settle]. rewrite Hc, (commit_stable today s s' Hc Hd). reflexivity.
Qed.

(** The render of an invoice without foreign currency that holds the
    empty rate: no lookup is left that was not cancelled. *)
Lemma commit_without_rate (today : Z) (s : FormState) (m : string) :
  isForeignCurrency (invoiceData s) = false ->
  exchangeRate (invoiceData s) = emptyRate ->
  getPreviousBusinessDay today (issueDate (invoiceData s)) = Return m ->
  exists s', commit today s = Return s' /\ invoiceData s' = invoiceData s
             /\ List.length (lookups s') = List.length (lookups s)
             /\ requests s' = requests s.
Proof.
  intros Hf He Hg. unfold commit. rewrite Hg. cbn [bind].
  change (resetChanged (setMaxRateDate m s)) with (resetChanged s).
  change (fetchChanged (setMaxRateDate m s)) with (fetchChanged s).
  change (invoiceData (setMaxRateDate m s)) with (invoiceData s).
  unfold resetEffect, fetchEffect. rewrite Hf, He. cbn [negb emptyRate targetDate
    effectiveDate value isEmpty hasValue orb].
  pose proof (runCleanup_frame (setMaxRateDate m s))
    as (Hd & _ & _ & _ & _ & Hr & _ & Hl).
  destruct (resetChanged s), (fetchChanged s); cbn [bind]; eexists;
    (split; [reflexivity|]); form_fields; rewrite ?Hd, ?Hl, ?Hr; auto.
Qed.

(** The render of an invoice in a foreign currency with a target date:
    the invoice stays as it is, and a lookup starts exactly if the
    dependencies of the fetch effect changed. *)
Lemma commit_with_target (today : Z) (s : FormState) (m : string) :
  isForeignCurrency (invoiceData s) = true ->
  targetDate (exchangeRate (invoiceData s)) <> "" ->
  getPreviousBusinessDay today (issueDate (invoiceData s)) = Return m ->
  exists s',
    commit today s = Return s' /\ invoiceData s' = invoiceData s
    /\ (if fetchChanged s
        then List.length (lookups s') = S (List.length (lookups s))
             /\ nth_error (lookups s') (List.length (lookups s))
                = Some (mkRunning (firstLookup (invoiceData s)) false AwaitingFetch)
             /\ requests s'
                = (requests s
                   ++ [(List.length (lookups s), normalize (currency (invoiceData s)),
                        targetDate (exchangeRate (invoiceData s)))])%list
        else lookups s' = lookups s /\ requests s' = requests s
             /\ rateStatus s' = rateStatus s).
Proof.
  intros Hf Ht Hg. unfold commit. rewrite Hg. cbn [bind].
  change (resetChanged (setMaxRateDate m s)) with (resetChanged s).
  change (fetchChanged (setMaxRateDate m s)) with (fetchChanged s).
  change (invoiceData (setMaxRateDate m s)) with (invoiceData s).
  apply isEmpty_false in Ht.
  assert (Hr : forall x, resetEffect today (invoiceData s) x = Return x).
  { intros x. unfold resetEffect. now rewrite Hf, Ht. }
  assert (Hs : startsLookup (invoiceData s) = true)
    by (unfold startsLookup; now rewrite Hf, Ht).
  destruct (fetchChanged s).
  - pose proof (runCleanup_frame (setMaxRateDate m s))
      as (Hd & _ & _ & _ & _ & Hq & _ & Hl).
    pose proof (fetchEffect_lookups (invoiceData s) (runCleanup (setMaxRateDate m s)))
      as Hfx. rewrite Hs in Hfx. destruct Hfx as (Hlk & _ & Hrq & _).
    pose proof (fetchEffect_frame (invoiceData s) (runCleanup (setMaxRateDate m s)))
      as (Hfd & _).
    exists (setDeps (depsOfReset (setMaxRateDate m s)) (depsOfFetch (setMaxRateDate m s))
              (fetchEffect (invoiceData s) (runCleanup (setMaxRateDate m s)))).
    split; [destruct (resetChanged s); [rewrite Hr|]; reflexivity|].
    form_fields. rewrite Hfd, Hd, Hlk, Hrq, Hq, Hl, length_app.
    cbn [List.length]. split; [reflexivity|]. split; [lia|]. split; [|reflexivity].
    rewrite nth_error_app2 by lia. rewrite Hl, Nat.sub_diag. reflexivity.
  - exists (setDeps (depsOfReset (setMaxRateDate m s)) (depsOfFetch (setMaxRateDate m s))
              (setMaxRateDate m s)).
    split; [destruct (resetChanged s); [rewrite Hr|]; reflexivity|].
    form_fields. auto.
Qed.

(** *** The renders come to rest *)

Lemma settle_more (today : Z) (fuel : nat) :
  forall s r, settle fuel today s = Some r -> settle (S fuel) today s = Some r.
Proof.
  induction fuel as [|fuel IH]; intros s r H; [discriminate|].
  cbn [settle] in H. change (settle (S (S fuel)) today s)
    with (match commit today s with
          | Throw e => Some (Throw e)
          | Return s' => if stable s' then Some (Return s') else settle (S fuel) today s'
          end).
  destruct (commit today s) as [s1|e]; [|exact H].
  destruct (stable s1); [exact H|]. apply IH. exact H.
Qed.

(** Two renders always suffice: the second render of an event finds the
    invoice as the first one left it.  So [settle] with two or more units
    of fuel never runs out of fuel. *)
Lemma settle_rests (today : Z) (s : FormState) : settle 2 today s <> None.
Proof.
  cbn [settle].
  destruct (commit today s) as [s1|e] eqn:E1; [|discriminate].
  destruct (stable s1) eqn:St1; [discriminate|].
  destruct (commit today s1) as [s2|e] eqn:E2; [|discriminate].
  enough (Hst : stable s2 = true) by (rewrite Hst; discriminate).
  apply (commit_stable today s1 s2 E2).
  pose proof (commit_frame today s s1 E1) as (_ & Hcur & Hiss & _).
  pose proof E1 as E1'. apply commit_inversion in E1'.
  destruct E1' as (m & x & Hg & Hx & Hs1).
  assert (Hd1 : invoiceData s1 = invoiceData x).
  { rewrite Hs1. destruct (fetchChanged s); [|reflexivity].
    form_fields. apply fetchEffect_frame. }
  remember (setMaxRateDate m (if fetchChanged s then runCleanup s else s)) as s0
    eqn:Es0.
  assert (H0 : invoiceData s0 = invoiceData s).
  { subst s0. destruct (fetchChanged s); [|reflexivity].
    form_fields. apply runCleanup_frame. }
  clear Es0.
  assert (Hg1 : getPreviousBusinessDay today (issueDate (invoiceData s1)) = Return m)
    by (now rewrite Hiss).
  assert (Hsame : invoiceData s1 = invoiceData s -> False).
  { intros E. rewrite (commit_stable today s s1 E1 E) in St1. discriminate. }
  destruct (resetChanged s); [|injection Hx as <-; exfalso; apply Hsame; congruence].
  unfold resetEffect in Hx.
  destruct (isForeignCurrency (invoiceData s)) eqn:Ef; cbn [negb] in Hx.
  - destruct (isEmpty (targetDate (exchangeRate (invoiceData s)))) eqn:Et;
      [|injection Hx as <-; exfalso; apply Hsame; congruence].
    destruct (getPreviousBusinessDay today (issueDate (invoiceData s))) as [def|] eqn:Ed;
      [|discriminate].
    cbn [bind] in Hx. injection Hx as <-. form_fields.
    destruct (commit_with_target today s1 m) as (s' & Hc & Hd & _).
    + unfold isForeignCurrency in *. now rewrite Hcur.
    + rewrite Hd1. cbn [withExchangeRate exchangeRate targetDate].
      exact (getPreviousBusinessDay_nonempty _ _ _ Ed).
    + exact Hg1.
    + congruence.
  - injection Hx as <-.
    destruct (negb (isEmpty (targetDate (exchangeRate (invoiceData s))))
              || negb (isEmpty (effectiveDate (exchangeRate (invoiceData s))))
              || hasValue (value (exchangeRate (invoiceData s))));
      form_fields; [|exfalso; apply Hsame; congruence].
    destruct (commit_without_rate today s1 m) as (s' & Hc & Hd & _).
    + unfold isForeignCurrency in *. now rewrite Hcur.
    + now rewrite Hd1.
    + exact Hg1.
    + congruence.
Qed.

(** Every event that can happen has an outcome: the step with two units
    of fuel ends in a state or in an exception, and more fuel gives the
    same. *)
Lemma step_total (today : Z) (ev : Event) (s : FormState) :
  dispatch today ev s <> None -> step 2 today ev s <> None.
Proof.
  intros Hd. unfold step.
  destruct (dispatch today ev s) as [[[s0 [|]]|e]|]; try discriminate; try congruence.
  apply settle_rests.
Qed.

(** *** The domestic invoice *)

Lemma PLN_not_foreign (data : InvoiceData) :
  currency data = "PLN" -> isForeignCurrency data = false.
Proof.
  unfold isForeignCurrency. now intros ->.
Qed.

Lemma Settled_PLN (s : FormState) :
  Settled s -> currency (invoiceData s) = "PLN" ->
  exchangeRate (invoiceData s) = mkRate "" "" None
  /\ forall r, In r (lookups s) -> pending r = false.
Proof.
  intros Hs Hc. pose proof (PLN_not_foreign _ Hc) as Hf.
  split; [destruct Hs as (_ & _ & Hd); exact (Hd Hf)|].
  intros r Hr. apply In_nth_error in Hr. destruct Hr as [i Hi].
  unfold pending. destruct (isCancelled r) eqn:Ec; [reflexivity|].
  pose proof (live_foreign s i r Hs Hi Ec). congruence.
Qed.

(** C5.  In every reachable state of the form with the currency PLN the
    exchange rate is the empty triple and no lookup is pending; and
    setting the currency to PLN in a reachable state with a foreign
    currency leads, in that one step, to such a state. *)
Theorem currency_PLN_clears (s : FormState) :
  reachable s ->
  (currency (invoiceData s) = "PLN" ->
   exchangeRate (invoiceData s) = mkRate "" "" None
   /\ forall r, In r (lookups s) -> pending r = false)
  /\ (isForeignCurrency (invoiceData s) = true ->
      forall (today : Z) (v m : string),
        normalize v = "PLN" ->
        getPreviousBusinessDay today (issueDate (invoiceData s)) = Return m ->
        exists s',
          (forall fuel, step (S fuel) today (CurrencyChange v) s = Some (Return s'))
          /\ currency (invoiceData s') = "PLN"
          /\ exchangeRate (invoiceData s') = mkRate "" "" None
          /\ forall r, In r (lookups s') -> pending r = false).
Proof.
  intros Hreach. pose proof (reachable_Settled _ s Hreach) as Hs.
  split; [exact (Settled_PLN s Hs)|].
  intros Hf today v m Hv Hg.
  set (s0 := setStatus (mkStatus false None)
               (setData (withCurrency (invoiceData s) "PLN" (mkRate "" "" None)) s)).
  assert (Hd : dispatch today (CurrencyChange v) s = Some (Return (s0, true))).
  { cbn [dispatch]. unfold handleCurrencyChange. rewrite Hg, Hv. reflexivity. }
  destruct (commit_without_rate today s0 m) as (s' & Hc & Hdata & _);
    [reflexivity|reflexivity|exact Hg|].
  assert (Hstep : forall fuel,
             step (S fuel) today (CurrencyChange v) s = Some (Return s')).
  { intros fuel. unfold step. rewrite Hd. exact (settle_one fuel today s0 s' Hc Hdata). }
  assert (Hcur : currency (invoiceData s') = "PLN") by (now rewrite Hdata).
  exists s'. split; [exact Hstep|]. split; [exact Hcur|].
  apply Settled_PLN; [|exact Hcur].
  exact (step_Settled 1 today (CurrencyChange v) s s' Hs (Hstep 0%nat)).
Qed.

(** *** The issue date *)

(** C7.  In a reachable state of the form with a foreign currency, a
    change of the issue date does this: a target date that is neither empty nor the previous
    business day of the old issue date is kept, with the whole exchange
    rate, and no lookup starts; otherwise the target date becomes the
    previous business day of the new issue date, and a lookup starts
    exactly if that differs from the old target date. *)
Theorem issueDate_change_keeps_override (s : FormState) (today : Z)
  (v newDefault previousDefault : string) :
  reachable s ->
  isForeignCurrency (invoiceData s) = true ->
  getPreviousBusinessDay today v = Return newDefault ->
  getPreviousBusinessDay today (issueDate (invoiceData s)) = Return previousDefault ->
  exists s',
    (forall fuel, step (S fuel) today (IssueDateChange v) s = Some (Return s'))
    /\ issueDate (invoiceData s') = v
    /\ (targetDate (exchangeRate (invoiceData s)) <> ""
        /\ targetDate (exchangeRate (invoiceData s)) <> previousDefault ->
        exchangeRate (invoiceData s') = exchangeRate (invoiceData s)
        /\ lookups s' = lookups s /\ requests s' = requests s
        /\ rateFetchTrigger s' = rateFetchTrigger s)
    /\ (targetDate (exchangeRate (invoiceData s)) = ""
        \/ targetDate (exchangeRate (invoiceData s)) = previousDefault ->
        targetDate (exchangeRate (invoiceData s')) = newDefault
        /\ (newDefault <> targetDate (exchangeRate (invoiceData s)) ->
            exchangeRate (invoiceData s') = mkRate newDefault "" None
            /\ List.length (lookups s') = S (List.length (lookups s))
            /\ requests s'
               = (requests s
                  ++ [(List.length (lookups s), normalize (currency (invoiceData s)),
                       newDefault)])%list)
        /\ (newDefault = targetDate (exchangeRate (invoiceData s)) ->
            exchangeRate (invoiceData s') = exchangeRate (invoiceData s)
            /\ lookups s' = lookups s /\ requests s' = requests s)).
Proof.
  intros Hreach Hf Hnew Hprev.
  destruct (reachable_Settled _ s Hreach) as (Hst & _ & _).
  apply stable_iff in Hst. destruct Hst as [_ Hdf].
  pose proof (getPreviousBusinessDay_nonempty _ _ _ Hnew) as Hne.
  set (target := targetDate (exchangeRate (invoiceData s))) in *.
  set (wasDefault := isEmpty target || (target =? previousDefault)).
  assert (Hh : handleIssueDateChange today v (invoiceData s)
               = if wasDefault && negb (target =? newDefault)
                 then Return (withExchangeRate (withIssueDate (invoiceData s) v)
                                (mkRate newDefault "" None), true)
                 else Return (withIssueDate (invoiceData s) v, false)).
  { unfold handleIssueDateChange. fold (isForeignCurrency (invoiceData s)).
    rewrite Hf, Hnew, Hprev. cbn [bind]. fold target. fold wasDefault.
    destruct wasDefault; [destruct (negb (target =? newDefault))|]; reflexivity. }
  destruct (wasDefault && negb (target =? newDefault)) eqn:Echange.
  - (* the default moved: new target date, new lookup *)
    apply andb_prop in Echange. destruct Echange as [Hwas Hmoved].
    apply negb_true_iff, String.eqb_neq in Hmoved.
    set (s0 := bumpTrigger (clearError
                 (setData (withExchangeRate (withIssueDate (invoiceData s) v)
                             (mkRate newDefault "" None)) s))).
    assert (Hd : dispatch today (IssueDateChange v) s = Some (Return (s0, true))).
    { cbn [dispatch]. rewrite Hh. reflexivity. }
    destruct (commit_with_target today s0 newDefault) as (s' & Hc & Hdata & Hlk);
      [exact Hf|exact Hne|exact Hnew|].
    assert (Hch : fetchChanged s0 = true).
    { destruct (fetchChanged s0) eqn:E; [reflexivity|].
      apply fetchChanged_false in E. subst s0. form_fields. rewrite Hdf in E.
      unfold depsOfFetch in E. form_fields.
      apply (f_equal (option_map (fun d => snd (fst d)))) in E.
      cbn [option_map fst snd withExchangeRate exchangeRate targetDate] in E.
      fold target in E. congruence. }
    rewrite Hch in Hlk. destruct Hlk as (Hlen & _ & Hreq).
    exists s'. split.
    { intros fuel. unfold step. rewrite Hd. exact (settle_one fuel today s0 s' Hc Hdata). }
    rewrite Hdata. subst s0. form_fields. split; [reflexivity|].
    split.
    { intros [Hn1 Hn2]. exfalso. unfold wasDefault in Hwas.
      apply orb_prop in Hwas. destruct Hwas as [Hw|Hw].
      - apply isEmpty_true in Hw. congruence.
      - apply String.eqb_eq in Hw. congruence. }
    intros _. split; [reflexivity|]. split.
    + intros _. split; [reflexivity|]. split; [exact Hlen|exact Hreq].
    + intros E. congruence.
  - (* nothing to fetch: only the issue date changes *)
    set (s0 := setData (withIssueDate (invoiceData s) v) s).
    assert (Hd : dispatch today (IssueDateChange v) s = Some (Return (s0, true))).
    { cbn [dispatch]. rewrite Hh. reflexivity. }
    assert (Htarget : target <> "").
    { intros E. unfold wasDefault in Echange. rewrite E in Echange.
      cbn [isEmpty orb andb] in Echange. apply negb_false_iff, String.eqb_eq in Echange.
      congruence. }
    destruct (commit_with_target today s0 newDefault) as (s' & Hc & Hdata & Hlk);
      [exact Hf|exact Htarget|exact Hnew|].
    assert (Hch : fetchChanged s0 = false).
    { apply fetchChanged_false. subst s0. form_fields. rewrite Hdf. reflexivity. }
    rewrite Hch in Hlk. destruct Hlk as (Hl & Hreq & _).
    pose proof (commit_frame today s0 s' Hc) as (Htr & _).
    exists s'. split.
    { intros fuel. unfold step. rewrite Hd. exact (settle_one fuel today s0 s' Hc Hdata). }
    rewrite Hdata, Hl, Hreq, Htr. subst s0. form_fields. split; [reflexivity|].
    split; [auto|].
    intros Hwas.
    assert (Hw : wasDefault = true).
    { unfold wasDefault. destruct Hwas as [E|E]; [congruence|].
      rewrite E, String.eqb_refl. apply orb_true_r. }
    rewrite Hw in Echange. cbn [andb] in Echange.
    apply negb_false_iff, String.eqb_eq in Echange.
    split; [exact Echange|]. split; [congruence|auto].
Qed.

(** *** Value and effective date *)

(** The rate has a value exactly if it has an effective date. *)
Definition Consistent (data : InvoiceData) : Prop :=
  value (exchangeRate data) <> None <-> effectiveDate (exchangeRate data) <> "".

(** The event is not a rate that comes without its effective date. *)
Definition datedRate (ev : Event) : Prop :=
  match ev with
  | JsonSettled _ (JsonValue (Some (mkEntry effective (Some _)))) => effective <> ""
  | _ => True
  end.

Definition datedOutcome (out : Outcome) : Prop :=
  match out with
  | Resolved effective _ => effective <> ""
  | _ => True
  end.

Lemma Consistent_cleared (data : InvoiceData) (target : string) :
  Consistent (withExchangeRate data (mkRate target "" None)).
Proof.
  unfold Consistent. cbn. split; congruence.
Qed.

Lemma applyOutcome_Consistent (target : string) (out : Outcome) (s : FormState) :
  datedOutcome out -> Consistent (invoiceData s) ->
  Consistent (invoiceData (applyOutcome target out s)).
Proof.
  destruct out as [eff m|sm tm|msg|]; cbn [applyOutcome datedOutcome]; form_fields;
    intros Hd Hc; try apply Consistent_cleared; try exact Hc.
  unfold Consistent. cbn. split; [intros _; exact Hd|discriminate].
Qed.

Lemma onCatch_dated (c : bool) (e : Error) : datedOutcome (onCatch c e).
Proof.
  unfold onCatch. destruct c; [exact I|].
  destruct (errName e =? "AbortError"); exact I.
Qed.

Lemma loopHead_dated (c : bool) (lk : Lookup) (out : Outcome) :
  loopHead c lk = LoopDone out -> datedOutcome out.
Proof.
  unfold loopHead.
  destruct (negb c && (attempts lk <? MAX_RATE_LOOKBACK_DAYS)%nat); [discriminate|].
  destruct (negb c); intros H; injection H as <-; exact I.
Qed.

Lemma afterFetch_dated (c : bool) (lk : Lookup) (res : FetchResult) (out : Outcome) :
  afterFetch c lk res = FetchDone out -> datedOutcome out.
Proof.
  unfold afterFetch. destruct res as [e|status].
  - intros H. injection H as <-. apply onCatch_dated.
  - destruct (status =? 404)%Z.
    + destruct (shiftDateString (lookupDate lk) (-1)); [discriminate|].
      intros H. injection H as <-. apply onCatch_dated.
    + destruct (negb (isOk status)); [|discriminate].
      intros H. injection H as <-. apply onCatch_dated.
Qed.

Lemma afterJson_dated (c : bool) (id : nat) (j : JsonResult) :
  datedRate (JsonSettled id j) -> datedOutcome (afterJson c j).
Proof.
  destruct j as [e|[[eff [m|]]|]]; cbn [datedRate afterJson]; intros H;
    try apply onCatch_dated.
  destruct c; [exact I|exact H].
Qed.

Lemma dispatch_Consistent (today : Z) (ev : Event) (s s0 : FormState) (b : bool) :
  datedRate ev -> Consistent (invoiceData s) ->
  dispatch today ev s = Some (Return (s0, b)) -> Consistent (invoiceData s0).
Proof.
  intros Hev Hc Hd.
  destruct ev as [v|v| | |v|n|t|id res|id j]; cbn [dispatch] in Hd.
  - unfold handleCurrencyChange in Hd.
    destruct (getPreviousBusinessDay today (issueDate (invoiceData s)));
      cbn [bind] in Hd; [|discriminate].
    destruct (normalize v =? "PLN"); injection Hd as <- <-; form_fields;
      unfold Consistent; cbn; split; congruence.
  - destruct (isForeignCurrency (invoiceData s)); [|discriminate].
    injection Hd as <- <-. form_fields. apply Consistent_cleared.
  - destruct (isForeignCurrency (invoiceData s) && negb (loading (rateStatus s)));
      [|discriminate].
    destruct (getPreviousBusinessDay today (issueDate (invoiceData s)));
      cbn [bind] in Hd; [|discriminate].
    injection Hd as <- <-. form_fields. apply Consistent_cleared.
  - destruct (isForeignCurrency (invoiceData s) && negb (loading (rateStatus s)));
      [|discriminate].
    destruct (isEmpty (targetDate (exchangeRate (invoiceData s)))).
    + destruct (getPreviousBusinessDay today (issueDate (invoiceData s)));
        cbn [bind] in Hd; [|discriminate].
      injection Hd as <- <-. form_fields. apply Consistent_cleared.
    + injection Hd as <- <-. form_fields. exact Hc.
  - unfold handleIssueDateChange in Hd.
    destruct (isForeign (normalize (currency (invoiceData s)))).
    + destruct (getPreviousBusinessDay today v) as [nd|]; cbn [bind] in Hd;
        [|discriminate].
      destruct (getPreviousBusinessDay today (issueDate (invoiceData s))) as [pd|];
        cbn [bind] in Hd; [|discriminate].
      destruct (isEmpty (targetDate (exchangeRate (invoiceData s)))
                || (targetDate (exchangeRate (invoiceData s)) =? pd));
        [destruct (negb (targetDate (exchangeRate (invoiceData s)) =? nd))|];
        cbn [bind] in Hd; injection Hd as <- <-; form_fields;
        try apply Consistent_cleared; exact Hc.
    + cbn [bind] in Hd. injection Hd as <- <-. form_fields. exact Hc.
  - injection Hd as <- <-. form_fields. unfold appendNote.
    destruct (includes (notes (invoiceData s)) n); exact Hc.
  - injection Hd as <- <-. form_fields. exact Hc.
  - destruct (nth_error (lookups s) id) as [r|]; [|discriminate].
    destruct (phase r); try discriminate.
    destruct (fetchAllowed (isCancelled r) res); [|discriminate].
    assert (Hr : resumeFetch id r res s = (s0, b)) by congruence. clear Hd.
    unfold resumeFetch, endLookup in Hr.
    destruct (afterFetch (isCancelled r) (vars r) res) as [lk| |out] eqn:Ea.
    + destruct (loopHead (isCancelled r) lk) as [lk1|out] eqn:El;
        injection Hr as <- <-; form_fields; [exact Hc|].
      apply applyOutcome_Consistent; [exact (loopHead_dated _ _ _ El)|exact Hc].
    + injection Hr as <- <-. exact Hc.
    + injection Hr as <- <-.
      apply applyOutcome_Consistent; [exact (afterFetch_dated _ _ _ _ Ea)|exact Hc].
  - destruct (nth_error (lookups s) id) as [r|]; [|discriminate].
    destruct (phase r); try discriminate.
    destruct (jsonAllowed (isCancelled r) j); [|discriminate].
    assert (Hr : resumeJson id r j s = (s0, b)) by congruence. clear Hd.
    unfold resumeJson, endLookup in Hr. injection Hr as <- <-.
    apply applyOutcome_Consistent; [exact (afterJson_dated _ id j Hev)|exact Hc].
Qed.

Lemma commit_Consistent (today : Z) (s s' : FormState) :
  Consistent (invoiceData s) -> commit today s = Return s' ->
  Consistent (invoiceData s').
Proof.
  intros Hc Hcm. apply commit_inversion in Hcm.
  destruct Hcm as (m & s2 & _ & H2 & ->).
  assert (Hd : invoiceData
                 (setDeps (depsOfReset s) (depsOfFetch s)
                    (if fetchChanged s then fetchEffect (invoiceData s) s2 else s2))
               = invoiceData s2).
  { destruct (fetchChanged s); [|reflexivity]. form_fields. apply fetchEffect_frame. }
  rewrite Hd. clear Hd.
  remember (setMaxRateDate m (if fetchChanged s then runCleanup s else s)) as s1
    eqn:Es1.
  assert (H1 : invoiceData s1 = invoiceData s).
  { subst s1. destruct (fetchChanged s); [|reflexivity].
    form_fields. apply runCleanup_frame. }
  clear Es1. destruct (resetChanged s).
  - unfold resetEffect in H2. destruct (negb (isForeignCurrency (invoiceData s))).
    + injection H2 as <-.
      destruct (negb (isEmpty (targetDate (exchangeRate (invoiceData s))))
                || negb (isEmpty (effectiveDate (exchangeRate (invoiceData s))))
                || hasValue (value (exchangeRate (invoiceData s)))); form_fields.
      * apply Consistent_cleared.
      * now rewrite H1.
    + destruct (isEmpty (targetDate (exchangeRate (invoiceData s)))).
      * destruct (getPreviousBusinessDay today (issueDate (invoiceData s)));
          [|discriminate].
        cbn [bind] in H2. injection H2 as <-. form_fields. rewrite H1.
        unfold Consistent in *. cbn [withExchangeRate exchangeRate value effectiveDate].
        exact Hc.
      * injection H2 as <-. now rewrite H1.
  - injection H2 as <-. now rewrite H1.
Qed.

Lemma initialInvoice_Consistent (today : Z) (data : InvoiceData) :
  initialInvoice today = Return data -> Consistent data.
Proof.
  unfold initialInvoice.
  destruct (toDateString (timeClip today)); [|discriminate].
  destruct (toDateString (timeClip (today + 14))); [|discriminate].
  cbn [bind]. intros H. injection H as <-. unfold Consistent. cbn. split; congruence.
Qed.

(** C6 as amended.  In every state of the form reached by events in which
    no rate arrives without its effective date, the exchange rate has a
    value exactly if it has an effective date. *)
Theorem value_iff_effectiveDate (s : FormState) :
  reachableBy datedRate s -> Consistent (invoiceData s).
Proof.
  induction 1 as [fuel today s Hm|fuel today ev s s' _ IH Hev Hstep].
  - unfold mount in Hm. destruct (initialInvoice today) as [data|] eqn:Ei;
      [|discriminate].
    apply (settle_preserves (fun x => Consistent (invoiceData x)) today
             (commit_Consistent today) fuel (unmounted data) s); [|exact Hm].
    exact (initialInvoice_Consistent today data Ei).
  - unfold step in Hstep.
    destruct (dispatch today ev s) as [[[s0 b]|e]|] eqn:Ed; try discriminate.
    pose proof (dispatch_Consistent today ev s s0 b Hev IH Ed) as H0.
    destruct b.
    + apply (settle_preserves (fun x => Consistent (invoiceData x)) today
               (commit_Consistent today) fuel s0 s' H0 Hstep).
    + now injection Hstep as <-.
Qed.

(** *** Sessions *)

Lemma run_reachableBy (admits : Event -> Prop) (fuel : nat) (today : Z)
  (evs : list Event) :
  Forall admits evs ->
  forall s s', reachableBy admits s -> run fuel today evs s = Some (Return s') ->
               reachableBy admits s'.
Proof.
  induction 1 as [|ev evs Hev _ IH]; intros s s' Hs Hrun; cbn [run] in Hrun.
  - now injection Hrun as <-.
  - destruct (step fuel today ev s) as [[s1|e]|] eqn:Es; try discriminate.
    apply (IH s1 s'); [|exact Hrun].
    exact (reach_step admits fuel today ev s s1 Hs Hev Es).
Qed.

Lemma session_reachableBy (admits : Event -> Prop) (fuel : nat) (today : Z)
  (evs : list Event) (s : FormState) :
  Forall admits evs -> session fuel today evs = Some (Return s) ->
  reachableBy admits s.
Proof.
  intros Hevs Hrun. unfold session in Hrun.
  destruct (mount fuel today) as [[s0|e]|] eqn:Em; try discriminate.
  apply (run_reachableBy admits fuel today evs Hevs s0 s); [|exact Hrun].
  exact (reach_mount admits fuel today s0 Em).
Qed.

(** *** Superseded lookups *)

Lemma requestsOf_app (i : nat) (l extra : list (nat * string * string)) :
  (forall q, In q extra -> fst (fst q) <> i) ->
  filter (fun q => (fst (fst q) =? i)%nat) (l ++ extra)
  = filter (fun q => (fst (fst q) =? i)%nat) l.
Proof.
  intros H. rewrite filter_app.
  replace (filter (fun q => (fst (fst q) =? i)%nat) extra) with
    (@nil (nat * string * string)); [apply app_nil_r|].
  symmetry. induction extra as [|q extra IH]; [reflexivity|].
  cbn [filter]. destruct (Nat.eqb_spec (fst (fst q)) i) as [E|_].
  - exfalso. apply (H q); [now left|exact E].
  - apply IH. intros q' Hq'. apply H. now right.
Qed.

(** A render sends requests only for the lookup that it starts. *)
Lemma commit_requests (today : Z) (s s' : FormState) :
  commit today s = Return s' ->
  (List.length (lookups s) <= List.length (lookups s'))%nat
  /\ exists extra,
      requests s' = (requests s ++ extra)%list
      /\ forall q, In q extra -> fst (fst q) = List.length (lookups s).
Proof.
  intros Hc. apply commit_inversion in Hc.
  destruct Hc as (m & s2 & _ & H2 & ->).
  pose proof (runCleanup_frame s) as (_ & _ & _ & _ & _ & Hq & _ & Hl).
  destruct (fetchChanged s).
  - assert (H1 : lookups s2 = lookups (runCleanup s)
                 /\ requests s2 = requests (runCleanup s)).
    { destruct (resetChanged s).
      - apply resetEffect_frame in H2. destruct H2 as (-> & _ & _ & -> & _). auto.
      - injection H2 as <-. auto. }
    destruct H1 as [Hl2 Hq2].
    pose proof (fetchEffect_lookups (invoiceData s) s2) as Hfx. form_fields.
    destruct (startsLookup (invoiceData s)); destruct Hfx as (Hfl & _ & Hfq & _);
      rewrite Hfl, Hfq, Hl2, Hq2, Hq, ?length_app, Hl.
    + split; [lia|]. eexists. split; [reflexivity|].
      intros q [<-|[]]. reflexivity.
    + split; [lia|]. exists []. rewrite app_nil_r. split; [reflexivity|intros q []].
  - assert (H1 : lookups s2 = lookups s /\ requests s2 = requests s).
    { destruct (resetChanged s).
      - apply resetEffect_frame in H2. destruct H2 as (-> & _ & _ & -> & _). auto.
      - injection H2 as <-. auto. }
    destruct H1 as [Hl2 Hq2]. form_fields. rewrite Hl2, Hq2.
    split; [lia|]. exists []. rewrite app_nil_r. split; [reflexivity|intros q []].
Qed.

Lemma settle_requests (fuel : nat) (today : Z) (i : nat) (s s' : FormState) :
  (i < List.length (lookups s))%nat ->
  settle fuel today s = Some (Return s') -> requestsOf i s' = requestsOf i s.
Proof.
  intros Hi Hrun.
  apply (settle_preserves
           (fun x => (i < List.length (lookups x))%nat
                     /\ requestsOf i x = requestsOf i s) today) in Hrun.
  - apply Hrun.
  - intros x y [Hx Hq] Hc. apply commit_requests in Hc.
    destruct Hc as (Hlen & extra & He & Hid). split; [lia|].
    rewrite <- Hq. unfold requestsOf. rewrite He. apply requestsOf_app.
    intros q Hin. rewrite (Hid q Hin). lia.
  - auto.
Qed.

(** Where a lookup is superseded, it is discarded: in a reachable state,
    a lookup after which another lookup has started was cancelled; from
    then on no step sends a request for it, and when one of its promises
    settles, the invoice, the rate status and the toasts stay as they
    are.  Lookups start in the fetch effect only, which runs again for a
    new target date, a refresh and a change between PLN and another
    currency. *)
Lemma superseded_lookup_discarded (s : FormState) (i j : nat) (r : Running) :
  reachable s ->
  nth_error (lookups s) i = Some r ->
  (i < j < List.length (lookups s))%nat ->
  isCancelled r = true
  /\ forall fuel today ev s',
      step fuel today ev s = Some (Return s') ->
      requestsOf i s' = requestsOf i s
      /\ ((exists res, ev = FetchSettled i res) \/ (exists jr, ev = JsonSettled i jr) ->
          invoiceData s' = invoiceData s /\ rateStatus s' = rateStatus s
          /\ toasts s' = toasts s).
Proof.
  intros Hreach Hi Hj. pose proof (reachable_Settled _ s Hreach) as Hs.
  assert (Hc : isCancelled r = true).
  { destruct (isCancelled r) eqn:E; [reflexivity|].
    destruct Hs as (_ & (Hone & Hlast & _) & _).
    pose proof (Hlast i (Hone i r Hi E)). lia. }
  split; [exact Hc|].
  intros fuel today ev s' Hstep. unfold step in Hstep.
  destruct (dispatch today ev s) as [[[s0 b]|e]|] eqn:Ed; try discriminate.
  destruct (userEvent ev) eqn:Eu.
  - destruct (dispatch_user_frame today ev s s0 b Eu Ed)
      as (-> & Hl & _ & _ & _ & Hq & _).
    split.
    + rewrite (settle_requests fuel today i s0 s'); [|rewrite Hl; lia|exact Hstep].
      unfold requestsOf. now rewrite Hq.
    + intros [[res ->]|[jr ->]]; discriminate.
  - destruct (dispatch_resumed today ev s s0 b Eu Ed) as (id & r0 & Hn & Hr & Hev).
    destruct Hr as (r' & out & Hl & _ & _ & _ & _ & _ & _ & Hno & Hyes & Hcan
                    & extra & Hq & Hid).
    assert (Hlen : List.length (lookups s0) = List.length (lookups s))
      by (rewrite Hl; apply replaceNth_length).
    destruct (Nat.eq_dec id i) as [->|Hne].
    + (* a promise of the superseded lookup *)
      assert (r0 = r) by congruence. subst r0.
      destruct (Hcan Hc) as [-> Hq0]. injection Hstep as <-.
      split; [unfold requestsOf; now rewrite Hq0|]. intros _. exact (Hno eq_refl).
    + assert (Hq0 : requestsOf i s0 = requestsOf i s).
      { unfold requestsOf. rewrite Hq. apply requestsOf_app.
        intros q Hin. rewrite (Hid q Hin). exact Hne. }
      split.
      * destruct b.
        -- rewrite (settle_requests fuel today i s0 s'); [exact Hq0|lia|exact Hstep].
        -- now injection Hstep as <-.
      * intros [[res ->]|[jr ->]]; destruct Hev as [[res' E]|[jr' E]];
          try discriminate E; inversion E; congruence.
Qed.

(** *** Sessions of Monday 11 March 2024 (day 19793) *)

Lemma stateAfter_reachableBy (admits : Event -> Prop) (today : Z) (evs : list Event) :
  Forall admits evs ->
  session 3 today evs = Some (Return (stateAfter today evs)) ->
  reachableBy admits (stateAfter today evs).
Proof.
  intros Hevs Hrun. exact (session_reachableBy admits 3 today evs _ Hevs Hrun).
Qed.

(** EUR is chosen, then the rate date 7 March: the lookup for 8 March is
    superseded by the lookup for 7 March. *)
Lemma superseded_lookup_discarded_witness :
  let s := stateAfter 19793 [CurrencyChange "EUR"; RateDateChange "2024-03-07"] in
  reachable s
  /\ nth_error (lookups s) 0
     = Some (mkRunning (mkLookup "EUR" "2024-03-08" "2024-03-08" 0) true AwaitingFetch)
  /\ (0 < 1 < List.length (lookups s))%nat
  /\ isCancelled (mkRunning (mkLookup "EUR" "2024-03-08" "2024-03-08" 0) true
                    AwaitingFetch) = true.
Proof.
  intros s.
  assert (Hr : reachable s).
  { apply stateAfter_reachableBy; [repeat constructor|vm_compute; reflexivity]. }
  assert (Hn : nth_error (lookups s) 0
               = Some (mkRunning (mkLookup "EUR" "2024-03-08" "2024-03-08" 0) true
                         AwaitingFetch)) by (vm_compute; reflexivity).
  assert (Hl : (0 < 1 < List.length (lookups s))%nat) by (vm_compute; lia).
  split; [exact Hr|split; [exact Hn|split; [exact Hl|]]].
  exact (proj1 (superseded_lookup_discarded s 0 1 _ Hr Hn Hl)).
Defined.

(** EUR is chosen, then PLN. *)
Lemma currency_PLN_clears_witness :
  let s := stateAfter 19793 [CurrencyChange "EUR"] in
  reachable s
  /\ isForeignCurrency (invoiceData s) = true
  /\ exists s',
      (forall fuel, step (S fuel) 19793 (CurrencyChange "PLN") s = Some (Return s'))
      /\ currency (invoiceData s') = "PLN"
      /\ exchangeRate (invoiceData s') = mkRate "" "" None
      /\ forall r, In r (lookups s') -> pending r = false.
Proof.
  intros s.
  assert (Hr : reachable s).
  { apply stateAfter_reachableBy; [repeat constructor|vm_compute; reflexivity]. }
  assert (Hf : isForeignCurrency (invoiceData s) = true) by (vm_compute; reflexivity).
  split; [exact Hr|split; [exact Hf|]].
  refine (proj2 (currency_PLN_clears s Hr) Hf 19793%Z "PLN" "2024-03-08" _ _).
  - vm_compute. reflexivity.
  - vm_compute. reflexivity.
Defined.

(** The claim of C6 fails: a response with a mid rate and an empty
    effective date is applied as it comes. *)
Lemma value_without_effectiveDate :
  let s := stateAfter 19793
             [CurrencyChange "EUR"; FetchSettled 0 (FetchResponse 200);
              JsonSettled 0 (JsonValue (Some (mkEntry "" (Some (43 # 10)))))] in
  reachable s
  /\ value (exchangeRate (invoiceData s)) = Some (43 # 10)
  /\ effectiveDate (exchangeRate (invoiceData s)) = ""
  /\ ~ (value (exchangeRate (invoiceData s)) <> None
        <-> effectiveDate (exchangeRate (invoiceData s)) <> "").
Proof.
  intros s.
  assert (Hr : reachable s).
  { apply stateAfter_reachableBy; [repeat constructor|vm_compute; reflexivity]. }
  assert (Hv : value (exchangeRate (invoiceData s)) = Some (43 # 10))
    by (vm_compute; reflexivity).
  assert (He : effectiveDate (exchangeRate (invoiceData s)) = "")
    by (vm_compute; reflexivity).
  split; [exact Hr|split; [exact Hv|split; [exact He|]]].
  intros [H _]. apply H; [rewrite Hv; discriminate|exact He].
Qed.

(** The same session with the effective date in the response. *)
Lemma value_iff_effectiveDate_witness :
  let s := stateAfter 19793
             [CurrencyChange "EUR"; FetchSettled 0 (FetchResponse 200);
              JsonSettled 0 (JsonValue (Some (mkEntry "2024-03-08" (Some (43 # 10)))))] in
  reachableBy datedRate s /\ Consistent (invoiceData s).
Proof.
  intros s.
  assert (Hr : reachableBy datedRate s).
  { apply stateAfter_reachableBy; [|vm_compute; reflexivity].
    repeat constructor. cbn. discriminate. }
  split; [exact Hr|exact (value_iff_effectiveDate s Hr)].
Defined.

(** EUR is chosen and the rate date set to 6 March; the issue date then
    moves from 11 March to 13 March. *)
Lemma issueDate_change_keeps_override_witness :
  let s := stateAfter 19793 [CurrencyChange "EUR"; RateDateChange "2024-03-06"] in
  reachable s
  /\ isForeignCurrency (invoiceData s) = true
  /\ exists s',
      (forall fuel, step (S fuel) 19793 (IssueDateChange "2024-03-13") s
                    = Some (Return s'))
      /\ issueDate (invoiceData s') = "2024-03-13"
      /\ exchangeRate (invoiceData s') = exchangeRate (invoiceData s)
      /\ lookups s' = lookups s.
Proof.
  intros s.
  assert (Hr : reachable s).
  { apply stateAfter_reachableBy; [repeat constructor|vm_compute; reflexivity]. }
  assert (Hf : isForeignCurrency (invoiceData s) = true) by (vm_compute; reflexivity).
  split; [exact Hr|split; [exact Hf|]].
  destruct (issueDate_change_keeps_override s 19793%Z "2024-03-13" "2024-03-12"
              "2024-03-08" Hr Hf)
    as (s' & Hstep & Hi & Hkeep & _).
  - vm_compute. reflexivity.
  - vm_compute. reflexivity.
  - exists s'. split; [exact Hstep|]. split; [exact Hi|].
    destruct Hkeep as (He & Hl & _).
    + split; vm_compute; discriminate.
    + split; [exact He|exact Hl].
Defined.

(** C4.  The dependencies of the fetch effect do not include the
    currency, which the address of the request does.  On 11 March 2024 EUR
    is chosen and then, while the lookup for EUR is pending, USD: no
    lookup starts for USD and the lookup for EUR is not cancelled.  When
    the source answers, the rate of EUR is stored on the invoice in USD,
    without an error and without a request for USD.  A new rate date in
    place of the new currency does start a second lookup and cancels the
    first. *)
Theorem foreign_to_foreign_keeps_lookup :
  let pending := stateAfter 19793 [CurrencyChange "EUR"; CurrencyChange "USD"] in
  let s := stateAfter 19793
             [CurrencyChange "EUR"; CurrencyChange "USD";
              FetchSettled 0 (FetchResponse 200);
              JsonSettled 0 (JsonValue (Some (mkEntry "2024-03-08" (Some (43 # 10)))))] in
  let dated := stateAfter 19793 [CurrencyChange "EUR"; RateDateChange "2024-03-07"] in
  reachable pending /\ reachable s
  /\ currency (invoiceData pending) = "USD"
  /\ map isCancelled (lookups pending) = [false]
  /\ requests pending = [(0%nat, "EUR", "2024-03-08")]
  /\ currency (invoiceData s) = "USD"
  /\ exchangeRate (invoiceData s) = mkRate "2024-03-08" "2024-03-08" (Some (43 # 10))
  /\ rateStatus s = mkStatus false None
  /\ requests s = [(0%nat, "EUR", "2024-03-08")]
  /\ map isCancelled (lookups dated) = [true; false]
  /\ requests dated = [(0%nat, "EUR", "2024-03-08"); (1%nat, "EUR", "2024-03-07")].
Proof.
  intros pending s dated.
  split; [apply stateAfter_reachableBy; [repeat constructor|vm_compute; reflexivity]|].
  split; [apply stateAfter_reachableBy; [repeat constructor|vm_compute; reflexivity]|].
  repeat split; vm_compute; reflexivity.
Qed.

End FormFacts.
(* ===================================================================== *)
(** ** The rows of the VAT summary                                        *)
(* ===================================================================== *)

Module BreakdownFacts.
Import PrimFloat Numbers Calculator NumberFacts CalculatorFacts.
Local Open Scope float_scope.

(** X1.  The row of a rate holds, for the net, the VAT and the gross
    amounts, the sums of the amounts of the items of that rate, added up
    from 0 in the order of the items, every addition rounded; a rate has
    a row exactly if an item has it.  The items of a rate are those whose
    rate has the same property key. *)
Theorem vatBreakdown_groups_by_rate (items : list InvoiceItem) (r : float) :
  match lookup r (vatBreakdown (calculateInvoice items)) with
  | Some b =>
      itemsAt r items <> []
      /\ net b = sumInOrder netAmount (itemsAt r items)
      /\ vat b = sumInOrder vatAmount (itemsAt r items)
      /\ gross b = sumInOrder grossAmount (itemsAt r items)
  | None => itemsAt r items = []
  end.
Proof.
  unfold calculateInvoice. cbn [vatBreakdown]. rewrite rows_sum_items.
  destruct (itemsAt r items); [reflexivity|].
  split; [discriminate|]. repeat split.
Qed.

(** The same number has the same property key. *)
Lemma sameNumber_sameKey (k k' : float) : sameNumber k k' -> sameKey k k' = true.
Proof.
  intros [->|[Hk Hk']]; [apply sameKey_refl|].
  unfold sameKey. rewrite (arrayIndex_zero k Hk), (arrayIndex_zero k' Hk').
  reflexivity.
Qed.

(** X2.  The VAT summary has one row per rate: two different rows have
    different rates (they are neither the same number nor numbers of the
    same property key), every row has the rate of an item (0 for a rate
    -0), every item has a row, and there are no more rows than items. *)
Theorem vatBreakdown_one_row_per_rate (items : list InvoiceItem) :
  let rows := vatBreakdown (calculateInvoice items) in
  (forall i j ki bi kj bj,
      nth_error rows i = Some (ki, bi) -> nth_error rows j = Some (kj, bj) ->
      sameNumber ki kj \/ sameKey ki kj = true -> i = j)
  /\ (forall k b, In (k, b) rows ->
                  exists item, In item items /\ keyNumber (vatRate item) = k
                               /\ sameNumber (vatRate item) k)
  /\ (forall item, In item items -> lookup (vatRate item) rows <> None)
  /\ (List.length rows <= List.length items)%nat.
Proof.
  cbv zeta. unfold calculateInvoice. cbn [vatBreakdown].
  destruct (rows_of_items items) as (Hd & _ & Hf & Hl).
  split; [|split; [|split]].
  - intros i j ki bi kj bj Hi Hj Hq.
    assert (Hs : sameKey ki kj = true).
    { destruct Hq as [Hq|Hq]; [now apply sameNumber_sameKey|exact Hq]. }
    destruct (Nat.lt_trichotomy i j) as [Hlt|[Heq|Hgt]]; [|exact Heq|].
    + exfalso.
      rewrite (distinctKeys_positions _ Hd i j ki bi kj bj Hlt Hi Hj) in Hs.
      discriminate.
    + exfalso. rewrite sameKey_sym in Hs.
      rewrite (distinctKeys_positions _ Hd j i kj bj ki bi Hgt Hj Hi) in Hs.
      discriminate.
  - intros k b Hin.
    destruct (Hf k) as (item & Hitem & Hk).
    + unfold keys. change k with (fst (k, b)). now apply in_map.
    + exists item. split; [exact Hitem|split; [exact Hk|]].
      rewrite <- Hk. unfold keyNumber.
      destruct (is_zero (vatRate item)) eqn:Ez; [|now left].
      right. split; [exact Ez|reflexivity].
  - intros item Hin. rewrite rows_sum_items.
    destruct (itemsAt (vatRate item) items) eqn:E; [|discriminate].
    exfalso.
    assert (Hi : In item (itemsAt (vatRate item) items)).
    { apply filter_In. split; [exact Hin|apply sameKey_refl]. }
    rewrite E in Hi. exact Hi.
  - exact Hl.
Qed.

(** The summary of an invoice with the rates 23, exempt and 8, in this
    order. *)
Definition mixedItems : list InvoiceItem :=
  [mkItem "1" "a" 2 "szt." 100 23; mkItem "2" "b" 1 "szt." 50 (-1);
   mkItem "3" "c" 3 "godz." 10 8; mkItem "4" "d" 1 "szt." 1 23].

(** X3.  The rows follow the key order of the object [vatBreakdown]: a row
    whose rate is an array index (a whole number from 0 on) comes after
    the rows of the smaller such rates only, whatever the order of the
    items; the rows of the other rates (the negative codes, fractions)
    come after them. *)
Theorem vatBreakdown_indices_first (items : list InvoiceItem) (i j : nat)
  (ki kj : float) (bi bj : Bucket) (nj : Z) :
  (i < j)%nat ->
  nth_error (vatBreakdown (calculateInvoice items)) i = Some (ki, bi) ->
  nth_error (vatBreakdown (calculateInvoice items)) j = Some (kj, bj) ->
  arrayIndex kj = Some nj ->
  exists ni, arrayIndex ki = Some ni /\ (ni < nj)%Z.
Proof.
  unfold calculateInvoice. cbn [vatBreakdown].
  destruct (rows_of_items items) as (_ & Ho & _).
  exact (indicesFirst_positions _ Ho i j ki bi kj bj nj).
Qed.

Lemma vatBreakdown_indices_first_witness :
  keys (vatBreakdown (calculateInvoice mixedItems)) = [8; 23; -1]
  /\ arrayIndex 23 = Some 23%Z
  /\ arrayIndex (-1) = None
  /\ exists ni, arrayIndex 8 = Some ni /\ (ni < 23)%Z.
Proof.
  split; [vm_compute; reflexivity|].
  split; [vm_compute; reflexivity|].
  split; [vm_compute; reflexivity|].
  eapply (vatBreakdown_indices_first mixedItems 0 1 8 23).
  - lia.
  - vm_compute. reflexivity.
  - vm_compute. reflexivity.
  - vm_compute. reflexivity.
Defined.

End BreakdownFacts.

(* ===================================================================== *)
(** ** The list of items                                                  *)
(* ===================================================================== *)

Module ItemFacts.
Import PrimFloat JS Builtins Invoice Items StringFacts.
Local Open Scope string_scope.

(** *** An integer is read back from its decimal digits *)

Lemma digit_is_plain (c : ascii) :
  digitValue c <> None ->
  isWhiteSpace c = false
  /\ Ascii.eqb c "-" = false /\ Ascii.eqb c "+" = false
  /\ Ascii.eqb c "x" = false /\ Ascii.eqb c "X" = false.
Proof.
  destruct c as [[] [] [] [] [] [] [] []]; intros H;
    try (exfalso; apply H; reflexivity); repeat split; reflexivity.
Qed.

Lemma parseInt_digits (s : string) :
  s <> "" -> allDigits s = true ->
  parseInt s = digitsPrefix digitValue 10 None s.
Proof.
  destruct s as [|c s]; [congruence|]. intros _. cbn [allDigits].
  destruct (digitValue c) as [d|] eqn:Hc; [|discriminate]. intros Hs.
  assert (Hplain : digitValue c <> None) by congruence.
  destruct (digit_is_plain c Hplain) as (Hw & Hm & Hp & _).
  unfold parseInt. cbn [trimStart]. rewrite Hw, Hm, Hp.
  destruct s as [|x s].
  - cbn [option_map]. now destruct (digitsPrefix digitValue 10 None (String c "")).
  - cbn [allDigits] in Hs.
    destruct (digitValue x) as [d'|] eqn:Hx; [|discriminate].
    assert (Hplain' : digitValue x <> None) by congruence.
    destruct (digit_is_plain x Hplain') as (_ & _ & _ & Hx1 & Hx2).
    rewrite Hx1, Hx2, andb_false_r. cbn [option_map].
    now destruct (digitsPrefix digitValue 10 None (String c (String x s))).
Qed.

Lemma digitsPrefix_append (acc : option Z) (a b : string) :
  allDigits a = true ->
  digitsPrefix digitValue 10 acc (a ++ b)
  = digitsPrefix digitValue 10 (digitsPrefix digitValue 10 acc a) b.
Proof.
  revert acc. induction a as [|c a IH]; intros acc; cbn [allDigits append digitsPrefix].
  - reflexivity.
  - destruct (digitValue c); [|discriminate]. intros Ha. now apply IH.
Qed.

Lemma digitsOf_decimal (fuel : nat) :
  forall n, (0 <= n < 2 ^ Z.of_nat (S fuel))%Z ->
            allDigits (digitsOf (S fuel) n) = true
            /\ digitsOf (S fuel) n <> ""
            /\ digitsPrefix digitValue 10 None (digitsOf (S fuel) n) = Some n.
Proof.
  induction fuel as [|fuel IH]; intros n Hn.
  - assert (H10 : (n <? 10)%Z = true) by (apply Z.ltb_lt; cbn in Hn; lia).
    cbn [digitsOf]. rewrite H10. cbn [allDigits digitsPrefix].
    rewrite digitValue_digitChar by (cbn in Hn; lia).
    repeat split; discriminate.
  - change (digitsOf (S (S fuel)) n)
      with (if (n <? 10)%Z then String (digitChar n) EmptyString
            else digitsOf (S fuel) (n / 10) ++ String (digitChar (n mod 10)) EmptyString).
    destruct (n <? 10)%Z eqn:H10.
    + apply Z.ltb_lt in H10. cbn [allDigits digitsPrefix].
      rewrite digitValue_digitChar by lia. repeat split; discriminate.
    + apply Z.ltb_ge in H10.
      assert (Hq : (0 <= n / 10 < 2 ^ Z.of_nat (S fuel))%Z).
      { split; [apply Z.div_pos; lia|].
        apply Z.div_lt_upper_bound; [lia|].
        rewrite (Nat2Z.inj_succ (S fuel)), Z.pow_succ_r in Hn by lia. lia. }
      destruct (IH (n / 10)%Z Hq) as (Hd & Hne & Hv).
      pose proof (Z.mod_pos_bound n 10 ltac:(lia)) as Hm.
      split; [|split].
      * rewrite allDigits_append, Hd. cbn [allDigits].
        now rewrite digitValue_digitChar by lia.
      * destruct (digitsOf (S fuel) (n / 10)); [congruence|discriminate].
      * rewrite digitsPrefix_append, Hv by exact Hd. cbn [digitsPrefix].
        rewrite digitValue_digitChar by lia. f_equal.
        rewrite (Z.div_mod n 10) at 3 by lia. lia.
Qed.

Lemma toStringInt_digits (n : Z) :
  (0 <= n)%Z ->
  allDigits (toStringInt n) = true /\ toStringInt n <> ""
  /\ digitsPrefix digitValue 10 None (toStringInt n) = Some n.
Proof.
  intros Hn. unfold toStringInt.
  assert (H0 : (n <? 0)%Z = false) by (apply Z.ltb_ge; lia). rewrite H0.
  apply digitsOf_decimal. split; [exact Hn|].
  rewrite Nat2Z.inj_succ, Z2Nat.id by apply Z.log2_nonneg.
  destruct (Z.eq_dec n 0) as [->|Hne]; [reflexivity|].
  apply Z.log2_spec. lia.
Qed.

(** [parseInt] inverts [toString] on the integers from 0 on. *)
Lemma parseInt_toStringInt (n : Z) : (0 <= n)%Z -> parseInt (toStringInt n) = Some n.
Proof.
  intros Hn. destruct (toStringInt_digits n Hn) as (Hd & Hne & Hv).
  now rewrite parseInt_digits.
Qed.

Lemma mathMax_upper (xs : list Z) (last : Z) :
  (last <= mathMax xs last)%Z /\ forall x, In x xs -> (x <= mathMax xs last)%Z.
Proof.
  unfold mathMax. induction xs as [|y xs [IHl IHx]]; cbn [fold_right].
  - split; [lia|intros x []].
  - split; [lia|]. intros x [->|Hin]; [lia|]. specialize (IHx x Hin). lia.
Qed.

(** The number from which [addItem] counts on. *)
Definition idNumber (item : Calculator.InvoiceItem) : Z :=
  orZero (parseInt (Calculator.id item)).

Lemma newId_not_used (l : list Calculator.InvoiceItem) :
  ~ In (newId l) (map Calculator.id l).
Proof.
  unfold newId. set (m := mathMax (map (fun i => orZero (parseInt (Calculator.id i))) l) 0).
  destruct (mathMax_upper (map (fun i => orZero (parseInt (Calculator.id i))) l) 0)
    as [H0 Hmax]. fold m in H0, Hmax.
  intros Hin. apply in_map_iff in Hin. destruct Hin as (item & Hid & Hitem).
  assert (Hle : (orZero (parseInt (Calculator.id item)) <= m)%Z).
  { apply Hmax. apply in_map_iff. exists item. split; [reflexivity|exact Hitem]. }
  rewrite Hid, parseInt_toStringInt in Hle by lia. cbn [orZero] in Hle. lia.
Qed.

(** X6.  For items whose ids read as numbers below
    [Number.MAX_SAFE_INTEGER] or as no number at all, the id that
    [addItem] gives the new item is the id of no item of the invoice: it
    reads as the greatest number among the ids, or 0, plus 1. *)
Theorem addItem_id_is_new (data : InvoiceData) :
  (forall other, In other (items data) -> (idNumber other < MAX_SAFE_INTEGER)%Z) ->
  exists item,
    items (addItem data data) = (items data ++ [item])%list
    /\ ~ In (Calculator.id item) (map Calculator.id (items data))
    /\ parseInt (Calculator.id item)
       = Some (mathMax (map idNumber (items data)) 0 + 1)%Z
    /\ (idNumber item <= MAX_SAFE_INTEGER)%Z
    /\ forall other, In other (items data) ->
                     (idNumber other < idNumber item)%Z.
Proof.
  intros Hsafe.
  eexists. split; [reflexivity|]. cbn [Calculator.id].
  pose proof (mathMax_upper (map idNumber (items data)) 0) as [H0 Hmax].
  assert (Hp : parseInt (newId (items data))
               = Some (mathMax (map idNumber (items data)) 0 + 1)%Z).
  { unfold newId. fold idNumber. apply parseInt_toStringInt. lia. }
  split; [apply newId_not_used|split; [exact Hp|split]].
  - unfold idNumber at 1. cbn [Calculator.id]. rewrite Hp. cbn [orZero].
    assert (Hlt : (mathMax (map idNumber (items data)) 0 < MAX_SAFE_INTEGER)%Z);
      [|lia].
    clear Hp H0 Hmax. unfold mathMax.
    induction (items data) as [|x l IH]; cbn [map fold_right].
    + reflexivity.
    + apply Z.max_lub_lt; [apply Hsafe; now left|].
      apply IH. intros other Hin. apply Hsafe. now right.
  - intros other Hin. unfold idNumber at 2. cbn [Calculator.id]. rewrite Hp.
    cbn [orZero].
    assert (idNumber other <= mathMax (map idNumber (items data)) 0)%Z; [|lia].
    apply Hmax. now apply in_map.
Qed.

(** *** Distinct ids *)

Lemma NoDup_snoc {A} (l : list A) (x : A) :
  NoDup l -> ~ In x l -> NoDup (l ++ [x]).
Proof.
  induction l as [|y l IH]; cbn [app]; intros Hl Hx.
  - constructor; [intros []|constructor].
  - inversion Hl; subst. constructor.
    + intros Hin. apply in_app_or in Hin. destruct Hin as [Hin|[<-|[]]].
      * contradiction.
      * apply Hx. now left.
    + apply IH; [assumption|]. intros Hin. apply Hx. now right.
Qed.

Definition keeps (id : string) (item : Calculator.InvoiceItem) : bool :=
  negb (Calculator.id item =? id).

Lemma filter_ids (id : string) (l : list Calculator.InvoiceItem) :
  forall x, In x (map Calculator.id (filter (keeps id) l)) ->
            In x (map Calculator.id l).
Proof.
  intros x Hin. apply in_map_iff in Hin. destruct Hin as (item & <- & Hitem).
  apply filter_In in Hitem. apply in_map. tauto.
Qed.

Lemma NoDup_filter_ids (id : string) (l : list Calculator.InvoiceItem) :
  NoDup (map Calculator.id l) -> NoDup (map Calculator.id (filter (keeps id) l)).
Proof.
  induction l as [|item l IH]; cbn [map filter]; intros H; [exact H|].
  inversion H; subst.
  destruct (keeps id item); cbn [map]; [|now apply IH].
  constructor; [|now apply IH]. intros Hin. now apply filter_ids in Hin.
Qed.

Lemma filter_absent (id : string) (l : list Calculator.InvoiceItem) :
  ~ In id (map Calculator.id l) -> filter (keeps id) l = l.
Proof.
  induction l as [|item l IH]; cbn [map filter In]; intros H; [reflexivity|].
  unfold keeps at 1.
  destruct (Calculator.id item =? id) eqn:E.
  - apply String.eqb_eq in E. tauto.
  - cbn [negb]. rewrite IH; [reflexivity|tauto].
Qed.

(** With distinct ids the filter of [removeItem] takes out the one item. *)
Lemma filter_one (item : Calculator.InvoiceItem)
  (before after : list Calculator.InvoiceItem) :
  NoDup (map Calculator.id (before ++ item :: after)) ->
  filter (keeps (Calculator.id item)) (before ++ item :: after)
  = (before ++ after)%list.
Proof.
  intros H. rewrite map_app in H. cbn [map] in H.
  pose proof (NoDup_remove_2 _ _ _ H) as Hnot.
  rewrite filter_app. cbn [filter]. unfold keeps at 2.
  rewrite String.eqb_refl. cbn [negb].
  rewrite !filter_absent; [reflexivity| |];
    intros Hin; apply Hnot; apply in_or_app; tauto.
Qed.

Lemma updateItem_ids (id : string) (f : FieldValue) (data : InvoiceData) :
  map Calculator.id (items (updateItem id f data)) = map Calculator.id (items data).
Proof.
  unfold updateItem, withItems. cbn [items]. rewrite map_map.
  apply map_ext. intros item.
  destruct (Calculator.id item =? id); [|reflexivity].
  destruct item, f; reflexivity.
Qed.

(** The items have distinct ids and there is at least one. *)
Definition WellKept (data : InvoiceData) : Prop :=
  NoDup (map Calculator.id (items data)) /\ items data <> [].

Lemma act_WellKept (data : InvoiceData) (a : ItemAction) :
  WellKept data -> WellKept (act data a).
Proof.
  intros [Hd Hne]. destruct a as [|id|id f]; cbn [act].
  - unfold WellKept, addItem, withItems. cbn [items]. split.
    + rewrite map_app. cbn [map Calculator.id].
      apply NoDup_snoc; [exact Hd|apply newId_not_used].
    + intros H. apply app_eq_nil in H. destruct H as [_ H]. discriminate.
  - unfold removeItem.
    destruct (1 <? List.length (items data))%nat eqn:Hlen; [|split; assumption].
    apply Nat.ltb_lt in Hlen. unfold withItems. split; cbn [items].
    + apply (NoDup_filter_ids id). exact Hd.
    + fold (keeps id).
      destruct (in_dec string_dec id (map Calculator.id (items data))) as [Hin|Hout].
      * apply in_map_iff in Hin. destruct Hin as (item & <- & Hitem).
        apply in_split in Hitem. destruct Hitem as (before & after & Hsplit).
        rewrite Hsplit in Hd |- *. rewrite (filter_one item before after Hd).
        rewrite Hsplit, length_app in Hlen. cbn [List.length] in Hlen.
        intros H. apply app_eq_nil in H. destruct H as [-> ->].
        cbn [List.length] in Hlen. lia.
      * now rewrite filter_absent.
  - split.
    + now rewrite updateItem_ids.
    + unfold updateItem, withItems. cbn [items]. intros H.
      apply map_eq_nil in H. contradiction.
Qed.

Lemma act_frame (data : InvoiceData) (a : ItemAction) :
  exchangeRate (act data a) = exchangeRate data
  /\ currency (act data a) = currency data
  /\ issueDate (act data a) = issueDate data
  /\ notes (act data a) = notes data.
Proof.
  destruct a as [|id|id f]; cbn [act]; unfold addItem, removeItem, updateItem.
  - repeat split.
  - destruct (1 <? List.length (items data))%nat; repeat split.
  - repeat split.
Qed.

(** X7.  Whatever items are added, removed and edited, in any order, an
    invoice whose items have distinct ids keeps distinct ids and never
    loses its last item; the rate, the currency, the issue date and the
    notes are not touched.  The ids are such that counting on by the
    number of actions stays within [Number.MAX_SAFE_INTEGER]. *)
Theorem item_ids_stay_distinct (actions : list ItemAction) (data : InvoiceData) :
  NoDup (map Calculator.id (items data)) -> items data <> [] ->
  (forall item, In item (items data) ->
                (idNumber item + Z.of_nat (List.length actions)
                 <= MAX_SAFE_INTEGER)%Z) ->
  let data' := fold_left act actions data in
  NoDup (map Calculator.id (items data')) /\ items data' <> []
  /\ exchangeRate data' = exchangeRate data /\ currency data' = currency data
  /\ issueDate data' = issueDate data /\ notes data' = notes data.
Proof.
  intros Hd Hne _. cbv zeta.
  assert (Hw : WellKept data) by (split; assumption). clear Hd Hne.
  revert data Hw. induction actions as [|a actions IH]; intros data Hw; cbn [fold_left].
  - destruct Hw. repeat split; assumption.
  - destruct (IH (act data a) (act_WellKept data a Hw)) as (H1 & H2 & H3 & H4 & H5 & H6).
    destruct (act_frame data a) as (F1 & F2 & F3 & F4).
    repeat split; try assumption; congruence.
Qed.

(** The invoice with which the application starts on 11 March 2024. *)
Definition firstInvoice : InvoiceData :=
  mkInvoice "" "2024-03-11" "2024-03-11" "2024-03-25" "Przelew" "PLN"
    (emptyCompany (Some "")) (emptyCompany None)
    [Calculator.mkItem "1" "" 1%float "szt." 0%float 23%float] "" None emptyRate.

Lemma item_ids_stay_distinct_witness :
  let actions := [AddItem; AddItem; RemoveItem "2"; UpdateItem "3" (FieldQuantity 5%float);
                  AddItem; RemoveItem "1"] in
  initialInvoice 19793 = Return firstInvoice
  /\ map Calculator.id (items (fold_left act actions firstInvoice)) = ["3"; "4"]
  /\ NoDup (map Calculator.id (items (fold_left act actions firstInvoice))).
Proof.
  intros actions.
  split; [vm_compute; reflexivity|split; [vm_compute; reflexivity|]].
  refine (proj1 (item_ids_stay_distinct actions firstInvoice _ _ _)).
  - cbn. constructor; [intros []|constructor].
  - discriminate.
  - intros item [<-|[]]. vm_compute. discriminate.
Defined.

(** Items with the ids 1, abc and 7x: the new id is 8. *)
Lemma addItem_id_is_new_witness :
  let data :=
    withItems firstInvoice
      [Calculator.mkItem "1" "" 1%float "szt." 0%float 23%float;
       Calculator.mkItem "abc" "" 1%float "szt." 0%float 23%float;
       Calculator.mkItem "7x" "" 1%float "szt." 0%float 23%float] in
  map Calculator.id (items (addItem data data)) = ["1"; "abc"; "7x"; "8"]
  /\ exists item,
      items (addItem data data) = (items data ++ [item])%list
      /\ ~ In (Calculator.id item) (map Calculator.id (items data)).
Proof.
  intros data. split; [vm_compute; reflexivity|].
  destruct (addItem_id_is_new data) as (item & Hi & Hn & _).
  - intros other [<-|[<-|[<-|[]]]]; vm_compute; reflexivity.
  - exists item. split; assumption.
Defined.

(** *** Items and the VAT summary *)

Section Totals.
Import PrimFloat Numbers Calculator NumberFacts CalculatorFacts.
Local Open Scope float_scope.

(** The items of a rate around an item of another rate. *)
Lemma itemsAt_around (r : float) (before after : list InvoiceItem)
  (item : InvoiceItem) :
  sameKey (vatRate item) r = false ->
  itemsAt r (before ++ item :: after) = itemsAt r (before ++ after).
Proof.
  intros H. unfold itemsAt. rewrite !filter_app. cbn [filter]. now rewrite H.
Qed.

(** X8.  With distinct ids, [removeItem] takes out the item of the id and
    no other, and the rows of the VAT summary for the other rates stay as
    they are; the last item of an invoice is not removed, and an id that
    no item has removes nothing. *)
Theorem removeItem_takes_that_item (data : InvoiceData) (item : InvoiceItem)
  (before after : list InvoiceItem) :
  items data = (before ++ item :: after)%list ->
  NoDup (map Calculator.id (items data)) ->
  ((before ++ after)%list <> [] ->
   let data' := removeItem (Calculator.id item) data data in
   items data' = (before ++ after)%list
   /\ forall r, sameKey (vatRate item) r = false ->
                lookup r (vatBreakdown (calculateInvoice (items data')))
                = lookup r (vatBreakdown (calculateInvoice (items data))))
  /\ ((before ++ after)%list = [] ->
      removeItem (Calculator.id item) data data = data)
  /\ (forall id, ~ In id (map Calculator.id (items data)) ->
                 items (removeItem id data data) = items data).
Proof.
  intros Hsplit Hd. split; [|split].
  - intros Hne. cbv zeta.
    assert (Hitems : items (removeItem (Calculator.id item) data data)
                     = (before ++ after)%list).
    { unfold removeItem.
      assert (Hlen : (1 <? List.length (items data))%nat = true).
      { apply Nat.ltb_lt. rewrite Hsplit, length_app. cbn [List.length].
        destruct before, after; cbn [List.length app] in *; try lia. congruence. }
      rewrite Hlen. unfold withItems. cbn [items]. fold (keeps (Calculator.id item)).
      rewrite Hsplit in Hd |- *. now apply filter_one. }
    rewrite Hitems, Hsplit. split; [reflexivity|].
    intros r Hr. unfold calculateInvoice. cbn [vatBreakdown].
    now rewrite !rows_sum_items, (itemsAt_around r before after item Hr).
  - intros Hnil. apply app_eq_nil in Hnil. destruct Hnil as [-> ->].
    unfold removeItem. rewrite Hsplit. reflexivity.
  - intros id Hout. unfold removeItem.
    destruct (1 <? List.length (items data))%nat; [|reflexivity].
    unfold withItems. cbn [items]. fold (keeps id). now apply filter_absent.
Qed.

(** An invoice with three items. *)
Definition threeItems : InvoiceData :=
  withItems firstInvoice
    [mkItem "1" "a" 2 "szt." 100 23; mkItem "2" "b" 1 "szt." 50 (-1);
     mkItem "3" "c" 3 "godz." 10 8].

Lemma removeItem_takes_that_item_witness :
  items (removeItem "2" threeItems threeItems)
  = [mkItem "1" "a" 2 "szt." 100 23; mkItem "3" "c" 3 "godz." 10 8]
  /\ lookup 23 (vatBreakdown
                  (calculateInvoice (items (removeItem "2" threeItems threeItems))))
     = lookup 23 (vatBreakdown (calculateInvoice (items threeItems))).
Proof.
  assert (Hd : NoDup (map Calculator.id (items threeItems))).
  { cbn. repeat constructor; cbn; intuition discriminate. }
  destruct (removeItem_takes_that_item threeItems (mkItem "2" "b" 1 "szt." 50 (-1))
              [mkItem "1" "a" 2 "szt." 100 23] [mkItem "3" "c" 3 "godz." 10 8]
              eq_refl Hd) as (Hrem & _).
  destruct (Hrem ltac:(discriminate)) as (Hitems & Hrows).
  split; [exact Hitems|]. apply Hrows. vm_compute. reflexivity.
Defined.

Lemma map_only (g : InvoiceItem -> InvoiceItem) (id : string)
  (l : list InvoiceItem) :
  ~ In id (map Calculator.id l) ->
  map (fun item => if (Calculator.id item =? id)%string then g item else item) l = l.
Proof.
  induction l as [|x l IH]; cbn [map In]; intros H; [reflexivity|].
  destruct (Calculator.id x =? id)%string eqn:E.
  - apply String.eqb_eq in E. tauto.
  - rewrite IH; [reflexivity|tauto].
Qed.

Lemma withField_id (item : InvoiceItem) (f : FieldValue) :
  Calculator.id (withField item f) = Calculator.id item.
Proof. destruct item, f; reflexivity. Qed.

(** X9.  With distinct ids, [updateItem] changes the item of the id and
    no other, in its place and with its id, and the rows of the VAT
    summary stay as they are for every rate other than the old and the
    new rate of that item. *)
Theorem updateItem_edits_that_item (data : InvoiceData) (item : InvoiceItem)
  (before after : list InvoiceItem) (f : FieldValue) :
  items data = (before ++ item :: after)%list ->
  NoDup (map Calculator.id (items data)) ->
  let data' := updateItem (Calculator.id item) f data in
  items data' = (before ++ withField item f :: after)%list
  /\ Calculator.id (withField item f) = Calculator.id item
  /\ forall r, sameKey (vatRate item) r = false ->
               sameKey (vatRate (withField item f)) r = false ->
               lookup r (vatBreakdown (calculateInvoice (items data')))
               = lookup r (vatBreakdown (calculateInvoice (items data))).
Proof.
  intros Hsplit Hd. cbv zeta.
  assert (Hitems : items (updateItem (Calculator.id item) f data)
                   = (before ++ withField item f :: after)%list).
  { unfold updateItem, withItems. cbn [items]. rewrite Hsplit in Hd |- *.
    rewrite map_app in Hd. cbn [map] in Hd.
    pose proof (NoDup_remove_2 _ _ _ Hd) as Hnot.
    rewrite map_app. cbn [map]. rewrite String.eqb_refl.
    rewrite !map_only; [reflexivity| |];
      intros Hin; apply Hnot; apply in_or_app; tauto. }
  rewrite Hitems, Hsplit. split; [reflexivity|split; [apply withField_id|]].
  intros r Hold Hnew. unfold calculateInvoice. cbn [vatBreakdown].
  now rewrite !rows_sum_items, (itemsAt_around r before after item Hold),
    (itemsAt_around r before after (withField item f) Hnew).
Qed.

Lemma updateItem_edits_that_item_witness :
  items (updateItem "3" (FieldQuantity 5) threeItems)
  = [mkItem "1" "a" 2 "szt." 100 23; mkItem "2" "b" 1 "szt." 50 (-1);
     mkItem "3" "c" 5 "godz." 10 8]
  /\ lookup 23 (vatBreakdown
                  (calculateInvoice
                     (items (updateItem "3" (FieldQuantity 5) threeItems))))
     = lookup 23 (vatBreakdown (calculateInvoice (items threeItems))).
Proof.
  assert (Hd : NoDup (map Calculator.id (items threeItems))).
  { cbn. repeat constructor; cbn; intuition discriminate. }
  destruct (updateItem_edits_that_item threeItems (mkItem "3" "c" 3 "godz." 10 8)
              [mkItem "1" "a" 2 "szt." 100 23; mkItem "2" "b" 1 "szt." 50 (-1)] []
              (FieldQuantity 5) eq_refl Hd) as (Hitems & _ & Hrows).
  split; [exact Hitems|]. apply Hrows; vm_compute; reflexivity.
Defined.

(** The calculator reads the quantity, the net price and the rate only. *)
Lemma addItem_same_amounts (o : Breakdown) (a b : InvoiceItem) :
  quantity a = quantity b -> netPrice a = netPrice b -> vatRate a = vatRate b ->
  Calculator.addItem o a = Calculator.addItem o b.
Proof.
  intros Hq Hp Hr. unfold Calculator.addItem, grossAmount, vatAmount, netAmount.
  now rewrite Hq, Hp, Hr.
Qed.

Lemma calculateInvoice_same_amounts (g : InvoiceItem -> InvoiceItem)
  (l : list InvoiceItem) :
  (forall a, quantity (g a) = quantity a /\ netPrice (g a) = netPrice a
             /\ vatRate (g a) = vatRate a) ->
  calculateInvoice (map g l) = calculateInvoice l.
Proof.
  intros Hg. unfold calculateInvoice.
  assert (H : forall o, fold_left Calculator.addItem (map g l) o
                        = fold_left Calculator.addItem l o).
  { induction l as [|a l IH]; intros o; cbn [map fold_left]; [reflexivity|].
    destruct (Hg a) as (Hq & Hp & Hr).
    now rewrite (addItem_same_amounts o (g a) a Hq Hp Hr), IH. }
  now rewrite H.
Qed.

(** No amount of a row is the negative zero. *)
Definition plainRow (row : float * Bucket) : Prop :=
  net (snd row) <> neg_zero /\ vat (snd row) <> neg_zero
  /\ gross (snd row) <> neg_zero.

Lemma rows_plain (l : list InvoiceItem) :
  Forall plainRow (fold_left Calculator.addItem l []).
Proof.
  eapply Forall_impl; [|apply rows_are_buckets].
  intros [k b] H. cbn [fst snd] in H. unfold plainRow. cbn [snd]. rewrite H.
  unfold bucketOf. cbn [net vat gross].
  repeat split; apply sumInOrder_not_neg_zero.
Qed.

(** Amounts of 0 change no row. *)
Lemma accumulate_nothing (k : float) (o : Breakdown) :
  Forall plainRow o -> accumulate k 0 0 0 o = o.
Proof.
  induction 1 as [|[k' b] o (Hn & Hv & Hg) _ IH]; cbn [accumulate]; [reflexivity|].
  cbn [snd] in Hn, Hv, Hg.
  destruct (sameKey k k'); [|now rewrite IH].
  rewrite (proj1 (add_zero_exact _ Hn)), (proj1 (add_zero_exact _ Hv)),
    (proj1 (add_zero_exact _ Hg)).
  now destruct b.
Qed.

(** The amounts of the first item of a rate go to the row created for
    it. *)
Lemma accumulate_created (k n v g : float) (b : Bucket) (o : Breakdown) :
  lookup k o = None ->
  accumulate k n v g (create k b o)
  = create k (mkBucket (net b + n) (vat b + v) (gross b + g)) o.
Proof.
  induction o as [|[k' b'] o IH]; cbn [lookup create].
  - intros _. cbn [accumulate]. now rewrite sameKey_refl.
  - destruct (sameKey k k') eqn:E; [discriminate|]. intros Hk.
    destruct (goesBefore k k'); cbn [accumulate].
    + now rewrite sameKey_refl.
    + now rewrite E, (IH Hk).
Qed.

(** A row of amounts 0 adds nothing to a sum over the rows. *)
Lemma reduceSum_created (f : Bucket -> float) (k : float) (b : Bucket)
  (o : Breakdown) :
  f b = 0 -> reduceSum f (values (create k b o)) = reduceSum f (values o).
Proof.
  intros Hb. unfold reduceSum, values.
  assert (H : forall sum, sum <> neg_zero ->
                fold_left (fun sum v => sum + f v) (map snd (create k b o)) sum
                = fold_left (fun sum v => sum + f v) (map snd o) sum).
  { induction o as [|[k' b'] o IH]; intros sum Hsum; cbn [create].
    - cbn [map snd fold_left]. rewrite Hb. apply add_zero_exact, Hsum.
    - destruct (goesBefore k k'); cbn [map snd fold_left].
      + rewrite Hb, (proj1 (add_zero_exact _ Hsum)). reflexivity.
      + apply IH. now apply add_not_neg_zero. }
  apply H, zero_not_neg_zero.
Qed.

(** X10.  A new name or unit of an item changes nothing in the calculation
    of the invoice, and the item that [addItem] appends adds nothing to
    the totals. *)
Theorem naming_keeps_the_totals (data : InvoiceData) :
  (forall id v,
      calculateInvoice (items (updateItem id (FieldName v) data))
      = calculateInvoice (items data))
  /\ (forall id v,
        calculateInvoice (items (updateItem id (FieldUnit v) data))
        = calculateInvoice (items data))
  /\ netTotal (calculateInvoice (items (Items.addItem data data)))
     = netTotal (calculateInvoice (items data))
  /\ vatTotal (calculateInvoice (items (Items.addItem data data)))
     = vatTotal (calculateInvoice (items data))
  /\ grossTotal (calculateInvoice (items (Items.addItem data data)))
     = grossTotal (calculateInvoice (items data)).
Proof.
  split; [|split].
  - intros id v. unfold updateItem, withItems. cbn [items].
    apply calculateInvoice_same_amounts. intros a.
    destruct (Calculator.id a =? id)%string; [destruct a|]; repeat split.
  - intros id v. unfold updateItem, withItems. cbn [items].
    apply calculateInvoice_same_amounts. intros a.
    destruct (Calculator.id a =? id)%string; [destruct a|]; repeat split.
  - unfold Items.addItem, withItems. cbn [items].
    unfold calculateInvoice. cbn [netTotal vatTotal grossTotal].
    rewrite fold_addItem_snoc.
    set (o := fold_left Calculator.addItem (items data) []).
    change (Calculator.addItem o _)
      with (accumulate 23 0 0 0
              match lookup 23 o with
              | None => create 23 (mkBucket 0 0 0) o
              | Some _ => o
              end).
    destruct (lookup 23 o) eqn:Hk.
    + rewrite (accumulate_nothing 23 o (rows_plain (items data))).
      repeat split.
    + rewrite (accumulate_created 23 0 0 0 (mkBucket 0 0 0) o Hk).
      change (mkBucket _ _ _) with (mkBucket 0 0 0).
      rewrite !reduceSum_created by reflexivity. repeat split.
Qed.

End Totals.

End ItemFacts.

(* ===================================================================== *)
(** ** Saved companies                                                    *)
(* ===================================================================== *)

Module CompanyFacts.
Import JS Invoice Form Companies.
Local Open Scope string_scope.

Lemma find_replaced {A} (p : A -> bool) (a : A) (l : list A) (i : nat) :
  findIndex p l = Some i -> p a = true -> find p (replaceNth i a l) = Some a.
Proof.
  intros Hi Ha. revert i Hi.
  induction l as [|x l IH]; intros i; cbn [findIndex]; [discriminate|].
  destruct (p x) eqn:Hx.
  - intros H. injection H as <-. cbn [replaceNth find]. now rewrite Ha.
  - destruct (findIndex p l) as [j|]; [|discriminate]. cbn [option_map].
    intros H. injection H as <-. cbn [replaceNth find]. rewrite Hx.
    now apply IH.
Qed.

Lemma find_appended {A} (p : A -> bool) (a : A) (l : list A) :
  findIndex p l = None -> p a = true -> find p (l ++ [a]) = Some a.
Proof.
  intros Hi Ha. induction l as [|x l IH]; cbn [findIndex app find] in *.
  - now rewrite Ha.
  - destruct (p x); [discriminate|].
    destruct (findIndex p l); [discriminate|]. now apply IH.
Qed.

Lemma findIndex_Some {A} (p : A -> bool) (l : list A) (i : nat) :
  findIndex p l = Some i ->
  exists x, nth_error l i = Some x /\ p x = true.
Proof.
  revert i. induction l as [|x l IH]; intros i; cbn [findIndex]; [discriminate|].
  destruct (p x) eqn:Hx.
  - intros H. injection H as <-. exists x. now split.
  - destruct (findIndex p l) as [j|]; [|discriminate]. cbn [option_map].
    intros H. injection H as <-. exact (IH j eq_refl).
Qed.

Lemma findIndex_None {A} (p : A -> bool) (l : list A) :
  findIndex p l = None -> forall x, In x l -> p x = false.
Proof.
  induction l as [|y l IH]; cbn [findIndex In]; intros H x Hin; [contradiction|].
  destruct (p y) eqn:Hy; [discriminate|].
  destruct (findIndex p l); [discriminate|].
  destruct Hin as [<-|Hin]; [exact Hy|now apply IH].
Qed.

Lemma savedOf_store (type type' : CompanyType) (l : list SavedCompany) (b : Book) :
  savedOf type' (store type l b)
  = match type, type' with
    | Seller, Seller | Buyer, Buyer => l
    | _, _ => savedOf type' b
    end.
Proof. destruct type, type'; reflexivity. Qed.

Lemma storedOf_store (type type' : CompanyType) (l : list SavedCompany) (b : Book) :
  storedOf type' (store type l b)
  = match type, type' with
    | Seller, Seller | Buyer, Buyer => Some l
    | _, _ => storedOf type' b
    end.
Proof. destruct type, type'; reflexivity. Qed.

(** The list of [type] after [saveToCache]. *)
Definition savedAfter (data : CompanyInfo) (l : list SavedCompany)
  : list SavedCompany :=
  match findIndex (fun c => savedName c =? companyName data) l with
  | Some i => replaceNth i (mkSaved (companyName data) data) l
  | None => (l ++ [mkSaved (companyName data) data])%list
  end.

Lemma saveToCache_saved (data : CompanyInfo) (type type' : CompanyType) (b : Book) :
  companyName data <> "" ->
  savedOf type' (saveToCache data type b)
  = match type, type' with
    | Seller, Seller | Buyer, Buyer => savedAfter data (savedOf type b)
    | _, _ => savedOf type' b
    end
  /\ storedOf type' (saveToCache data type b)
     = match type, type' with
       | Seller, Seller | Buyer, Buyer => Some (savedAfter data (savedOf type b))
       | _, _ => storedOf type' b
       end.
Proof.
  intros Hn. unfold saveToCache, savedAfter.
  assert (He : isEmpty (companyName data) = false)
    by (destruct (companyName data); [congruence|reflexivity]).
  rewrite He.
  destruct (findIndex (fun c => savedName c =? companyName data) (savedOf type b));
    rewrite savedOf_store, storedOf_store; destruct type, type'; split; reflexivity.
Qed.

Lemma find_savedAfter (data : CompanyInfo) (l : list SavedCompany) :
  find (fun c => savedName c =? companyName data) (savedAfter data l)
  = Some (mkSaved (companyName data) data).
Proof.
  unfold savedAfter.
  destruct (findIndex (fun c => savedName c =? companyName data) l) as [i|] eqn:Hi.
  - apply find_replaced; [exact Hi|]. cbn [savedName]. apply String.eqb_refl.
  - apply find_appended; [exact Hi|]. cbn [savedName]. apply String.eqb_refl.
Qed.

Definition other (type : CompanyType) : CompanyType :=
  match type with
  | Seller => Buyer
  | Buyer => Seller
  end.

(** X11.  A company saved under its name is the company that loading the
    name brings back into the invoice, as the seller or the buyer it was
    saved as; the other party and the rest of the invoice stay, and a
    toast confirms the load. *)
Theorem saveToCache_then_loadFromCache (data : CompanyInfo) (type : CompanyType)
  (b : Book) (prev : InvoiceData) :
  companyName data <> "" ->
  let saved := saveToCache data type b in
  let loaded := loadFromCache (companyName data) type saved prev in
  fst loaded = withCompany type prev data
  /\ companyOf type (fst loaded) = data
  /\ companyOf (other type) (fst loaded) = companyOf (other type) prev
  /\ shown (snd loaded)
     = (shown saved ++ [ToastSuccess ("Wczytano: " ++ companyName data)])%list.
Proof.
  intros Hn. cbv zeta. unfold loadFromCache.
  destruct (saveToCache_saved data type type b Hn) as [Hs _].
  assert (Hsaved : savedOf type (saveToCache data type b)
                   = savedAfter data (savedOf type b)) by (destruct type; exact Hs).
  rewrite Hsaved, find_savedAfter. cbn [fst snd savedData].
  destruct type; repeat split.
Qed.

Definition acme : CompanyInfo :=
  mkCompany "ACME Sp. z o.o." "Prosta 1" "00-001" "Warszawa" "1234567890" (Some "").

Definition emptyBook : Book := mkBook [] [] None None [].

Lemma saveToCache_then_loadFromCache_witness :
  seller (fst (loadFromCache "ACME Sp. z o.o." Seller
                 (saveToCache acme Seller emptyBook) ItemFacts.firstInvoice))
  = acme.
Proof.
  exact (proj1 (proj2 (saveToCache_then_loadFromCache acme Seller emptyBook
                         ItemFacts.firstInvoice ltac:(discriminate)))).
Defined.

(** *** One entry per name *)

Lemma names_replaced (l : list SavedCompany) (i : nat) (c : SavedCompany) :
  (exists x, nth_error l i = Some x /\ savedName x = savedName c) ->
  map savedName (replaceNth i c l) = map savedName l.
Proof.
  revert i. induction l as [|y l IH]; intros i (x & Hx & Hn).
  - destruct i; discriminate.
  - destruct i as [|i]; cbn [replaceNth map nth_error] in *.
    + injection Hx as ->. now rewrite Hn.
    + f_equal. apply IH. now exists x.
Qed.

Lemma names_savedAfter (data : CompanyInfo) (l : list SavedCompany) :
  map savedName (savedAfter data l)
  = if existsb (fun c => savedName c =? companyName data) l
    then map savedName l
    else (map savedName l ++ [companyName data])%list.
Proof.
  unfold savedAfter.
  destruct (findIndex (fun c => savedName c =? companyName data) l) as [i|] eqn:Hi.
  - destruct (findIndex_Some _ _ _ Hi) as (x & Hx & Hp).
    assert (He : existsb (fun c => savedName c =? companyName data) l = true).
    { apply existsb_exists. exists x. split; [now apply nth_error_In with i|exact Hp]. }
    rewrite He. apply names_replaced. exists x. split; [exact Hx|].
    now apply String.eqb_eq in Hp.
  - assert (He : existsb (fun c => savedName c =? companyName data) l = false).
    { destruct (existsb _ l) eqn:E; [|reflexivity].
      apply existsb_exists in E. destruct E as (x & Hin & Hp).
      now rewrite (findIndex_None _ _ Hi x Hin) in Hp. }
    rewrite He, map_app. reflexivity.
Qed.

Lemma NoDup_savedAfter (data : CompanyInfo) (l : list SavedCompany) :
  NoDup (map savedName l) -> NoDup (map savedName (savedAfter data l)).
Proof.
  intros Hd. rewrite names_savedAfter.
  destruct (existsb (fun c => savedName c =? companyName data) l) eqn:He;
    [exact Hd|].
  apply ItemFacts.NoDup_snoc; [exact Hd|].
  intros Hin. apply in_map_iff in Hin. destruct Hin as (x & Hn & Hx).
  assert (Ht : existsb (fun c => savedName c =? companyName data) l = true).
  { apply existsb_exists. exists x. split; [exact Hx|now apply String.eqb_eq]. }
  congruence.
Qed.

(** The saves of a session: the company and the tab it is saved from. *)
Definition saveAll (saves : list (CompanyInfo * CompanyType)) (b : Book) : Book :=
  fold_left (fun b save => saveToCache (fst save) (snd save) b) saves b.

Lemma saveToCache_NoDup (data : CompanyInfo) (type type' : CompanyType) (b : Book) :
  NoDup (map savedName (savedOf type' b)) ->
  NoDup (map savedName (savedOf type' (saveToCache data type b))).
Proof.
  intros Hd. destruct (string_dec (companyName data) "") as [Hn|Hne].
  - unfold saveToCache. rewrite Hn. cbn [isEmpty]. destruct type'; exact Hd.
  - destruct (saveToCache_saved data type type' b Hne) as [-> _].
    destruct type, type'; try exact Hd; now apply NoDup_savedAfter.
Qed.

(** X12.  Saving keeps one entry per name in each list: a name that is
    saved again replaces its entry in place, a new name is added at the
    end, and a company without a name is not saved but answered with an
    error toast. *)
Theorem saved_names_stay_distinct (saves : list (CompanyInfo * CompanyType))
  (b : Book) :
  NoDup (map savedName (savedSellers b)) ->
  NoDup (map savedName (savedBuyers b)) ->
  (NoDup (map savedName (savedSellers (saveAll saves b)))
   /\ NoDup (map savedName (savedBuyers (saveAll saves b))))
  /\ (forall data type,
        companyName data <> "" ->
        map savedName (savedOf type (saveToCache data type b))
        = if existsb (fun c => savedName c =? companyName data) (savedOf type b)
          then map savedName (savedOf type b)
          else (map savedName (savedOf type b) ++ [companyName data])%list)
  /\ (forall data type,
        companyName data = "" ->
        saveToCache data type b
        = toast (ToastError "Podaj nazwę firmy, aby zapisać dane") b).
Proof.
  intros Hs Hb. split; [|split].
  - unfold saveAll. revert b Hs Hb.
    induction saves as [|[data type] saves IH]; intros b Hs Hb; cbn [fold_left fst snd].
    + split; assumption.
    + apply IH.
      * exact (saveToCache_NoDup data type Seller b Hs).
      * exact (saveToCache_NoDup data type Buyer b Hb).
  - intros data type Hn.
    destruct (saveToCache_saved data type type b Hn) as [H _].
    replace (savedOf type (saveToCache data type b))
      with (savedAfter data (savedOf type b)) by (destruct type; now rewrite H).
    apply names_savedAfter.
  - intros data type Hn. unfold saveToCache. now rewrite Hn.
Qed.

Lemma saved_names_stay_distinct_witness :
  map savedName
    (savedSellers
       (saveAll [(acme, Seller); (acme, Buyer);
                 (mkCompany "ACME Sp. z o.o." "Krzywa 2" "" "" "" None, Seller)]
          emptyBook))
  = ["ACME Sp. z o.o."]
  /\ NoDup (map savedName
              (savedSellers
                 (saveAll [(acme, Seller); (acme, Buyer);
                           (mkCompany "ACME Sp. z o.o." "Krzywa 2" "" "" "" None, Seller)]
                    emptyBook))).
Proof.
  split; [reflexivity|].
  refine (proj1 (proj1 (saved_names_stay_distinct _ emptyBook _ _))); constructor.
Defined.

(** *** The storage mirrors the lists *)

(** The storage holds the list of [type], or nothing while the list is
    empty. *)
Definition mirrored (type : CompanyType) (b : Book) : Prop :=
  storedOf type b = Some (savedOf type b)
  \/ (storedOf type b = None /\ savedOf type b = []).

Lemma remount_saved (type : CompanyType) (b : Book) :
  savedOf type (remount b)
  = match storedOf type b with
    | Some l => l
    | None => []
    end
  /\ storedOf type (remount b) = storedOf type b.
Proof.
  unfold remount, loadSaved. cbn [storedSellers storedBuyers].
  destruct (storedSellers b) eqn:Es, (storedBuyers b) eqn:Eb, type;
    cbn [savedOf storedOf savedSellers savedBuyers storedSellers storedBuyers];
    rewrite ?Es, ?Eb; cbn [savedSellers savedBuyers storedSellers storedBuyers];
    rewrite ?Es, ?Eb; split; reflexivity.
Qed.

Lemma remount_mirrored (type : CompanyType) (b : Book) : mirrored type (remount b).
Proof.
  unfold mirrored. destruct (remount_saved type b) as [-> ->].
  destruct (storedOf type b); [now left|now right].
Qed.

Lemma saveToCache_mirrored (data : CompanyInfo) (type type' : CompanyType) (b : Book) :
  mirrored type' b -> mirrored type' (saveToCache data type b).
Proof.
  intros Hm. destruct (string_dec (companyName data) "") as [Hn|Hne].
  - unfold saveToCache. rewrite Hn. cbn [isEmpty]. destruct type'; exact Hm.
  - unfold mirrored.
    destruct (saveToCache_saved data type type' b Hne) as [-> ->].
    destruct type, type'; try exact Hm; now left.
Qed.

Lemma mirrored_remount (type : CompanyType) (b : Book) :
  mirrored type b -> savedOf type (remount b) = savedOf type b.
Proof.
  intros [H|[H H']]; destruct (remount_saved type b) as [-> _]; rewrite H;
    [reflexivity|now rewrite H'].
Qed.

(** X13.  What is saved survives: after any saves in a mounted form, a
    form mounted anew over the same storage starts with the same two
    lists. *)
Theorem saved_companies_survive_remount (saves : list (CompanyInfo * CompanyType))
  (storage : Book) :
  let b := saveAll saves (remount storage) in
  savedSellers (remount b) = savedSellers b
  /\ savedBuyers (remount b) = savedBuyers b.
Proof.
  cbv zeta.
  assert (H : forall type, mirrored type (saveAll saves (remount storage))).
  { intros type. unfold saveAll.
    generalize (remount_mirrored type storage). generalize (remount storage).
    induction saves as [|[data ty] saves IH]; intros b Hb; cbn [fold_left fst snd].
    - exact Hb.
    - apply IH. now apply saveToCache_mirrored. }
  split.
  - exact (mirrored_remount Seller _ (H Seller)).
  - exact (mirrored_remount Buyer _ (H Buyer)).
Qed.

End CompanyFacts.

(* ===================================================================== *)
(** ** More on the date helpers                                           *)
(* ===================================================================== *)

Module DateRoundTrip.
Import JS Dates DateFacts StringFacts.
Local Open Scope string_scope.
Local Open Scope Z_scope.

Lemma businessDayBefore_weekday (t : Z) :
  businessDayBefore t < t /\ t - 3 <= businessDayBefore t
  /\ 1 <= getUTCDay (businessDayBefore t) <= 5.
Proof.
  pose proof (getUTCDay_range t) as Hr.
  pose proof (getUTCDay_pred t) as H1.
  pose proof (getUTCDay_pred (t - 1)) as H2.
  pose proof (getUTCDay_pred (t - 1 - 1)) as H3.
  replace (t - 1 - 1) with (t - 2) in * by lia.
  replace (t - 2 - 1) with (t - 3) in * by lia.
  unfold businessDayBefore.
  assert (Hcase : getUTCDay t = 0 \/ getUTCDay t = 1 \/ getUTCDay t = 2
                  \/ getUTCDay t = 3 \/ getUTCDay t = 4 \/ getUTCDay t = 5
                  \/ getUTCDay t = 6) by lia.
  destruct Hcase as [E|[E|[E|[E|[E|[E|E]]]]]]; rewrite E in *;
    cbn in H1; rewrite H1 in H2; cbn in H2; rewrite H2 in H3; cbn in H3;
    repeat split; lia.
Qed.

(** X14.  Without a reference date that parses (the issue date is empty
    or is not three numbers joined by hyphens), the previous business
    day is counted from the current day. *)
Theorem getPreviousBusinessDay_without_reference (today : Z) (referenceDate : string) :
  parseISODate referenceDate = None ->
  100 <= getUTCFullYear today -> today <= maxDay ->
  getPreviousBusinessDay today referenceDate
  = Return (isoDatePart (businessDayBefore today))
  /\ businessDayBefore today < today
  /\ 1 <= getUTCDay (businessDayBefore today) <= 5
  /\ parseISODate "" = None.
Proof.
  intros Hp Hy Hm.
  pose proof (proj1 (Calendar.year_from_100 today) Hy) as Hlow.
  unfold Calendar.firstDayOfYear100 in Hlow.
  assert (Ht : Z.abs today <= maxDay) by (unfold maxDay in *; lia).
  destruct (businessDayBefore_weekday today) as (Hlt & _ & Hwd).
  split; [|split; [exact Hlt|split; [exact Hwd|reflexivity]]].
  unfold getPreviousBusinessDay. rewrite Hp.
  rewrite !copyUTC_AtDay by assumption.
  rewrite skipWeekend_pred by (unfold maxDay in *; lia).
  apply toDateString_AtDay.
Qed.

(** On Monday 11 March 2024 (day 19793) with the issue date cleared. *)
Lemma getPreviousBusinessDay_without_reference_witness :
  getPreviousBusinessDay 19793 "" = Return "2024-03-08".
Proof.
  refine (eq_trans
            (proj1 (getPreviousBusinessDay_without_reference 19793 "" eq_refl _ _))
            _).
  - vm_compute. discriminate.
  - vm_compute. discriminate.
  - vm_compute. reflexivity.
Defined.

(** A reference date with white space after the day is read as its
    date: [Number] skips the white space around a numeral. *)
Example getPreviousBusinessDay_padded_reference :
  parseISODate "2024-03-06 " = Some (AtDay 19788)
  /\ getPreviousBusinessDay 19793 "2024-03-06 " = Return "2024-03-05".
Proof. split; vm_compute; reflexivity. Qed.

(** The numbers of the parts of the date part, for a year from 0 on. *)
Lemma Number_parts_iso_from_0 (t : Z) :
  0 <= getUTCFullYear t -> t <= maxDay ->
  map Number (split "-" (isoDatePart t))
  = [Numbers.ofInteger (getUTCFullYear t); Numbers.ofInteger (getUTCMonth t + 1);
     Numbers.ofInteger (getUTCDate t)].
Proof.
  intros Hy Ht. rewrite split_isoDatePart by lia. cbn [map].
  pose proof (Calendar.year_upper t Ht) as Hu.
  pose proof (Calendar.civil_ranges t) as [Hm Hd].
  rewrite Number_isoYear by lia.
  rewrite (Number_padDigits 1 (getUTCMonth t + 1))
    by (change (10 ^ Z.of_nat 2) with 100; lia).
  rewrite (Number_padDigits 1 (getUTCDate t))
    by (change (10 ^ Z.of_nat 2) with 100; lia).
  reflexivity.
Qed.

Lemma makeDay_twentieth_century (y m d : Z) :
  0 <= y <= 99 -> 0 <= m <= 11 -> 1 <= d <= 31 ->
  -25567 <= makeDay (1900 + y) m d <= 11000.
Proof.
  intros Hy Hm Hd. unfold makeDay, daysFromCivil.
  rewrite (Z.div_small m 12), (Z.mod_small m 12) by lia.
  replace (1900 + y + 0) with (1900 + y) by lia.
  destruct (m + 1 <=? 2) eqn:E;
    [apply Z.leb_le in E|apply Z.leb_gt in E];
    Z.to_euclidean_division_equations; lia.
Qed.

(** X15.  [toDateString] and [parseISODate] are inverse to each other on
    the days of the years from 100 on.  They are not on the days of the
    years 0 to 99, which [Date.UTC] reads as years of the twentieth
    century: the date string of such a day parses to a later day. *)
Theorem toDateString_parseISODate_round_trip (t : Z) :
  Z.abs t <= maxDay ->
  (100 <= getUTCFullYear t ->
   exists s, toDateString (AtDay t) = Return s
             /\ parseISODate s = Some (AtDay t)
             /\ dateOfParts s = AtDay t)
  /\ (0 <= getUTCFullYear t <= 99 ->
      exists s t', toDateString (AtDay t) = Return s
                   /\ parseISODate s = Some (AtDay t')
                   /\ t' = makeDay (1900 + getUTCFullYear t) (getUTCMonth t)
                             (getUTCDate t)
                   /\ t < t').
Proof.
  intros Ht. split.
  - intros Hy. exists (isoDatePart t).
    split; [apply toDateString_AtDay|].
    split; [now apply parseISODate_iso|now apply dateOfParts_iso].
  - intros Hy. exists (isoDatePart t).
    exists (makeDay (1900 + getUTCFullYear t) (getUTCMonth t) (getUTCDate t)).
    pose proof (Calendar.civil_ranges t) as [Hm Hd].
    pose proof (makeDay_twentieth_century (getUTCFullYear t) (getUTCMonth t)
                  (getUTCDate t) Hy ltac:(lia) Hd) as Hb.
    assert (Hlow : t < Calendar.firstDayOfYear100).
    { destruct (Z_lt_le_dec t Calendar.firstDayOfYear100) as [H|H]; [exact H|].
      apply Calendar.year_from_100 in H. lia. }
    unfold Calendar.firstDayOfYear100 in Hlow.
    split; [apply toDateString_AtDay|].
    split; [|split; [reflexivity|lia]].
    unfold parseISODate.
    pose proof (isoDatePart_nonempty t) as Hne.
    destruct (isoDatePart t) eqn:E; [congruence|]. rewrite <- E.
    rewrite Number_parts_iso_from_0 by (unfold maxDay in *; lia).
    rewrite (proj2 (NumberFacts.truncate_ofInteger (getUTCFullYear t) ltac:(lia))).
    rewrite (proj2 (NumberFacts.truncate_ofInteger (getUTCMonth t + 1) ltac:(lia))).
    rewrite (proj2 (NumberFacts.truncate_ofInteger (getUTCDate t) ltac:(lia))).
    cbn [orb]. f_equal.
    rewrite DateUTC_numbers_parts by lia.
    rewrite Z.add_simpl_r. unfold DateUTC.
    replace ((0 <=? getUTCFullYear t) && (getUTCFullYear t <=? 99)) with true
      by (symmetry; apply andb_true_iff; split; apply Z.leb_le; lia).
    apply timeClip_valid. unfold maxDay. lia.
Qed.

(** 8 March 2024, and 8 March of the year 24. *)
Lemma toDateString_parseISODate_round_trip_witness :
  (exists s, toDateString (AtDay 19790) = Return s
             /\ parseISODate s = Some (AtDay 19790)
             /\ dateOfParts s = AtDay 19790)
  /\ toDateString (AtDay (-710695)) = Return "0024-03-08"
  /\ parseISODate "0024-03-08" = Some (AtDay (-16735)).
Proof.
  split; [|split; vm_compute; reflexivity].
  refine (proj1 (toDateString_parseISODate_round_trip 19790 _) _).
  - vm_compute. discriminate.
  - vm_compute. discriminate.
Defined.

(** X16.  Shifting a date string by [a] days and then by [b] days is
    shifting it by [a + b] days, and shifting back gives the date string
    of the day that the string denotes. *)
Theorem shiftDateString_adds_days (s : string) (t a b : Z) :
  dateOfParts s = AtDay t ->
  100 <= getUTCFullYear (t + a) -> Z.abs (t + a) <= maxDay ->
  Z.abs (t + a + b) <= maxDay ->
  exists s1,
    shiftDateString s a = Return s1
    /\ dateOfParts s1 = AtDay (t + a)
    /\ shiftDateString s1 b = shiftDateString s (a + b)
    /\ shiftDateString s1 b = Return (isoDatePart (t + a + b))
    /\ shiftDateString s1 (- a) = shiftDateString s 0.
Proof.
  intros Hs Hy Ha Hb. exists (isoDatePart (t + a)).
  pose proof (dateOfParts_iso (t + a) Hy Ha) as Hs1.
  assert (Ht : Z.abs t <= maxDay).
  { unfold dateOfParts in Hs. now apply DateUTC_numbers_AtDay in Hs. }
  split; [now apply shiftDateString_day|].
  split; [exact Hs1|].
  rewrite (shiftDateString_day _ (t + a) b Hs1 Hb).
  rewrite (shiftDateString_day s t (a + b) Hs) by (now rewrite Z.add_assoc).
  rewrite (shiftDateString_day _ (t + a) (- a) Hs1)
    by (now replace (t + a + - a) with t by lia).
  rewrite (shiftDateString_day s t 0 Hs) by (now rewrite Z.add_0_r).
  rewrite Z.add_assoc, Z.add_0_r.
  replace (t + a + - a) with t by lia. repeat split; reflexivity.
Qed.

Lemma shiftDateString_adds_days_witness :
  shiftDateString "2024-03-01" (-1) = Return "2024-02-29"
  /\ shiftDateString "2024-02-29" (-1) = shiftDateString "2024-03-01" (-2).
Proof.
  destruct (shiftDateString_adds_days "2024-03-01" 19783 (-1) (-1))
    as (s1 & H1 & _ & H2 & _).
  - vm_compute. reflexivity.
  - vm_compute. discriminate.
  - vm_compute. discriminate.
  - vm_compute. discriminate.
  - assert (E : s1 = "2024-02-29").
    { assert (H : shiftDateString "2024-03-01" (-1) = Return "2024-02-29")
        by (vm_compute; reflexivity).
      congruence. }
    subst s1. split; [exact H1|exact H2].
Defined.

End DateRoundTrip.

(* ===================================================================== *)
(** ** Date strings in order                                              *)
(* ===================================================================== *)

(** [handleRateDateChange] compares two date strings with [>].  Between
    the date strings of two days of the years 0 to 9999 this is the
    order of the days. *)

Module DateOrder.
Import JS Dates DateFacts StringFacts.
Local Open Scope string_scope.
Local Open Scope Z_scope.

(** A number that orders the civil dates: year, month and day as the
    digits of a number of mixed radix. *)
Definition civilKey (c : Z * Z * Z) : Z :=
  let '(y, m, d) := c in (y * 16 + m) * 32 + d.

Definition eraStepOk (doe : Z) : bool :=
  civilKey (civilOfEraDay doe) <? civilKey (civilOfEraDay (doe + 1)).

Lemma eraSteps_ok : Calendar.allFrom (Z.to_nat 146096) 0 eraStepOk = true.
Proof. vm_compute. reflexivity. Qed.

Lemma civilKey_era (t : Z) :
  let z := t + 719468 in
  civilKey (civilFromDays t)
  = civilKey (civilOfEraDay (z - z / 146097 * 146097)) + z / 146097 * 400 * 512.
Proof.
  cbv zeta. unfold civilFromDays.
  destruct (civilOfEraDay (t + 719468 - (t + 719468) / 146097 * 146097))
    as [[y m] d].
  unfold civilKey. lia.
Qed.

Lemma civilKey_next (t : Z) :
  civilKey (civilFromDays t) < civilKey (civilFromDays (t + 1)).
Proof.
  rewrite !civilKey_era. cbv zeta.
  pose proof (Calendar.era_split t) as Hr. cbv zeta in Hr.
  set (z := t + 719468) in *. replace (t + 1 + 719468) with (z + 1) by (subst z; lia).
  set (era := z / 146097) in *. set (doe := z - era * 146097) in *.
  destruct (Z.eq_dec doe 146096) as [Hlast|Hin].
  - assert (He : (z + 1) / 146097 = era + 1).
    { symmetry. apply (Z.div_unique (z + 1) 146097 (era + 1) 0); lia. }
    rewrite He. replace (z + 1 - (era + 1) * 146097) with 0 by lia.
    rewrite Hlast. vm_compute civilKey. lia.
  - assert (He : (z + 1) / 146097 = era).
    { symmetry. apply (Z.div_unique (z + 1) 146097 era (doe + 1)); lia. }
    rewrite He. replace (z + 1 - era * 146097) with (doe + 1) by lia.
    assert (Hs : eraStepOk doe = true).
    { apply (Calendar.allFrom_spec _ _ _ eraSteps_ok). lia. }
    unfold eraStepOk in Hs. apply Z.ltb_lt in Hs. lia.
Qed.

Lemma civilKey_increases (t : Z) (n : nat) :
  civilKey (civilFromDays t) < civilKey (civilFromDays (t + Z.of_nat (S n))).
Proof.
  induction n as [|n IH].
  - apply civilKey_next.
  - replace (t + Z.of_nat (S (S n))) with (t + Z.of_nat (S n) + 1) by lia.
    pose proof (civilKey_next (t + Z.of_nat (S n))). lia.
Qed.

Lemma civilKey_compare (t1 t2 : Z) :
  (civilKey (civilFromDays t1) ?= civilKey (civilFromDays t2)) = (t1 ?= t2).
Proof.
  destruct (Z.compare_spec t1 t2) as [->|Hlt|Hgt].
  - apply Z.compare_refl.
  - pose proof (civilKey_increases t1 (Z.to_nat (t2 - t1 - 1))) as H.
    replace (t1 + Z.of_nat (S (Z.to_nat (t2 - t1 - 1)))) with t2 in H by lia.
    now apply Z.compare_lt_iff.
  - pose proof (civilKey_increases t2 (Z.to_nat (t1 - t2 - 1))) as H.
    replace (t2 + Z.of_nat (S (Z.to_nat (t1 - t2 - 1)))) with t1 in H by lia.
    now apply Z.compare_gt_iff.
Qed.

(** *** The order of strings of digits *)

Lemma compare_digitChar (x y : Z) :
  0 <= x <= 9 -> 0 <= y <= 9 ->
  Ascii.compare (digitChar x) (digitChar y) = (x ?= y).
Proof.
  intros Hx Hy.
  assert (Cx : x = 0 \/ x = 1 \/ x = 2 \/ x = 3 \/ x = 4 \/ x = 5 \/ x = 6
               \/ x = 7 \/ x = 8 \/ x = 9) by lia.
  assert (Cy : y = 0 \/ y = 1 \/ y = 2 \/ y = 3 \/ y = 4 \/ y = 5 \/ y = 6
               \/ y = 7 \/ y = 8 \/ y = 9) by lia.
  destruct Cx as [->|[->|[->|[->|[->|[->|[->|[->|[->| ->]]]]]]]]];
    destruct Cy as [->|[->|[->|[->|[->|[->|[->|[->|[->| ->]]]]]]]]]; reflexivity.
Qed.

Lemma append_append (a b c : string) : (a ++ b) ++ c = a ++ (b ++ c).
Proof.
  induction a as [|x a IH]; cbn [append]; [reflexivity|now rewrite IH].
Qed.

Lemma append_empty (a : string) : a ++ "" = a.
Proof.
  induction a as [|x a IH]; cbn [append]; [reflexivity|now rewrite IH].
Qed.

(** Numbers written with the same number of digits compare as their
    digits do. *)
Lemma compare_padDigits (w : nat) :
  forall (a b : Z) (r1 r2 : string),
    0 <= a < 10 ^ Z.of_nat w -> 0 <= b < 10 ^ Z.of_nat w ->
    String.compare (padDigits w a ++ r1) (padDigits w b ++ r2)
    = match a ?= b with
      | Eq => String.compare r1 r2
      | c => c
      end.
Proof.
  induction w as [|w IH]; intros a b r1 r2 Ha Hb.
  - cbn in Ha, Hb. replace a with 0 by lia. replace b with 0 by lia.
    reflexivity.
  - rewrite Nat2Z.inj_succ, Z.pow_succ_r in Ha, Hb by lia.
    cbn [padDigits]. rewrite !append_append. cbn [append].
    assert (Hqa : 0 <= a / 10 < 10 ^ Z.of_nat w).
    { split; [apply Z.div_pos; lia|apply Z.div_lt_upper_bound; lia]. }
    assert (Hqb : 0 <= b / 10 < 10 ^ Z.of_nat w).
    { split; [apply Z.div_pos; lia|apply Z.div_lt_upper_bound; lia]. }
    rewrite (IH (a / 10) (b / 10) _ _ Hqa Hqb).
    pose proof (Z.mod_pos_bound a 10 ltac:(lia)) as Hma.
    pose proof (Z.mod_pos_bound b 10 ltac:(lia)) as Hmb.
    cbn [String.compare]. rewrite compare_digitChar by lia.
    pose proof (Z.div_mod a 10 ltac:(lia)) as Ea.
    pose proof (Z.div_mod b 10 ltac:(lia)) as Eb.
    destruct (Z.compare_spec (a / 10) (b / 10)) as [Hq|Hq|Hq];
      destruct (Z.compare_spec (a mod 10) (b mod 10)) as [Hm|Hm|Hm];
      destruct (Z.compare_spec a b) as [Hc|Hc|Hc]; try reflexivity; lia.
Qed.

(** The date strings of the days of the years 0 to 9999 are in the order
    of the days. *)
Lemma compare_isoDatePart (t1 t2 : Z) :
  0 <= getUTCFullYear t1 <= 9999 -> 0 <= getUTCFullYear t2 <= 9999 ->
  String.compare (isoDatePart t1) (isoDatePart t2) = (t1 ?= t2).
Proof.
  intros H1 H2. rewrite <- civilKey_compare.
  pose proof (Calendar.civil_ranges t1) as [Hm1 Hd1].
  pose proof (Calendar.civil_ranges t2) as [Hm2 Hd2].
  unfold isoDatePart, isoYear.
  replace ((0 <=? getUTCFullYear t1) && (getUTCFullYear t1 <=? 9999)) with true
    by (symmetry; apply andb_true_iff; split; apply Z.leb_le; lia).
  replace ((0 <=? getUTCFullYear t2) && (getUTCFullYear t2 <=? 9999)) with true
    by (symmetry; apply andb_true_iff; split; apply Z.leb_le; lia).
  rewrite (compare_padDigits 4) by (change (10 ^ Z.of_nat 4) with 10000; lia).
  cbn [append String.compare].
  change (Ascii.compare "-" "-") with Eq. cbv iota.
  rewrite (compare_padDigits 2) by (change (10 ^ Z.of_nat 2) with 100; lia).
  cbn [append String.compare].
  change (Ascii.compare "-" "-") with Eq. cbv iota.
  rewrite <- (append_empty (padDigits 2 (getUTCDate t1))).
  rewrite <- (append_empty (padDigits 2 (getUTCDate t2))).
  rewrite (compare_padDigits 2) by (change (10 ^ Z.of_nat 2) with 100; lia).
  cbn [String.compare].
  unfold getUTCFullYear, getUTCMonth, getUTCDate in *.
  destruct (civilFromDays t1) as [[y1 m1] d1].
  destruct (civilFromDays t2) as [[y2 m2] d2].
  cbn [fst snd civilKey] in *.
  replace (m1 - 1 + 1) with m1 in * by lia.
  replace (m2 - 1 + 1) with m2 in * by lia.
  destruct (Z.compare_spec y1 y2) as [Hy|Hy|Hy];
    destruct (Z.compare_spec m1 m2) as [Hm|Hm|Hm];
    destruct (Z.compare_spec d1 d2) as [Hd|Hd|Hd];
    destruct (Z.compare_spec ((y1 * 16 + m1) * 32 + d1) ((y2 * 16 + m2) * 32 + d2))
      as [Hk|Hk|Hk]; try reflexivity; lia.
Qed.

Lemma gtb_isoDatePart (t1 t2 : Z) :
  0 <= getUTCFullYear t1 <= 9999 -> 0 <= getUTCFullYear t2 <= 9999 ->
  gtb (isoDatePart t1) (isoDatePart t2) = (t2 <? t1).
Proof.
  intros H1 H2. unfold gtb, String.ltb.
  rewrite (compare_isoDatePart t2 t1 H2 H1). unfold Z.ltb. reflexivity.
Qed.

Import Invoice Form.

(** X17.  A rate date after the latest date allowed (the previous business
    day of the issue date, in the render of the input) is replaced by
    that date, any other date is kept, for dates of the years 0 to 9999;
    an emptied input empties the target date.  The rate is dropped in
    every case, the rest of the invoice stays. *)
Theorem handleRateDateChange_clamps (t limit : Z) (prev : InvoiceData) :
  0 <= getUTCFullYear t <= 9999 -> 0 <= getUTCFullYear limit <= 9999 ->
  exchangeRate (handleRateDateChange (isoDatePart limit) (isoDatePart t) prev)
  = mkRate (isoDatePart (Z.min t limit)) "" None
  /\ exchangeRate (handleRateDateChange (isoDatePart limit) "" prev)
     = mkRate "" "" None
  /\ currency (handleRateDateChange (isoDatePart limit) (isoDatePart t) prev)
     = currency prev
  /\ issueDate (handleRateDateChange (isoDatePart limit) (isoDatePart t) prev)
     = issueDate prev.
Proof.
  intros Ht Hl. unfold handleRateDateChange, withExchangeRate.
  cbn [exchangeRate currency issueDate isEmpty].
  split; [|repeat split].
  pose proof (isoDatePart_nonempty t) as Hne.
  assert (He : isEmpty (isoDatePart t) = false)
    by (destruct (isoDatePart t); [congruence|reflexivity]).
  rewrite He, (gtb_isoDatePart t limit Ht Hl).
  destruct (limit <? t) eqn:E; [apply Z.ltb_lt in E|apply Z.ltb_ge in E];
    do 2 f_equal; lia.
Qed.

(** The latest date allowed is Friday 8 March 2024; Sunday 10 March is
    chosen. *)
Lemma handleRateDateChange_clamps_witness :
  exchangeRate (handleRateDateChange "2024-03-08" "2024-03-10" ItemFacts.firstInvoice)
  = mkRate "2024-03-08" "" None.
Proof.
  refine (proj1 (handleRateDateChange_clamps 19792 19790 ItemFacts.firstInvoice _ _)).
  - vm_compute. split; discriminate.
  - vm_compute. split; discriminate.
Defined.

End DateOrder.

(* ===================================================================== *)
(** ** Every run of a lookup                                              *)
(* ===================================================================== *)

Module LookupRuns.
Import JS Dates Invoice Form DateFacts StringFacts LookupFacts.
Local Open Scope string_scope.

(** The only exception of [shiftDateString] is the RangeError of
    [toISOString]. *)
Lemma shiftDateString_Throw (s : string) (offset : Z) (e : Error) :
  shiftDateString s offset = Throw e ->
  e = mkError "RangeError" "Invalid time value".
Proof.
  unfold shiftDateString, toDateString, toISOString.
  destruct (addUTCDate (dateOfParts s) offset); cbn [bind]; [|discriminate].
  intros H. now injection H as <-.
Qed.

(** How a run has ended, by the answers of the source to the dates asked
    for: all but the last date had no data, and the answer to the last
    date decides the outcome. *)
Definition wellEnded (source : RateSource) (currency : string)
  (asked : list string) (out : Outcome) : Prop :=
  exists before last,
    asked = (before ++ [last])%list
    /\ (forall d, In d before -> notFound (source currency d) = true)
    /\ match out with
       | Resolved effective m =>
           exists status,
             source currency last
             = Http status (Json (Some (mkEntry effective (Some m))))
             /\ isOk status = true
       | Exhausted message =>
           message = exhaustedMessage
           /\ notFound (source currency last) = true
           /\ List.length asked = MAX_RATE_LOOKBACK_DAYS
       | HardFailure statusMessage toastMessage =>
           (hardFailure (source currency last) = true
            \/ (notFound (source currency last) = true
                /\ shiftDateString last (-1)
                   = Throw (mkError "RangeError" "Invalid time value")
                /\ statusMessage = "Invalid time value"))
           /\ statusMessage <> "" /\ toastMessage <> ""
       | Discarded => False
       end.

Lemma caught_wellEnded (source : RateSource) (currency : string)
  (requested : list string) (last : string) (out : Outcome) :
  (forall d, In d requested -> notFound (source currency d) = true) ->
  hardFailure (source currency last) = true ->
  caught out ->
  wellEnded source currency (requested ++ [last]) out.
Proof.
  intros Hreq Hhard (sm & tm & -> & Hsm & Htm).
  exists requested, last. split; [reflexivity|split; [exact Hreq|]].
  split; [now left|split; assumption].
Qed.

Lemma fetchLoop_runs (source : RateSource) (n : nat) :
  forall (lk : Lookup) (requested asked : list string) (out : Outcome),
    (MAX_RATE_LOOKBACK_DAYS - attempts lk <= n)%nat ->
    List.length requested = attempts lk ->
    (attempts lk <= MAX_RATE_LOOKBACK_DAYS)%nat ->
    (forall d, In d requested -> notFound (source (lookupCurrency lk) d) = true) ->
    fetchLoop source lk requested = (asked, out) ->
    wellEnded source (lookupCurrency lk) asked out
    /\ (List.length asked <= MAX_RATE_LOOKBACK_DAYS)%nat
    /\ exists rest, asked = (requested ++ rest)%list
                    /\ ((attempts lk < MAX_RATE_LOOKBACK_DAYS)%nat ->
                        exists rest', rest = lookupDate lk :: rest').
Proof.
  induction n as [|n IH]; intros lk requested asked out Hn Hlen Hmax Hreq Hrun;
    rewrite fetchLoop_unfold in Hrun; unfold loopHead in Hrun; cbn [negb andb] in Hrun.
  - replace (attempts lk <? MAX_RATE_LOOKBACK_DAYS)%nat with false in Hrun
      by (symmetry; apply Nat.ltb_ge; lia).
    injection Hrun as <- <-.
    assert (Hfull : attempts lk = MAX_RATE_LOOKBACK_DAYS) by lia.
    split; [|split; [lia|exists []; split; [now rewrite app_nil_r|lia]]].
    destruct (exists_last (l := requested)) as (before & last & ->).
    { intros ->. cbn in Hlen. unfold MAX_RATE_LOOKBACK_DAYS in *. lia. }
    exists before, last. split; [reflexivity|].
    split; [intros d Hd; apply Hreq, in_or_app; now left|].
    split; [reflexivity|split; [|lia]].
    apply Hreq, in_or_app. right. now left.
  - destruct (attempts lk <? MAX_RATE_LOOKBACK_DAYS)%nat eqn:Hlt.
    2:{ apply Nat.ltb_ge in Hlt. injection Hrun as <- <-.
        assert (Hfull : attempts lk = MAX_RATE_LOOKBACK_DAYS) by lia.
        split; [|split; [lia|exists []; split; [now rewrite app_nil_r|lia]]].
        destruct (exists_last (l := requested)) as (before & last & ->).
        { intros ->. cbn in Hlen. unfold MAX_RATE_LOOKBACK_DAYS in *. lia. }
        exists before, last. split; [reflexivity|].
        split; [intros d Hd; apply Hreq, in_or_app; now left|].
        split; [reflexivity|split; [|lia]].
        apply Hreq, in_or_app. right. now left. }
    apply Nat.ltb_lt in Hlt. cbv zeta in Hrun.
    assert (Hlen1 : List.length (requested ++ [lookupDate lk]) = S (attempts lk))
      by (rewrite length_app; cbn [List.length]; lia).
    assert (Hhere : forall o,
               (asked, out) = ((requested ++ [lookupDate lk])%list, o) ->
               wellEnded source (lookupCurrency lk) (requested ++ [lookupDate lk]) o ->
               wellEnded source (lookupCurrency lk) asked out
               /\ (List.length asked <= MAX_RATE_LOOKBACK_DAYS)%nat
               /\ exists rest,
                   asked = (requested ++ rest)%list
                   /\ ((attempts lk < MAX_RATE_LOOKBACK_DAYS)%nat ->
                       exists rest', rest = lookupDate lk :: rest')).
    { intros o E Hw. injection E as -> ->.
      split; [exact Hw|split; [lia|]].
      exists [lookupDate lk]. split; [reflexivity|]. intros _. now exists []. }
    destruct (source (lookupCurrency lk) (lookupDate lk)) as [msg|status body] eqn:Er;
      cbn [fetchResultOf afterFetch jsonResultOf] in Hrun.
    + apply (Hhere _ (eq_sym Hrun)).
      apply caught_wellEnded; [exact Hreq|now rewrite Er|].
      exact (onCatch_caught (mkError "TypeError" msg) ltac:(discriminate)).
    + destruct (status =? 404)%Z eqn:E404.
      * destruct (shiftDateString (lookupDate lk) (-1)) as [d1|e] eqn:Es.
        -- eapply IH in Hrun; cbn [attempts lookupCurrency] in *.
           ++ destruct Hrun as (Hw & Hl & rest & Hrest & _).
              split; [exact Hw|split; [exact Hl|]].
              exists (lookupDate lk :: rest).
              split; [rewrite Hrest, <- app_assoc; reflexivity|].
              intros _. now exists rest.
           ++ lia.
           ++ lia.
           ++ lia.
           ++ intros d Hd. apply in_app_or in Hd.
              destruct Hd as [Hd|[<-|[]]]; [now apply Hreq|].
              rewrite Er. exact E404.
        -- apply (Hhere _ (eq_sym Hrun)).
           pose proof (shiftDateString_Throw _ _ _ Es) as ->.
           exists requested, (lookupDate lk).
           split; [reflexivity|split; [exact Hreq|]].
           cbn [onCatch errName errMessage orElse String.eqb Ascii.eqb Bool.eqb].
           split; [right; rewrite Er; cbn [notFound]; repeat split; assumption|].
           split; discriminate.
      * destruct (negb (isOk status)) eqn:Eok.
        -- apply (Hhere _ (eq_sym Hrun)).
           apply caught_wellEnded; [exact Hreq| |].
           ++ rewrite Er. cbn [hardFailure]. now rewrite E404, Eok.
           ++ exact (onCatch_caught (mkError "Error" "Nie udało się pobrać kursu NBP.")
                       ltac:(discriminate)).
        -- apply (Hhere _ (eq_sym Hrun)).
           destruct body as [msg|[[eff [mid|]]|]]; cbn [afterJson].
           ++ apply caught_wellEnded; [exact Hreq| |].
              ** rewrite Er. cbn [hardFailure hasMid]. rewrite E404.
                 now rewrite orb_true_r.
              ** exact (onCatch_caught (mkError "SyntaxError" msg) ltac:(discriminate)).
           ++ exists requested, (lookupDate lk).
              split; [reflexivity|split; [exact Hreq|]].
              exists status. split; [exact Er|].
              now apply negb_false_iff in Eok.
           ++ apply caught_wellEnded; [exact Hreq| |].
              ** rewrite Er. cbn [hardFailure hasMid]. rewrite E404.
                 now rewrite orb_true_r.
              ** exact (onCatch_caught
                          (mkError "Error" "Brak danych kursu NBP dla wybranej daty.")
                          ltac:(discriminate)).
           ++ apply caught_wellEnded; [exact Hreq| |].
              ** rewrite Er. cbn [hardFailure hasMid]. rewrite E404.
                 now rewrite orb_true_r.
              ** exact (onCatch_caught
                          (mkError "Error" "Brak danych kursu NBP dla wybranej daty.")
                          ltac:(discriminate)).
Qed.

Lemma fetchRate_runs (source : RateSource) (currency target : string) :
  wellEnded source currency (fst (fetchRate source currency target))
    (snd (fetchRate source currency target))
  /\ (List.length (fst (fetchRate source currency target))
      <= MAX_RATE_LOOKBACK_DAYS)%nat
  /\ exists rest, fst (fetchRate source currency target) = target :: rest.
Proof.
  destruct (fetchRate source currency target) as [asked out] eqn:Hrun.
  unfold fetchRate in Hrun.
  apply (fetchLoop_runs source MAX_RATE_LOOKBACK_DAYS) in Hrun;
    cbn [lookupCurrency lookupDate attempts fst snd] in *;
    [|lia|reflexivity|unfold MAX_RATE_LOOKBACK_DAYS; lia|intros d []].
  destruct Hrun as (Hw & Hl & rest & Hrest & Hfirst).
  split; [exact Hw|split; [exact Hl|]].
  destruct (Hfirst ltac:(unfold MAX_RATE_LOOKBACK_DAYS; lia)) as (rest' & ->).
  now exists rest'.
Qed.

(** X18.  Whatever the source answers, a lookup sends at least one and at
    most ten requests, the first of them for the target date, and it ends
    with a rate, a failure or exhaustion, never silently. *)
Theorem fetchRate_asks_at_most_ten (source : RateSource) (currency target : string) :
  (1 <= List.length (fst (fetchRate source currency target))
   <= MAX_RATE_LOOKBACK_DAYS)%nat
  /\ hd_error (fst (fetchRate source currency target)) = Some target
  /\ snd (fetchRate source currency target) <> Discarded.
Proof.
  destruct (fetchRate_runs source currency target) as (Hw & Hl & rest & Hrest).
  rewrite Hrest in *. cbn [List.length hd_error] in *.
  split; [lia|split; [reflexivity|]].
  destruct Hw as (before & last & _ & _ & Hout).
  intros E. now rewrite E in Hout.
Qed.

(** X19.  How a lookup can end.  Every date asked for but the last had no
    data.  The rate applied is the one that the source returned for the
    last date with a success status; the lookup is exhausted only after
    ten dates without data; it fails if the answer to the last date is a
    failure, or if the date before a date without data cannot be
    formed. *)
Theorem fetchRate_ends_by_last_answer (source : RateSource)
  (currency target : string) :
  exists before last,
    fst (fetchRate source currency target) = (before ++ [last])%list
    /\ (forall d, In d before -> notFound (source currency d) = true)
    /\ match snd (fetchRate source currency target) with
       | Resolved effective m =>
           exists status,
             source currency last
             = Http status (Json (Some (mkEntry effective (Some m))))
             /\ isOk status = true
       | Exhausted message =>
           message = exhaustedMessage
           /\ notFound (source currency last) = true
           /\ List.length (fst (fetchRate source currency target))
              = MAX_RATE_LOOKBACK_DAYS
       | HardFailure statusMessage toastMessage =>
           (hardFailure (source currency last) = true
            \/ (notFound (source currency last) = true
                /\ shiftDateString last (-1)
                   = Throw (mkError "RangeError" "Invalid time value")
                /\ statusMessage = "Invalid time value"))
           /\ statusMessage <> "" /\ toastMessage <> ""
       | Discarded => False
       end.
Proof.
  exact (proj1 (fetchRate_runs source currency target)).
Qed.

(** *** The dates asked for *)

Lemma dateAfter_parses (target : string) (t : Z) (a : nat) :
  dateOfParts target = AtDay t ->
  (Calendar.firstDayOfYear100 <= t - Z.of_nat a)%Z ->
  dateOfParts (dateAfter target t a) = AtDay (t - Z.of_nat a).
Proof.
  intros Hp Hlow. pose proof (dateOfParts_valid _ _ Hp) as Hup.
  destruct a as [|a]; cbn [dateAfter].
  - now rewrite Z.sub_0_r.
  - unfold Calendar.firstDayOfYear100, maxDay in *.
    apply dateOfParts_iso; [|unfold maxDay; lia].
    apply Calendar.year_from_100. unfold Calendar.firstDayOfYear100. lia.
Qed.

Lemma fetchLoop_dates (source : RateSource) (target : string) (t : Z) (n : nat) :
  dateOfParts target = AtDay t ->
  (Calendar.firstDayOfYear100 <= t - 9)%Z ->
  forall (lk : Lookup),
    (MAX_RATE_LOOKBACK_DAYS - attempts lk <= n)%nat ->
    (attempts lk <= MAX_RATE_LOOKBACK_DAYS)%nat ->
    lookupDate lk = dateAfter target t (attempts lk) ->
    exists k,
      (attempts lk <= k <= MAX_RATE_LOOKBACK_DAYS)%nat
      /\ ((attempts lk < MAX_RATE_LOOKBACK_DAYS)%nat -> (attempts lk < k)%nat)
      /\ fst (fetchLoop source lk (walked target t (attempts lk)))
         = walked target t k.
Proof.
  intros Hp Hlow.
  induction n as [|n IH]; intros lk Hn Hmax Hdate;
    rewrite fetchLoop_unfold; unfold loopHead; cbn [negb andb].
  - replace (attempts lk <? MAX_RATE_LOOKBACK_DAYS)%nat with false
      by (symmetry; apply Nat.ltb_ge; lia).
    exists (attempts lk). cbn [fst]. split; [lia|split; [lia|reflexivity]].
  - destruct (attempts lk <? MAX_RATE_LOOKBACK_DAYS)%nat eqn:Hlt.
    2:{ apply Nat.ltb_ge in Hlt. exists (attempts lk). cbn [fst].
        split; [lia|split; [lia|reflexivity]]. }
    apply Nat.ltb_lt in Hlt. cbv zeta.
    assert (Hnext : (walked target t (attempts lk) ++ [lookupDate lk])%list
                    = walked target t (S (attempts lk))).
    { rewrite Hdate. apply walked_snoc. }
    rewrite Hnext.
    assert (Hstop : exists k,
               (attempts lk <= k <= MAX_RATE_LOOKBACK_DAYS)%nat
               /\ ((attempts lk < MAX_RATE_LOOKBACK_DAYS)%nat -> (attempts lk < k)%nat)
               /\ walked target t (S (attempts lk)) = walked target t k).
    { exists (S (attempts lk)). split; [lia|split; [lia|reflexivity]]. }
    destruct (source (lookupCurrency lk) (lookupDate lk)) as [msg|status body];
      cbn [fetchResultOf afterFetch]; [exact Hstop|].
    destruct (status =? 404)%Z.
    + assert (Hday : dateOfParts (lookupDate lk) = AtDay (t - Z.of_nat (attempts lk))).
      { rewrite Hdate. apply dateAfter_parses; [exact Hp|].
        unfold MAX_RATE_LOOKBACK_DAYS in *. lia. }
      pose proof (dateOfParts_valid _ _ Hp) as Hup.
      rewrite (shiftDateString_day _ _ (-1) Hday)
        by (unfold Calendar.firstDayOfYear100, maxDay, MAX_RATE_LOOKBACK_DAYS in *; lia).
      destruct (IH (mkLookup (lookupCurrency lk) (lookupTarget lk)
                      (isoDatePart (t - Z.of_nat (attempts lk) + -1))
                      (attempts lk + 1)))
        as (k & Hk & Hk' & Hrun).
      * cbn [attempts]. lia.
      * cbn [attempts]. lia.
      * cbn [lookupDate attempts]. rewrite Nat.add_1_r. cbn [dateAfter].
        f_equal. lia.
      * cbn [attempts] in *. rewrite Nat.add_1_r in *.
        exists k. split; [lia|split; [lia|exact Hrun]].
    + destruct (negb (isOk status)); exact Hstop.
Qed.

(** X20.  Whatever the source answers, the dates that a lookup asks for
    are the target date and then the calendar days before it, one by
    one and without a gap, at most nine of them. *)
Theorem fetchRate_asks_day_by_day (source : RateSource) (currency target : string)
  (t : Z) :
  dateOfParts target = AtDay t ->
  (100 <= getUTCFullYear (t - 9))%Z ->
  exists k,
    (k < MAX_RATE_LOOKBACK_DAYS)%nat
    /\ fst (fetchRate source currency target) = target :: daysBack (t - 1) k.
Proof.
  intros Hp Hy. apply Calendar.year_from_100 in Hy.
  destruct (fetchLoop_dates source target t MAX_RATE_LOOKBACK_DAYS Hp Hy
              (mkLookup currency target target 0))
    as (k & Hk & Hk' & Hrun).
  - cbn [attempts]. lia.
  - cbn [attempts]. lia.
  - reflexivity.
  - cbn [attempts walked] in *. unfold fetchRate. rewrite Hrun.
    destruct k as [|k]; [unfold MAX_RATE_LOOKBACK_DAYS in *; lia|].
    exists k. split; [lia|reflexivity].
Qed.

Lemma fetchRate_asks_day_by_day_witness :
  exists k,
    (k < MAX_RATE_LOOKBACK_DAYS)%nat
    /\ fst (fetchRate weekendSource "EUR" "2024-03-10")
       = "2024-03-10" :: daysBack (19792 - 1) k.
Proof.
  refine (fetchRate_asks_day_by_day weekendSource "EUR" "2024-03-10" 19792 _ _).
  - vm_compute. reflexivity.
  - vm_compute. discriminate.
Defined.

End LookupRuns.

(* ===================================================================== *)
(** ** The form at rest: more invariants                                  *)
(* ===================================================================== *)

Module FormRuns.
Import JS Dates Invoice Form DateFacts StringFacts LookupFacts FormFacts.
Local Open Scope string_scope.

(** *** One render, in full *)

(** The invoice after the reset effect that finds the invoice [data] and
    the default date [m]. *)
Definition resetData (m : string) (data : InvoiceData) : InvoiceData :=
  if isForeignCurrency data then
    if isEmpty (targetDate (exchangeRate data))
    then withExchangeRate data
           (mkRate m (effectiveDate (exchangeRate data)) (value (exchangeRate data)))
    else data
  else
    if negb (isEmpty (targetDate (exchangeRate data)))
       || negb (isEmpty (effectiveDate (exchangeRate data)))
       || hasValue (value (exchangeRate data))
    then withExchangeRate data (mkRate "" "" None)
    else data.

(** The form after the render of [s] and its effects. *)
Definition rendered (m : string) (s : FormState) : FormState :=
  let data := invoiceData s in
  let starts := fetchChanged s && startsLookup data in
  mkForm
    (if resetChanged s then resetData m data else data)
    (if starts then mkStatus true None
     else if resetChanged s && negb (isForeignCurrency data) then mkStatus false None
     else rateStatus s)
    (rateFetchTrigger s) m (Some (depsOfReset s)) (Some (depsOfFetch s))
    (if fetchChanged s
     then if startsLookup data then Some (List.length (lookups s)) else None
     else cleanupFetch s)
    (if fetchChanged s
     then (lookups (runCleanup s)
           ++ if startsLookup data
              then [mkRunning (firstLookup data) false AwaitingFetch] else [])%list
     else lookups s)
    (if starts
     then (requests s
           ++ [(List.length (lookups s), normalize (currency data),
                targetDate (exchangeRate data))])%list
     else requests s)
    (toasts s).

Lemma commit_rendered (today : Z) (s s' : FormState) :
  commit today s = Return s' ->
  exists m,
    getPreviousBusinessDay today (issueDate (invoiceData s)) = Return m
    /\ s' = rendered m s.
Proof.
  intros Hc. apply commit_inversion in Hc.
  destruct Hc as (m & s2 & Hm & H2 & ->). exists m. split; [exact Hm|].
  unfold rendered. cbv zeta.
  pose proof (runCleanup_frame s) as (Hd & Hst & Htr & Hcl & Hdf & Hrq & Hts & Hlen).
  remember (runCleanup s) as c eqn:Ec. clear Ec.
  destruct c as [d1 st1 tr1 mx1 dr1 df1 cl1 lk1 rq1 ts1]. form_fields. subst.
  unfold resetEffect, resetData, fetchEffect, startsLookup, firstLookup in *.
  destruct s as [d st tr mx dr0 df0 cl lk rq ts]. form_fields.
  destruct (fetchChanged (mkForm d st tr mx dr0 df0 cl lk rq ts));
    destruct (resetChanged (mkForm d st tr mx dr0 df0 cl lk rq ts));
    cbn [andb negb] in *;
    destruct (isForeignCurrency d); cbn [andb negb] in *;
    destruct (isEmpty (targetDate (exchangeRate d))); cbn [andb negb orb] in *;
    try rewrite Hm in H2; cbn [bind] in H2;
    try (injection H2 as <-);
    try (destruct (negb (isEmpty (effectiveDate (exchangeRate d)))
                   || hasValue (value (exchangeRate d))));
    cbn [loopHead negb andb attempts Nat.ltb Nat.leb MAX_RATE_LOOKBACK_DAYS];
    form_fields; cbn [applyOutcome]; rewrite ?app_nil_r, ?Hlen; reflexivity.
Qed.

(** *** What holds of every lookup, request and status *)

(** Every lookup has a target date and a foreign currency. *)
Definition Vars (s : FormState) : Prop :=
  forall i r, nth_error (lookups s) i = Some r ->
              lookupTarget (vars r) <> ""
              /\ isForeign (lookupCurrency (vars r)) = true.

(** Every request is for a foreign currency and belongs to a lookup. *)
Definition Reqs (s : FormState) : Prop :=
  forall q, In q (requests s) ->
            isForeign (snd (fst q)) = true
            /\ (fst (fst q) < List.length (lookups s))%nat.

(** A lookup that has not ended has sent one request more than it counts
    attempts; no lookup has sent more than ten. *)
Definition Counted (s : FormState) : Prop :=
  forall i r, nth_error (lookups s) i = Some r ->
              (List.length (requestsOf i s) <= MAX_RATE_LOOKBACK_DAYS)%nat
              /\ (phase r <> Ended ->
                  List.length (requestsOf i s) = S (attempts (vars r))
                  /\ (attempts (vars r) < MAX_RATE_LOOKBACK_DAYS)%nat).

(** A foreign invoice has a target date. *)
Definition Targeted (s : FormState) : Prop :=
  isForeignCurrency (invoiceData s) = true ->
  targetDate (exchangeRate (invoiceData s)) <> "".

(** Without a foreign currency nothing is loading. *)
Definition Idle (s : FormState) : Prop :=
  isForeignCurrency (invoiceData s) = false -> loading (rateStatus s) = false.

(** While the status says loading, the lookup of the last run of the
    fetch effect is under way. *)
Definition Busy (s : FormState) : Prop :=
  loading (rateStatus s) = true ->
  exists i r, cleanupFetch s = Some i /\ nth_error (lookups s) i = Some r
              /\ pending r = true.

(** An error is a message, shown when nothing is loading and the invoice
    holds no rate. *)
Definition Reported (s : FormState) : Prop :=
  forall m, error (rateStatus s) = Some m ->
            m <> "" /\ loading (rateStatus s) = false
            /\ value (exchangeRate (invoiceData s)) = None.

(** Before a render: what holds, or is put right by the effect that is
    due. *)
Definition Orderly (s : FormState) : Prop :=
  LookupInv s /\ DueOrDomestic s /\ Vars s /\ Reqs s /\ Counted s
  /\ (resetChanged s = true \/ Targeted s)
  /\ (resetChanged s = true \/ Idle s)
  /\ (fetchChanged s = true \/ Busy s)
  /\ Reported s.

Lemma runCleanup_nth (s : FormState) (i : nat) (r' : Running) :
  nth_error (lookups (runCleanup s)) i = Some r' ->
  exists r, nth_error (lookups s) i = Some r /\ vars r' = vars r
            /\ phase r' = phase r.
Proof.
  unfold runCleanup. destruct (cleanupFetch s) as [id|]; [|eauto].
  destruct (nth_error (lookups s) id) as [r0|] eqn:E0; [|eauto].
  form_fields. intros H. apply nth_error_replaceNth in H.
  destruct H as [(-> & -> & _)|(_ & H)]; [|eauto].
  exists r0. auto.
Qed.

Lemma requestsOf_snoc (i j : nat) (c d : string) (l : list (nat * string * string)) :
  filter (fun q => (fst (fst q) =? i)%nat) (l ++ [(j, c, d)])
  = if (j =? i)%nat
    then (filter (fun q => (fst (fst q) =? i)%nat) l ++ [(j, c, d)])%list
    else filter (fun q => (fst (fst q) =? i)%nat) l.
Proof.
  rewrite filter_app. cbn [filter fst].
  destruct (j =? i)%nat; [reflexivity|apply app_nil_r].
Qed.

Lemma requestsOf_none (i : nat) (l : list (nat * string * string)) :
  (forall q, In q l -> (fst (fst q) < i)%nat) ->
  filter (fun q => (fst (fst q) =? i)%nat) l = [].
Proof.
  induction l as [|q l IH]; cbn [filter In]; intros H; [reflexivity|].
  assert (Hq : (fst (fst q) =? i)%nat = false).
  { apply Nat.eqb_neq. specialize (H q (or_introl eq_refl)). lia. }
  rewrite Hq. apply IH. intros q' Hq'. apply H. now right.
Qed.

Lemma isForeignCurrency_withExchangeRate (data : InvoiceData) (r : ExchangeRate) :
  isForeignCurrency (withExchangeRate data r) = isForeignCurrency data.
Proof. reflexivity. Qed.

Lemma resetData_frame (m : string) (data : InvoiceData) :
  isForeignCurrency (resetData m data) = isForeignCurrency data
  /\ currency (resetData m data) = currency data
  /\ issueDate (resetData m data) = issueDate data
  /\ (value (exchangeRate (resetData m data)) = value (exchangeRate data)
      \/ value (exchangeRate (resetData m data)) = None)
  /\ (isForeignCurrency data = true ->
      targetDate (exchangeRate (resetData m data))
      = if isEmpty (targetDate (exchangeRate data)) then m
        else targetDate (exchangeRate data)).
Proof.
  unfold resetData.
  destruct (isForeignCurrency data) eqn:Ef.
  - destruct (isEmpty (targetDate (exchangeRate data)));
      cbn [withExchangeRate exchangeRate currency issueDate value targetDate];
      rewrite ?isForeignCurrency_withExchangeRate; auto 10.
  - destruct (negb (isEmpty (targetDate (exchangeRate data)))
              || negb (isEmpty (effectiveDate (exchangeRate data)))
              || hasValue (value (exchangeRate data)));
      cbn [withExchangeRate exchangeRate currency issueDate value targetDate];
      rewrite ?isForeignCurrency_withExchangeRate; repeat split; auto; discriminate.
Qed.

Lemma fetchChanged_rendered (m : string) (s : FormState) :
  targetDate (exchangeRate (invoiceData (rendered m s)))
  <> targetDate (exchangeRate (invoiceData s)) ->
  fetchChanged (rendered m s) = true.
Proof.
  intros Hne. destruct (fetchChanged (rendered m s)) eqn:E; [reflexivity|].
  apply fetchChanged_false in E. unfold rendered in E, Hne.
  cbn [depsFetch invoiceData] in E, Hne.
  assert (E2 := f_equal (option_map (fun d : bool * string * nat => snd (fst d))) E).
  unfold depsOfFetch in E2. cbn [option_map fst snd invoiceData] in E2. congruence.
Qed.

Lemma commit_Orderly (today : Z) (s s' : FormState) :
  Orderly s -> commit today s = Return s' -> Orderly s'.
Proof.
  intros (Hl & Hdom & Hv & Hq & Hc & Ht & Hi & Hb & Hr) Hcommit.
  pose proof (commit_LookupInv today s s' Hl Hcommit) as Hl'.
  pose proof (commit_Domestic today s s' Hdom Hcommit) as Hdom'.
  apply commit_rendered in Hcommit. destruct Hcommit as (m & Hm & ->).
  apply getPreviousBusinessDay_nonempty in Hm.
  pose proof (runCleanup_frame s) as (_ & _ & _ & _ & _ & _ & _ & Hlen).
  destruct (resetData_frame m (invoiceData s)) as (Hrf & Hrc & Hri & Hrv & Hrt).
  assert (Hfg : isForeignCurrency (invoiceData (rendered m s))
                = isForeignCurrency (invoiceData s)).
  { unfold rendered. cbn [invoiceData]. destruct (resetChanged s); [exact Hrf|reflexivity]. }
  assert (Hlen' : (List.length (lookups s) <= List.length (lookups (rendered m s)))%nat).
  { unfold rendered. cbn [lookups]. destruct (fetchChanged s); [|lia].
    rewrite length_app, Hlen. lia. }
  split; [exact Hl'|split; [now right|]].
  split; [|split; [|split; [|split; [|split; [|split]]]]].
  - (* the variables of the lookups *)
    intros i r Hn. unfold rendered in Hn. cbn [lookups] in Hn.
    destruct (fetchChanged s); [|exact (Hv i r Hn)].
    destruct (Nat.lt_ge_cases i (List.length (lookups (runCleanup s)))) as [Hlt|Hge].
    + rewrite nth_error_app1 in Hn by exact Hlt.
      apply runCleanup_nth in Hn. destruct Hn as (r0 & Hn & -> & _).
      exact (Hv i r0 Hn).
    + rewrite nth_error_app2 in Hn by exact Hge.
      destruct (startsLookup (invoiceData s)) eqn:Es;
        [|destruct (i - List.length (lookups (runCleanup s)))%nat; discriminate].
      destruct (i - List.length (lookups (runCleanup s)))%nat as [|k];
        [|destruct k; discriminate].
      cbn [nth_error] in Hn. injection Hn as <-.
      unfold startsLookup in Es. apply andb_prop in Es. destruct Es as [Ef Ee].
      cbn [vars firstLookup lookupTarget lookupCurrency].
      split; [apply isEmpty_false; now apply negb_true_iff in Ee|exact Ef].
  - (* the requests *)
    intros q Hin. unfold rendered in Hin. cbn [requests] in Hin.
    destruct (fetchChanged s && startsLookup (invoiceData s)) eqn:Es.
    + apply in_app_or in Hin. destruct Hin as [Hin|[<-|[]]].
      * destruct (Hq q Hin) as [Hf Hlt]. split; [exact Hf|lia].
      * apply andb_prop in Es. destruct Es as [Ef Es]. cbn [fst snd].
        split; [unfold startsLookup in Es; apply andb_prop in Es; tauto|].
        unfold rendered. cbn [lookups]. rewrite Ef, Es, length_app, Hlen. cbn. lia.
    + destruct (Hq q Hin) as [Hf Hlt]. split; [exact Hf|lia].
  - (* the count of the requests *)
    intros i r Hn. unfold requestsOf. unfold rendered in Hn |- *.
    cbn [lookups requests] in Hn |- *.
    destruct (fetchChanged s) eqn:Ef; cbn [andb]; [|exact (Hc i r Hn)].
    destruct (Nat.lt_ge_cases i (List.length (lookups (runCleanup s)))) as [Hlt|Hge].
    + rewrite nth_error_app1 in Hn by exact Hlt.
      apply runCleanup_nth in Hn. destruct Hn as (r0 & Hn & -> & ->).
      assert (Hsame : filter (fun q => (fst (fst q) =? i)%nat)
                        (if startsLookup (invoiceData s)
                         then (requests s
                               ++ [(List.length (lookups s),
                                    normalize (currency (invoiceData s)),
                                    targetDate (exchangeRate (invoiceData s)))])%list
                         else requests s)
                      = filter (fun q => (fst (fst q) =? i)%nat) (requests s)).
      { destruct (startsLookup (invoiceData s)); [|reflexivity].
        rewrite requestsOf_snoc.
        replace (List.length (lookups s) =? i)%nat with false; [reflexivity|].
        symmetry. apply Nat.eqb_neq. lia. }
      rewrite Hsame. exact (Hc i r0 Hn).
    + rewrite nth_error_app2 in Hn by exact Hge.
      destruct (startsLookup (invoiceData s)) eqn:Es;
        [|destruct (i - List.length (lookups (runCleanup s)))%nat; discriminate].
      destruct (i - List.length (lookups (runCleanup s)))%nat as [|k] eqn:Ek;
        [|destruct k; discriminate].
      cbn [nth_error] in Hn. injection Hn as <-.
      assert (Hi0 : i = List.length (lookups s)) by lia. subst i.
      rewrite requestsOf_snoc, Nat.eqb_refl.
      rewrite requestsOf_none by (intros q Hin; now apply Hq).
      cbn [app List.length vars firstLookup attempts].
      unfold MAX_RATE_LOOKBACK_DAYS. split; [lia|intros _; split; [reflexivity|lia]].
  - (* the target date *)
    right. intros Hf. rewrite Hfg in Hf. unfold rendered. cbn [invoiceData].
    destruct (resetChanged s) eqn:Er.
    + rewrite (Hrt Hf).
      destruct (isEmpty (targetDate (exchangeRate (invoiceData s)))) eqn:Ee;
        [exact Hm|now apply isEmpty_false].
    + destruct Ht as [Ht|Ht]; [discriminate|]. exact (Ht Hf).
  - (* nothing loads without a foreign currency *)
    right. intros Hf. rewrite Hfg in Hf. unfold rendered. cbn [rateStatus].
    unfold startsLookup. rewrite Hf. cbn [andb negb]. rewrite andb_false_r.
    destruct (resetChanged s) eqn:Er; cbn [andb]; [reflexivity|].
    destruct Hi as [Hi|Hi]; [discriminate|]. exact (Hi Hf).
  - (* loading *)
    destruct (fetchChanged (rendered m s)) eqn:Ef'; [now left|]. right.
    intros Hload.
    assert (Hsame : targetDate (exchangeRate (invoiceData (rendered m s)))
                    = targetDate (exchangeRate (invoiceData s))).
    { destruct (string_dec (targetDate (exchangeRate (invoiceData (rendered m s))))
                  (targetDate (exchangeRate (invoiceData s)))) as [E|E]; [exact E|].
      apply fetchChanged_rendered in E. congruence. }
    unfold rendered in Hload, Hsame |- *. cbn [rateStatus invoiceData cleanupFetch lookups]
      in Hload, Hsame |- *.
    destruct (fetchChanged s) eqn:Ef; cbn [andb] in Hload.
    + destruct (startsLookup (invoiceData s)) eqn:Es.
      * exists (List.length (lookups s)),
          (mkRunning (firstLookup (invoiceData s)) false AwaitingFetch).
        split; [reflexivity|split; [|reflexivity]].
        rewrite nth_error_app2 by lia. rewrite Hlen, Nat.sub_diag. reflexivity.
      * exfalso. unfold startsLookup in Es.
        destruct (isForeignCurrency (invoiceData s)) eqn:Efg; cbn [andb negb] in *.
        -- apply negb_false_iff in Es.
           destruct (resetChanged s) eqn:Er; cbn [andb] in *.
           ++ rewrite (Hrt eq_refl), Es in Hsame. apply isEmpty_true in Es. congruence.
           ++ destruct Ht as [Ht|Ht]; [discriminate|].
              apply isEmpty_true in Es. exact (Ht Efg Es).
        -- destruct (resetChanged s) eqn:Er; cbn [andb] in *; [discriminate|].
           destruct Hi as [Hi|Hi]; [discriminate|]. rewrite (Hi Efg) in Hload.
           discriminate.
    + destruct Hb as [Hb|Hb]; [discriminate|]. apply Hb.
      destruct (resetChanged s && negb (isForeignCurrency (invoiceData s)));
        [discriminate|exact Hload].
  - (* the error *)
    intros e He. unfold rendered in He |- *. cbn [rateStatus invoiceData] in He |- *.
    destruct (fetchChanged s && startsLookup (invoiceData s)); [discriminate|].
    destruct (resetChanged s && negb (isForeignCurrency (invoiceData s)));
      [discriminate|].
    destruct (Hr e He) as (Hne & Hload & Hval).
    split; [exact Hne|split; [exact Hload|]].
    destruct (resetChanged s); [|exact Hval].
    destruct Hrv as [Hrv|Hrv]; congruence.
Qed.

(** *** A handler of the user, in full *)

(** The form after a handler that leaves the invoice [d], the status [st]
    and the trigger [tr]. *)
Definition handled (d : InvoiceData) (st : RateStatus) (tr : nat) (s : FormState)
  : FormState :=
  mkForm d st tr (maxRateDate s) (depsReset s) (depsFetch s) (cleanupFetch s)
    (lookups s) (requests s) (toasts s).

Lemma orElse_default (text fallback : string) :
  fallback <> "" -> orElse text fallback <> "".
Proof. destruct text; [exact (fun H => H)|discriminate]. Qed.

Lemma dispatch_user_handled (today : Z) (ev : Event) (s s0 : FormState) (b : bool) :
  userEvent ev = true ->
  dispatch today ev s = Some (Return (s0, b)) ->
  exists d st tr,
    s0 = handled d st tr s
    /\ (loading st = true -> loading (rateStatus s) = true)
    /\ (currency d = currency (invoiceData s) \/ st = mkStatus false None)
    /\ (forall m, error st = Some m ->
                  st = rateStatus s
                  /\ exchangeRate d = exchangeRate (invoiceData s))
    /\ (isForeignCurrency d = true -> targetDate (exchangeRate d) = "" ->
        isForeignCurrency (invoiceData s) = true
        /\ issueDate d = issueDate (invoiceData s)
        /\ currency d = currency (invoiceData s)).
Proof.
  intros Hu Hd. destruct s as [d0 st0 tr0 mx dr df cl lk rq ts].
  unfold handled. form_fields.
  destruct ev as [v|v| | |v|n|t|id res|id j]; try discriminate Hu;
    cbn [dispatch] in Hd; form_fields.
  - (* currency *)
    unfold handleCurrencyChange in Hd.
    destruct (getPreviousBusinessDay today (issueDate d0)) as [def|] eqn:Eg;
      cbn [bind] in Hd; [|discriminate].
    apply getPreviousBusinessDay_nonempty in Eg.
    destruct (normalize v =? "PLN") eqn:Ep; injection Hd as <- <-;
      eexists _, _, _; (split; [reflexivity|]); form_fields; cbn [loading error].
    + apply String.eqb_eq in Ep. rewrite Ep.
      split; [discriminate|split; [now right|split; [discriminate|]]].
      intros Hf. discriminate Hf.
    + split; [discriminate|split; [now right|split; [discriminate|]]].
      cbn [withCurrency exchangeRate targetDate]. intros _ He.
      now apply orElse_default in He.
  - destruct (isForeignCurrency d0) eqn:Ef; [|discriminate].
    injection Hd as <- <-. eexists _, _, _. split; [reflexivity|]. form_fields.
    cbn [loading error handleRateDateChange withExchangeRate currency exchangeRate
         issueDate].
    split; [exact (fun H => H)|split; [now left|split; [discriminate|auto]]].
  - destruct (isForeignCurrency d0) eqn:Ef; [|discriminate].
    destruct (negb (loading st0)); [|discriminate]. cbn [andb] in Hd.
    destruct (getPreviousBusinessDay today (issueDate d0)) as [pd|] eqn:Eg;
      cbn [bind] in Hd; [|discriminate].
    injection Hd as <- <-. eexists _, _, _. split; [reflexivity|]. form_fields.
    cbn [loading error usePreviousDay withExchangeRate currency exchangeRate issueDate].
    split; [exact (fun H => H)|split; [now left|split; [discriminate|auto]]].
  - destruct (isForeignCurrency d0) eqn:Ef; [|discriminate].
    destruct (negb (loading st0)); [|discriminate]. cbn [andb] in Hd.
    destruct (isEmpty (targetDate (exchangeRate d0))).
    + destruct (getPreviousBusinessDay today (issueDate d0)) as [pd|] eqn:Eg;
        cbn [bind] in Hd; [|discriminate].
      injection Hd as <- <-. eexists _, _, _. split; [reflexivity|]. form_fields.
      cbn [loading error usePreviousDay withExchangeRate currency exchangeRate
           issueDate].
      split; [exact (fun H => H)|split; [now left|split; [discriminate|auto]]].
    + injection Hd as <- <-. eexists _, _, _. split; [reflexivity|]. form_fields.
      cbn [loading error].
      split; [exact (fun H => H)|split; [now left|split; [discriminate|auto]]].
  - (* issue date *)
    unfold handleIssueDateChange in Hd.
    fold (isForeignCurrency d0) in Hd.
    destruct (isForeignCurrency d0) eqn:Ef.
    + destruct (getPreviousBusinessDay today v) as [nd|] eqn:En; cbn [bind] in Hd;
        [|discriminate].
      apply getPreviousBusinessDay_nonempty in En.
      destruct (getPreviousBusinessDay today (issueDate d0)) as [pd|];
        cbn [bind] in Hd; [|discriminate].
      destruct (isEmpty (targetDate (exchangeRate d0))
                || (targetDate (exchangeRate d0) =? pd)) eqn:Ew.
      * destruct (negb (targetDate (exchangeRate d0) =? nd)) eqn:Ed;
          cbn [bind] in Hd; injection Hd as <- <-;
          eexists _, _, _; (split; [reflexivity|]); form_fields;
          cbn [loading error withExchangeRate withIssueDate currency exchangeRate
               targetDate].
        -- split; [exact (fun H => H)|split; [now left|split; [discriminate|]]].
           intros _ He. congruence.
        -- split; [exact (fun H => H)|split; [now left|split; [auto|]]].
           intros _ He. apply negb_false_iff, String.eqb_eq in Ed. congruence.
      * cbn [bind] in Hd. injection Hd as <- <-.
        eexists _, _, _. split; [reflexivity|]. form_fields.
        cbn [withIssueDate currency exchangeRate].
        split; [exact (fun H => H)|split; [now left|split; [auto|]]].
        intros _ He. apply orb_false_iff in Ew. destruct Ew as [Ew _].
        apply isEmpty_false in Ew. congruence.
    + cbn [bind] in Hd. injection Hd as <- <-.
      eexists _, _, _. split; [reflexivity|]. form_fields.
      cbn [withIssueDate currency exchangeRate].
      split; [exact (fun H => H)|split; [now left|split; [auto|]]].
      intros Hf. unfold isForeignCurrency in *.
      cbn [withIssueDate currency] in Hf. congruence.
  - injection Hd as <- <-. eexists _, _, _. split; [reflexivity|]. form_fields.
    unfold appendNote. destruct (includes (notes d0) n);
      cbn [withNotes currency exchangeRate issueDate];
      (split; [exact (fun H => H)|split; [now left|split; [auto|]]]);
      unfold isForeignCurrency; cbn [withNotes currency]; auto.
  - injection Hd as <- <-. eexists _, _, _. split; [reflexivity|]. form_fields.
    cbn [withNotes currency exchangeRate issueDate].
    split; [exact (fun H => H)|split; [now left|split; [auto|]]].
    unfold isForeignCurrency; cbn [withNotes currency]; auto.
Qed.

(** *** A lookup that resumes, in full *)

(** An outcome that sets the state: a rate, or a message. *)
Definition ended (out : Outcome) : Prop :=
  match out with
  | Resolved _ _ => True
  | HardFailure statusMessage _ => statusMessage <> ""
  | Exhausted message => message <> ""
  | Discarded => False
  end.

(** The three ways in which the lookup [id], found as [r], goes on when a
    promise settles: it asks for the day before, it reads the body, or it
    ends. *)
Inductive Resumption (id : nat) (r : Running) (s : FormState)
  : FormState -> bool -> Prop :=
| resumption_request (lk1 : Lookup) :
    isCancelled r = false -> phase r = AwaitingFetch ->
    lookupCurrency lk1 = lookupCurrency (vars r) ->
    lookupTarget lk1 = lookupTarget (vars r) ->
    attempts lk1 = S (attempts (vars r)) ->
    (attempts lk1 < MAX_RATE_LOOKBACK_DAYS)%nat ->
    Resumption id r s
      (sendRequest id lk1
         (setLookups (replaceNth id (mkRunning lk1 false AwaitingFetch) (lookups s)) s))
      false
| resumption_json :
    phase r = AwaitingFetch ->
    Resumption id r s
      (setLookups
         (replaceNth id (mkRunning (vars r) (isCancelled r) AwaitingJson) (lookups s)) s)
      false
| resumption_end (vars' : Lookup) (out : Outcome) :
    lookupCurrency vars' = lookupCurrency (vars r) ->
    lookupTarget vars' = lookupTarget (vars r) ->
    (isCancelled r = true -> out = Discarded) ->
    (isCancelled r = false -> ended out) ->
    Resumption id r s
      (applyOutcome (lookupTarget vars') out
         (setLookups
            (replaceNth id (mkRunning vars' (isCancelled r) Ended) (lookups s)) s))
      (setsState out).

Lemma onCatch_ended (e : Error) :
  errName e <> "AbortError" -> ended (onCatch false e).
Proof.
  intros H. destruct (onCatch_caught e H) as (sm & tm & -> & Hsm & _). exact Hsm.
Qed.

Lemma onCatch_cancelled (e : Error) : onCatch true e = Discarded.
Proof. reflexivity. Qed.

Lemma abortAllowed_live (e : Error) :
  abortAllowed false e = true -> errName e <> "AbortError".
Proof.
  unfold abortAllowed. rewrite orb_false_r. intros H E.
  apply negb_true_iff in H. rewrite E in H. discriminate.
Qed.

Lemma shiftDateString_RangeError (d : string) (offset : Z) (e : Error) :
  shiftDateString d offset = Throw e -> errName e <> "AbortError".
Proof.
  unfold shiftDateString, toDateString, toISOString.
  destruct (addUTCDate (dateOfParts d) offset); cbn [bind]; [|discriminate].
  intros H. injection H as <-. discriminate.
Qed.

Lemma onCatch_either (c : bool) (e : Error) :
  (c = false -> errName e <> "AbortError") ->
  (c = true -> onCatch c e = Discarded) /\ (c = false -> ended (onCatch c e)).
Proof.
  intros H. destruct c.
  - split; [reflexivity|discriminate].
  - split; [discriminate|]. intros _. apply onCatch_ended. now apply H.
Qed.

Lemma dispatch_Resumption (today : Z) (ev : Event) (s s0 : FormState) (b : bool) :
  userEvent ev = false ->
  dispatch today ev s = Some (Return (s0, b)) ->
  exists id r,
    nth_error (lookups s) id = Some r /\ phase r <> Ended
    /\ Resumption id r s s0 b.
Proof.
  intros Hu Hd. destruct ev as [v|v| | |v|n|t|id res|id j]; try discriminate Hu;
    cbn [dispatch] in Hd;
    destruct (nth_error (lookups s) id) as [r|] eqn:Hn; try discriminate;
    exists id, r; (split; [exact Hn|]).
  - destruct (phase r) eqn:Hp; try discriminate. split; [discriminate|].
    destruct (fetchAllowed (isCancelled r) res) eqn:Ha; [|discriminate].
    assert (Hr : resumeFetch id r res s = (s0, b)) by congruence.
    clear Hd. rename Hr into Hd. unfold resumeFetch, afterFetch in Hd.
    destruct res as [e|status].
    + (* the request was rejected *)
      unfold endLookup in Hd. injection Hd as <- <-.
      destruct (onCatch_either (isCancelled r) e) as [Hc Hl].
      { intros Hc. cbn [fetchAllowed] in Ha. rewrite Hc in Ha.
        now apply abortAllowed_live. }
      now apply (resumption_end id r s (vars r)).
    + destruct (status =? 404)%Z.
      * destruct (shiftDateString (lookupDate (vars r)) (-1)) as [d|e] eqn:Es.
        -- unfold loopHead in Hd. cbn [attempts] in Hd.
           destruct (isCancelled r) eqn:Hc; cbn [negb andb] in Hd.
           ++ unfold endLookup in Hd. cbn [vars isCancelled] in Hd.
              injection Hd as <- <-.
              pose proof (resumption_end id r s
                            (mkLookup (lookupCurrency (vars r)) (lookupTarget (vars r))
                               d (attempts (vars r) + 1)) Discarded
                            eq_refl eq_refl (fun _ => eq_refl)
                            ltac:(congruence)) as R.
              rewrite Hc in R. exact R.
           ++ destruct (attempts (vars r) + 1 <? MAX_RATE_LOOKBACK_DAYS)%nat eqn:Hlt.
              ** injection Hd as <- <-. apply Nat.ltb_lt in Hlt.
                 apply (resumption_request id r s
                          (mkLookup (lookupCurrency (vars r)) (lookupTarget (vars r)) d
                             (attempts (vars r) + 1)));
                   cbn [lookupCurrency lookupTarget attempts];
                   try reflexivity; try assumption; lia.
              ** unfold endLookup in Hd. cbn [vars isCancelled] in Hd.
                 injection Hd as <- <-.
                 pose proof (resumption_end id r s
                               (mkLookup (lookupCurrency (vars r))
                                  (lookupTarget (vars r)) d (attempts (vars r) + 1))
                               (Exhausted exhaustedMessage)
                               eq_refl eq_refl ltac:(congruence)
                               ltac:(intros _; discriminate)) as R.
                 rewrite Hc in R. exact R.
        -- unfold endLookup in Hd. injection Hd as <- <-.
           destruct (onCatch_either (isCancelled r) e) as [Hc Hl].
           { intros _. exact (shiftDateString_RangeError _ _ _ Es). }
           now apply (resumption_end id r s (vars r)).
      * destruct (negb (isOk status)).
        -- unfold endLookup in Hd. injection Hd as <- <-.
           destruct (onCatch_either (isCancelled r)
                       (mkError "Error" "Nie udało się pobrać kursu NBP."))
             as [Hc Hl]; [intros _; discriminate|].
           now apply (resumption_end id r s (vars r)).
        -- injection Hd as <- <-. now apply resumption_json.
  - destruct (phase r) eqn:Hp; try discriminate. split; [discriminate|].
    destruct (jsonAllowed (isCancelled r) j) eqn:Ha; [|discriminate].
    assert (Hr : resumeJson id r j s = (s0, b)) by congruence.
    unfold resumeJson, endLookup in Hr. injection Hr as <- <-.
    apply (resumption_end id r s (vars r)); try reflexivity.
    + intros Hc. rewrite Hc. apply afterJson_cancelled.
    + intros Hc. rewrite Hc in *. unfold afterJson.
      destruct j as [e|[[eff [m|]]|]].
      * apply onCatch_ended. now apply abortAllowed_live.
      * exact I.
      * apply onCatch_ended. discriminate.
      * apply onCatch_ended. discriminate.
Qed.

(** *** The form at rest *)

Definition AtRest (s : FormState) : Prop := stable s = true /\ Orderly s.

Lemma AtRest_facts (s : FormState) :
  AtRest s ->
  Settled s /\ Vars s /\ Reqs s /\ Counted s /\ Targeted s /\ Idle s /\ Busy s
  /\ Reported s.
Proof.
  intros (Hst & Hl & Hdom & Hv & Hq & Hc & Ht & Hi & Hb & Hr).
  pose proof Hst as Hst'. unfold stable in Hst'. apply andb_prop in Hst'.
  destruct Hst' as [H1 H2]. apply negb_true_iff in H1, H2.
  assert (Hd : Domestic s) by (destruct Hdom as [Hd|Hd]; [congruence|exact Hd]).
  assert (Ht' : Targeted s) by (destruct Ht; [congruence|assumption]).
  assert (Hi' : Idle s) by (destruct Hi; [congruence|assumption]).
  assert (Hb' : Busy s) by (destruct Hb; [congruence|assumption]).
  split; [split; [exact Hst|split; assumption]|].
  split; [exact Hv|split; [exact Hq|split; [exact Hc|]]].
  split; [exact Ht'|split; [exact Hi'|split; [exact Hb'|exact Hr]]].
Qed.

Lemma user_Orderly (today : Z) (ev : Event) (s s0 : FormState) (b : bool) :
  userEvent ev = true -> AtRest s ->
  dispatch today ev s = Some (Return (s0, b)) -> Orderly s0.
Proof.
  intros Hu Hrest Hd.
  destruct (AtRest_facts s Hrest) as (Hset & Hv & Hq & Hc & Ht & Hi & Hb & Hr).
  pose proof Hset as (Hst & Hl & Hdom).
  pose proof (dispatch_user_LookupInv today ev s s0 b Hu Hl Hd) as Hl0.
  pose proof (dispatch_user_Domestic today ev s s0 b Hu Hset Hd) as Hd0.
  destruct (dispatch_user_handled today ev s s0 b Hu Hd)
    as (d & st & tr & -> & F1 & F2 & F3 & F4).
  apply stable_iff in Hst. destruct Hst as [Hdr Hdf].
  split; [exact Hl0|split; [exact Hd0|]].
  split; [exact Hv|split; [exact Hq|split; [exact Hc|]]].
  split; [|split; [|split]].
  - destruct (isForeignCurrency d) eqn:Ef; [|right; intros H; cbn in H; congruence].
    destruct (string_dec (targetDate (exchangeRate d)) "") as [He|He];
      [|right; intros _; exact He].
    left. destruct (F4 eq_refl He) as (Hf & Hid & Hcur).
    apply (resetChanged_true _ (depsOfReset s)); [exact Hdr|].
    unfold depsOfReset, handled. cbn [invoiceData].
    intros E. injection E as _ E _. rewrite He in E. exact (Ht Hf E).
  - right. intros Hf. cbn [handled invoiceData rateStatus] in *.
    destruct F2 as [Hcur| ->]; [|reflexivity].
    assert (Hfs : isForeignCurrency (invoiceData s) = false)
      by (unfold isForeignCurrency in *; congruence).
    specialize (Hi Hfs). destruct (loading st) eqn:E; [|reflexivity].
    specialize (F1 eq_refl). congruence.
  - right. intros Hload. cbn [handled rateStatus cleanupFetch lookups] in *.
    exact (Hb (F1 Hload)).
  - intros m Hm. cbn [handled rateStatus invoiceData] in *.
    destruct (F3 m Hm) as [-> Hrate]. rewrite Hrate. exact (Hr m Hm).
Qed.

Lemma nth_error_replaced {A} (l : list A) (id i : nat) (a x : A) :
  nth_error (replaceNth id a l) i = Some x ->
  (i = id /\ x = a) \/ (i <> id /\ nth_error l i = Some x).
Proof.
  intros H. apply nth_error_replaceNth in H.
  destruct H as [(-> & -> & Hlt)|(Hne & H)]; [left|right]; auto.
Qed.

Lemma Vars_replaced (s s0 : FormState) (id : nat) (r r1 : Running) :
  Vars s -> nth_error (lookups s) id = Some r ->
  lookupCurrency (vars r1) = lookupCurrency (vars r) ->
  lookupTarget (vars r1) = lookupTarget (vars r) ->
  lookups s0 = replaceNth id r1 (lookups s) -> Vars s0.
Proof.
  intros Hv Hn Hc Ht Hl i x Hi. rewrite Hl in Hi. apply nth_error_replaced in Hi.
  destruct Hi as [(-> & ->)|(_ & Hi)]; [|exact (Hv i x Hi)].
  rewrite Hc, Ht. exact (Hv id r Hn).
Qed.

Lemma Busy_replaced (s s0 : FormState) (id : nat) (r r1 : Running) :
  Busy s -> nth_error (lookups s) id = Some r ->
  (pending r = true -> pending r1 = true) ->
  rateStatus s0 = rateStatus s -> cleanupFetch s0 = cleanupFetch s ->
  lookups s0 = replaceNth id r1 (lookups s) -> Busy s0.
Proof.
  intros Hb Hn Hp Hst Hcl Hl Hload. rewrite Hst in Hload.
  destruct (Hb Hload) as (i & x & Hci & Hxi & Hpx).
  destruct (Nat.eq_dec i id) as [->|Hne].
  - exists id, r1. rewrite Hcl, Hl. split; [exact Hci|].
    split; [apply nth_error_replaceNth_same; apply nth_error_Some; congruence|].
    apply Hp. congruence.
  - exists i, x. rewrite Hcl, Hl. split; [exact Hci|split; [|exact Hpx]].
    rewrite nth_error_replaceNth_other by congruence. exact Hxi.
Qed.

Lemma stable_same (s s0 : FormState) :
  stable s = true -> invoiceData s0 = invoiceData s ->
  rateFetchTrigger s0 = rateFetchTrigger s ->
  depsReset s0 = depsReset s -> depsFetch s0 = depsFetch s -> stable s0 = true.
Proof.
  intros Hst Hd Ht Hdr Hdf. apply stable_iff. apply stable_iff in Hst.
  unfold depsOfReset, depsOfFetch in *. now rewrite Hdr, Hdf, Hd, Ht.
Qed.

Lemma promise_Orderly (today : Z) (ev : Event) (s s0 : FormState) (b : bool) :
  userEvent ev = false -> AtRest s ->
  dispatch today ev s = Some (Return (s0, b)) ->
  Orderly s0 /\ (b = false -> stable s0 = true).
Proof.
  intros Hu Hrest Hd.
  destruct (AtRest_facts s Hrest) as (Hset & Hv & Hq & Hc & Ht & Hi & Hb & Hr).
  pose proof Hset as (Hst & Hl & Hdom).
  destruct (dispatch_resumed today ev s s0 b Hu Hd) as (id' & r' & Hn' & Hres & _).
  pose proof (resumed_LookupInv id' r' s s0 b Hn' Hres Hl) as Hl0. clear Hres Hn'.
  destruct (dispatch_Resumption today ev s s0 b Hu Hd) as (id & r & Hn & Hph & HR).
  clear Hd.
  destruct (Hv id r Hn) as [Htarget Hforeign].
  destruct (Hc id r Hn) as [Hten Hcount]. specialize (Hcount Hph).
  destruct Hcount as [Hcount Hatt].
  destruct HR as [lk1 Hcan Hp Hcur' Htar' Hatt' Hlt|Hp|vars' out Hcur' Htar' Hcan Hend].
  - (* the lookup asks for the day before *)
    split; [|intros _; now apply (stable_same s)].
    split; [exact Hl0|split; [now right|]].
    split; [now apply (Vars_replaced s _ id r (mkRunning lk1 false AwaitingFetch))|].
    split; [|split; [|split; [|split; [|split]]]].
    + intros q Hin. form_fields. rewrite replaceNth_length.
      apply in_app_or in Hin. destruct Hin as [Hin|[<-|[]]]; [exact (Hq q Hin)|].
      cbn [fst snd]. rewrite Hcur'. split; [exact Hforeign|].
      apply nth_error_Some. congruence.
    + intros i x Hi0. form_fields. unfold requestsOf. form_fields.
      rewrite requestsOf_snoc. apply nth_error_replaced in Hi0.
      destruct Hi0 as [(-> & ->)|(Hne & Hi0)].
      * rewrite Nat.eqb_refl, length_app. cbn [List.length vars phase].
        fold (requestsOf id s). rewrite Hcount, Hatt'. split; [lia|].
        intros _. split; [lia|lia].
      * replace (id =? i)%nat with false by (symmetry; apply Nat.eqb_neq; congruence).
        exact (Hc i x Hi0).
    + right. exact Ht.
    + right. exact Hi.
    + right.
      apply (Busy_replaced s _ id r (mkRunning lk1 false AwaitingFetch));
        try reflexivity; assumption.
    + exact Hr.
  - (* the lookup reads the body *)
    split; [|intros _; now apply (stable_same s)].
    split; [exact Hl0|split; [now right|]].
    split; [now apply (Vars_replaced s _ id r
                         (mkRunning (vars r) (isCancelled r) AwaitingJson))|].
    split; [|split; [|split; [|split; [|split]]]].
    + intros q Hin. form_fields. rewrite replaceNth_length. exact (Hq q Hin).
    + intros i x Hi0. form_fields. unfold requestsOf. form_fields.
      apply nth_error_replaced in Hi0.
      destruct Hi0 as [(-> & ->)|(Hne & Hi0)]; [|exact (Hc i x Hi0)].
      cbn [vars phase]. fold (requestsOf id s). split; [exact Hten|].
      intros _. split; [exact Hcount|exact Hatt].
    + right. exact Ht.
    + right. exact Hi.
    + right.
      apply (Busy_replaced s _ id r (mkRunning (vars r) (isCancelled r) AwaitingJson));
        try reflexivity; try assumption.
      unfold pending. cbn [isCancelled phase]. intros Hpx.
      apply andb_prop in Hpx. destruct Hpx as [Hpx _]. now rewrite Hpx.
    + exact Hr.
  - (* the lookup ends *)
    pose proof (applyOutcome_frame (lookupTarget vars') out
                  (setLookups
                     (replaceNth id (mkRunning vars' (isCancelled r) Ended) (lookups s))
                     s))
      as (A1 & A2 & A3 & A4 & A5 & A6 & A7 & A8 & A9).
    form_fields.
    set (s0 := applyOutcome (lookupTarget vars') out
                 (setLookups
                    (replaceNth id (mkRunning vars' (isCancelled r) Ended) (lookups s))
                    s)) in *.
    assert (Hfg : isForeignCurrency (invoiceData s0) = isForeignCurrency (invoiceData s))
      by (unfold isForeignCurrency; now rewrite A7).
    assert (Hvars : Vars s0)
      by (now apply (Vars_replaced s _ id r (mkRunning vars' (isCancelled r) Ended))).
    assert (Hreqs : Reqs s0).
    { intros q Hin. rewrite A5 in Hin. rewrite A1, replaceNth_length.
      exact (Hq q Hin). }
    assert (Hcounted : Counted s0).
    { intros i x Hi0. unfold requestsOf. rewrite A5. rewrite A1 in Hi0.
      apply nth_error_replaced in Hi0.
      destruct Hi0 as [(-> & ->)|(Hne & Hi0)]; [|exact (Hc i x Hi0)].
      cbn [phase]. split; [exact Hten|]. intros H. now contradiction H. }
    destruct (isCancelled r) eqn:Ecan.
    + (* cancelled: nothing is set *)
      assert (Hout : out = Discarded) by now apply Hcan. subst out.
      cbn [applyOutcome setsState] in *.
      split; [|intros _; now apply (stable_same s)].
      split; [exact Hl0|split; [now right|]].
      split; [exact Hvars|split; [exact Hreqs|split; [exact Hcounted|]]].
      split; [right; exact Ht|split; [right; exact Hi|split; [|exact Hr]]].
      right.
      apply (Busy_replaced s _ id r (mkRunning vars' true Ended));
        try reflexivity; try assumption.
      unfold pending. rewrite Ecan. discriminate.
    + (* the outcome is applied *)
      specialize (Hend eq_refl).
      pose proof (live_foreign s id r Hset Hn Ecan) as Hfs.
      split; [|destruct out; cbn [setsState]; try discriminate; contradiction].
      split; [exact Hl0|].
      split; [right; intros Hf; rewrite Hfg in Hf; congruence|].
      split; [exact Hvars|split; [exact Hreqs|split; [exact Hcounted|]]].
      split; [|split; [|split]].
      * right. intros _. rewrite A9.
        destruct out; cbn [setsState ended] in *; try contradiction;
          now rewrite Htar'.
      * right. intros Hf. rewrite Hfg in Hf. congruence.
      * right. intros Hload. exfalso. subst s0.
        destruct out; cbn [applyOutcome ended] in *; form_fields;
          cbn [loading] in Hload; try discriminate; contradiction.
      * intros m Hm. subst s0.
        destruct out as [eff v|sm tm|msg|]; cbn [applyOutcome ended] in *; form_fields;
          cbn [error loading withExchangeRate exchangeRate value] in *;
          try discriminate; try contradiction.
        -- injection Hm as <-. auto.
        -- injection Hm as <-. auto.
Qed.

Lemma unmounted_Orderly (data : InvoiceData) : Orderly (unmounted data).
Proof.
  destruct (unmounted_ready data) as [Hl Hd].
  split; [exact Hl|split; [exact Hd|]].
  unfold Vars, Reqs, Counted, Reported, unmounted. form_fields.
  split; [intros [|i] r H; discriminate|].
  split; [intros q []|].
  split; [intros [|i] r H; discriminate|].
  split; [now left|split; [now left|split; [now left|]]].
  intros m H. discriminate.
Qed.

Lemma settle_AtRest (fuel : nat) (today : Z) (s s' : FormState) :
  Orderly s -> settle fuel today s = Some (Return s') -> AtRest s'.
Proof.
  intros Ho Hs.
  destruct (settle_preserves Orderly today (commit_Orderly today) fuel s s' Ho Hs)
    as [Ho' Hst].
  split; assumption.
Qed.

Lemma step_AtRest (fuel : nat) (today : Z) (ev : Event) (s s' : FormState) :
  AtRest s -> step fuel today ev s = Some (Return s') -> AtRest s'.
Proof.
  intros Hs Hstep. unfold step in Hstep.
  destruct (dispatch today ev s) as [[[s0 b]|e]|] eqn:Ed; try discriminate.
  destruct (userEvent ev) eqn:Eu.
  - pose proof (dispatch_user_frame today ev s s0 b Eu Ed) as (-> & _).
    exact (settle_AtRest fuel today s0 s' (user_Orderly today ev s s0 _ Eu Hs Ed) Hstep).
  - destruct (promise_Orderly today ev s s0 b Eu Hs Ed) as [Ho Hst].
    destruct b.
    + exact (settle_AtRest fuel today s0 s' Ho Hstep).
    + injection Hstep as <-. split; [now apply Hst|exact Ho].
Qed.

(** Every state of the form is at rest and in order. *)
Lemma reachable_AtRest (admits : Event -> Prop) (s : FormState) :
  reachableBy admits s -> AtRest s.
Proof.
  induction 1 as [fuel today s Hm|fuel today ev s s' _ IH _ Hstep].
  - unfold mount in Hm. destruct (initialInvoice today) as [data|]; [|discriminate].
    exact (settle_AtRest fuel today _ s (unmounted_Orderly data) Hm).
  - exact (step_AtRest fuel today ev s s' IH Hstep).
Qed.

(** The rate keeps its value and its effective date together, as long as
    no rate arrives without its effective date. *)
Lemma reachable_Consistent (s : FormState) :
  reachableBy datedRate s -> Consistent (invoiceData s).
Proof.
  induction 1 as [fuel today s Hm|fuel today ev s s' _ IH Hev Hstep].
  - unfold mount in Hm. destruct (initialInvoice today) as [data|] eqn:Ei;
      [|discriminate].
    apply (settle_preserves (fun x => Consistent (invoiceData x)) today
             (commit_Consistent today) fuel (unmounted data) s); [|exact Hm].
    exact (initialInvoice_Consistent today data Ei).
  - unfold step in Hstep.
    destruct (dispatch today ev s) as [[[s0 b]|e]|] eqn:Ed; try discriminate.
    pose proof (dispatch_Consistent today ev s s0 b Hev IH Ed) as H0.
    destruct b.
    + apply (settle_preserves (fun x => Consistent (invoiceData x)) today
               (commit_Consistent today) fuel s0 s'); assumption.
    + now injection Hstep as <-.
Qed.

Lemma getPreviousBusinessDay_Invalid (today : Z) (v : string) :
  parseISODate v = Some Invalid ->
  getPreviousBusinessDay today v = Throw (mkError "RangeError" "Invalid time value").
Proof.
  intros H. unfold getPreviousBusinessDay. rewrite H.
  cbn [copyUTC addUTCDate]. rewrite skipWeekend_equation_1. reflexivity.
Qed.

(** *** The requests of the form *)

(** X21.  Every request that the form has sent, in any state it reaches,
    is for a currency code that is neither empty nor PLN, and was sent by
    a lookup that the fetch effect started. *)
Theorem requests_are_for_foreign_currency (s : FormState) (id : nat)
  (code date : string) :
  reachable s -> In (id, code, date) (requests s) ->
  code <> "" /\ code <> "PLN"
  /\ exists r, nth_error (lookups s) id = Some r.
Proof.
  intros Hr Hin.
  destruct (AtRest_facts s (reachable_AtRest _ s Hr)) as (_ & _ & Hq & _).
  destruct (Hq _ Hin) as [Hf Hlt]. cbn [fst snd] in Hf, Hlt.
  unfold isForeign in Hf. apply andb_prop in Hf. destruct Hf as [H1 H2].
  apply negb_true_iff, String.eqb_neq in H1, H2.
  split; [exact H1|split; [exact H2|]].
  destruct (nth_error (lookups s) id) as [r|] eqn:En; [now exists r|].
  apply nth_error_None in En. lia.
Qed.

(** X25.  In every state the form reaches, and however the responses of
    its lookups are interleaved, no lookup has sent more than ten
    requests. *)
Theorem lookup_sends_at_most_ten (s : FormState) (id : nat) :
  reachable s ->
  (List.length (requestsOf id s) <= MAX_RATE_LOOKBACK_DAYS)%nat.
Proof.
  intros Hr.
  destruct (AtRest_facts s (reachable_AtRest _ s Hr)) as (_ & _ & Hq & Hc & _).
  destruct (nth_error (lookups s) id) as [r|] eqn:En.
  - exact (proj1 (Hc id r En)).
  - apply nth_error_None in En.
    assert (Hnone : requestsOf id s = []).
    { unfold requestsOf.
      destruct (filter (fun q => (fst (fst q) =? id)%nat) (requests s))
        as [|q l] eqn:Ef; [reflexivity|].
      assert (Hin : In q (filter (fun q => (fst (fst q) =? id)%nat) (requests s)))
        by (rewrite Ef; now left).
      apply filter_In in Hin. destruct Hin as [Hin Hid].
      apply Nat.eqb_eq in Hid. destruct (Hq q Hin) as [_ Hlt]. lia. }
    rewrite Hnone. cbn. lia.
Qed.

(** *** The rate panel *)

(** X22.  In every state the form reaches with a foreign currency, the
    invoice has a rate date: the date input of the panel is never
    empty once the renders have come to rest. *)
Theorem foreign_invoice_has_target_date (s : FormState) :
  reachable s -> isForeignCurrency (invoiceData s) = true ->
  targetDate (exchangeRate (invoiceData s)) <> "".
Proof.
  intros Hr Hf.
  destruct (AtRest_facts s (reachable_AtRest _ s Hr)) as (_ & _ & _ & _ & Ht & _).
  exact (Ht Hf).
Qed.

(** X24.  While the status says loading, the currency is foreign and the
    lookup started by the last run of the fetch effect is neither
    cancelled nor ended: the two buttons are disabled only while an
    answer is due. *)
Theorem loading_means_pending_lookup (s : FormState) :
  reachable s -> loading (rateStatus s) = true ->
  isForeignCurrency (invoiceData s) = true
  /\ exists id r,
      cleanupFetch s = Some id /\ nth_error (lookups s) id = Some r
      /\ isCancelled r = false /\ phase r <> Ended.
Proof.
  intros Hr Hl.
  destruct (AtRest_facts s (reachable_AtRest _ s Hr))
    as (_ & _ & _ & _ & _ & Hi & Hb & _).
  split.
  - destruct (isForeignCurrency (invoiceData s)) eqn:Ef; [reflexivity|].
    specialize (Hi Ef). congruence.
  - destruct (Hb Hl) as (id & r & Hc & Hn & Hp). exists id, r.
    split; [exact Hc|split; [exact Hn|]].
    unfold pending in Hp. apply andb_prop in Hp. destruct Hp as [Hp1 Hp2].
    apply negb_true_iff in Hp1. split; [exact Hp1|].
    intros E. rewrite E in Hp2. discriminate.
Qed.

(** X23.  In every state reached by events in which no rate arrives
    without its effective date, the panel shows exactly one of its four
    status lines (fetching, the rate, the prompt to choose a date, the
    error), and the note on another day of publication only below the
    rate line. *)
Theorem one_status_line (s : FormState) :
  reachableBy datedRate s ->
  (exists line, Panel.statusLines s = [line])
  /\ (Panel.otherDayNote s <> [] ->
      exists v, Panel.statusLines s
                = [Panel.RateLine (effectiveDate (exchangeRate (invoiceData s))) v]).
Proof.
  intros Hr.
  destruct (AtRest_facts s (reachable_AtRest _ s Hr))
    as (_ & _ & _ & _ & _ & _ & _ & Hrep).
  pose proof (reachable_Consistent s Hr) as Hc.
  unfold Reported in Hrep. unfold Consistent in Hc.
  unfold Panel.statusLines, Panel.otherDayNote, Panel.hasError. cbv zeta.
  destruct (loading (rateStatus s)) eqn:El.
  - cbn [negb andb].
    assert (He : error (rateStatus s) = None).
    { destruct (error (rateStatus s)) as [m|]; [|reflexivity].
      destruct (Hrep m eq_refl) as (_ & H & _). discriminate. }
    rewrite He. split.
    + exists Panel.Fetching. now destruct (value (exchangeRate (invoiceData s))).
    + intros H. now contradiction H.
  - cbn [negb andb].
    destruct (value (exchangeRate (invoiceData s))) as [v|] eqn:Ev.
    + assert (Hd : effectiveDate (exchangeRate (invoiceData s)) <> "")
        by (apply Hc; discriminate).
      assert (Hne : isEmpty (effectiveDate (exchangeRate (invoiceData s))) = false)
        by (destruct (effectiveDate (exchangeRate (invoiceData s)));
            [now contradiction Hd|reflexivity]).
      assert (He : error (rateStatus s) = None).
      { destruct (error (rateStatus s)) as [m|]; [|reflexivity].
        destruct (Hrep m eq_refl) as (_ & _ & H). discriminate. }
      rewrite Hne, He. cbn.
      split; [now exists (Panel.RateLine
                            (effectiveDate (exchangeRate (invoiceData s))) v)|].
      intros _. now exists v.
    + assert (Hd : effectiveDate (exchangeRate (invoiceData s)) = "").
      { destruct (string_dec (effectiveDate (exchangeRate (invoiceData s))) "")
          as [E|E]; [exact E|]. apply Hc in E. now contradiction E. }
      rewrite Hd. cbn [isEmpty negb andb hasValue].
      rewrite andb_false_r. cbn [andb].
      split; [|intros H; now contradiction H].
      destruct (error (rateStatus s)) as [m|] eqn:Ee.
      * destruct (Hrep m eq_refl) as (Hm & _).
        destruct m as [|a m]; [now contradiction Hm|].
        cbn. now exists (Panel.ErrorLine (String a m)).
      * cbn. now exists Panel.Prompt.
Qed.

(** *** The preview beside the form *)

(** X27.  In every state the form reaches, the preview shows the amounts
    in PLN exactly if the invoice holds a rate: with the currency PLN
    the form has cleared the rate, so the two tests of the preview agree
    with the one field. *)
Theorem preview_shows_pln_iff_rate (s : FormState) :
  reachable s ->
  Preview.shouldShowPlnBreakdown (invoiceData s)
  = hasValue (value (exchangeRate (invoiceData s)))
  /\ Preview.conversionRate (invoiceData s) = value (exchangeRate (invoiceData s)).
Proof.
  intros Hr.
  destruct (reachable_Settled _ s Hr) as (_ & _ & Hd).
  unfold Preview.shouldShowPlnBreakdown, Preview.conversionRate.
  destruct (currency (invoiceData s) =? "PLN") eqn:Ec.
  - apply String.eqb_eq in Ec.
    rewrite (Hd (PLN_not_foreign _ Ec)). cbn. split; reflexivity.
  - cbn [negb andb].
    destruct (value (exchangeRate (invoiceData s))); cbn; split; reflexivity.
Qed.

(** *** An issue date out of range *)

(** X26.  An issue date that [parseISODate] reads as a date out of the
    range of [Date], such as the year 300000, makes the step throw the
    RangeError of [toISOString]: with a foreign currency in the handler,
    otherwise in the render that follows. *)
Theorem issue_date_out_of_range_throws (fuel : nat) (today : Z) (v : string)
  (s : FormState) :
  parseISODate v = Some Invalid ->
  step (S fuel) today (IssueDateChange v) s
  = Some (Throw (mkError "RangeError" "Invalid time value")).
Proof.
  intros Hv. pose proof (getPreviousBusinessDay_Invalid today v Hv) as Hg.
  unfold step. cbn [dispatch]. unfold handleIssueDateChange.
  destruct (isForeign (normalize (currency (invoiceData s)))).
  - rewrite Hg. reflexivity.
  - cbn [bind settle]. unfold commit. form_fields.
    cbn [withIssueDate issueDate]. rewrite Hg. reflexivity.
Qed.

(** *** Sessions of Monday 11 March 2024 *)

(** EUR is chosen; the first answer is 404, so that the lookup has asked
    for 8 March and for 7 March. *)
Lemma requests_are_for_foreign_currency_witness :
  let s := stateAfter 19793 [CurrencyChange "EUR"; FetchSettled 0 (FetchResponse 404)] in
  reachable s
  /\ In (0%nat, "EUR", "2024-03-07") (requests s)
  /\ "EUR" <> "PLN".
Proof.
  intros s.
  assert (Hr : reachable s).
  { apply stateAfter_reachableBy; [repeat constructor|vm_compute; reflexivity]. }
  assert (Hin : In (0%nat, "EUR", "2024-03-07") (requests s))
    by (vm_compute; right; left; reflexivity).
  split; [exact Hr|split; [exact Hin|]].
  exact (proj1 (proj2 (requests_are_for_foreign_currency s 0 "EUR" "2024-03-07"
                         Hr Hin))).
Defined.

Lemma lookup_sends_at_most_ten_witness :
  let s := stateAfter 19793 [CurrencyChange "EUR"; FetchSettled 0 (FetchResponse 404)] in
  reachable s /\ (List.length (requestsOf 0 s) <= 10)%nat.
Proof.
  intros s.
  assert (Hr : reachable s).
  { apply stateAfter_reachableBy; [repeat constructor|vm_compute; reflexivity]. }
  split; [exact Hr|exact (lookup_sends_at_most_ten s 0 Hr)].
Defined.

Lemma foreign_invoice_has_target_date_witness :
  let s := stateAfter 19793 [CurrencyChange "EUR"; RateDateChange ""] in
  reachable s
  /\ isForeignCurrency (invoiceData s) = true
  /\ targetDate (exchangeRate (invoiceData s)) <> "".
Proof.
  intros s.
  assert (Hr : reachable s).
  { apply stateAfter_reachableBy; [repeat constructor|vm_compute; reflexivity]. }
  assert (Hf : isForeignCurrency (invoiceData s) = true) by (vm_compute; reflexivity).
  split; [exact Hr|split; [exact Hf|]].
  exact (foreign_invoice_has_target_date s Hr Hf).
Defined.

Lemma loading_means_pending_lookup_witness :
  let s := stateAfter 19793 [CurrencyChange "EUR"] in
  reachable s
  /\ loading (rateStatus s) = true
  /\ isForeignCurrency (invoiceData s) = true.
Proof.
  intros s.
  assert (Hr : reachable s).
  { apply stateAfter_reachableBy; [repeat constructor|vm_compute; reflexivity]. }
  assert (Hl : loading (rateStatus s) = true) by (vm_compute; reflexivity).
  split; [exact Hr|split; [exact Hl|]].
  exact (proj1 (loading_means_pending_lookup s Hr Hl)).
Defined.

(** The rate of Friday 1 March arrives for the target date of Sunday 3
    March: the rate line, and the note below it. *)
Lemma one_status_line_witness :
  let s := stateAfter 19793
             [CurrencyChange "EUR"; RateDateChange "2024-03-03";
              FetchSettled 1 (FetchResponse 404); FetchSettled 1 (FetchResponse 404);
              FetchSettled 1 (FetchResponse 200);
              JsonSettled 1 (JsonValue (Some (mkEntry "2024-03-01" (Some (43 # 10)))))] in
  reachableBy datedRate s
  /\ Panel.otherDayNote s = [Panel.OtherDayNote "2024-03-01"]
  /\ exists line, Panel.statusLines s = [line].
Proof.
  intros s.
  assert (Hr : reachableBy datedRate s).
  { apply stateAfter_reachableBy; [|vm_compute; reflexivity].
    repeat constructor. cbn. discriminate. }
  split; [exact Hr|split; [vm_compute; reflexivity|]].
  exact (proj1 (one_status_line s Hr)).
Defined.

Lemma preview_shows_pln_iff_rate_witness :
  let s := stateAfter 19793
             [CurrencyChange "EUR"; FetchSettled 0 (FetchResponse 200);
              JsonSettled 0 (JsonValue (Some (mkEntry "2024-03-08" (Some (43 # 10)))));
              CurrencyChange "PLN"] in
  reachable s
  /\ Preview.shouldShowPlnBreakdown (invoiceData s) = false
  /\ Preview.shouldShowPlnBreakdown (invoiceData s)
     = hasValue (value (exchangeRate (invoiceData s))).
Proof.
  intros s.
  assert (Hr : reachable s).
  { apply stateAfter_reachableBy; [repeat constructor|vm_compute; reflexivity]. }
  split; [exact Hr|split; [vm_compute; reflexivity|]].
  exact (proj1 (preview_shows_pln_iff_rate s Hr)).
Defined.

Lemma issue_date_out_of_range_throws_witness :
  parseISODate "300000-01-01" = Some Invalid
  /\ step 1 19793 (IssueDateChange "300000-01-01") (stateAfter 19793 [])
     = Some (Throw (mkError "RangeError" "Invalid time value")).
Proof.
  assert (Hv : parseISODate "300000-01-01" = Some Invalid) by (vm_compute; reflexivity).
  split; [exact Hv|].
  exact (issue_date_out_of_range_throws 0 19793 "300000-01-01" (stateAfter 19793 []) Hv).
Defined.

End FormRuns.
